(** * UBIFS: tree node cache (fs/ubifs/tnc.c) and journal replay
      (fs/ubifs/replay.c)

    A shallow embedding of the in-memory index (TNC) and of the journal
    replay code.  Znodes live in a store indexed by small integers that
    stand for the kernel pointers; parent links, [iip] and the child
    pointers of the zbranches are kept as the C code keeps them.  C [int]s
    are [Z]; where the source computes in [unsigned] the wrap-around is
    written out.  Functions that return a negative error code return
    [Err]; a dereference of a NULL pointer is [Oops]; a loop that does not
    finish within the given number of iterations is [NoFuel]. *)

From Stdlib Require Import ZArith Lia List String Ascii Bool.
From stdpp Require Import base option list gmap sorting.

Local Open Scope Z_scope.

(** ** Error codes and constants of the headers *)

Definition ENOENT : Z := 2.
Definition ENOMEM : Z := 12.
Definition EINVAL : Z := 22.

Definition UBIFS_BLOCK_SIZE : Z := 4096.
Definition UBIFS_MAX_LEVELS : Z := 512.
Definition UBIFS_NODE_MAGIC : Z := 0x06101831.
Definition UBIFS_DENT_NODE_SZ : Z := 56.
Definition UBIFS_ITYPES_CNT : Z := 7.
Definition UBIFS_MAX_NLEN : Z := 255.
Definition MAX_INUM : Z := 0xFFFFFFFF.
Definition SQNUM_WATERMARK : Z := 0xFFFFFFFFFF000000.
Definition UBIFS_LOG_LNUM : Z := 3.

(** Key types. *)
Definition UBIFS_INO_KEY : Z := 0.
Definition UBIFS_DATA_KEY : Z := 1.
Definition UBIFS_DENT_KEY : Z := 2.
Definition UBIFS_XENT_KEY : Z := 3.
Definition UBIFS_TRUN_KEY : Z := 4.

(** Node types (the first five coincide with the key types). *)
Definition UBIFS_INO_NODE : Z := 0.
Definition UBIFS_DATA_NODE : Z := 1.
Definition UBIFS_DENT_NODE : Z := 2.
Definition UBIFS_XENT_NODE : Z := 3.
Definition UBIFS_TRUN_NODE : Z := 4.
Definition UBIFS_REF_NODE : Z := 8.
Definition UBIFS_IDX_NODE : Z := 9.
Definition UBIFS_CS_NODE : Z := 10.

(** Znode flag bits. *)
Definition DIRTY_ZNODE : Z := 0.
Definition COW_ZNODE : Z := 1.
Definition OBSOLETE_ZNODE : Z := 2.

Definition test_bit (nr flags : Z) : bool := Z.testbit flags nr.
Definition set_bit (nr flags : Z) : Z := Z.lor flags (Z.shiftl 1 nr).
Definition clear_bit (nr flags : Z) : Z := Z.ldiff flags (Z.shiftl 1 nr).

(** Return codes of [matches_name] and [fallible_matches_name]. *)
Definition NAME_LESS : Z := 0.
Definition NAME_MATCHES : Z := 1.
Definition NAME_GREATER : Z := 2.
Definition NOT_ON_MEDIA : Z := 3.

(** Replay flags. *)
Definition REPLAY_DELETION : Z := 1.
Definition REPLAY_REF : Z := 2.

(** Integer conversions of C. *)
Definition u32 (x : Z) : Z := x mod 2 ^ 32.
Definition int_of_u32 (x : Z) : Z := if x <? 2 ^ 31 then x else x - 2 ^ 32.
Definition ALIGN (x a : Z) : Z := Z.land (x + (a - 1)) (Z.lnot (a - 1)).

(** ** Keys

    Modelled from the spec: the key helpers of key.h ([key_ino],
    [key_type], [key_block], [keys_cmp], [is_hash_key], [data_key_init],
    the lowest and highest keys of an inode) are not part of the sources
    at hand.  A key decomposes into (inode number, type, discriminator);
    the order is lexicographic on that tuple; hashed keys are the
    directory-entry and extended-attribute-entry keys. *)

Record ubifs_key := mk_key { k_ino : Z; k_type : Z; k_disc : Z }.

Global Instance ubifs_key_eq_dec : EqDecision ubifs_key.
Proof. solve_decision. Defined.

Definition key_ino (k : ubifs_key) : Z := k_ino k.
Definition key_type (k : ubifs_key) : Z := k_type k.
Definition key_block (k : ubifs_key) : Z := k_disc k.
Definition key_hash (k : ubifs_key) : Z := k_disc k.

Definition cmp3 (a b : Z) (k : Z) : Z :=
  if a <? b then -1 else if b <? a then 1 else k.

Definition keys_cmp (k1 k2 : ubifs_key) : Z :=
  cmp3 (k_ino k1) (k_ino k2)
    (cmp3 (k_type k1) (k_type k2)
       (cmp3 (k_disc k1) (k_disc k2) 0)).

Definition is_hash_key (k : ubifs_key) : bool :=
  (key_type k =? UBIFS_DENT_KEY) || (key_type k =? UBIFS_XENT_KEY).

Definition UBIFS_S_KEY_BLOCK_MASK : Z := 0x1FFFFFFF.
Definition UBIFS_S_KEY_HASH_MASK : Z := 0x1FFFFFFF.

Definition ino_key_init (inum : Z) : ubifs_key := mk_key inum UBIFS_INO_KEY 0.
Definition data_key_init (inum block : Z) : ubifs_key :=
  mk_key inum UBIFS_DATA_KEY block.
Definition dent_key_init_hash (inum hash : Z) : ubifs_key :=
  mk_key inum UBIFS_DENT_KEY hash.
Definition xent_key_init_hash (inum hash : Z) : ubifs_key :=
  mk_key inum UBIFS_XENT_KEY hash.
Definition lowest_ino_key (inum : Z) : ubifs_key := mk_key inum UBIFS_INO_KEY 0.
Definition highest_ino_key (inum : Z) : ubifs_key :=
  mk_key inum UBIFS_XENT_KEY UBIFS_S_KEY_HASH_MASK.
Definition lowest_xent_key (inum : Z) : ubifs_key := mk_key inum UBIFS_XENT_KEY 0.

(** ** Names

    [struct qstr]: a name and its length.  [memcmp] compares the first
    [n] bytes as unsigned characters; bytes past the end of a string read
    as zero. *)

Record qstr := mk_qstr { q_name : string; q_len : Z }.

Definition qstr_of (s : string) : qstr := mk_qstr s (Z.of_nat (String.length s)).

Definition byte_at (s : list ascii) (i : nat) : Z :=
  Z.of_nat (nat_of_ascii (nth i s zero)).

Fixpoint memcmp_from (a b : list ascii) (i n : nat) : Z :=
  match n with
  | O => 0
  | S n' =>
      if byte_at a i <? byte_at b i then -1
      else if byte_at b i <? byte_at a i then 1
      else memcmp_from a b (S i) n'
  end.

Definition memcmp (a b : string) (n : Z) : Z :=
  memcmp_from (list_ascii_of_string a) (list_ascii_of_string b) 0 (Z.to_nat n).

(** [strnlen(s, n)]: the index of the first zero byte, at most [n]. *)
Fixpoint strnlen_from (a : list ascii) (i n : nat) : nat :=
  match n with
  | O => i
  | S n' => if byte_at a i =? 0 then i else strnlen_from a (S i) n'
  end.

Definition strnlen (a : string) (n : Z) : Z :=
  Z.of_nat (strnlen_from (list_ascii_of_string a) 0 (Z.to_nat n)).

(** ** Red-black trees of the kernel

    [rb_link_node] hangs a new red node at the place the descent has
    reached; [rb_insert_color] (lib/rbtree.c) then recolours and rotates.
    The latter is a parameter of the development. *)

Inductive rb_color := RB_RED | RB_BLACK.

Inductive rb_tree (A : Type) : Type :=
| RbNil : rb_tree A
| RbNode : rb_color -> rb_tree A -> A -> rb_tree A -> rb_tree A.

Arguments RbNil {A}.
Arguments RbNode {A} _ _ _ _.

Fixpoint rb_inorder {A} (t : rb_tree A) : list A :=
  match t with
  | RbNil => []
  | RbNode _ l x r => rb_inorder l ++ x :: rb_inorder r
  end.

(** A new node as [rb_link_node] initialises it. *)
Definition rb_new_node {A} (x : A) : rb_tree A := RbNode RB_RED RbNil x RbNil.

(** [rb_first] and the successive [rb_next]: the in-order sequence. *)
Definition rb_first {A} (t : rb_tree A) : option A := head (rb_inorder t).

(** ** Nodes on the media *)

(** Common header; [ch_crc_ok] stands for "the CRC-32 of the node's bytes
    equals the stored [crc]". *)
Record ubifs_ch := mk_ch {
  ch_magic : Z;
  ch_crc_ok : bool;
  ch_sqnum : Z;
  ch_len : Z;
  ch_node_type : Z
}.

(** A branch of an on-flash index node; the fields are little-endian
    unsigned 32-bit numbers. *)
Record ubifs_branch := mk_branch {
  br_lnum : Z;
  br_offs : Z;
  br_len : Z;
  br_key : ubifs_key
}.

Record ubifs_idx_node := mk_idx {
  idx_ch : ubifs_ch;
  idx_child_cnt : Z;
  idx_level : Z;
  idx_branches : list ubifs_branch
}.

(** A leaf node read through [struct ubifs_dent_node]: header, key, and
    the directory-entry fields (for other node types these are the bytes
    that happen to follow the key). *)
Record ubifs_dent_node := mk_dent {
  d_ch : ubifs_ch;
  d_key : ubifs_key;
  d_inum : Z;
  d_type : Z;
  d_nlen : Z;
  d_name : string
}.

Inductive media_node :=
| OnFlashIdx (idx : ubifs_idx_node)
| OnFlashLeaf (leaf : ubifs_dent_node).

(** What [ubi_read] delivers for a position: an I/O error or bytes. *)
Inductive media_cell :=
| IoError (err : Z)
| Stored (nd : media_node).

Definition node_ch (nd : media_node) : ubifs_ch :=
  match nd with
  | OnFlashIdx idx => idx_ch idx
  | OnFlashLeaf leaf => d_ch leaf
  end.

Definition zero_ch : ubifs_ch := mk_ch 0 false 0 0 0.
Definition zero_key : ubifs_key := mk_key 0 0 0.
Definition zero_dent : ubifs_dent_node := mk_dent zero_ch zero_key 0 0 0 EmptyString.
Definition zero_branch : ubifs_branch := mk_branch 0 0 0 zero_key.

(** ** In-memory index structures *)

(** [struct ubifs_zbranch]: [zbr_znode] is the pointer to the child znode
    ([None] is NULL), [zbr_leaf] the leaf-node-cache copy of the target. *)
Record ubifs_zbranch := mk_zbr {
  zbr_key : ubifs_key;
  zbr_znode : option nat;
  zbr_lnum : Z;
  zbr_offs : Z;
  zbr_len : Z;
  zbr_leaf : option ubifs_dent_node
}.

(** [struct ubifs_znode]; [zn_zbranch] is the array of [fanout] slots. *)
Record ubifs_znode := mk_znode {
  zn_parent : option nat;
  zn_cnext : option nat;
  zn_flags : Z;
  zn_time : Z;
  zn_level : Z;
  zn_child_cnt : Z;
  zn_iip : Z;
  zn_alt : Z;
  zn_zbranch : list ubifs_zbranch
}.

Definition zero_zbranch : ubifs_zbranch := mk_zbr zero_key None 0 0 0 None.
Definition zero_znode : ubifs_znode := mk_znode None None 0 0 0 0 0 0 [].

Definition set_zbr_key v z := mk_zbr v (zbr_znode z) (zbr_lnum z) (zbr_offs z) (zbr_len z) (zbr_leaf z).
Definition set_zbr_znode v z := mk_zbr (zbr_key z) v (zbr_lnum z) (zbr_offs z) (zbr_len z) (zbr_leaf z).
Definition set_zbr_pos lnum offs len z := mk_zbr (zbr_key z) (zbr_znode z) lnum offs len (zbr_leaf z).
Definition set_zbr_leaf v z := mk_zbr (zbr_key z) (zbr_znode z) (zbr_lnum z) (zbr_offs z) (zbr_len z) v.

Definition set_zn_parent v z := mk_znode v (zn_cnext z) (zn_flags z) (zn_time z) (zn_level z) (zn_child_cnt z) (zn_iip z) (zn_alt z) (zn_zbranch z).
Definition set_zn_cnext v z := mk_znode (zn_parent z) v (zn_flags z) (zn_time z) (zn_level z) (zn_child_cnt z) (zn_iip z) (zn_alt z) (zn_zbranch z).
Definition set_zn_flags v z := mk_znode (zn_parent z) (zn_cnext z) v (zn_time z) (zn_level z) (zn_child_cnt z) (zn_iip z) (zn_alt z) (zn_zbranch z).
Definition set_zn_time v z := mk_znode (zn_parent z) (zn_cnext z) (zn_flags z) v (zn_level z) (zn_child_cnt z) (zn_iip z) (zn_alt z) (zn_zbranch z).
Definition set_zn_level v z := mk_znode (zn_parent z) (zn_cnext z) (zn_flags z) (zn_time z) v (zn_child_cnt z) (zn_iip z) (zn_alt z) (zn_zbranch z).
Definition set_zn_child_cnt v z := mk_znode (zn_parent z) (zn_cnext z) (zn_flags z) (zn_time z) (zn_level z) v (zn_iip z) (zn_alt z) (zn_zbranch z).
Definition set_zn_iip v z := mk_znode (zn_parent z) (zn_cnext z) (zn_flags z) (zn_time z) (zn_level z) (zn_child_cnt z) v (zn_alt z) (zn_zbranch z).
Definition set_zn_alt v z := mk_znode (zn_parent z) (zn_cnext z) (zn_flags z) (zn_time z) (zn_level z) (zn_child_cnt z) (zn_iip z) v (zn_zbranch z).
Definition set_zn_zbranch v z := mk_znode (zn_parent z) (zn_cnext z) (zn_flags z) (zn_time z) (zn_level z) (zn_child_cnt z) (zn_iip z) (zn_alt z) v.

(** [znode->zbranch[i]]; a slot outside the array reads as zeroes. *)
Definition zbranch_at (z : ubifs_znode) (i : Z) : ubifs_zbranch :=
  if i <? 0 then zero_zbranch
  else default zero_zbranch (zn_zbranch z !! Z.to_nat i).

(** [znode->zbranch[i] = b]; a store outside the array is dropped. *)
Definition zbranch_store (i : Z) (b : ubifs_zbranch) (z : ubifs_znode) : ubifs_znode :=
  if i <? 0 then z
  else set_zn_zbranch (<[Z.to_nat i := b]> (zn_zbranch z)) z.

Definition ubifs_zn_dirty (z : ubifs_znode) : bool := test_bit DIRTY_ZNODE (zn_flags z).

(** Length limits of the leaf nodes of one key type ([c->ranges]). *)
Record ubifs_range := mk_range { rg_min_len : Z; rg_max_len : Z; rg_len : Z }.

(** [struct ubifs_old_idx]. *)
Record ubifs_old_idx := mk_old_idx { o_lnum : Z; o_offs : Z }.

(** ** Replay structures (replay.c) *)

(** The anonymous union of [struct replay_entry], as a tagged variant. *)
Inductive replay_payload :=
| RName (nm : qstr)
| RSizes (old_size new_size : Z)
| RBud (free dirty : Z).

Record replay_entry := mk_replay_entry {
  r_lnum : Z;
  r_offs : Z;
  r_len : Z;
  r_sqnum : Z;
  r_flags : Z;
  r_key : ubifs_key;
  r_u : replay_payload
}.

Definition r_old_size (r : replay_entry) : Z :=
  match r_u r with RSizes o _ => o | _ => 0 end.
Definition r_new_size (r : replay_entry) : Z :=
  match r_u r with RSizes _ n => n | _ => 0 end.
Definition r_nm (r : replay_entry) : qstr :=
  match r_u r with RName nm => nm | _ => mk_qstr EmptyString 0 end.
Definition r_free (r : replay_entry) : Z :=
  match r_u r with RBud f _ => f | _ => 0 end.
Definition r_dirty (r : replay_entry) : Z :=
  match r_u r with RBud _ d => d | _ => 0 end.

(** [struct ubifs_bud] and [struct bud_entry]. *)
Record ubifs_bud := mk_bud { bud_lnum : Z; bud_start : Z; bud_jhead : Z }.
Record bud_entry := mk_bud_entry { b_bud : ubifs_bud; b_free : Z; b_sqnum : Z }.

(** [struct ubifs_lprops], as far as replay reads it. *)
Record ubifs_lprops := mk_lprops { lp_free : Z; lp_dirty : Z; lp_flags : Z }.

Definition LPROPS_TAKEN : Z := 16.
Definition GCHD : Z := 0.

(** A scanned node ([struct ubifs_scan_node]); [sn_node] is the node
    itself, as far as replay reads it.  The 64-bit sizes of inode and
    truncation nodes are held as the [loff_t] the code assigns them to,
    the size of a data node as the unsigned 32-bit number it is. *)
Record ubifs_ref_node := mk_ref { ref_lnum : Z; ref_offs : Z; ref_jhead : Z }.

Inductive scan_body :=
| SnIno (size nlink : Z)
| SnData (size : Z)
| SnDent (dent : ubifs_dent_node)
| SnTrun (old_size new_size : Z)
| SnRef (ref : ubifs_ref_node)
| SnCs (cmt_no : Z)
| SnOther.

Record ubifs_scan_node := mk_snod {
  sn_type : Z;
  sn_sqnum : Z;
  sn_offs : Z;
  sn_len : Z;
  sn_key : ubifs_key;
  sn_node : scan_body
}.

(** The node seen through the structure of its type. *)
Definition as_ref (b : scan_body) : ubifs_ref_node :=
  match b with SnRef r => r | _ => mk_ref 0 0 0 end.
Definition as_cs_cmt_no (b : scan_body) : Z :=
  match b with SnCs n => n | _ => 0 end.
Definition as_ino_size (b : scan_body) : Z :=
  match b with SnIno s _ => s | _ => 0 end.
Definition as_ino_nlink (b : scan_body) : Z :=
  match b with SnIno _ n => n | _ => 0 end.
Definition as_data_size (b : scan_body) : Z :=
  match b with SnData s => s | _ => 0 end.
Definition as_dent (b : scan_body) : ubifs_dent_node :=
  match b with SnDent d => d | _ => zero_dent end.
Definition as_trun_old_size (b : scan_body) : Z :=
  match b with SnTrun o _ => o | _ => 0 end.
Definition as_trun_new_size (b : scan_body) : Z :=
  match b with SnTrun _ n => n | _ => 0 end.

(** A scanned eraseblock ([struct ubifs_scan_leb]). *)
Record ubifs_scan_leb := mk_sleb {
  sl_nodes : list ubifs_scan_node;
  sl_endpt : Z
}.

Definition sl_nodes_cnt (s : ubifs_scan_leb) : Z := Z.of_nat (length (sl_nodes s)).

(** The fields of [struct ubifs_info] that are fixed when the file system
    is mounted. *)
Record ubifs_cfg := mk_cfg {
  fanout : Z;
  leb_size : Z;
  leb_cnt : Z;
  main_first : Z;
  min_io_size : Z;
  jhead_cnt : Z;
  log_lebs : Z;
  max_inode_sz : Z;
  cmt_no : Z;
  ranges : Z -> ubifs_range;
  need_recovery : bool;
  ms_rdonly : bool;
  ihead_lnum : Z;
  ihead_offs : Z
}.

(** Outcome of a call. *)
Inductive res (A : Type) : Type :=
| Val (a : A)
| Err (e : Z)
| Oops
| NoFuel.

Arguments Val {A} _.
Arguments Err {A} _.
Arguments Oops {A}.
Arguments NoFuel {A}.

Section Ubifs.

(** ** Collaborators outside the sources at hand

    - [ext_t] is the state of the subsystems around the index and the
      replay: LEB properties, write buffers, recovery.  [ubifs_add_dirt]
      (lprops.c) charges dirty space to a LEB; it returns its error code
      and the new state.  [ubifs_lpt_lookup_dirty] and [ubifs_change_lp]
      look the properties of a LEB up and change them,
      [ubifs_wbuf_seek_nolock] moves a journal head,
      [ubifs_recover_size_accum] collects inode sizes for recovery;
    - [get_seconds] is the clock;
    - [rb_insert_color] rebalances a red-black tree after a node was
      linked;
    - [ubifs_scan] (scan.c), [ubifs_recover_leb] and
      [ubifs_recover_log_leb] (recovery.c) scan an eraseblock of the
      media;
    - the memory allocator: the allocations of copy-on-write, the
      [kzalloc] of [copy_znode] and the [kmalloc] of [insert_old_idx],
      may fail, and their outcomes are part of the state (the field
      [alloc_fails] below); the other allocations are taken to
      succeed. *)

Variable ext_t : Type.
Variable ubifs_add_dirt : ext_t -> Z -> Z -> Z * ext_t.
Variable get_seconds : Z.
Variable rb_insert_color : forall A : Type, rb_tree A -> rb_tree A.
Variable ubifs_lpt_lookup_dirty : ext_t -> Z -> (Z + ubifs_lprops) * ext_t.
Variable ubifs_change_lp : ext_t -> ubifs_lprops -> Z -> Z -> Z -> Z -> (Z + ubifs_lprops) * ext_t.
Variable ubifs_wbuf_seek_nolock : ext_t -> Z -> Z -> Z -> Z * ext_t.
Variable ubifs_recover_size_accum : ext_t -> ubifs_key -> bool -> Z -> Z * ext_t.
Variable ubifs_scan : Z -> Z -> Z + ubifs_scan_leb.
Variable ubifs_recover_leb : Z -> Z -> bool -> Z + ubifs_scan_leb.
Variable ubifs_recover_log_leb : Z -> Z -> Z + ubifs_scan_leb.

(** [struct ubifs_info], the file-system description object.  [znodes]
    is the memory holding the znodes and [next_znode] the next address
    the allocator hands out; [media] is the content of the flash;
    [ubifs_clean_zn_cnt] is the global counter of clean znodes; [buds]
    is the tree of buds that [ubifs_add_bud] and [ubifs_search_bud]
    maintain; [alloc_fails] holds the outcomes of the allocations of
    copy-on-write that are still to come, [true] for one that fails
    (past the end of the list they succeed). *)
Record ubifs_info := mk_info {
  c_cfg : ubifs_cfg;
  zroot : ubifs_zbranch;
  znodes : gmap nat ubifs_znode;
  next_znode : nat;
  old_idx : rb_tree ubifs_old_idx;
  clean_zn_cnt : Z;
  dirty_zn_cnt : Z;
  ubifs_clean_zn_cnt : Z;
  calc_idx_sz : Z;
  ext : ext_t;
  media : gmap (Z * Z) media_cell;
  replay_tree : rb_tree replay_entry;
  c_replay_buds : list bud_entry;
  buds : list ubifs_bud;
  cs_sqnum : Z;
  max_sqnum : Z;
  highest_inum : Z;
  lhead_lnum : Z;
  lhead_offs : Z;
  ltail_lnum : Z;
  replay_sqnum : Z;
  replaying : bool;
  alloc_fails : list bool
}.

Definition set_zroot v (c : ubifs_info) : ubifs_info :=
  mk_info (c_cfg c) v (znodes c) (next_znode c) (old_idx c) (clean_zn_cnt c) (dirty_zn_cnt c) (ubifs_clean_zn_cnt c) (calc_idx_sz c) (ext c) (media c) (replay_tree c) (c_replay_buds c) (buds c) (cs_sqnum c) (max_sqnum c) (highest_inum c) (lhead_lnum c) (lhead_offs c) (ltail_lnum c) (replay_sqnum c) (replaying c) (alloc_fails c).
Definition set_znodes v (c : ubifs_info) : ubifs_info :=
  mk_info (c_cfg c) (zroot c) v (next_znode c) (old_idx c) (clean_zn_cnt c) (dirty_zn_cnt c) (ubifs_clean_zn_cnt c) (calc_idx_sz c) (ext c) (media c) (replay_tree c) (c_replay_buds c) (buds c) (cs_sqnum c) (max_sqnum c) (highest_inum c) (lhead_lnum c) (lhead_offs c) (ltail_lnum c) (replay_sqnum c) (replaying c) (alloc_fails c).
Definition set_next_znode v (c : ubifs_info) : ubifs_info :=
  mk_info (c_cfg c) (zroot c) (znodes c) v (old_idx c) (clean_zn_cnt c) (dirty_zn_cnt c) (ubifs_clean_zn_cnt c) (calc_idx_sz c) (ext c) (media c) (replay_tree c) (c_replay_buds c) (buds c) (cs_sqnum c) (max_sqnum c) (highest_inum c) (lhead_lnum c) (lhead_offs c) (ltail_lnum c) (replay_sqnum c) (replaying c) (alloc_fails c).
Definition set_old_idx v (c : ubifs_info) : ubifs_info :=
  mk_info (c_cfg c) (zroot c) (znodes c) (next_znode c) v (clean_zn_cnt c) (dirty_zn_cnt c) (ubifs_clean_zn_cnt c) (calc_idx_sz c) (ext c) (media c) (replay_tree c) (c_replay_buds c) (buds c) (cs_sqnum c) (max_sqnum c) (highest_inum c) (lhead_lnum c) (lhead_offs c) (ltail_lnum c) (replay_sqnum c) (replaying c) (alloc_fails c).
Definition set_clean_zn_cnt v (c : ubifs_info) : ubifs_info :=
  mk_info (c_cfg c) (zroot c) (znodes c) (next_znode c) (old_idx c) v (dirty_zn_cnt c) (ubifs_clean_zn_cnt c) (calc_idx_sz c) (ext c) (media c) (replay_tree c) (c_replay_buds c) (buds c) (cs_sqnum c) (max_sqnum c) (highest_inum c) (lhead_lnum c) (lhead_offs c) (ltail_lnum c) (replay_sqnum c) (replaying c) (alloc_fails c).
Definition set_dirty_zn_cnt v (c : ubifs_info) : ubifs_info :=
  mk_info (c_cfg c) (zroot c) (znodes c) (next_znode c) (old_idx c) (clean_zn_cnt c) v (ubifs_clean_zn_cnt c) (calc_idx_sz c) (ext c) (media c) (replay_tree c) (c_replay_buds c) (buds c) (cs_sqnum c) (max_sqnum c) (highest_inum c) (lhead_lnum c) (lhead_offs c) (ltail_lnum c) (replay_sqnum c) (replaying c) (alloc_fails c).
Definition set_ubifs_clean_zn_cnt v (c : ubifs_info) : ubifs_info :=
  mk_info (c_cfg c) (zroot c) (znodes c) (next_znode c) (old_idx c) (clean_zn_cnt c) (dirty_zn_cnt c) v (calc_idx_sz c) (ext c) (media c) (replay_tree c) (c_replay_buds c) (buds c) (cs_sqnum c) (max_sqnum c) (highest_inum c) (lhead_lnum c) (lhead_offs c) (ltail_lnum c) (replay_sqnum c) (replaying c) (alloc_fails c).
Definition set_calc_idx_sz v (c : ubifs_info) : ubifs_info :=
  mk_info (c_cfg c) (zroot c) (znodes c) (next_znode c) (old_idx c) (clean_zn_cnt c) (dirty_zn_cnt c) (ubifs_clean_zn_cnt c) v (ext c) (media c) (replay_tree c) (c_replay_buds c) (buds c) (cs_sqnum c) (max_sqnum c) (highest_inum c) (lhead_lnum c) (lhead_offs c) (ltail_lnum c) (replay_sqnum c) (replaying c) (alloc_fails c).
Definition set_ext v (c : ubifs_info) : ubifs_info :=
  mk_info (c_cfg c) (zroot c) (znodes c) (next_znode c) (old_idx c) (clean_zn_cnt c) (dirty_zn_cnt c) (ubifs_clean_zn_cnt c) (calc_idx_sz c) v (media c) (replay_tree c) (c_replay_buds c) (buds c) (cs_sqnum c) (max_sqnum c) (highest_inum c) (lhead_lnum c) (lhead_offs c) (ltail_lnum c) (replay_sqnum c) (replaying c) (alloc_fails c).
Definition set_replay_tree v (c : ubifs_info) : ubifs_info :=
  mk_info (c_cfg c) (zroot c) (znodes c) (next_znode c) (old_idx c) (clean_zn_cnt c) (dirty_zn_cnt c) (ubifs_clean_zn_cnt c) (calc_idx_sz c) (ext c) (media c) v (c_replay_buds c) (buds c) (cs_sqnum c) (max_sqnum c) (highest_inum c) (lhead_lnum c) (lhead_offs c) (ltail_lnum c) (replay_sqnum c) (replaying c) (alloc_fails c).
Definition set_c_replay_buds v (c : ubifs_info) : ubifs_info :=
  mk_info (c_cfg c) (zroot c) (znodes c) (next_znode c) (old_idx c) (clean_zn_cnt c) (dirty_zn_cnt c) (ubifs_clean_zn_cnt c) (calc_idx_sz c) (ext c) (media c) (replay_tree c) v (buds c) (cs_sqnum c) (max_sqnum c) (highest_inum c) (lhead_lnum c) (lhead_offs c) (ltail_lnum c) (replay_sqnum c) (replaying c) (alloc_fails c).
Definition set_buds v (c : ubifs_info) : ubifs_info :=
  mk_info (c_cfg c) (zroot c) (znodes c) (next_znode c) (old_idx c) (clean_zn_cnt c) (dirty_zn_cnt c) (ubifs_clean_zn_cnt c) (calc_idx_sz c) (ext c) (media c) (replay_tree c) (c_replay_buds c) v (cs_sqnum c) (max_sqnum c) (highest_inum c) (lhead_lnum c) (lhead_offs c) (ltail_lnum c) (replay_sqnum c) (replaying c) (alloc_fails c).
Definition set_cs_sqnum v (c : ubifs_info) : ubifs_info :=
  mk_info (c_cfg c) (zroot c) (znodes c) (next_znode c) (old_idx c) (clean_zn_cnt c) (dirty_zn_cnt c) (ubifs_clean_zn_cnt c) (calc_idx_sz c) (ext c) (media c) (replay_tree c) (c_replay_buds c) (buds c) v (max_sqnum c) (highest_inum c) (lhead_lnum c) (lhead_offs c) (ltail_lnum c) (replay_sqnum c) (replaying c) (alloc_fails c).
Definition set_max_sqnum v (c : ubifs_info) : ubifs_info :=
  mk_info (c_cfg c) (zroot c) (znodes c) (next_znode c) (old_idx c) (clean_zn_cnt c) (dirty_zn_cnt c) (ubifs_clean_zn_cnt c) (calc_idx_sz c) (ext c) (media c) (replay_tree c) (c_replay_buds c) (buds c) (cs_sqnum c) v (highest_inum c) (lhead_lnum c) (lhead_offs c) (ltail_lnum c) (replay_sqnum c) (replaying c) (alloc_fails c).
Definition set_highest_inum v (c : ubifs_info) : ubifs_info :=
  mk_info (c_cfg c) (zroot c) (znodes c) (next_znode c) (old_idx c) (clean_zn_cnt c) (dirty_zn_cnt c) (ubifs_clean_zn_cnt c) (calc_idx_sz c) (ext c) (media c) (replay_tree c) (c_replay_buds c) (buds c) (cs_sqnum c) (max_sqnum c) v (lhead_lnum c) (lhead_offs c) (ltail_lnum c) (replay_sqnum c) (replaying c) (alloc_fails c).
Definition set_lhead_lnum v (c : ubifs_info) : ubifs_info :=
  mk_info (c_cfg c) (zroot c) (znodes c) (next_znode c) (old_idx c) (clean_zn_cnt c) (dirty_zn_cnt c) (ubifs_clean_zn_cnt c) (calc_idx_sz c) (ext c) (media c) (replay_tree c) (c_replay_buds c) (buds c) (cs_sqnum c) (max_sqnum c) (highest_inum c) v (lhead_offs c) (ltail_lnum c) (replay_sqnum c) (replaying c) (alloc_fails c).
Definition set_lhead_offs v (c : ubifs_info) : ubifs_info :=
  mk_info (c_cfg c) (zroot c) (znodes c) (next_znode c) (old_idx c) (clean_zn_cnt c) (dirty_zn_cnt c) (ubifs_clean_zn_cnt c) (calc_idx_sz c) (ext c) (media c) (replay_tree c) (c_replay_buds c) (buds c) (cs_sqnum c) (max_sqnum c) (highest_inum c) (lhead_lnum c) v (ltail_lnum c) (replay_sqnum c) (replaying c) (alloc_fails c).
Definition set_ltail_lnum v (c : ubifs_info) : ubifs_info :=
  mk_info (c_cfg c) (zroot c) (znodes c) (next_znode c) (old_idx c) (clean_zn_cnt c) (dirty_zn_cnt c) (ubifs_clean_zn_cnt c) (calc_idx_sz c) (ext c) (media c) (replay_tree c) (c_replay_buds c) (buds c) (cs_sqnum c) (max_sqnum c) (highest_inum c) (lhead_lnum c) (lhead_offs c) v (replay_sqnum c) (replaying c) (alloc_fails c).
Definition set_replay_sqnum v (c : ubifs_info) : ubifs_info :=
  mk_info (c_cfg c) (zroot c) (znodes c) (next_znode c) (old_idx c) (clean_zn_cnt c) (dirty_zn_cnt c) (ubifs_clean_zn_cnt c) (calc_idx_sz c) (ext c) (media c) (replay_tree c) (c_replay_buds c) (buds c) (cs_sqnum c) (max_sqnum c) (highest_inum c) (lhead_lnum c) (lhead_offs c) (ltail_lnum c) v (replaying c) (alloc_fails c).
Definition set_replaying v (c : ubifs_info) : ubifs_info :=
  mk_info (c_cfg c) (zroot c) (znodes c) (next_znode c) (old_idx c) (clean_zn_cnt c) (dirty_zn_cnt c) (ubifs_clean_zn_cnt c) (calc_idx_sz c) (ext c) (media c) (replay_tree c) (c_replay_buds c) (buds c) (cs_sqnum c) (max_sqnum c) (highest_inum c) (lhead_lnum c) (lhead_offs c) (ltail_lnum c) (replay_sqnum c) v (alloc_fails c).

Definition set_alloc_fails v (c : ubifs_info) : ubifs_info :=
  mk_info (c_cfg c) (zroot c) (znodes c) (next_znode c) (old_idx c) (clean_zn_cnt c) (dirty_zn_cnt c) (ubifs_clean_zn_cnt c) (calc_idx_sz c) (ext c) (media c) (replay_tree c) (c_replay_buds c) (buds c) (cs_sqnum c) (max_sqnum c) (highest_inum c) (lhead_lnum c) (lhead_offs c) (ltail_lnum c) (replay_sqnum c) (replaying c) v.

(** ** State and error monad *)

Definition M (A : Type) : Type := ubifs_info -> res A * ubifs_info.

Definition ret {A} (a : A) : M A := fun c => (Val a, c).
Definition fail {A} (e : Z) : M A := fun c => (Err e, c).
Definition oops {A} : M A := fun c => (Oops, c).
Definition nofuel {A} : M A := fun c => (NoFuel, c).

Definition bind {A B} (m : M A) (k : A -> M B) : M B :=
  fun c =>
    match m c with
    | (Val a, c') => k a c'
    | (Err e, c') => (Err e, c')
    | (Oops, c') => (Oops, c')
    | (NoFuel, c') => (NoFuel, c')
    end.

Definition get : M ubifs_info := fun c => (Val c, c).
Definition gets {A} (f : ubifs_info -> A) : M A := fun c => (Val (f c), c).
Definition modify (f : ubifs_info -> ubifs_info) : M unit := fun c => (Val tt, f c).

(** An [int] error code of a callee: zero goes on, anything else is
    returned to the caller. *)
Definition check (err : Z) : M unit :=
  if err =? 0 then ret tt else fail err.

(** Run a callee and hand its error code to the caller, which tests it
    ([err == -ENOENT], [err < 0]). *)
Definition try {A} (m : M A) : M (Z + A) :=
  fun c =>
    match m c with
    | (Val a, c') => (Val (inr a), c')
    | (Err e, c') => (Val (inl e), c')
    | (Oops, c') => (Oops, c')
    | (NoFuel, c') => (NoFuel, c')
    end.

Notation "'let*' x ':=' m 'in' k" := (bind m (fun x => k))
  (at level 10, x pattern, m at level 100, k at level 200).
Notation "m ;; k" := (bind m (fun _ => k))
  (at level 100, k at level 200, right associativity).

(** An allocation whose result the code tests: [true] when memory was
    obtained.  The outcome is the next one of [alloc_fails]. *)
Definition kmalloc : M bool :=
  fun c => (Val (negb (hd false (alloc_fails c))), set_alloc_fails (tl (alloc_fails c)) c).

(** ** The znode memory *)

(** The znode a pointer refers to. *)
Definition deref (c : ubifs_info) (p : nat) : ubifs_znode :=
  default zero_znode (znodes c !! p).

(** A store through a pointer to a znode. *)
Definition zn_upd (p : nat) (f : ubifs_znode -> ubifs_znode) (c : ubifs_info) : ubifs_info :=
  set_znodes (alter f p (znodes c)) c.

(** [kzalloc(c->max_znode_sz)]: a zeroed znode at a new address. *)
Definition new_znode (c : ubifs_info) : ubifs_znode :=
  set_zn_zbranch (replicate (Z.to_nat (fanout (c_cfg c))) zero_zbranch) zero_znode.

Definition kzalloc_znode : M nat :=
  fun c =>
    let p := next_znode c in
    (Val p, set_next_znode (S p) (set_znodes (<[p := new_znode c]> (znodes c)) c)).

Definition kfree_znode (p : nat) : M unit :=
  modify (fun c => set_znodes (delete p (znodes c)) c).

(** A pointer to a zbranch: [&c->zroot] or [&znode->zbranch[i]]. *)
Inductive zbr_ref :=
| ZRoot
| ZSlot (p : nat) (i : Z).

Definition zbr_get (c : ubifs_info) (r : zbr_ref) : ubifs_zbranch :=
  match r with
  | ZRoot => zroot c
  | ZSlot p i => zbranch_at (deref c p) i
  end.

Definition zbr_upd (r : zbr_ref) (f : ubifs_zbranch -> ubifs_zbranch) (c : ubifs_info) : ubifs_info :=
  match r with
  | ZRoot => set_zroot (f (zroot c)) c
  | ZSlot p i => zn_upd p (fun z => zbranch_store i (f (zbranch_at z i)) z) c
  end.


(** ** tnc.c: the old index *)

(** The descent of [insert_old_idx] through the tree ordered by LEB
    number and offset; [None] when the pair is already there. *)
Fixpoint old_idx_link (lnum offs : Z) (t : rb_tree ubifs_old_idx) : option (rb_tree ubifs_old_idx) :=
  match t with
  | RbNil => Some (rb_new_node (mk_old_idx lnum offs))
  | RbNode col l o r =>
      if lnum <? o_lnum o then (fun l' => RbNode col l' o r) <$> old_idx_link lnum offs l
      else if o_lnum o <? lnum then (fun r' => RbNode col l o r') <$> old_idx_link lnum offs r
      else if offs <? o_offs o then (fun l' => RbNode col l' o r) <$> old_idx_link lnum offs l
      else if o_offs o <? offs then (fun r' => RbNode col l o r') <$> old_idx_link lnum offs r
      else None
  end.

Definition insert_old_idx (lnum offs : Z) : M unit :=
  let* old_idx_mem := kmalloc in
  if negb old_idx_mem then fail (- ENOMEM)
  else
    let* c := get in
    match old_idx_link lnum offs (old_idx c) with
    | Some t => modify (set_old_idx (rb_insert_color _ t))
    | None => ret tt (* "old idx added twice!" *)
    end.

Definition insert_old_idx_znode (znode : nat) : M unit :=
  let* c := get in
  match zn_parent (deref c znode) with
  | Some zp =>
      let zbr := zbranch_at (deref c zp) (zn_iip (deref c znode)) in
      if negb (zbr_len zbr =? 0) then insert_old_idx (zbr_lnum zbr) (zbr_offs zbr)
      else ret tt
  | None =>
      if negb (zbr_len (zroot c) =? 0)
      then insert_old_idx (zbr_lnum (zroot c)) (zbr_offs (zroot c))
      else ret tt
  end.

Definition ins_clr_old_idx_znode (znode : nat) : M unit :=
  let* c := get in
  match zn_parent (deref c znode) with
  | Some zp =>
      let r := ZSlot zp (zn_iip (deref c znode)) in
      let zbr := zbr_get c r in
      if negb (zbr_len zbr =? 0) then
        insert_old_idx (zbr_lnum zbr) (zbr_offs zbr) ;;
        modify (zbr_upd r (set_zbr_pos 0 0 0))
      else ret tt
  | None =>
      if negb (zbr_len (zroot c) =? 0) then
        insert_old_idx (zbr_lnum (zroot c)) (zbr_offs (zroot c)) ;;
        modify (zbr_upd ZRoot (set_zbr_pos 0 0 0))
      else ret tt
  end.

(** ** tnc.c: reading nodes *)

(** Modelled from the spec: [ubifs_read_node] of io.c is not part of the
    sources at hand; it reads the node of the given type and length at
    [lnum:offs] and returns an error code when the read fails or the node
    is bad.  [ubifs_read_node_wbuf] serves the same bytes from a write
    buffer. *)
Definition ubifs_read_node (c : ubifs_info) (type len lnum offs : Z) : Z + media_node :=
  match media c !! (lnum, offs) with
  | Some (IoError err) => inl err
  | Some (Stored nd) =>
      let ch := node_ch nd in
      if (ch_magic ch =? UBIFS_NODE_MAGIC) && (ch_node_type ch =? type)
         && (ch_len ch =? len) && ch_crc_ok ch
      then inr nd else inl (- EINVAL)
  | None => inl (- EINVAL)
  end.

(** The branch [i] of an index node ([ubifs_idx_branch]). *)
Definition ubifs_idx_branch (idx : ubifs_idx_node) (i : Z) : ubifs_branch :=
  nth (Z.to_nat i) (idx_branches idx) zero_branch.

Definition bad_branch (c : ubifs_info) (zbr : ubifs_zbranch) : bool :=
  (zbr_lnum zbr <? main_first (c_cfg c))
  || (leb_cnt (c_cfg c) <=? zbr_lnum zbr)
  || (zbr_offs zbr <? 0)
  || (leb_size (c_cfg c) <? zbr_offs zbr + zbr_len zbr)
  || negb (Z.land (zbr_offs zbr) 7 =? 0).

Definition good_key_type (type : Z) : bool :=
  (type =? UBIFS_INO_KEY) || (type =? UBIFS_DATA_KEY)
  || (type =? UBIFS_DENT_KEY) || (type =? UBIFS_XENT_KEY).

Definition bad_target_len (c : ubifs_info) (zbr : ubifs_zbranch) : bool :=
  let type := key_type (zbr_key zbr) in
  let rg := ranges (c_cfg c) type in
  if rg_max_len rg =? 0 then negb (zbr_len zbr =? rg_len rg)
  else (zbr_len zbr <? rg_min_len rg) || (rg_max_len rg <? zbr_len zbr).

(** The first loop of [read_znode], from branch [i] on for [k] rounds;
    [None] is the jump to [out_dump]. *)
Fixpoint read_znode_branches (c : ubifs_info) (idx : ubifs_idx_node) (k : nat) (i : Z) (znode : ubifs_znode) : option ubifs_znode :=
  match k with
  | O => Some znode
  | S k' =>
      let br := ubifs_idx_branch idx i in
      let zbr := mk_zbr (br_key br) None (int_of_u32 (br_lnum br))
                   (int_of_u32 (br_offs br)) (int_of_u32 (br_len br))
                   (zbr_leaf (zbranch_at znode i)) in
      let znode := zbranch_store i zbr znode in
      if bad_branch c zbr then None
      else if negb (good_key_type (key_type (zbr_key zbr))) then None
      else if negb (zn_level znode =? 0) then read_znode_branches c idx k' (i + 1) znode
      else if bad_target_len c zbr then None
      else read_znode_branches c idx k' (i + 1) znode
  end.

(** The second loop of [read_znode]: the next key is greater than or
    equivalent to the previous one; [false] is the jump to [out_dump]. *)
Fixpoint read_znode_order (znode : ubifs_znode) (k : nat) (i : Z) : bool :=
  match k with
  | O => true
  | S k' =>
      let key1 := zbr_key (zbranch_at znode i) in
      let key2 := zbr_key (zbranch_at znode (i + 1)) in
      let cmp := keys_cmp key1 key2 in
      if 0 <? cmp then false
      else if (cmp =? 0) && negb (is_hash_key key1) then false
      else read_znode_order znode k' (i + 1)
  end.

(** [read_znode]: the error code and the znode as it was filled. *)
Definition read_znode (c : ubifs_info) (lnum offs len : Z) (znode : ubifs_znode) : Z * ubifs_znode :=
  match ubifs_read_node c UBIFS_IDX_NODE len lnum offs with
  | inl err => (err, znode)
  | inr (OnFlashLeaf _) => (- EINVAL, znode)
  | inr (OnFlashIdx idx) =>
      let znode := set_zn_level (idx_level idx) (set_zn_child_cnt (idx_child_cnt idx) znode) in
      if (fanout (c_cfg c) <? zn_child_cnt znode) || (UBIFS_MAX_LEVELS <? zn_level znode)
      then (- EINVAL, znode)
      else
        match read_znode_branches c idx (Z.to_nat (zn_child_cnt znode)) 0 znode with
        | None => (- EINVAL, znode)
        | Some znode =>
            if read_znode_order znode (Z.to_nat (zn_child_cnt znode - 1)) 0
            then (0, znode)
            else (- EINVAL, znode)
        end
  end.

Definition load_znode (zbr : zbr_ref) (parent : option nat) (iip : Z) : M nat :=
  let* znode := kzalloc_znode in
  let* c := get in
  let b := zbr_get c zbr in
  let '(err, z) := read_znode c (zbr_lnum b) (zbr_offs b) (zbr_len b) (deref c znode) in
  if negb (err =? 0) then
    kfree_znode znode ;; fail err
  else
    modify (zn_upd znode (fun _ => z)) ;;
    modify (fun c => set_clean_zn_cnt (clean_zn_cnt c + 1) c) ;;
    modify (fun c => set_ubifs_clean_zn_cnt (ubifs_clean_zn_cnt c + 1) c) ;;
    modify (zbr_upd zbr (set_zbr_znode (Some znode))) ;;
    modify (zn_upd znode (fun z => set_zn_iip iip (set_zn_time get_seconds (set_zn_parent parent z)))) ;;
    ret znode.

(** ** tnc.c: copy-on-write *)

(** The loop of [copy_znode] that gives the children their new parent. *)
Definition copy_znode_reparent (zn : nat) (n : Z) (c : ubifs_info) : ubifs_info :=
  foldl (fun c i =>
           match zbr_znode (zbranch_at (deref c zn) i) with
           | Some child => zn_upd child (set_zn_parent (Some zn)) c
           | None => c
           end) c (seqZ 0 n).

Definition copy_znode (znode : nat) : M nat :=
  let* zn_mem := kmalloc in
  if negb zn_mem then fail (- ENOMEM)
  else
  let* zn := kzalloc_znode in
  modify (fun c => zn_upd zn (fun _ => deref c znode) c) ;;
  modify (zn_upd znode (fun z => set_zn_flags (set_bit OBSOLETE_ZNODE (zn_flags z)) z)) ;;
  let* c := get in
  (if negb (zn_level (deref c znode) =? 0)
   then modify (copy_znode_reparent zn (zn_child_cnt (deref c zn)))
   else ret tt) ;;
  modify (zn_upd zn (set_zn_cnext None)) ;;
  modify (zn_upd zn (fun z => set_zn_flags (set_bit DIRTY_ZNODE (zn_flags z)) z)) ;;
  modify (zn_upd zn (fun z => set_zn_flags (clear_bit COW_ZNODE (zn_flags z)) z)) ;;
  modify (fun c => set_dirty_zn_cnt (dirty_zn_cnt c + 1) c) ;;
  ret zn.

(** [add_idx_dirt]; the value is the error code of [ubifs_add_dirt]. *)
Definition add_idx_dirt (lnum dirt : Z) : M Z :=
  modify (fun c => set_calc_idx_sz (calc_idx_sz c - ALIGN dirt 8) c) ;;
  fun c => let '(err, ext') := ubifs_add_dirt (ext c) lnum dirt in (Val err, set_ext ext' c).

(** [ubifs_add_dirt] called on the file-system object. *)
Definition add_dirt (lnum dirt : Z) : M Z :=
  fun c => let '(err, ext') := ubifs_add_dirt (ext c) lnum dirt in (Val err, set_ext ext' c).

Definition dirty_cow_znode (zbr : zbr_ref) : M nat :=
  let* c := get in
  match zbr_znode (zbr_get c zbr) with
  | None => oops
  | Some znode =>
      if negb (test_bit COW_ZNODE (zn_flags (deref c znode))) then
        (* znode is not being committed *)
        if negb (test_bit DIRTY_ZNODE (zn_flags (deref c znode))) then
          modify (zn_upd znode (fun z => set_zn_flags (set_bit DIRTY_ZNODE (zn_flags z)) z)) ;;
          modify (fun c => set_dirty_zn_cnt (dirty_zn_cnt c + 1) c) ;;
          modify (fun c => set_clean_zn_cnt (clean_zn_cnt c - 1) c) ;;
          modify (fun c => set_ubifs_clean_zn_cnt (ubifs_clean_zn_cnt c - 1) c) ;;
          let* c := get in
          let* err := add_idx_dirt (zbr_lnum (zbr_get c zbr)) (zbr_len (zbr_get c zbr)) in
          check err ;;
          ret znode
        else ret znode
      else
        let* zn := copy_znode znode in
        let* c := get in
        let b := zbr_get c zbr in
        let* err :=
          (if negb (zbr_len b =? 0) then
             insert_old_idx (zbr_lnum b) (zbr_offs b) ;;
             add_idx_dirt (zbr_lnum b) (zbr_len b)
           else ret 0) in
        modify (zbr_upd zbr (set_zbr_znode (Some zn))) ;;
        modify (zbr_upd zbr (set_zbr_pos 0 0 0)) ;;
        check err ;;
        ret zn
  end.

(** ** tnc.c: the leaf-node cache and leaf reads *)

Definition lnc_lookup (zbr : ubifs_zbranch) : option ubifs_dent_node := zbr_leaf zbr.

Definition ubifs_validate_entry (dent : ubifs_dent_node) : Z :=
  let nlen := d_nlen dent in
  if negb (ch_len (d_ch dent) =? nlen + UBIFS_DENT_NODE_SZ + 1)
     || (UBIFS_ITYPES_CNT <=? d_type dent)
     || (UBIFS_MAX_NLEN <? nlen)
     || negb (byte_at (list_ascii_of_string (d_name dent)) (Z.to_nat nlen) =? 0)
     || negb (strnlen (d_name dent) nlen =? nlen)
     || (MAX_INUM <? d_inum dent)
  then - EINVAL
  else if negb (key_type (d_key dent) =? UBIFS_DENT_KEY)
          && negb (key_type (d_key dent) =? UBIFS_XENT_KEY)
  then - EINVAL
  else 0.

(** [lnc_add]: the error code and the zbranch afterwards. *)
Definition lnc_add (zbr : ubifs_zbranch) (node : ubifs_dent_node) : Z * ubifs_zbranch :=
  (* Add all dents, but nothing else *)
  if negb (key_type (zbr_key zbr) =? UBIFS_DENT_KEY) then (0, zbr)
  else
    let err := ubifs_validate_entry node in
    if negb (err =? 0) then (err, zbr)
    else (0, set_zbr_leaf (Some node) zbr).

Definition lnc_free (zbr : ubifs_zbranch) : ubifs_zbranch := set_zbr_leaf None zbr.

(** [tnc_read_node] on a zbranch: an error code, or the node read and
    the zbranch afterwards.  When the key of the node read differs from
    the key of the zbranch the function returns [err], which is zero at
    that point. *)
Definition tnc_read_node (c : ubifs_info) (zbr : ubifs_zbranch) : Z + (ubifs_dent_node * ubifs_zbranch) :=
  match lnc_lookup zbr with
  | Some node => inr (node, zbr) (* Read from the leaf-node-cache *)
  | None =>
      match ubifs_read_node c (key_type (zbr_key zbr)) (zbr_len zbr) (zbr_lnum zbr) (zbr_offs zbr) with
      | inl err => inl err
      | inr (OnFlashIdx _) => inl (- EINVAL)
      | inr (OnFlashLeaf node) =>
          if negb (bool_decide (d_key node = zbr_key zbr)) then inr (node, zbr)
          else
            let '(err, zbr') := lnc_add zbr node in
            if negb (err =? 0) then inl err else inr (node, zbr')
      end
  end.

(** [tnc_read_node] through a pointer to a zbranch of the index. *)
Definition tnc_read_node_at (r : zbr_ref) : M ubifs_dent_node :=
  let* c := get in
  match tnc_read_node c (zbr_get c r) with
  | inl err => fail err
  | inr (node, zbr') => modify (zbr_upd r (fun _ => zbr')) ;; ret node
  end.

(** [try_read_node]: 1 and the node, 0 when no such node is there, or
    the error code of [ubi_read]. *)
Definition try_read_node (c : ubifs_info) (type len lnum offs : Z) : Z * option ubifs_dent_node :=
  match media c !! (lnum, offs) with
  | Some (IoError err) => (err, None)
  | Some (Stored (OnFlashLeaf nd)) =>
      let ch := d_ch nd in
      if negb (ch_magic ch =? UBIFS_NODE_MAGIC) then (0, Some nd)
      else if negb (ch_node_type ch =? type) then (0, Some nd)
      else if negb (ch_len ch =? len) then (0, Some nd)
      else if negb (ch_crc_ok ch) then (0, Some nd)
      else (1, Some nd)
  | Some (Stored (OnFlashIdx _)) => (0, None)
  | None => (0, None)
  end.

(** [fallible_read_node]: the return code, the node, the zbranch
    afterwards. *)
Definition fallible_read_node (c : ubifs_info) (key : ubifs_key) (zbr : ubifs_zbranch) : Z * option ubifs_dent_node * ubifs_zbranch :=
  match lnc_lookup zbr with
  | Some node => (0, Some node, zbr) (* Read from the leaf-node-cache *)
  | None =>
      let '(ret, buf) := try_read_node c (key_type key) (zbr_len zbr) (zbr_lnum zbr) (zbr_offs zbr) in
      if ret =? 1 then
        match buf with
        | Some dent =>
            if keys_cmp key (d_key dent) =? 0 then
              if replay_sqnum c <? ch_sqnum (d_ch dent) then (0, buf, zbr)
              else
                let '(err, zbr') := lnc_add zbr dent in
                if negb (err =? 0) then (err, buf, zbr) else (1, buf, zbr')
            else (0, buf, zbr)
        | None => (0, buf, zbr)
        end
      else (ret, buf, zbr)
  end.

(** The comparison both [matches_name] and [fallible_matches_name] end
    with. *)
Definition dent_name_cmp (dent : ubifs_dent_node) (nm : qstr) : Z :=
  let nlen := d_nlen dent in
  let err := memcmp (d_name dent) (q_name nm) (Z.min nlen (q_len nm)) in
  if err =? 0 then
    if nlen =? q_len nm then NAME_MATCHES
    else if nlen <? q_len nm then NAME_LESS
    else NAME_GREATER
  else if err <? 0 then NAME_LESS
  else NAME_GREATER.

Definition matches_name (zbr : zbr_ref) (nm : qstr) : M Z :=
  let* c := get in
  (* If possible, match against the dent in the leaf-node-cache *)
  (match zbr_leaf (zbr_get c zbr) with
   | None =>
       let* dent := tnc_read_node_at zbr in
       let err := ubifs_validate_entry dent in
       if negb (err =? 0) then modify (zbr_upd zbr lnc_free) ;; fail err
       else ret tt
   | Some _ => ret tt
   end) ;;
  let* c := get in
  match zbr_leaf (zbr_get c zbr) with
  | None => oops (* dent = zbr->leaf is NULL *)
  | Some dent => ret (dent_name_cmp dent nm)
  end.

(** ** tnc.c: walking the tree *)

Definition get_znode (znode : nat) (n : Z) : M nat :=
  let* c := get in
  match zbr_znode (zbranch_at (deref c znode) n) with
  | Some child => ret child
  | None => load_znode (ZSlot znode n) (Some znode) n
  end.

(** [while (znode->level != 0) znode = get_znode(c, znode, 0)]. *)
Fixpoint tnc_next_down (k : nat) (znode : nat) : M nat :=
  match k with
  | O => nofuel
  | S k' =>
      let* c := get in
      if negb (zn_level (deref c znode) =? 0) then
        let* znode := get_znode znode 0 in
        tnc_next_down k' znode
      else ret znode
  end.

Fixpoint tnc_next_up (k fuel : nat) (znode : nat) : M (nat * Z) :=
  match k with
  | O => nofuel
  | S k' =>
      let* c := get in
      match zn_parent (deref c znode) with
      | None => fail (- ENOENT)
      | Some zp =>
          let nn := zn_iip (deref c znode) + 1 in
          if nn <? zn_child_cnt (deref c zp) then
            let* znode := get_znode zp nn in
            let* znode := tnc_next_down fuel znode in
            ret (znode, 0)
          else tnc_next_up k' fuel zp
      end
  end.

(** [tnc_next]: the next entry, [-ENOENT] if there is none. *)
Definition tnc_next (fuel : nat) (zn : nat) (n : Z) : M (nat * Z) :=
  let* c := get in
  let nn := n + 1 in
  if nn <? zn_child_cnt (deref c zn) then ret (zn, nn)
  else tnc_next_up fuel fuel zn.

(** [while (znode->level != 0) { nn = znode->child_cnt - 1; znode =
    get_znode(c, znode, nn); }]. *)
Fixpoint tnc_prev_down (k : nat) (znode : nat) : M nat :=
  match k with
  | O => nofuel
  | S k' =>
      let* c := get in
      if negb (zn_level (deref c znode) =? 0) then
        let* znode := get_znode znode (zn_child_cnt (deref c znode) - 1) in
        tnc_prev_down k' znode
      else ret znode
  end.

Fixpoint tnc_prev_up (k fuel : nat) (znode : nat) : M (nat * Z) :=
  match k with
  | O => nofuel
  | S k' =>
      let* c := get in
      match zn_parent (deref c znode) with
      | None => fail (- ENOENT)
      | Some zp =>
          let nn := zn_iip (deref c znode) - 1 in
          if 0 <=? nn then
            let* znode := get_znode zp nn in
            let* znode := tnc_prev_down fuel znode in
            let* c := get in
            ret (znode, zn_child_cnt (deref c znode) - 1)
          else tnc_prev_up k' fuel zp
      end
  end.

(** [tnc_prev]: the previous entry, [-ENOENT] if there is none. *)
Definition tnc_prev (fuel : nat) (zn : nat) (n : Z) : M (nat * Z) :=
  if 0 <? n then ret (zn, n - 1)
  else tnc_prev_up fuel fuel zn.

(** ** tnc.c: hash collisions *)

(** How a loop is left: by [return] or by [break]. *)
Inductive loop_exit (R S : Type) : Type :=
| Return (r : R)
| Break (s : S).

Arguments Return {R S} _.
Arguments Break {R S} _.

(** The "look left" loop of [resolve_collision]. *)
Fixpoint resolve_collision_left (k fuel : nat) (key : ubifs_key) (zn : nat) (n : Z) (nm : qstr) : M (Z * nat * Z) :=
  match k with
  | O => nofuel
  | S k' =>
      let* r := try (tnc_prev fuel zn n) in
      match r with
      | inl err => if err =? - ENOENT then ret (0, zn, -1) else fail err
      | inr (zn, n) =>
          let* c := get in
          if negb (keys_cmp (zbr_key (zbranch_at (deref c zn) n)) key =? 0) then ret (0, zn, n)
          else
            let* err := matches_name (ZSlot zn n) nm in
            if err =? NAME_LESS then ret (0, zn, n)
            else if err =? NAME_MATCHES then ret (1, zn, n)
            else resolve_collision_left k' fuel key zn n nm
      end
  end.

(** The "look right" loop of [resolve_collision]; [znode] and [nn] are
    its local cursor. *)
Fixpoint resolve_collision_right (k fuel : nat) (key : ubifs_key) (zn : nat) (n : Z) (znode : nat) (nn : Z) (nm : qstr) : M (Z * nat * Z) :=
  match k with
  | O => nofuel
  | S k' =>
      let* r := try (tnc_next fuel znode nn) in
      match r with
      | inl err => if err =? - ENOENT then ret (0, zn, n) else fail err
      | inr (znode, nn) =>
          let* c := get in
          if negb (keys_cmp (zbr_key (zbranch_at (deref c znode) nn)) key =? 0) then ret (0, zn, n)
          else
            let* err := matches_name (ZSlot znode nn) nm in
            if err =? NAME_GREATER then ret (0, zn, n)
            else if err =? NAME_MATCHES then ret (1, znode, nn)
            else resolve_collision_right k' fuel key znode nn znode nn nm
      end
  end.

(** [resolve_collision]: the return code and the values left in [*zn]
    and [*n]. *)
Definition resolve_collision (fuel : nat) (key : ubifs_key) (zn : nat) (n : Z) (nm : qstr) : M (Z * nat * Z) :=
  let* err := matches_name (ZSlot zn n) nm in
  if err =? NAME_MATCHES then ret (1, zn, n)
  else if err =? NAME_GREATER then resolve_collision_left fuel fuel key zn n nm
  else resolve_collision_right fuel fuel key zn n zn n nm.

Definition fallible_matches_name (zbr : zbr_ref) (nm : qstr) : M Z :=
  let* c := get in
  (* If possible, match against the dent in the leaf-node-cache *)
  let* present :=
    (match zbr_leaf (zbr_get c zbr) with
     | None =>
         let '(err, buf, zbr') := fallible_read_node c (zbr_key (zbr_get c zbr)) (zbr_get c zbr) in
         modify (zbr_upd zbr (fun _ => zbr')) ;;
         if err <? 0 then fail err
         else if err =? 0 then ret false (* The node was not present *)
         else
           let err := ubifs_validate_entry (default zero_dent buf) in
           if negb (err =? 0) then modify (zbr_upd zbr lnc_free) ;; fail err
           else ret true
     | Some _ => ret true
     end) in
  if negb present then ret NOT_ON_MEDIA
  else
    let* c := get in
    match zbr_leaf (zbr_get c zbr) with
    | None => oops (* dent = zbr->leaf is NULL *)
    | Some dent => ret (dent_name_cmp dent nm)
    end.

(** The "look left" loop of [fallible_resolve_collision]; [o] is
    [o_znode] and [o_n]. *)
Fixpoint fallible_resolve_collision_left (k fuel : nat) (key : ubifs_key) (zn : nat) (n : Z) (nm : qstr) (o : option (nat * Z)) (unsure : bool) : M (loop_exit (nat * Z) (nat * Z * option (nat * Z) * bool)) :=
  match k with
  | O => nofuel
  | S k' =>
      let* r := try (tnc_prev fuel zn n) in
      match r with
      | inl err => if err =? - ENOENT then ret (Break (zn, -1, o, unsure)) else fail err
      | inr (zn, n) =>
          let* c := get in
          if negb (keys_cmp (zbr_key (zbranch_at (deref c zn) n)) key =? 0)
          then ret (Break (zn, n, o, unsure))
          else
            let* err := fallible_matches_name (ZSlot zn n) nm in
            if err =? NAME_LESS then ret (Break (zn, n, o, unsure))
            else if err =? NAME_MATCHES then ret (Return (zn, n))
            else if err =? NOT_ON_MEDIA
            then fallible_resolve_collision_left k' fuel key zn n nm (Some (zn, n)) unsure
            else fallible_resolve_collision_left k' fuel key zn n nm o false
      end
  end.

(** The "look right" loop of [fallible_resolve_collision]. *)
Fixpoint fallible_resolve_collision_right (k fuel : nat) (key : ubifs_key) (zn : nat) (n : Z) (znode : nat) (nn : Z) (nm : qstr) (o : option (nat * Z)) : M (loop_exit (nat * Z) (nat * Z * option (nat * Z))) :=
  match k with
  | O => nofuel
  | S k' =>
      let* r := try (tnc_next fuel znode nn) in
      match r with
      | inl err => if err =? - ENOENT then ret (Break (zn, n, o)) else fail err
      | inr (znode, nn) =>
          let* c := get in
          if negb (keys_cmp (zbr_key (zbranch_at (deref c znode) nn)) key =? 0)
          then ret (Break (zn, n, o))
          else
            let* err := fallible_matches_name (ZSlot znode nn) nm in
            if err =? NAME_GREATER then ret (Break (zn, n, o))
            else if err =? NAME_MATCHES then ret (Return (znode, nn))
            else if err =? NOT_ON_MEDIA
            then fallible_resolve_collision_right k' fuel key znode nn znode nn nm (Some (znode, nn))
            else fallible_resolve_collision_right k' fuel key znode nn znode nn nm o
      end
  end.

(** [fallible_resolve_collision]: the return code and the values left in
    [*zn] and [*n]. *)
Definition fallible_resolve_collision (fuel : nat) (key : ubifs_key) (zn : nat) (n : Z) (nm : qstr) : M (Z * nat * Z) :=
  let znode := zn in
  let nn := n in
  let* cmp := fallible_matches_name (ZSlot znode nn) nm in
  if cmp =? NAME_MATCHES then ret (1, zn, n)
  else
    let o := if cmp =? NOT_ON_MEDIA then Some (znode, nn) else None in
    let unsure := cmp =? NOT_ON_MEDIA in
    let* l :=
      (if (cmp =? NAME_GREATER) || unsure
       then fallible_resolve_collision_left fuel fuel key zn n nm o unsure
       else ret (Break (zn, n, o, unsure))) in
    match l with
    | Return (zn, n) => ret (1, zn, n)
    | Break (zn, n, o, unsure) =>
        let* r :=
          (if (cmp =? NAME_LESS) || unsure
           then fallible_resolve_collision_right fuel fuel key znode nn znode nn nm o
           else ret (Break (zn, n, o))) in
        match r with
        | Return (zn, n) => ret (1, zn, n)
        | Break (zn, n, o) =>
            match o with
            | None => ret (0, zn, n)
            | Some (o_znode, o_n) => ret (1, o_znode, o_n)
            end
        end
    end.

Definition matches_position (zbr : ubifs_zbranch) (lnum offs : Z) : bool :=
  (zbr_lnum zbr =? lnum) && (zbr_offs zbr =? offs).

(** The "look left" loop of [resolve_collision_directly]; the cursor is
    local, [None] is the [break]. *)
Fixpoint resolve_collision_directly_left (k fuel : nat) (key : ubifs_key) (znode : nat) (nn : Z) (lnum offs : Z) : M (option (nat * Z)) :=
  match k with
  | O => nofuel
  | S k' =>
      let* r := try (tnc_prev fuel znode nn) in
      match r with
      | inl err => if err =? - ENOENT then ret None else fail err
      | inr (znode, nn) =>
          let* c := get in
          let zbr := zbranch_at (deref c znode) nn in
          if negb (keys_cmp (zbr_key zbr) key =? 0) then ret None
          else if matches_position zbr lnum offs then ret (Some (znode, nn))
          else resolve_collision_directly_left k' fuel key znode nn lnum offs
      end
  end.

Fixpoint resolve_collision_directly_right (k fuel : nat) (key : ubifs_key) (zn : nat) (n : Z) (znode : nat) (nn : Z) (lnum offs : Z) : M (Z * nat * Z) :=
  match k with
  | O => nofuel
  | S k' =>
      let* r := try (tnc_next fuel znode nn) in
      match r with
      | inl err => if err =? - ENOENT then ret (0, zn, n) else fail err
      | inr (znode, nn) =>
          let* c := get in
          let zbr := zbranch_at (deref c znode) nn in
          if negb (keys_cmp (zbr_key zbr) key =? 0) then ret (0, zn, n)
          else if matches_position zbr lnum offs then ret (1, znode, nn)
          else resolve_collision_directly_right k' fuel key znode nn znode nn lnum offs
      end
  end.

Definition resolve_collision_directly (fuel : nat) (key : ubifs_key) (zn : nat) (n : Z) (lnum offs : Z) : M (Z * nat * Z) :=
  let* c := get in
  if matches_position (zbranch_at (deref c zn) n) lnum offs then ret (1, zn, n)
  else
    let* l := resolve_collision_directly_left fuel fuel key zn n lnum offs in
    match l with
    | Some (znode, nn) => ret (1, znode, nn)
    | None => resolve_collision_directly_right fuel fuel key zn n zn n lnum offs
    end.

(** ** tnc.c: dirtying from the bottom up *)

(** "Go up until parent is dirty": the znode reached and the path, the
    last index recorded first. *)
Fixpoint dirty_cow_bottom_up_rise (k : nat) (znode : nat) (path : list Z) : M (nat * list Z) :=
  match k with
  | O => nofuel
  | S k' =>
      let* c := get in
      match zn_parent (deref c znode) with
      | None => ret (znode, path)
      | Some zp =>
          let n := zn_iip (deref c znode) in
          let path := n :: path in
          if negb (bool_decide (is_Some (zn_cnext (deref c zp)))) && ubifs_zn_dirty (deref c znode)
          then ret (znode, path)
          else dirty_cow_bottom_up_rise k' zp path
      end
  end.

(** "Come back down, dirtying as we go". *)
Fixpoint dirty_cow_bottom_up_descend (k : nat) (znode : nat) (path : list Z) : M nat :=
  match k with
  | O => nofuel
  | S k' =>
      let* c := get in
      let* step :=
        (match zn_parent (deref c znode) with
         | Some zp =>
             match path with
             | [] => oops (* path[-1] *)
             | i :: path' =>
                 let* znode := dirty_cow_znode (ZSlot zp i) in
                 ret (znode, path')
             end
         | None =>
             let* znode := dirty_cow_znode ZRoot in
             ret (znode, path)
         end) in
      let '(znode, path) := step in
      match path with
      | [] => ret znode
      | i :: _ =>
          let* c := get in
          match zbr_znode (zbranch_at (deref c znode) i) with
          | Some child => dirty_cow_bottom_up_descend k' child path
          | None => oops
          end
      end
  end.

Definition dirty_cow_bottom_up (fuel : nat) (znode : nat) : M nat :=
  let* c := get in
  match zbr_znode (zroot c) with
  | None => oops
  | Some root =>
      let* up :=
        (if negb (zn_level (deref c root) =? 0)
         then dirty_cow_bottom_up_rise fuel znode []
         else ret (znode, [])) in
      let '(znode, path) := up in
      dirty_cow_bottom_up_descend fuel znode path
  end.

(** ** tnc.c: lookup *)

(** Modelled from the spec: [ubifs_search_zbranch] of misc.h is not part
    of the sources at hand; it is the binary search of a key among the
    branches of a znode ([bsearch_in_znode]), giving whether the key was
    found and the slot: the slot of the key, or the slot after which the
    key would be inserted (-1 when the key is below the leftmost one). *)
Fixpoint search_zbranch_loop (znode : ubifs_znode) (key : ubifs_key) (k : nat) (beg end_ : Z) : Z * Z :=
  match k with
  | O => (0, end_ - 1)
  | S k' =>
      if beg <? end_ then
        let mid := Z.shiftr (beg + end_) 1 in
        let cmp := keys_cmp key (zbr_key (zbranch_at znode mid)) in
        if 0 <? cmp then search_zbranch_loop znode key k' (mid + 1) end_
        else if cmp <? 0 then search_zbranch_loop znode key k' beg mid
        else (1, mid)
      else (0, end_ - 1)
  end.

Definition ubifs_search_zbranch (znode : ubifs_znode) (key : ubifs_key) : Z * Z :=
  search_zbranch_loop znode key (S (Z.to_nat (zn_child_cnt znode))) 0 (zn_child_cnt znode).

(** The descent of [lookup_level0]: [exact], the zero-level znode and the
    slot. *)
Fixpoint lookup_level0_descend (k : nat) (key : ubifs_key) (znode : nat) : M (Z * nat * Z) :=
  match k with
  | O => nofuel
  | S k' =>
      let* c := get in
      let '(exact, n) := ubifs_search_zbranch (deref c znode) key in
      if zn_level (deref c znode) =? 0 then ret (exact, znode, n)
      else
        let n := if n <? 0 then 0 else n in
        match zbr_znode (zbranch_at (deref c znode) n) with
        | Some child =>
            modify (zn_upd znode (set_zn_time get_seconds)) ;;
            lookup_level0_descend k' key child
        | None =>
            (* znode is not in TNC cache, load it from the media *)
            let* child := load_znode (ZSlot znode n) (Some znode) n in
            lookup_level0_descend k' key child
        end
  end.

(** The first part of [lookup_level0], from the root to the zero-level
    znode: what the search in that znode returned, the znode and the
    slot. *)
Definition lookup_level0_search (fuel : nat) (key : ubifs_key) : M (Z * nat * Z) :=
  let* c := get in
  let* znode :=
    (match zbr_znode (zroot c) with
     | Some znode => ret znode
     | None => load_znode ZRoot None 0
     end) in
  modify (zn_upd znode (set_zn_time get_seconds)) ;;
  lookup_level0_descend fuel key znode.

(** [lookup_level0]: the return code and the values left in [*zn] and
    [*n]. *)
Definition lookup_level0 (fuel : nat) (key : ubifs_key) : M (Z * nat * Z) :=
  let* d := lookup_level0_search fuel key in
  let '(exact, znode, n) := d in
  if negb (exact =? 0) || negb (is_hash_key key) || negb (n =? -1) then ret (exact, znode, n)
  else
    (* We have not found the key and this is a "hashed" key, which may
       collide: look at the left. *)
    let* r := try (tnc_prev fuel znode n) in
    match r with
    | inl err => if err =? - ENOENT then ret (0, znode, -1) else fail err
    | inr (zp, np) =>
        let* c := get in
        if negb (keys_cmp key (zbr_key (zbranch_at (deref c zp) np)) =? 0)
        then ret (0, znode, -1)
        else ret (1, zp, np)
    end.

(** The descent of [lookup_level0_dirty]. *)
Fixpoint lookup_level0_dirty_descend (k : nat) (key : ubifs_key) (znode : nat) : M (Z * nat * Z) :=
  match k with
  | O => nofuel
  | S k' =>
      let* c := get in
      let '(exact, n) := ubifs_search_zbranch (deref c znode) key in
      if zn_level (deref c znode) =? 0 then ret (exact, znode, n)
      else
        let n := if n <? 0 then 0 else n in
        match zbr_znode (zbranch_at (deref c znode) n) with
        | Some _ =>
            modify (zn_upd znode (set_zn_time get_seconds)) ;;
            let* child := dirty_cow_znode (ZSlot znode n) in
            lookup_level0_dirty_descend k' key child
        | None =>
            let* _ := load_znode (ZSlot znode n) (Some znode) n in
            let* child := dirty_cow_znode (ZSlot znode n) in
            lookup_level0_dirty_descend k' key child
        end
  end.

Definition needs_dirtying (c : ubifs_info) (znode : nat) : bool :=
  bool_decide (is_Some (zn_cnext (deref c znode))) || negb (ubifs_zn_dirty (deref c znode)).

Definition lookup_level0_dirty (fuel : nat) (key : ubifs_key) : M (Z * nat * Z) :=
  let* c := get in
  (match zbr_znode (zroot c) with
   | Some _ => ret tt
   | None => let* _ := load_znode ZRoot None 0 in ret tt
   end) ;;
  let* znode := dirty_cow_znode ZRoot in
  modify (zn_upd znode (set_zn_time get_seconds)) ;;
  let* d := lookup_level0_dirty_descend fuel key znode in
  let '(exact, znode, n) := d in
  if negb (exact =? 0) || negb (is_hash_key key) || negb (n =? -1) then ret (exact, znode, n)
  else
    let* r := try (tnc_prev fuel znode n) in
    match r with
    | inl err => if err =? - ENOENT then ret (0, znode, -1) else fail err
    | inr (zp, np) =>
        let* c := get in
        if negb (keys_cmp key (zbr_key (zbranch_at (deref c zp) np)) =? 0)
        then ret (0, znode, -1)
        else
          let* zp :=
            (if needs_dirtying c zp then dirty_cow_bottom_up fuel zp else ret zp) in
          ret (1, zp, np)
    end.

(** [ubifs_tnc_lookup]: the node found. *)
Definition ubifs_tnc_lookup (fuel : nat) (key : ubifs_key) : M ubifs_dent_node :=
  let* r := lookup_level0 fuel key in
  let '(found, znode, n) := r in
  if found =? 0 then fail (- ENOENT)
  else if is_hash_key key then
    (* the leaf-node-cache gets used: the address of the zbranch is passed *)
    tnc_read_node_at (ZSlot znode n)
  else
    let* c := get in
    let zbr := zbranch_at (deref c znode) n in
    match tnc_read_node c zbr with
    | inl err => fail err
    | inr (node, _) => ret node
    end.

Definition do_lookup_nm (fuel : nat) (key : ubifs_key) (nm : qstr) : M ubifs_dent_node :=
  let* r := lookup_level0 fuel key in
  let '(found, znode, n) := r in
  if found =? 0 then fail (- ENOENT)
  else
    let* rc := resolve_collision fuel key znode n nm in
    let '(err, znode, n) := rc in
    if err =? 0 then fail (- ENOENT)
    else
      let* c := get in
      let zbr := zbranch_at (deref c znode) n in
      match tnc_read_node c zbr with
      | inl err => fail err
      | inr (node, _) => ret node
      end.

Definition ubifs_tnc_lookup_nm (fuel : nat) (key : ubifs_key) (nm : qstr) : M ubifs_dent_node :=
  (* We assume that in most of the cases there are no name collisions *)
  let* dent := ubifs_tnc_lookup fuel key in
  let len := d_nlen dent in
  if (q_len nm =? len) && (memcmp (d_name dent) (q_name nm) len =? 0) then ret dent
  else do_lookup_nm fuel key nm.

(** ** tnc.c: insertion *)

(** The loop of [correct_parent_keys]; [key] points to the key in slot 0
    of the znode the function was called for. *)
Fixpoint correct_parent_keys_loop (k : nat) (key : zbr_ref) (znode : nat) : M unit :=
  match k with
  | O => nofuel
  | S k' =>
      let* c := get in
      match zn_parent (deref c znode) with
      | None => oops
      | Some zp =>
          let key1 := ZSlot zp 0 in
          if keys_cmp (zbr_key (zbr_get c key)) (zbr_key (zbr_get c key1)) <? 0 then
            modify (fun c => zbr_upd key1 (set_zbr_key (zbr_key (zbr_get c key))) c) ;;
            let* c := get in
            if negb (bool_decide (is_Some (zn_parent (deref c zp))))
               || negb (zn_iip (deref c zp) =? 0)
            then ret tt
            else correct_parent_keys_loop k' key zp
          else ret tt
      end
  end.

Definition correct_parent_keys (fuel : nat) (znode : nat) : M unit :=
  correct_parent_keys_loop fuel (ZSlot znode 0) znode.

(** One round of the loops of [insert_zbranch] that move the zbranches
    to the right. *)
Definition insert_zbranch_shift (has_level : bool) (znode : nat) (c : ubifs_info) (i : Z) : ubifs_info :=
  let c := zn_upd znode (fun z => zbranch_store i (zbranch_at z (i - 1)) z) c in
  if has_level then
    match zbr_znode (zbranch_at (deref c znode) i) with
    | Some child => zn_upd child (set_zn_iip i) c
    | None => c
    end
  else c.

Definition insert_zbranch (znode : nat) (zbr : ubifs_zbranch) (n : Z) : M unit :=
  let* c := get in
  let has_level := negb (zn_level (deref c znode) =? 0) in
  let child_cnt := zn_child_cnt (deref c znode) in
  (* for (i = znode->child_cnt; i > n; i--) *)
  modify (fun c => foldl (insert_zbranch_shift has_level znode) c
                     (reverse (seqZ (n + 1) (child_cnt - n)))) ;;
  (if has_level then
     match zbr_znode zbr with
     | Some child => modify (zn_upd child (set_zn_iip n))
     | None => ret tt
     end
   else ret tt) ;;
  modify (zn_upd znode (zbranch_store n zbr)) ;;
  modify (zn_upd znode (fun z => set_zn_child_cnt (zn_child_cnt z + 1) z)) ;;
  (* After inserting at slot zero the znode is marked *)
  if n =? 0 then modify (zn_upd znode (set_zn_alt 1)) else ret tt.

(** "Decide where to split": the value of [appending]. *)
Definition tnc_insert_appending (c : ubifs_info) (znode : nat) (key : ubifs_key) (n : Z) (appending : bool) : bool :=
  if (zn_level (deref c znode) =? 0) && (n =? fanout (c_cfg c))
     && (key_type key =? UBIFS_DATA_KEY)
  then
    let key1 := zbr_key (zbranch_at (deref c znode) (n - 1)) in
    if (key_ino key1 =? key_ino key) && (key_type key1 =? UBIFS_DATA_KEY)
       && (key_block key1 =? u32 (key_block key - 1))
    then true else appending
  else appending.

(** One round of the loop of [tnc_insert] that moves zbranches to the
    new znode. *)
Definition tnc_insert_move (znode zn : nat) (keep : Z) (c : ubifs_info) (i : Z) : ubifs_info :=
  let c := zn_upd zn (zbranch_store i (zbranch_at (deref c znode) (keep + i))) c in
  (* Re-parent *)
  if negb (zn_level (deref c zn) =? 0) then
    match zbr_znode (zbranch_at (deref c zn) i) with
    | Some child => zn_upd child (set_zn_iip i) (zn_upd child (set_zn_parent (Some zn)) c)
    | None => c
    end
  else c.

(** "We have to split root znode". *)
Definition tnc_insert_new_root (znode zn : nat) : M unit :=
  let* zi := kzalloc_znode in
  modify (zn_upd zi (set_zn_child_cnt 2)) ;;
  modify (fun c => zn_upd zi (set_zn_level (zn_level (deref c znode) + 1)) c) ;;
  modify (zn_upd zi (fun z => set_zn_flags (set_bit DIRTY_ZNODE (zn_flags z)) z)) ;;
  modify (fun c => set_dirty_zn_cnt (dirty_zn_cnt c + 1) c) ;;
  modify (fun c => zbr_upd (ZSlot zi 0) (set_zbr_key (zbr_key (zbranch_at (deref c znode) 0))) c) ;;
  modify (zbr_upd (ZSlot zi 0) (set_zbr_znode (Some znode))) ;;
  modify (fun c => zbr_upd (ZSlot zi 0)
                     (set_zbr_pos (zbr_lnum (zroot c)) (zbr_offs (zroot c)) (zbr_len (zroot c))) c) ;;
  modify (fun c => zbr_upd (ZSlot zi 1) (set_zbr_key (zbr_key (zbranch_at (deref c zn) 0))) c) ;;
  modify (zbr_upd (ZSlot zi 1) (set_zbr_znode (Some zn))) ;;
  modify (zbr_upd ZRoot (set_zbr_pos 0 0 0)) ;;
  modify (zbr_upd ZRoot (set_zbr_znode (Some zi))) ;;
  modify (zn_upd zn (set_zn_parent (Some zi))) ;;
  modify (zn_upd zn (set_zn_iip 1)) ;;
  modify (zn_upd znode (set_zn_parent (Some zi))) ;;
  modify (zn_upd znode (set_zn_iip 0)).

(** What one pass through the body of [tnc_insert] leaves: the function
    returns, or it jumps back to [again] with a new znode, zbranch, slot
    and [appending]. *)
Definition tnc_insert_again : Type := nat * ubifs_zbranch * Z * bool.

(** The split of the full [znode] in [tnc_insert], from "we have to
    split it" to "Insert new key and branch"; [zp] is the parent read at
    the label [again].  The value is [zn], [zi], [n] and [appending] as
    they are when the new znode is put into the parent. *)
Definition tnc_insert_split (zp : option nat) (znode : nat) (zbr : ubifs_zbranch) (n : Z) (appending : bool) : M (nat * nat * Z * bool) :=
  let* c := get in
  (* the return value of ins_clr_old_idx_znode is not looked at *)
  (if negb (zn_alt (deref c znode) =? 0) then try (ins_clr_old_idx_znode znode) ;; ret tt else ret tt) ;;
  let* zn := kzalloc_znode in
  modify (zn_upd zn (set_zn_parent zp)) ;;
  modify (fun c => zn_upd zn (set_zn_level (zn_level (deref c znode))) c) ;;
  let* c := get in
  (* Decide where to split *)
  let appending := tnc_insert_appending c znode (zbr_key zbr) n appending in
  let keep := if appending then fanout (c_cfg c) else Z.quot (fanout (c_cfg c) + 1) 2 in
  let move := if appending then 0 else fanout (c_cfg c) - keep in
  let into_old := n <? keep in
  let zi := if into_old then znode else zn in
  let move := if into_old then move + 1 else move in
  let n := if into_old then n else n - keep in
  let keep := if into_old then keep - 1 else keep in
  (if into_old then ret tt
   else
     (* Re-parent *)
     if negb (zn_level (deref c zn) =? 0) then
       match zbr_znode zbr with
       | Some child => modify (zn_upd child (set_zn_parent (Some zn)))
       | None => oops
       end
     else ret tt) ;;
  modify (zn_upd zn (fun z => set_zn_flags (set_bit DIRTY_ZNODE (zn_flags z)) z)) ;;
  modify (fun c => set_dirty_zn_cnt (dirty_zn_cnt c + 1) c) ;;
  modify (zn_upd zn (set_zn_child_cnt move)) ;;
  modify (zn_upd znode (set_zn_child_cnt keep)) ;;
  (* Move zbranch *)
  modify (fun c => foldl (tnc_insert_move znode zn keep) c (seqZ 0 move)) ;;
  (* Insert new key and branch *)
  insert_zbranch zi zbr n ;;
  ret (zn, zi, n, appending).

(** The body of [tnc_insert] from the label [again]. *)
Definition tnc_insert_body (fuel : nat) (znode : nat) (zbr : ubifs_zbranch) (n : Z) (appending : bool) : M (loop_exit unit tnc_insert_again) :=
  let* c := get in
  let zp := zn_parent (deref c znode) in
  if zn_child_cnt (deref c znode) <? fanout (c_cfg c) then
    insert_zbranch znode zbr n ;;
    (* Ensure parent's key is correct *)
    let* c := get in
    (if (n =? 0) && bool_decide (is_Some zp) && (zn_iip (deref c znode) =? 0)
     then correct_parent_keys fuel znode else ret tt) ;;
    ret (Return tt)
  else
    (* znode does not have more empty slots and we have to split it *)
    let* s := tnc_insert_split zp znode zbr n appending in
    let '(zn, zi, n, appending) := s in
    (* Insert new znode (produced by spitting) into the parent *)
    match zp with
    | Some zp =>
        let i := n in
        let* c := get in
        (* Locate insertion point *)
        let n := zn_iip (deref c znode) + 1 in
        let appending := if appending && negb (n =? fanout (c_cfg c)) then false else appending in
        (if (i =? 0) && bool_decide (zi = znode) && (zn_iip (deref c znode) =? 0)
         then correct_parent_keys fuel znode else ret tt) ;;
        (* Tail recursion *)
        let* c := get in
        let zbr := set_zbr_pos 0 0 0
                     (set_zbr_znode (Some zn)
                        (set_zbr_key (zbr_key (zbranch_at (deref c zn) 0)) zbr)) in
        ret (Break (zp, zbr, n, appending))
    | None =>
        tnc_insert_new_root znode zn ;;
        ret (Return tt)
    end.

Fixpoint tnc_insert_loop (k fuel : nat) (znode : nat) (zbr : ubifs_zbranch) (n : Z) (appending : bool) : M unit :=
  match k with
  | O => nofuel
  | S k' =>
      let* r := tnc_insert_body fuel znode zbr n appending in
      match r with
      | Return _ => ret tt
      | Break (znode, zbr, n, appending) => tnc_insert_loop k' fuel znode zbr n appending
      end
  end.

Definition tnc_insert (fuel : nat) (znode : nat) (zbr : ubifs_zbranch) (n : Z) : M unit :=
  tnc_insert_loop fuel fuel znode zbr n false.

(** The zbranch [ubifs_tnc_add] and [ubifs_tnc_add_nm] build on their
    stack ([znode] and [leaf] share their storage). *)
Definition new_zbranch (key : ubifs_key) (lnum offs len : Z) : ubifs_zbranch :=
  mk_zbr key None lnum offs len None.

(** [lnc_free(zbr); err = ubifs_add_dirt(c, zbr->lnum, zbr->len);
    zbr->lnum = lnum; zbr->offs = offs; zbr->len = len]; the value is
    [err]. *)
Definition replace_zbranch (r : zbr_ref) (lnum offs len : Z) : M Z :=
  modify (zbr_upd r lnc_free) ;;
  let* c := get in
  let* err := add_dirt (zbr_lnum (zbr_get c r)) (zbr_len (zbr_get c r)) in
  modify (zbr_upd r (set_zbr_pos lnum offs len)) ;;
  ret err.

Definition ubifs_tnc_add (fuel : nat) (key : ubifs_key) (lnum offs len : Z) : M unit :=
  let* r := lookup_level0_dirty fuel key in
  let '(found, znode, n) := r in
  if found =? 0 then
    tnc_insert fuel znode (new_zbranch key lnum offs len) (n + 1)
  else
    let* err := replace_zbranch (ZSlot znode n) lnum offs len in
    check err.

Definition ubifs_tnc_replace (fuel : nat) (key : ubifs_key) (old_lnum old_offs lnum offs len : Z) : M unit :=
  let* r := lookup_level0_dirty fuel key in
  let '(found, znode, n) := r in
  let* found :=
    (if found =? 1 then
       let* c := get in
       let zbr := zbranch_at (deref c znode) n in
       if (zbr_lnum zbr =? old_lnum) && (zbr_offs zbr =? old_offs) then
         modify (zbr_upd (ZSlot znode n) lnc_free) ;;
         let* err := add_dirt (zbr_lnum zbr) (zbr_len zbr) in
         check err ;;
         modify (zbr_upd (ZSlot znode n) (set_zbr_pos lnum offs len)) ;;
         ret 1
       else if is_hash_key key then
         let* rc := resolve_collision_directly fuel key znode n old_lnum old_offs in
         let '(found, znode, n) := rc in
         if negb (found =? 0) then
           (* Ensure the znode is dirtied *)
           let* c := get in
           let* znode :=
             (if needs_dirtying c znode then dirty_cow_bottom_up fuel znode else ret znode) in
           modify (zbr_upd (ZSlot znode n) lnc_free) ;;
           let* c := get in
           let zbr := zbranch_at (deref c znode) n in
           let* err := add_dirt (zbr_lnum zbr) (zbr_len zbr) in
           check err ;;
           modify (zbr_upd (ZSlot znode n) (set_zbr_pos lnum offs len)) ;;
           ret found
         else ret found
       else ret 0
     else ret found) in
  if found =? 0 then
    let* err := add_dirt lnum len in
    check err
  else ret tt.

Definition ubifs_tnc_add_nm (fuel : nat) (key : ubifs_key) (lnum offs len : Z) (nm : qstr) : M unit :=
  let* r := lookup_level0_dirty fuel key in
  let '(found, znode, n) := r in
  let* c := get in
  if found =? 1 then
    let* rc :=
      (if replaying c then fallible_resolve_collision fuel key znode n nm
       else resolve_collision fuel key znode n nm) in
    let '(found, znode, n) := rc in
    (* Ensure the znode is dirtied *)
    let* c := get in
    let* znode :=
      (if needs_dirtying c znode then dirty_cow_bottom_up fuel znode else ret znode) in
    if found =? 1 then
      let* err := replace_zbranch (ZSlot znode n) lnum offs len in
      check err
    else
      tnc_insert fuel znode (new_zbranch key lnum offs len) (n + 1)
  else
    tnc_insert fuel znode (new_zbranch key lnum offs len) (n + 1).

(** ** tnc.c: deletion *)

(** [if (znode->cnext) { set OBSOLETE, count it as clean } else
    kfree(znode)]. *)
Definition obsolete_or_free (znode : nat) : M unit :=
  let* c := get in
  if bool_decide (is_Some (zn_cnext (deref c znode))) then
    modify (zn_upd znode (fun z => set_zn_flags (set_bit OBSOLETE_ZNODE (zn_flags z)) z)) ;;
    modify (fun c => set_clean_zn_cnt (clean_zn_cnt c + 1) c) ;;
    modify (fun c => set_ubifs_clean_zn_cnt (ubifs_clean_zn_cnt c + 1) c)
  else kfree_znode znode.

(** The [do ... while (znode->child_cnt == 1)] loop of [tnc_delete]: the
    znode it stops at and the slot [n] to remove there. *)
Fixpoint tnc_delete_rise (k : nat) (znode : nat) : M (nat * Z) :=
  match k with
  | O => nofuel
  | S k' =>
      let* c := get in
      let zp := zn_parent (deref c znode) in
      let n := zn_iip (deref c znode) in
      modify (fun c => set_dirty_zn_cnt (dirty_zn_cnt c - 1) c) ;;
      insert_old_idx_znode znode ;;
      obsolete_or_free znode ;;
      match zp with
      | None => oops (* znode->child_cnt of NULL *)
      | Some zp =>
          let* c := get in
          if zn_child_cnt (deref c zp) =? 1 then tnc_delete_rise k' zp
          else ret (zp, n)
      end
  end.

(** The loop of [tnc_delete] that collapses a root with one child. *)
Fixpoint tnc_delete_collapse (k : nat) (znode : nat) : M unit :=
  match k with
  | O => nofuel
  | S k' =>
      let* c := get in
      if (zn_child_cnt (deref c znode) =? 1) && negb (zn_level (deref c znode) =? 0) then
        let zp := znode in
        let zbr := ZSlot znode 0 in
        let* _ := get_znode znode 0 in
        let* znode := dirty_cow_znode zbr in
        modify (zn_upd znode (set_zn_parent None)) ;;
        modify (zn_upd znode (set_zn_iip 0)) ;;
        let* c := get in
        (if negb (zbr_len (zroot c) =? 0)
         then insert_old_idx (zbr_lnum (zroot c)) (zbr_offs (zroot c))
         else ret tt) ;;
        modify (fun c => zbr_upd ZRoot
                           (set_zbr_pos (zbr_lnum (zbr_get c zbr)) (zbr_offs (zbr_get c zbr))
                              (zbr_len (zbr_get c zbr))) c) ;;
        modify (zbr_upd ZRoot (set_zbr_znode (Some znode))) ;;
        modify (fun c => set_dirty_zn_cnt (dirty_zn_cnt c - 1) c) ;;
        obsolete_or_free zp ;;
        tnc_delete_collapse k' znode
      else ret tt
  end.

(** One round of the loop of [tnc_delete] that closes the gap in a znode
    above level zero. *)
Definition tnc_delete_shift (znode : nat) (c : ubifs_info) (i : Z) : ubifs_info :=
  let c := zn_upd znode (fun z => zbranch_store i (zbranch_at z (i + 1)) z) c in
  match zbr_znode (zbranch_at (deref c znode) i) with
  | Some child => zn_upd child (set_zn_iip i) c
  | None => c
  end.

Definition tnc_delete (fuel : nat) (znode : nat) (n : Z) : M unit :=
  (* Delete without merge for now *)
  modify (zbr_upd (ZSlot znode n) lnc_free) ;;
  let* c := get in
  let zbr := zbranch_at (deref c znode) n in
  let* err := add_dirt (zbr_lnum zbr) (zbr_len zbr) in
  check err ;;
  (* We do not "gap" zbranch slots *)
  let* c := get in
  modify (fun c => foldl (fun c i => zn_upd znode (fun z => zbranch_store i (zbranch_at z (i + 1)) z) c)
                     c (seqZ n (zn_child_cnt (deref c znode) - 1 - n))) ;;
  modify (zn_upd znode (fun z => set_zn_child_cnt (zn_child_cnt z - 1) z)) ;;
  let* c := get in
  if 0 <? zn_child_cnt (deref c znode) then ret tt
  else
    (* This was the last zbranch, we have to delete this znode from the
       parent *)
    let* r := tnc_delete_rise fuel znode in
    let '(znode, n) := r in
    (* Remove from znode, entry n - 1 *)
    modify (zn_upd znode (fun z => set_zn_child_cnt (zn_child_cnt z - 1) z)) ;;
    let* c := get in
    modify (fun c => foldl (tnc_delete_shift znode) c (seqZ n (zn_child_cnt (deref c znode) - n))) ;;
    (* If this is the root and it has only 1 child then collapse the tree *)
    let* c := get in
    match zn_parent (deref c znode) with
    | None => tnc_delete_collapse fuel znode
    | Some _ => ret tt
    end.

Definition ubifs_tnc_remove (fuel : nat) (key : ubifs_key) : M unit :=
  let* r := lookup_level0_dirty fuel key in
  let '(found, znode, n) := r in
  if found =? 1 then tnc_delete fuel znode n else ret tt.

Definition ubifs_tnc_remove_nm (fuel : nat) (key : ubifs_key) (nm : qstr) : M unit :=
  let* r := lookup_level0_dirty fuel key in
  let '(err, znode, n) := r in
  if negb (err =? 0) then
    let* c := get in
    let* rc :=
      (if replaying c then fallible_resolve_collision fuel key znode n nm
       else resolve_collision fuel key znode n nm) in
    let '(err, znode, n) := rc in
    if negb (err =? 0) then
      (* Ensure the znode is dirtied *)
      let* c := get in
      let* znode :=
        (if needs_dirtying c znode then dirty_cow_bottom_up fuel znode else ret znode) in
      tnc_delete fuel znode n
    else ret tt
  else ret tt.

Definition key_in_range (key from_key to_key : ubifs_key) : bool :=
  if keys_cmp key from_key <? 0 then false
  else if 0 <? keys_cmp key to_key then false
  else true.

(** "Remove all keys in range except the first": the first loop, from
    slot [i] on; its value is [k] when the loop is left. *)
Fixpoint remove_range_dirt (j : nat) (znode : nat) (from_key to_key : ubifs_key) (i k : Z) : M Z :=
  match j with
  | O => ret k
  | S j' =>
      let* c := get in
      if i <? zn_child_cnt (deref c znode) then
        let key := zbr_key (zbranch_at (deref c znode) i) in
        if negb (key_in_range key from_key to_key) then ret k
        else
          modify (zbr_upd (ZSlot znode i) lnc_free) ;;
          let* c := get in
          let zbr := zbranch_at (deref c znode) i in
          let* err := add_dirt (zbr_lnum zbr) (zbr_len zbr) in
          check err ;;
          remove_range_dirt j' znode from_key to_key (i + 1) (k + 1)
      else ret k
  end.

(** One pass through the loop of [ubifs_tnc_remove_range]: [Return] when
    the function is left, [Break] to go round again. *)
Definition remove_range_body (fuel : nat) (from_key to_key : ubifs_key) : M (loop_exit unit unit) :=
  (* Find first level 0 znode that contains keys to remove *)
  let* r := lookup_level0 fuel from_key in
  let '(err, znode, n) := r in
  let* pos :=
    (if negb (err =? 0) then ret (Some (znode, n))
     else
       let* nx := try (tnc_next fuel znode n) in
       match nx with
       | inl err => if err =? - ENOENT then ret None else fail err
       | inr (znode, n) =>
           let* c := get in
           let key := zbr_key (zbranch_at (deref c znode) n) in
           if negb (key_in_range key from_key to_key) then ret None
           else ret (Some (znode, n))
       end) in
  match pos with
  | None => ret (Return tt)
  | Some (znode, n) =>
      (* Ensure the znode is dirtied *)
      let* c := get in
      let* znode :=
        (if needs_dirtying c znode then dirty_cow_bottom_up fuel znode else ret znode) in
      (* Remove all keys in range except the first *)
      let* c := get in
      let* k := remove_range_dirt (Z.to_nat (zn_child_cnt (deref c znode))) znode from_key to_key (n + 1) 0 in
      (if negb (k =? 0) then
         let* c := get in
         modify (fun c => foldl (fun c i => zn_upd znode (fun z => zbranch_store (i - k) (zbranch_at z i) z) c)
                            c (seqZ (n + 1 + k) (zn_child_cnt (deref c znode) - (n + 1 + k)))) ;;
         modify (zn_upd znode (fun z => set_zn_child_cnt (zn_child_cnt z - k) z))
       else ret tt) ;;
      (* Now delete the first *)
      tnc_delete fuel znode n ;;
      ret (Break tt)
  end.

Fixpoint remove_range_loop (k fuel : nat) (from_key to_key : ubifs_key) : M unit :=
  match k with
  | O => nofuel
  | S k' =>
      let* r := remove_range_body fuel from_key to_key in
      match r with
      | Return _ => ret tt
      | Break _ => remove_range_loop k' fuel from_key to_key
      end
  end.

Definition ubifs_tnc_remove_range (fuel : nat) (from_key to_key : ubifs_key) : M unit :=
  remove_range_loop fuel fuel from_key to_key.

(** The loop of [ubifs_tnc_next_ent] from the label [again]: entries
    whose [inum] is zero are deletion entries and are skipped. *)
Fixpoint next_ent_loop (k fuel : nat) (key : ubifs_key) (znode : nat) (n : Z) : M ubifs_dent_node :=
  match k with
  | O => nofuel
  | S k' =>
      (* Now find next entry *)
      let* nx := tnc_next fuel znode n in
      let '(znode, n) := nx in
      let* c := get in
      let dkey := zbr_key (zbranch_at (deref c znode) n) in
      if negb (key_ino dkey =? key_ino key) || negb (key_type dkey =? key_type key)
      then fail (- ENOENT)
      else
        let* dent := tnc_read_node_at (ZSlot znode n) in
        if d_inum dent =? 0 then next_ent_loop k' fuel key znode n
        else ret dent
  end.

Definition ubifs_tnc_next_ent (fuel : nat) (key : ubifs_key) (nm : qstr) : M ubifs_dent_node :=
  let* r := lookup_level0 fuel key in
  let '(err, znode, n) := r in
  (* Handle collisions *)
  let* pos :=
    (if negb (err =? 0) then
       let* rc := resolve_collision fuel key znode n nm in
       let '(_, znode, n) := rc in
       ret (znode, n)
     else ret (znode, n)) in
  let '(znode, n) := pos in
  next_ent_loop fuel fuel key znode n.

(** The loop of [ubifs_tnc_remove_ino] over the extended attribute
    entries. *)
Fixpoint remove_ino_xattrs (k fuel : nat) (key1 : ubifs_key) (nm : qstr) : M unit :=
  match k with
  | O => nofuel
  | S k' =>
      let* r := try (ubifs_tnc_next_ent fuel key1 nm) in
      match r with
      | inl err => if err =? - ENOENT then ret tt else fail err
      | inr xent =>
          let xattr_inum := d_inum xent in
          let nm := mk_qstr (d_name xent) (d_nlen xent) in
          ubifs_tnc_remove_nm fuel key1 nm ;;
          ubifs_tnc_remove_range fuel (lowest_ino_key xattr_inum) (highest_ino_key xattr_inum) ;;
          remove_ino_xattrs k' fuel (d_key xent) nm
      end
  end.

Definition ubifs_tnc_remove_ino (fuel : nat) (inum : Z) : M unit :=
  (* Walk all extended attribute entries and remove them together with
     corresponding extended attribute inodes *)
  remove_ino_xattrs fuel fuel (lowest_xent_key inum) (mk_qstr EmptyString 0) ;;
  ubifs_tnc_remove_range fuel (lowest_ino_key inum) (highest_ino_key inum).

(** ** tnc.c: the location of a node, and the questions of the garbage
    collector *)

(** [destroy_old_idx]: every node of the tree is freed and the tree is
    left empty. *)
Definition destroy_old_idx : M unit := modify (set_old_idx RbNil).

(** [ubifs_tnc_locate]: the node found and the values left in [*lnum]
    and [*offs]. *)
Definition ubifs_tnc_locate (fuel : nat) (key : ubifs_key) : M (ubifs_dent_node * Z * Z) :=
  let* r := lookup_level0 fuel key in
  let '(found, znode, n) := r in
  if found =? 0 then fail (- ENOENT)
  else if is_hash_key key then
    (* the leaf-node-cache gets used: the address of the zbranch is passed *)
    let* c := get in
    let zt := zbranch_at (deref c znode) n in
    let* node := tnc_read_node_at (ZSlot znode n) in
    ret (node, zbr_lnum zt, zbr_offs zt)
  else
    let* c := get in
    let zbr := zbranch_at (deref c znode) n in
    match tnc_read_node c zbr with
    | inl err => fail err
    | inr (node, _) => ret (node, zbr_lnum zbr, zbr_offs zbr)
    end.

(** "Now go down the rightmost branch to 'level'". *)
Fixpoint left_znode_down (k : nat) (znode : nat) (level : Z) : M nat :=
  match k with
  | O => nofuel
  | S k' =>
      let* c := get in
      if negb (zn_level (deref c znode) =? level) then
        let* znode := get_znode znode (zn_child_cnt (deref c znode) - 1) in
        left_znode_down k' znode level
      else ret znode
  end.

(** "Go up until we can go left"; [None] is [NULL]. *)
Fixpoint left_znode_up (k fuel : nat) (znode : nat) (level : Z) : M (option nat) :=
  match k with
  | O => nofuel
  | S k' =>
      let* c := get in
      let n := zn_iip (deref c znode) - 1 in
      match zn_parent (deref c znode) with
      | None => ret None
      | Some zp =>
          if 0 <=? n then
            let* znode := get_znode zp n in
            let* znode := left_znode_down fuel znode level in
            ret (Some znode)
          else left_znode_up k' fuel zp level
      end
  end.

Definition left_znode (fuel : nat) (znode : nat) : M (option nat) :=
  let* c := get in
  left_znode_up fuel fuel znode (zn_level (deref c znode)).

(** "Now go down the leftmost branch to 'level'". *)
Fixpoint right_znode_down (k : nat) (znode : nat) (level : Z) : M nat :=
  match k with
  | O => nofuel
  | S k' =>
      let* c := get in
      if negb (zn_level (deref c znode) =? level) then
        let* znode := get_znode znode 0 in
        right_znode_down k' znode level
      else ret znode
  end.

(** "Go up until we can go right". *)
Fixpoint right_znode_up (k fuel : nat) (znode : nat) (level : Z) : M (option nat) :=
  match k with
  | O => nofuel
  | S k' =>
      let* c := get in
      let n := zn_iip (deref c znode) + 1 in
      match zn_parent (deref c znode) with
      | None => ret None
      | Some zp =>
          if n <? zn_child_cnt (deref c zp) then
            let* znode := get_znode zp n in
            let* znode := right_znode_down fuel znode level in
            ret (Some znode)
          else right_znode_up k' fuel zp level
      end
  end.

Definition right_znode (fuel : nat) (znode : nat) : M (option nat) :=
  let* c := get in
  right_znode_up fuel fuel znode (zn_level (deref c znode)).

Definition at_position (zbr : ubifs_zbranch) (lnum offs : Z) : bool :=
  (zbr_lnum zbr =? lnum) && (zbr_offs zbr =? offs).

(** The descent of [lookup_znode] to the level above [level]: [Return]
    when the function returns [NULL] from the loop, [Break] with the
    znode and the slot. *)
Fixpoint lookup_znode_descend (k fuel : nat) (key : ubifs_key) (level : Z) (znode : nat) : M (loop_exit unit (nat * Z)) :=
  match k with
  | O => nofuel
  | S k' =>
      let* c := get in
      let n := (ubifs_search_zbranch (deref c znode) key).2 in
      let* pos :=
        (if n <? 0 then
           (* look left before giving up *)
           let* l := left_znode fuel znode in
           match l with
           | None => ret None
           | Some znode =>
               let* c := get in
               ret (Some (znode, (ubifs_search_zbranch (deref c znode) key).2))
           end
         else ret (Some (znode, n))) in
      match pos with
      | None => ret (Return tt)
      | Some (znode, n) =>
          let* c := get in
          if zn_level (deref c znode) =? level + 1 then ret (Break (znode, n))
          else
            let* znode := get_znode znode n in
            lookup_znode_descend k' fuel key level znode
      end
  end.

(** The "look left" loop of [lookup_znode]: the znode found, or [None]
    at the [break]. *)
Fixpoint lookup_znode_left (k fuel : nat) (key : ubifs_key) (lnum offs : Z) (znode : nat) (n : Z) : M (option nat) :=
  match k with
  | O => nofuel
  | S k' =>
      (* Move one branch to the left *)
      let* pos :=
        (if negb (n =? 0) then ret (Some (znode, n - 1))
         else
           let* l := left_znode fuel znode in
           match l with
           | None => ret None
           | Some znode =>
               let* c := get in
               ret (Some (znode, zn_child_cnt (deref c znode) - 1))
           end) in
      match pos with
      | None => ret None
      | Some (znode, n) =>
          let* c := get in
          let zbr := zbranch_at (deref c znode) n in
          (* Check it *)
          if at_position zbr lnum offs then
            let* zn := get_znode znode n in ret (Some zn)
          else if keys_cmp (zbr_key zbr) key <? 0 then ret None
          else lookup_znode_left k' fuel key lnum offs znode n
      end
  end.

(** The "look right" loop of [lookup_znode]. *)
Fixpoint lookup_znode_right (k fuel : nat) (key : ubifs_key) (lnum offs : Z) (znode : nat) (n : Z) : M (option nat) :=
  match k with
  | O => nofuel
  | S k' =>
      (* Move one branch to the right *)
      let* c := get in
      let* pos :=
        (if zn_child_cnt (deref c znode) <=? n + 1 then
           let* r := right_znode fuel znode in
           match r with
           | None => ret None
           | Some znode => ret (Some (znode, 0))
           end
         else ret (Some (znode, n + 1))) in
      match pos with
      | None => ret None
      | Some (znode, n) =>
          let* c := get in
          let zbr := zbranch_at (deref c znode) n in
          (* Check it *)
          if at_position zbr lnum offs then
            let* zn := get_znode znode n in ret (Some zn)
          else if 0 <? keys_cmp (zbr_key zbr) key then ret None
          else lookup_znode_right k' fuel key lnum offs znode n
      end
  end.

(** [lookup_znode]: the znode found, [None] for [NULL]. *)
Definition lookup_znode (fuel : nat) (key : ubifs_key) (level lnum offs : Z) : M (option nat) :=
  (* The arguments have probably been read off flash, so don't assume
     they are valid. *)
  if level <? 0 then fail (- EINVAL)
  else
    (* Get the root znode *)
    let* c := get in
    let* znode :=
      (match zbr_znode (zroot c) with
       | Some znode => ret znode
       | None => load_znode ZRoot None 0
       end) in
    let* c := get in
    (* Check if it is the one we are looking for *)
    if at_position (zroot c) lnum offs then ret (Some znode)
    (* Descend to the parent level i.e. (level + 1) *)
    else if zn_level (deref c znode) <=? level then ret None
    else
      let* d := lookup_znode_descend fuel fuel key level znode in
      match d with
      | Return _ => ret None
      | Break (znode, n) =>
          let* c := get in
          (* Check if the child is the one we are looking for *)
          if at_position (zbranch_at (deref c znode) n) lnum offs then
            let* zn := get_znode znode n in ret (Some zn)
          (* If the key is unique, there is nowhere else to look *)
          else if negb (is_hash_key key) then ret None
          else
            let* l := lookup_znode_left fuel fuel key lnum offs znode n in
            match l with
            | Some zn => ret (Some zn)
            | None => lookup_znode_right fuel fuel key lnum offs znode n
            end
      end.

(** [is_idx_node_in_tnc]: 0 when the index node is not referred to, 1
    when its znode is dirty, 2 when it is clean. *)
Definition is_idx_node_in_tnc (fuel : nat) (key : ubifs_key) (level lnum offs : Z) : M Z :=
  let* r := lookup_znode fuel key level lnum offs in
  match r with
  | None => ret 0
  | Some znode =>
      let* c := get in
      ret (if ubifs_zn_dirty (deref c znode) then 1 else 2)
  end.

(** The "look left" loop of [is_leaf_node_in_tnc]: [true] when the node
    was found, [false] at the [break]. *)
Fixpoint is_leaf_node_in_tnc_left (k fuel : nat) (key : ubifs_key) (lnum offs : Z) (znode : nat) (n : Z) : M bool :=
  match k with
  | O => nofuel
  | S k' =>
      let* r := try (tnc_prev fuel znode n) in
      match r with
      | inl err => if err =? - ENOENT then ret false else fail err
      | inr (znode, n) =>
          let* c := get in
          let zbr := zbranch_at (deref c znode) n in
          if negb (keys_cmp key (zbr_key zbr) =? 0) then ret false
          else if (lnum =? zbr_lnum zbr) && (offs =? zbr_offs zbr) then ret true
          else is_leaf_node_in_tnc_left k' fuel key lnum offs znode n
      end
  end.

(** The "look right" loop of [is_leaf_node_in_tnc]; its value is what
    the function returns. *)
Fixpoint is_leaf_node_in_tnc_right (k fuel : nat) (key : ubifs_key) (lnum offs : Z) (znode : nat) (n : Z) : M Z :=
  match k with
  | O => nofuel
  | S k' =>
      let* r := try (tnc_next fuel znode n) in
      match r with
      | inl err => if err =? - ENOENT then ret 0 else fail err
      | inr (znode, n) =>
          let* c := get in
          let zbr := zbranch_at (deref c znode) n in
          if negb (keys_cmp key (zbr_key zbr) =? 0) then ret 0
          else if (lnum =? zbr_lnum zbr) && (offs =? zbr_offs zbr) then ret 1
          else is_leaf_node_in_tnc_right k' fuel key lnum offs znode n
      end
  end.

(** [is_leaf_node_in_tnc]: 1 when the node is referred to, 0 when it is
    not. *)
Definition is_leaf_node_in_tnc (fuel : nat) (key : ubifs_key) (lnum offs : Z) : M Z :=
  let unique := negb (is_hash_key key) in
  let* r := lookup_level0 fuel key in
  let '(found, znode, n) := r in
  if found =? 0 then ret 0
  else
    let* c := get in
    let zbr := zbranch_at (deref c znode) n in
    if (lnum =? zbr_lnum zbr) && (offs =? zbr_offs zbr) then ret 1 (* Found it *)
    else if unique then ret 0
    else
      (* Because the key is not unique, we have to look left and right
         as well *)
      let* l := is_leaf_node_in_tnc_left fuel fuel key lnum offs znode n in
      if l then ret 1
      else is_leaf_node_in_tnc_right fuel fuel key lnum offs znode n.

(** [ubifs_tnc_has_node]: 1 when the node is in the TNC, 0 when it is
    not. *)
Definition ubifs_tnc_has_node (fuel : nat) (key : ubifs_key) (level lnum offs : Z) (is_idx : bool) : M Z :=
  if is_idx then
    let* err := is_idx_node_in_tnc fuel key level lnum offs in
    if err =? 1 then ret 0 (* The index node was found but it was dirty *)
    else if err =? 2 then ret 1 (* The index node was found and it was clean *)
    else if negb (err =? 0) then oops (* BUG_ON(err != 0) *)
    else ret err
  else is_leaf_node_in_tnc fuel key lnum offs.

(** [ubifs_dirty_idx_node]. *)
Definition ubifs_dirty_idx_node (fuel : nat) (key : ubifs_key) (level lnum offs : Z) : M unit :=
  let* r := lookup_znode fuel key level lnum offs in
  match r with
  | None => ret tt
  | Some znode =>
      let* _ := dirty_cow_bottom_up fuel znode in
      ret tt
  end.

(** ** replay.c *)

(** A call of a collaborator on the state of the subsystems around. *)
Definition on_ext {A} (f : ext_t -> A * ext_t) : M A :=
  fun c => let '(a, e) := f (ext c) in (Val a, set_ext e c).

Definition set_bud_lprops (r : replay_entry) : M unit :=
  let* l := on_ext (fun e => ubifs_lpt_lookup_dirty e (r_lnum r)) in
  match l with
  | inl err => fail err
  | inr lp =>
      let* c := get in
      let dirty := lp_dirty lp in
      let dirty :=
        if (r_offs r =? 0)
           && (negb (lp_free lp =? leb_size (c_cfg c)) || negb (lp_dirty lp =? 0))
        then dirty - (leb_size (c_cfg c) - lp_free lp)
        else dirty in
      let* l' := on_ext (fun e => ubifs_change_lp e lp (r_free r) (dirty + r_dirty r)
                                    (Z.lor (lp_flags lp) LPROPS_TAKEN) 0) in
      match l' with
      | inl err => fail err
      | inr _ => ret tt
      end
  end.

(** Modelled from the spec: the tree of buds of log.c is not part of the
    sources at hand; [ubifs_search_bud] finds the bud of a LEB, if there
    is one, and [ubifs_add_bud] adds a bud. *)
Definition ubifs_search_bud (c : ubifs_info) (lnum : Z) : option ubifs_bud :=
  find (fun b => bud_lnum b =? lnum) (buds c).

Definition ubifs_add_bud (bud : ubifs_bud) : M unit :=
  modify (fun c => set_buds (bud :: buds c) c).

Definition trun_remove_range (fuel : nat) (r : replay_entry) : M unit :=
  let min_blk := u32 (Z.quot (r_new_size r) UBIFS_BLOCK_SIZE) in
  let min_blk :=
    if negb (Z.land (r_new_size r) (UBIFS_BLOCK_SIZE - 1) =? 0) then u32 (min_blk + 1)
    else min_blk in
  let max_blk := u32 (Z.quot (r_old_size r) UBIFS_BLOCK_SIZE) in
  let max_blk :=
    if Z.land (r_old_size r) (UBIFS_BLOCK_SIZE - 1) =? 0 then u32 (max_blk - 1)
    else max_blk in
  let ino := key_ino (r_key r) in
  let min_key := data_key_init ino min_blk in
  let max_key := data_key_init ino max_blk in
  ubifs_tnc_remove_range fuel min_key max_key.

Definition apply_replay_entry (fuel : nat) (r : replay_entry) : M unit :=
  let deletion := negb (Z.land (r_flags r) REPLAY_DELETION =? 0) in
  (* Set c->replay_sqnum to help fallible_read_node() identify dangling
     branches *)
  modify (set_replay_sqnum (r_sqnum r)) ;;
  if negb (Z.land (r_flags r) REPLAY_REF =? 0) then set_bud_lprops r
  else if is_hash_key (r_key r) then
    if deletion then ubifs_tnc_remove_nm fuel (r_key r) (r_nm r)
    else ubifs_tnc_add_nm fuel (r_key r) (r_lnum r) (r_offs r) (r_len r) (r_nm r)
  else
    (if deletion then
       if key_type (r_key r) =? UBIFS_INO_KEY then ubifs_tnc_remove_ino fuel (key_ino (r_key r))
       else if key_type (r_key r) =? UBIFS_TRUN_KEY then trun_remove_range fuel r
       else ubifs_tnc_remove fuel (r_key r)
     else ubifs_tnc_add fuel (r_key r) (r_lnum r) (r_offs r) (r_len r)) ;;
    let* c := get in
    if need_recovery (c_cfg c) then
      let* err := on_ext (fun e => ubifs_recover_size_accum e (r_key r) deletion (r_new_size r)) in
      check err
    else ret tt.

Definition destroy_replay_tree : M unit := modify (set_replay_tree RbNil).

(** The loop of [apply_replay_tree] over the entries from [rb_first] on
    by [rb_next]. *)
Fixpoint apply_replay_entries (fuel : nat) (rs : list replay_entry) : M unit :=
  match rs with
  | [] => ret tt
  | r :: rs' => apply_replay_entry fuel r ;; apply_replay_entries fuel rs'
  end.

Definition apply_replay_tree (fuel : nat) : M unit :=
  let* c := get in
  apply_replay_entries fuel (rb_inorder (replay_tree c)).

(** The descent the three insertion functions make through the replay
    tree, which is ordered by sequence number, and the linking of the new
    entry; [None] when an entry with this sequence number is found. *)
Fixpoint replay_tree_link (r : replay_entry) (t : rb_tree replay_entry) : option (rb_tree replay_entry) :=
  match t with
  | RbNil => Some (rb_new_node r)
  | RbNode col lt x rt =>
      if r_sqnum r <? r_sqnum x then (fun lt' => RbNode col lt' x rt) <$> replay_tree_link r lt
      else if r_sqnum x <? r_sqnum r then (fun rt' => RbNode col lt x rt') <$> replay_tree_link r rt
      else None
  end.

Definition note_highest_inum (key : ubifs_key) : M unit :=
  modify (fun c => if highest_inum c <=? key_ino key then set_highest_inum (key_ino key) c else c).

(** [insert_node]; the value is [*used] afterwards. *)
Definition insert_node (lnum offs len : Z) (key : ubifs_key) (sqnum : Z) (deletion : bool) (used : Z) (old_size new_size : Z) : M Z :=
  note_highest_inum key ;;
  let* c := get in
  let r := mk_replay_entry lnum offs len sqnum (if deletion then REPLAY_DELETION else 0)
             key (RSizes old_size new_size) in
  match replay_tree_link r (replay_tree c) with
  | None => fail (- EINVAL) (* duplicate sqnum in replay *)
  | Some t =>
      modify (set_replay_tree (rb_insert_color _ t)) ;;
      ret (if deletion then used else used + ALIGN len 8)
  end.

(** [insert_dent]; the value is [*used] afterwards. *)
Definition insert_dent (lnum offs len : Z) (key : ubifs_key) (name : string) (nlen : Z) (sqnum : Z) (deletion : bool) (used : Z) : M Z :=
  note_highest_inum key ;;
  let* c := get in
  let nbuf := String.substring 0 (Z.to_nat nlen) name in
  let r := mk_replay_entry lnum offs len sqnum (if deletion then REPLAY_DELETION else 0)
             key (RName (mk_qstr nbuf nlen)) in
  match replay_tree_link r (replay_tree c) with
  | None => fail (- EINVAL) (* duplicate sqnum in replay *)
  | Some t =>
      modify (set_replay_tree (rb_insert_color _ t)) ;;
      ret (if deletion then used else used + ALIGN len 8)
  end.

Definition insert_ref_node (lnum offs : Z) (sqnum : Z) (free dirty : Z) : M unit :=
  let key := highest_ino_key (u32 (-1)) in
  let* c := get in
  let r := mk_replay_entry lnum offs 0 sqnum REPLAY_REF key (RBud free dirty) in
  match replay_tree_link r (replay_tree c) with
  | None => fail (- EINVAL) (* duplicate sqnum in r *)
  | Some t => modify (set_replay_tree (rb_insert_color _ t))
  end.

Definition note_max_sqnum (sqnum : Z) : M unit :=
  modify (fun c => if max_sqnum c <? sqnum then set_max_sqnum sqnum c else c).

(** The body of the loop of [replay_bud] for one scanned node; the value
    is [used] afterwards.  Every jump to [out_dump] is [-EINVAL]. *)
Definition replay_bud_node (lnum : Z) (snod : ubifs_scan_node) (used : Z) : M Z :=
  if SQNUM_WATERMARK <=? sn_sqnum snod then fail (- EINVAL) (* file system's life ended *)
  else
    note_max_sqnum (sn_sqnum snod) ;;
    let* c := get in
    let type := sn_type snod in
    if type =? UBIFS_INO_NODE then
      let new_size := as_ino_size (sn_node snod) in
      let deletion := as_ino_nlink (sn_node snod) =? 0 in
      insert_node lnum (sn_offs snod) (sn_len snod) (sn_key snod) (sn_sqnum snod)
        deletion used 0 new_size
    else if type =? UBIFS_DATA_NODE then
      (* unsigned 32-bit arithmetic, widened to loff_t afterwards *)
      let new_size := u32 (as_data_size (sn_node snod) + key_block (sn_key snod) * UBIFS_BLOCK_SIZE) in
      insert_node lnum (sn_offs snod) (sn_len snod) (sn_key snod) (sn_sqnum snod)
        false used 0 new_size
    else if (type =? UBIFS_DENT_NODE) || (type =? UBIFS_XENT_NODE) then
      let dent := as_dent (sn_node snod) in
      if negb (ubifs_validate_entry dent =? 0) then fail (- EINVAL)
      else
        insert_dent lnum (sn_offs snod) (sn_len snod) (sn_key snod) (d_name dent)
          (d_nlen dent) (sn_sqnum snod) (d_inum dent =? 0) used
    else if type =? UBIFS_TRUN_NODE then
      let old_size := as_trun_old_size (sn_node snod) in
      let new_size := as_trun_new_size (sn_node snod) in
      (* Validate truncation node *)
      if (old_size <? 0) || (max_inode_sz (c_cfg c) <? old_size)
         || (new_size <? 0) || (max_inode_sz (c_cfg c) <? new_size)
         || (old_size <=? new_size)
      then fail (- EINVAL) (* bad truncation node *)
      else
        insert_node lnum (sn_offs snod) (sn_len snod) (sn_key snod) (sn_sqnum snod)
          true used old_size new_size
    else fail (- EINVAL). (* unexpected node type *)

Fixpoint replay_bud_nodes (lnum : Z) (snods : list ubifs_scan_node) (used : Z) : M Z :=
  match snods with
  | [] => ret used
  | snod :: rest =>
      let* used := replay_bud_node lnum snod used in
      replay_bud_nodes lnum rest used
  end.

(** [replay_bud]: the values left in [*free] and [*dirty]. *)
Definition replay_bud (lnum offs jhead : Z) : M (Z * Z) :=
  let* c := get in
  let scanned :=
    if need_recovery (c_cfg c) then ubifs_recover_leb lnum offs (negb (jhead =? GCHD))
    else ubifs_scan lnum offs in
  match scanned with
  | inl err => fail err
  | inr sleb =>
      let* used := replay_bud_nodes lnum (sl_nodes sleb) 0 in
      let* c := get in
      match ubifs_search_bud c lnum with
      | None => oops (* BUG() *)
      | Some _ =>
          let* err :=
            (if (sl_endpt sleb + min_io_size (c_cfg c) <=? leb_size (c_cfg c))
                && negb (ms_rdonly (c_cfg c))
             then on_ext (fun e => ubifs_wbuf_seek_nolock e jhead lnum (sl_endpt sleb))
             else ret 0) in
          let dirty := sl_endpt sleb - offs - used in
          let free := leb_size (c_cfg c) - sl_endpt sleb in
          check err ;;
          ret (free, dirty)
      end
  end.

Fixpoint replay_buds_loop (bs : list bud_entry) : M unit :=
  match bs with
  | [] => ret tt
  | b :: rest =>
      let* fd := replay_bud (bud_lnum (b_bud b)) (bud_start (b_bud b)) (bud_jhead (b_bud b)) in
      let '(free, dirty) := fd in
      insert_ref_node (bud_lnum (b_bud b)) (bud_start (b_bud b)) (b_sqnum b) free dirty ;;
      replay_buds_loop rest
  end.

Definition replay_buds : M unit :=
  let* c := get in
  replay_buds_loop (c_replay_buds c).

Definition destroy_bud_list : M unit := modify (set_c_replay_buds []).

Definition add_replay_bud (lnum offs jhead : Z) (sqnum : Z) : M unit :=
  let bud := mk_bud lnum offs jhead in
  ubifs_add_bud bud ;;
  modify (fun c => set_c_replay_buds (c_replay_buds c ++ [mk_bud_entry bud 0 sqnum]) c).

(** [validate_ref]: 1 if a bud reference already exists for the LEB, 0
    if the reference node is new, [-EINVAL] if validation failed.  [lnum]
    is an [int], [offs] and [jhead] are [unsigned int]. *)
Definition validate_ref (c : ubifs_info) (ref : ubifs_ref_node) : Z :=
  let lnum := int_of_u32 (ref_lnum ref) in
  let offs := ref_offs ref in
  let jhead := ref_jhead ref in
  if (u32 (jhead_cnt (c_cfg c)) <=? jhead)
     || (leb_cnt (c_cfg c) <=? lnum)
     || (lnum <? main_first (c_cfg c))
     || (u32 (leb_size (c_cfg c)) <? offs)
     || negb (Z.land offs (u32 (min_io_size (c_cfg c) - 1)) =? 0)
  then - EINVAL
  else
    (* Make sure we have not already looked at this bud *)
    match ubifs_search_bud c lnum with
    | Some bud =>
        if (u32 (bud_jhead bud) =? jhead) && (u32 (bud_start bud) <=? offs) then 1
        else - EINVAL (* bud was already referred *)
    | None => 0
    end.

(** The body of the loop of [replay_log_leb] for one scanned node. *)
Definition replay_log_node (snod : ubifs_scan_node) : M unit :=
  let* c := get in
  if SQNUM_WATERMARK <=? sn_sqnum snod then fail (- EINVAL) (* file system's life ended *)
  else if sn_sqnum snod <? cs_sqnum c then fail (- EINVAL) (* bad sqnum *)
  else
    note_max_sqnum (sn_sqnum snod) ;;
    if sn_type snod =? UBIFS_REF_NODE then
      let ref := as_ref (sn_node snod) in
      let* c := get in
      let err := validate_ref c ref in
      if err =? 1 then ret tt (* Already have this bud *)
      else if negb (err =? 0) then fail (- EINVAL)
      else
        add_replay_bud (int_of_u32 (ref_lnum ref)) (int_of_u32 (ref_offs ref))
          (int_of_u32 (ref_jhead ref)) (sn_sqnum snod)
    else if sn_type snod =? UBIFS_CS_NODE then
      (* Make sure it sits at the beginning of LEB *)
      if negb (sn_offs snod =? 0) then fail (- EINVAL) else ret tt
    else fail (- EINVAL). (* unexpected node in log *)

Fixpoint replay_log_nodes (snods : list ubifs_scan_node) : M unit :=
  match snods with
  | [] => ret tt
  | snod :: rest => replay_log_node snod ;; replay_log_nodes rest
  end.

(** [replay_log_leb]: zero, or 1 if this is the last LEB in the log. *)
Definition replay_log_leb (lnum offs : Z) : M Z :=
  let* c := get in
  let scanned :=
    match ubifs_scan lnum offs with
    | inl err => if need_recovery (c_cfg c) then ubifs_recover_log_leb lnum offs else inl err
    | inr sleb => inr sleb
    end in
  match scanned with
  | inl err => fail err
  | inr sleb =>
      match sl_nodes sleb with
      | [] => ret 1
      | snod :: _ =>
          (if cs_sqnum c =? 0 then
             (* This is the first log LEB we are looking at, make sure
                that the first node is a commit start node *)
             if negb (sn_type snod =? UBIFS_CS_NODE) then fail (- EINVAL)
             else if negb (as_cs_cmt_no (sn_node snod) =? cmt_no (c_cfg c)) then fail (- EINVAL)
             else modify (set_cs_sqnum (sn_sqnum snod))
           else ret tt) ;;
          let* c := get in
          if sn_sqnum snod <? cs_sqnum c then
            (* we reached end of log and now look to the older log data:
               exit with "end of log" code *)
            ret 1
          else if negb (sn_offs snod =? 0) then fail (- EINVAL) (* first node is not at zero offset *)
          else
            replay_log_nodes (sl_nodes sleb) ;;
            let* c := get in
            (if negb (sl_endpt sleb =? 0) || (leb_size (c_cfg c) <=? lhead_offs c) then
               modify (set_lhead_lnum lnum) ;;
               modify (set_lhead_offs (sl_endpt sleb))
             else ret tt) ;;
            ret (if sl_endpt sleb =? 0 then 1 else 0)
      end
  end.

Definition take_ihead : M Z :=
  let* c := get in
  let* l := on_ext (fun e => ubifs_lpt_lookup_dirty e (ihead_lnum (c_cfg c))) in
  match l with
  | inl err => fail err
  | inr lp =>
      let free := lp_free lp in
      let* l' := on_ext (fun e => ubifs_change_lp e lp (-1) (-1) (Z.lor (lp_flags lp) LPROPS_TAKEN) 0) in
      match l' with
      | inl err => fail err
      | inr _ => ret free
      end
  end.

(** The loop of [ubifs_replay_journal] over the log eraseblocks, [k]
    rounds from [lnum:offs] on. *)
Fixpoint replay_log_lebs (k : nat) (lnum offs : Z) : M unit :=
  match k with
  | O => ret tt
  | S k' =>
      let* c := get in
      (* The log is logically circular *)
      let wrap := UBIFS_LOG_LNUM + log_lebs (c_cfg c) <=? lnum in
      let lnum := if wrap then UBIFS_LOG_LNUM else lnum in
      let offs := if wrap then 0 else offs in
      let* err := replay_log_leb lnum offs in
      if err =? 1 then ret tt (* We hit the end of the log *)
      else replay_log_lebs k' (lnum + 1) 0
  end.

Definition ubifs_replay_journal (fuel : nat) : M unit :=
  (* Update the status of the index head in lprops to 'taken' *)
  let* free := take_ihead in
  let* c := get in
  if free <? 0 then fail free
  else if negb (ihead_offs (c_cfg c) =? leb_size (c_cfg c) - free) then fail (- EINVAL)
  else
    modify (set_replaying true) ;;
    modify (fun c => set_ltail_lnum (lhead_lnum c) c) ;;
    let* c := get in
    let* r := try (replay_log_lebs (Z.to_nat (log_lebs (c_cfg c))) (lhead_lnum c) (lhead_offs c) ;;
                   replay_buds ;;
                   apply_replay_tree fuel) in
    destroy_replay_tree ;;
    destroy_bud_list ;;
    modify (set_replaying false) ;;
    match r with
    | inl err => fail err
    | inr _ => ret tt
    end.
End Ubifs.

Arguments set_zroot {ext_t}.
Arguments set_znodes {ext_t}.
Arguments set_next_znode {ext_t}.
Arguments set_old_idx {ext_t}.
Arguments set_clean_zn_cnt {ext_t}.
Arguments set_dirty_zn_cnt {ext_t}.
Arguments set_ubifs_clean_zn_cnt {ext_t}.
Arguments set_calc_idx_sz {ext_t}.
Arguments set_ext {ext_t}.
Arguments set_replay_tree {ext_t}.
Arguments set_c_replay_buds {ext_t}.
Arguments set_buds {ext_t}.
Arguments set_cs_sqnum {ext_t}.
Arguments set_max_sqnum {ext_t}.
Arguments set_highest_inum {ext_t}.
Arguments set_lhead_lnum {ext_t}.
Arguments set_lhead_offs {ext_t}.
Arguments set_ltail_lnum {ext_t}.
Arguments set_replay_sqnum {ext_t}.
Arguments set_replaying {ext_t}.
Arguments set_alloc_fails {ext_t}.
Arguments get {ext_t}.
Arguments modify {ext_t}.
Arguments check {ext_t}.
Arguments deref {ext_t}.
Arguments zn_upd {ext_t}.
Arguments new_znode {ext_t}.
Arguments kmalloc {ext_t}.
Arguments kzalloc_znode {ext_t}.
Arguments kfree_znode {ext_t}.
Arguments zbr_get {ext_t}.
Arguments zbr_upd {ext_t}.
Arguments mk_info {ext_t}.
Arguments insert_old_idx {ext_t}.
Arguments insert_old_idx_znode {ext_t}.
Arguments ins_clr_old_idx_znode {ext_t}.
Arguments ubifs_read_node {ext_t}.
Arguments bad_branch {ext_t}.
Arguments bad_target_len {ext_t}.
Arguments read_znode_branches {ext_t}.
Arguments read_znode {ext_t}.
Arguments load_znode {ext_t}.
Arguments copy_znode_reparent {ext_t}.
Arguments copy_znode {ext_t}.
Arguments add_idx_dirt {ext_t}.
Arguments add_dirt {ext_t}.
Arguments dirty_cow_znode {ext_t}.
Arguments tnc_read_node {ext_t}.
Arguments tnc_read_node_at {ext_t}.
Arguments try_read_node {ext_t}.
Arguments fallible_read_node {ext_t}.
Arguments matches_name {ext_t}.
Arguments get_znode {ext_t}.
Arguments tnc_next_down {ext_t}.
Arguments tnc_next_up {ext_t}.
Arguments tnc_next {ext_t}.
Arguments tnc_prev_down {ext_t}.
Arguments tnc_prev_up {ext_t}.
Arguments tnc_prev {ext_t}.
Arguments resolve_collision_left {ext_t}.
Arguments resolve_collision_right {ext_t}.
Arguments resolve_collision {ext_t}.
Arguments fallible_matches_name {ext_t}.
Arguments fallible_resolve_collision_left {ext_t}.
Arguments fallible_resolve_collision_right {ext_t}.
Arguments fallible_resolve_collision {ext_t}.
Arguments resolve_collision_directly_left {ext_t}.
Arguments resolve_collision_directly_right {ext_t}.
Arguments resolve_collision_directly {ext_t}.
Arguments dirty_cow_bottom_up_rise {ext_t}.
Arguments dirty_cow_bottom_up_descend {ext_t}.
Arguments dirty_cow_bottom_up {ext_t}.
Arguments lookup_level0_descend {ext_t}.
Arguments lookup_level0 {ext_t}.
Arguments lookup_level0_dirty_descend {ext_t}.
Arguments needs_dirtying {ext_t}.
Arguments lookup_level0_dirty {ext_t}.
Arguments ubifs_tnc_lookup {ext_t}.
Arguments do_lookup_nm {ext_t}.
Arguments ubifs_tnc_lookup_nm {ext_t}.
Arguments correct_parent_keys_loop {ext_t}.
Arguments correct_parent_keys {ext_t}.
Arguments insert_zbranch_shift {ext_t}.
Arguments insert_zbranch {ext_t}.
Arguments tnc_insert_appending {ext_t}.
Arguments tnc_insert_move {ext_t}.
Arguments tnc_insert_new_root {ext_t}.
Arguments tnc_insert_body {ext_t}.
Arguments tnc_insert_loop {ext_t}.
Arguments tnc_insert {ext_t}.
Arguments replace_zbranch {ext_t}.
Arguments ubifs_tnc_add {ext_t}.
Arguments ubifs_tnc_replace {ext_t}.
Arguments ubifs_tnc_add_nm {ext_t}.
Arguments obsolete_or_free {ext_t}.
Arguments tnc_delete_rise {ext_t}.
Arguments tnc_delete_collapse {ext_t}.
Arguments tnc_delete_shift {ext_t}.
Arguments tnc_delete {ext_t}.
Arguments ubifs_tnc_remove {ext_t}.
Arguments ubifs_tnc_remove_nm {ext_t}.
Arguments remove_range_dirt {ext_t}.
Arguments remove_range_body {ext_t}.
Arguments remove_range_loop {ext_t}.
Arguments ubifs_tnc_remove_range {ext_t}.
Arguments next_ent_loop {ext_t}.
Arguments ubifs_tnc_next_ent {ext_t}.
Arguments remove_ino_xattrs {ext_t}.
Arguments ubifs_tnc_remove_ino {ext_t}.
Arguments set_bud_lprops {ext_t}.
Arguments ubifs_search_bud {ext_t}.
Arguments ubifs_add_bud {ext_t}.
Arguments trun_remove_range {ext_t}.
Arguments apply_replay_entry {ext_t}.
Arguments destroy_replay_tree {ext_t}.
Arguments apply_replay_entries {ext_t}.
Arguments apply_replay_tree {ext_t}.
Arguments note_highest_inum {ext_t}.
Arguments insert_node {ext_t}.
Arguments insert_dent {ext_t}.
Arguments insert_ref_node {ext_t}.
Arguments note_max_sqnum {ext_t}.
Arguments replay_bud_node {ext_t}.
Arguments replay_bud_nodes {ext_t}.
Arguments replay_bud {ext_t}.
Arguments replay_buds_loop {ext_t}.
Arguments replay_buds {ext_t}.
Arguments destroy_bud_list {ext_t}.
Arguments add_replay_bud {ext_t}.
Arguments validate_ref {ext_t}.
Arguments replay_log_node {ext_t}.
Arguments replay_log_nodes {ext_t}.
Arguments replay_log_leb {ext_t}.
Arguments take_ihead {ext_t}.
Arguments replay_log_lebs {ext_t}.
Arguments ubifs_replay_journal {ext_t}.
Arguments c_cfg {ext_t}.
Arguments zroot {ext_t}.
Arguments znodes {ext_t}.
Arguments next_znode {ext_t}.
Arguments old_idx {ext_t}.
Arguments clean_zn_cnt {ext_t}.
Arguments dirty_zn_cnt {ext_t}.
Arguments ubifs_clean_zn_cnt {ext_t}.
Arguments calc_idx_sz {ext_t}.
Arguments ext {ext_t}.
Arguments media {ext_t}.
Arguments replay_tree {ext_t}.
Arguments c_replay_buds {ext_t}.
Arguments buds {ext_t}.
Arguments cs_sqnum {ext_t}.
Arguments max_sqnum {ext_t}.
Arguments highest_inum {ext_t}.
Arguments lhead_lnum {ext_t}.
Arguments lhead_offs {ext_t}.
Arguments ltail_lnum {ext_t}.
Arguments replay_sqnum {ext_t}.
Arguments replaying {ext_t}.
Arguments alloc_fails {ext_t}.
Arguments ret {ext_t A} _ _.
Arguments fail {ext_t A} _ _.
Arguments oops {ext_t A} _.
Arguments nofuel {ext_t A} _.
Arguments bind {ext_t A B} _ _ _.
Arguments gets {ext_t A} _ _.
Arguments try {ext_t A} _ _.
Arguments on_ext {ext_t A} _ _.
Arguments lookup_level0_search {ext_t}.
Arguments Return {R S} _.
Arguments Break {R S} _.
Arguments tnc_insert_split {ext_t}.
Arguments destroy_old_idx {ext_t}.
Arguments ubifs_tnc_locate {ext_t}.
Arguments left_znode_down {ext_t}.
Arguments left_znode_up {ext_t}.
Arguments left_znode {ext_t}.
Arguments right_znode_down {ext_t}.
Arguments right_znode_up {ext_t}.
Arguments right_znode {ext_t}.
Arguments lookup_znode_descend {ext_t}.
Arguments lookup_znode_left {ext_t}.
Arguments lookup_znode_right {ext_t}.
Arguments lookup_znode {ext_t}.
Arguments is_idx_node_in_tnc {ext_t}.
Arguments is_leaf_node_in_tnc_left {ext_t}.
Arguments is_leaf_node_in_tnc_right {ext_t}.
Arguments is_leaf_node_in_tnc {ext_t}.
Arguments ubifs_tnc_has_node {ext_t}.
Arguments ubifs_dirty_idx_node {ext_t}.

(** * Properties *)

(** ** Notions the statements use *)

(** A list of numbers that increases strictly. *)
Fixpoint strictly_increasing (l : list Z) : bool :=
  match l with
  | [] => true
  | x :: l' =>
      match l' with
      | [] => true
      | y :: _ => (x <? y) && strictly_increasing l'
      end
  end.

(** The sequence numbers of the replay tree in the order [rb_first],
    [rb_next] visit them, and the invariant of the tree: they increase
    strictly, so no two entries share one. *)
Definition replay_sqnums (t : rb_tree replay_entry) : list Z :=
  r_sqnum <$> rb_inorder t.

Definition replay_tree_ok (t : rb_tree replay_entry) : Prop :=
  strictly_increasing (replay_sqnums t) = true.

(** A rebalancing that does nothing, for running the model. *)
Definition no_rebalance : forall A : Type, rb_tree A -> rb_tree A := fun _ t => t.

(** The checks of a reference node, as conditions on the numbers: the
    journal head exists, the LEB lies in the main area, the offset lies
    within the LEB (its end included) and is a multiple of the minimal
    I/O unit. *)
Definition ref_valid {ext_t} (c : ubifs_info ext_t) (ref : ubifs_ref_node) : Prop :=
  ref_jhead ref < jhead_cnt (c_cfg c)
  /\ main_first (c_cfg c) <= int_of_u32 (ref_lnum ref) < leb_cnt (c_cfg c)
  /\ ref_offs ref <= leb_size (c_cfg c)
  /\ ref_offs ref mod min_io_size (c_cfg c) = 0.

(** The numbers of the configuration and of the buds are what C [int]s
    hold for them: not negative and below 2^31; the minimal I/O unit is a
    power of two. *)
Definition replay_cfg_ok {ext_t} (c : ubifs_info ext_t) : Prop :=
  0 <= jhead_cnt (c_cfg c) < 2 ^ 31
  /\ 0 <= leb_size (c_cfg c) < 2 ^ 31
  /\ (exists k, 0 <= k < 31 /\ min_io_size (c_cfg c) = 2 ^ k)
  /\ Forall (fun b => 0 <= bud_jhead b < 2 ^ 31 /\ 0 <= bud_start b < 2 ^ 31) (buds c).

Definition ref_in_u32 (ref : ubifs_ref_node) : Prop :=
  0 <= ref_lnum ref < 2 ^ 32 /\ 0 <= ref_offs ref < 2 ^ 32 /\ 0 <= ref_jhead ref < 2 ^ 32.

(** The reading of C8: whenever a record scanned from a log LEB is older
    than the commit start, [replay_log_leb] reports the end of the
    log. *)
Definition older_record_ends_log {ext_t} (scan : Z -> Z -> Z + ubifs_scan_leb) (recover_log : Z -> Z -> Z + ubifs_scan_leb) (c : ubifs_info ext_t) (lnum offs : Z) : Prop :=
  forall sleb snod,
    scan lnum offs = inr sleb ->
    snod ∈ sl_nodes sleb ->
    sn_sqnum snod < cs_sqnum c ->
    (replay_log_leb scan recover_log lnum offs c).1 = Val 1.

(** The first and the last block a truncation from [old_size] to
    [new_size] removes. *)
Definition trun_min_blk (new_size : Z) : Z :=
  new_size / UBIFS_BLOCK_SIZE + (if new_size mod UBIFS_BLOCK_SIZE =? 0 then 0 else 1).

Definition trun_max_blk (old_size : Z) : Z :=
  old_size / UBIFS_BLOCK_SIZE - (if old_size mod UBIFS_BLOCK_SIZE =? 0 then 1 else 0).

(** Whether the index has the key: the code [lookup_level0] returns. *)
Definition has_key {ext_t} (get_seconds : Z) (fuel : nat) (key : ubifs_key) (c : ubifs_info ext_t) : bool :=
  match (lookup_level0 get_seconds fuel key c).1 with
  | Val (1, _, _) => true
  | _ => false
  end.

(** An index in memory, [d] levels deep below the znode [p]: every
    znode has a child, the level of a znode is the number of levels
    below it, and above level zero every child is in memory and knows
    its parent and its slot there. *)
Fixpoint tree_ok {ext_t} (c : ubifs_info ext_t) (d : nat) (p : nat) : bool :=
  match d with
  | O => false
  | S d' =>
      let z := deref c p in
      (1 <=? zn_child_cnt z) && (zn_level z =? Z.of_nat d')
      && ((zn_level z =? 0)
          || forallb (fun i =>
                        match zbr_znode (zbranch_at z i) with
                        | Some q =>
                            bool_decide (zn_parent (deref c q) = Some p)
                            && (zn_iip (deref c q) =? i) && tree_ok c d' q
                        | None => false
                        end) (seqZ 0 (zn_child_cnt z)))
  end.

(** The entries of the index below the znode [p], from left to right:
    the slots of the zero-level znodes, each znode with its slots in
    order and the children of a znode in the order of its slots.  The
    in-order predecessor of an entry is the entry before it in this
    list. *)
Fixpoint leaf_entries {ext_t} (c : ubifs_info ext_t) (d : nat) (p : nat) : list (nat * Z) :=
  match d with
  | O => []
  | S d' =>
      let z := deref c p in
      if zn_level z =? 0 then (fun i => (p, i)) <$> seqZ 0 (zn_child_cnt z)
      else concat ((fun i => match zbr_znode (zbranch_at z i) with
                             | Some q => leaf_entries c d' q
                             | None => []
                             end) <$> seqZ 0 (zn_child_cnt z))
  end.

(** A pointer to a zbranch that can be written through: the root
    zbranch, or a slot of the array of a znode in memory. *)
Definition zbr_ref_ok {ext_t} (c : ubifs_info ext_t) (r : zbr_ref) : Prop :=
  match r with
  | ZRoot => True
  | ZSlot p i =>
      is_Some (znodes c !! p) /\ 0 <= i < Z.of_nat (length (zn_zbranch (deref c p)))
  end.

(** The children a znode above level zero points to with its first
    [child_cnt] zbranches. *)
Definition loaded_children (z : ubifs_znode) : list nat :=
  omap (fun i => zbr_znode (zbranch_at z i)) (seqZ 0 (zn_child_cnt z)).

Notation "'let*' x ':=' m 'in' k" := (bind m (fun x => k))
  (at level 10, x pattern, m at level 100, k at level 200).
Notation "m ;; k" := (bind m (fun _ => k))
  (at level 100, k at level 200, right associativity).

(** ** The walk of [fallible_resolve_collision]

    A comparison of the walk: the znode and slot of the branch and what
    [fallible_matches_name] returned for it. *)
Definition walk_event : Type := nat * Z * Z.

(** The dangling candidate after the comparisons [ev], when it was [o]
    before: the branch of the last comparison that returned
    [NOT_ON_MEDIA]. *)
Definition last_dangling (o : option (nat * Z)) (ev : list walk_event) : option (nat * Z) :=
  foldl (fun o e => if e.2 =? NOT_ON_MEDIA then Some e.1 else o) o ev.

(** The dangling candidate C4 describes: the branch of the first
    comparison that returned [NOT_ON_MEDIA]. *)
Definition first_dangling (ev : list walk_event) : option (nat * Z) :=
  fst <$> head (filter (fun e => e.2 = NOT_ON_MEDIA) ev).

(** The walk to the left without the candidate: the comparisons made,
    and how the loop ends (the match, or the position and [unsure]). *)
Fixpoint walk_left {ext_t} (get_seconds : Z) (k fuel : nat) (key : ubifs_key) (zn : nat) (n : Z) (nm : qstr) (unsure : bool) : M ext_t (list walk_event * loop_exit (nat * Z) (nat * Z * bool)) :=
  match k with
  | O => nofuel
  | S k' =>
      let* r := try (tnc_prev get_seconds fuel zn n) in
      match r with
      | inl err => if err =? - ENOENT then ret ([], Break (zn, -1, unsure)) else fail err
      | inr (zn, n) =>
          let* c := get in
          if negb (keys_cmp (zbr_key (zbranch_at (deref c zn) n)) key =? 0)
          then ret ([], Break (zn, n, unsure))
          else
            let* err := fallible_matches_name (ZSlot zn n) nm in
            if err =? NAME_LESS then ret ([(zn, n, err)], Break (zn, n, unsure))
            else if err =? NAME_MATCHES then ret ([(zn, n, err)], Return (zn, n))
            else
              let* w := walk_left get_seconds k' fuel key zn n nm
                          (if err =? NOT_ON_MEDIA then unsure else false) in
              ret ((zn, n, err) :: w.1, w.2)
      end
  end.

(** The walk to the right without the candidate. *)
Fixpoint walk_right {ext_t} (get_seconds : Z) (k fuel : nat) (key : ubifs_key) (zn : nat) (n : Z) (znode : nat) (nn : Z) (nm : qstr) : M ext_t (list walk_event * loop_exit (nat * Z) (nat * Z)) :=
  match k with
  | O => nofuel
  | S k' =>
      let* r := try (tnc_next get_seconds fuel znode nn) in
      match r with
      | inl err => if err =? - ENOENT then ret ([], Break (zn, n)) else fail err
      | inr (znode, nn) =>
          let* c := get in
          if negb (keys_cmp (zbr_key (zbranch_at (deref c znode) nn)) key =? 0)
          then ret ([], Break (zn, n))
          else
            let* err := fallible_matches_name (ZSlot znode nn) nm in
            if err =? NAME_GREATER then ret ([(znode, nn, err)], Break (zn, n))
            else if err =? NAME_MATCHES then ret ([(znode, nn, err)], Return (znode, nn))
            else
              let* w := walk_right get_seconds k' fuel key znode nn znode nn nm in
              ret ((znode, nn, err) :: w.1, w.2)
      end
  end.

(** The whole walk: the comparisons in the order they are made, the
    match if one was found, and the position the walk ended at. *)
Record walk := mk_walk {
  w_events : list walk_event;
  w_match : option (nat * Z);
  w_pos : nat * Z
}.

Definition fallible_walk {ext_t} (get_seconds : Z) (fuel : nat) (key : ubifs_key) (zn : nat) (n : Z) (nm : qstr) : M ext_t walk :=
  let* cmp := fallible_matches_name (ZSlot zn n) nm in
  if cmp =? NAME_MATCHES then ret (mk_walk [(zn, n, cmp)] (Some (zn, n)) (zn, n))
  else
    let unsure := cmp =? NOT_ON_MEDIA in
    let* l :=
      (if (cmp =? NAME_GREATER) || unsure
       then walk_left get_seconds fuel fuel key zn n nm unsure
       else ret ([], Break (zn, n, unsure))) in
    match l.2 with
    | Return b => ret (mk_walk ((zn, n, cmp) :: l.1) (Some b) b)
    | Break (zn', n', unsure) =>
        let* r :=
          (if (cmp =? NAME_LESS) || unsure
           then walk_right get_seconds fuel fuel key zn n zn n nm
           else ret ([], Break (zn', n'))) in
        match r.2 with
        | Return b => ret (mk_walk ((zn, n, cmp) :: l.1 ++ r.1) (Some b) b)
        | Break pos => ret (mk_walk ((zn, n, cmp) :: l.1 ++ r.1) None pos)
        end
    end.

(** What the walk gives with the candidate [cand] of the comparisons:
    the match; without one the candidate; without one not found, with
    the position the walk ended at. *)
Definition walk_answer (cand : list walk_event -> option (nat * Z)) (w : walk) : Z * nat * Z :=
  match w_match w with
  | Some (z, m) => (1, z, m)
  | None =>
      match cand (w_events w) with
      | Some (z, m) => (1, z, m)
      | None => (0, (w_pos w).1, (w_pos w).2)
      end
  end.

(** C4 as it is written: the answer is that of the walk with the first
    dangling branch as the candidate. *)
Definition first_dangling_wins {ext_t} (get_seconds : Z) (fuel : nat) (key : ubifs_key) (zn : nat) (n : Z) (nm : qstr) (c : ubifs_info ext_t) : Prop :=
  (fallible_resolve_collision get_seconds fuel key zn n nm c).1
  = ((let* w := fallible_walk get_seconds fuel key zn n nm in
      ret (walk_answer first_dangling w)) c).1.

(** ** The splits of [tnc_insert]

    A pass through the body of [tnc_insert]: the znode, the zbranch and
    the slot it is entered with, the state before and the state
    after. *)
Record insert_pass (ext_t : Type) := mk_pass {
  p_znode : nat;
  p_zbr : ubifs_zbranch;
  p_n : Z;
  p_before : ubifs_info ext_t;
  p_after : ubifs_info ext_t
}.
Arguments mk_pass {ext_t}.
Arguments p_znode {ext_t}.
Arguments p_zbr {ext_t}.
Arguments p_n {ext_t}.
Arguments p_before {ext_t}.
Arguments p_after {ext_t}.

Fixpoint tnc_insert_passes {ext_t} (rb_insert_color : forall A : Type, rb_tree A -> rb_tree A) (k fuel : nat) (znode : nat) (zbr : ubifs_zbranch) (n : Z) (appending : bool) (c : ubifs_info ext_t) : list (insert_pass ext_t) :=
  match k with
  | O => []
  | S k' =>
      match tnc_insert_body rb_insert_color fuel znode zbr n appending c with
      | (Val (Break (zp, zbr', n', appending')), c') =>
          mk_pass znode zbr n c c'
          :: tnc_insert_passes rb_insert_color k' fuel zp zbr' n' appending' c'
      | (_, c') => [mk_pass znode zbr n c c']
      end
  end.

(** The condition of C1 for keeping all branches: the znode is at level
    0, the slot is the rightmost slot F, the key is a data key and the
    key before is a data key of the same inode with the block number one
    less. *)
Definition claimed_appending {ext_t} (c : ubifs_info ext_t) (znode : nat) (key : ubifs_key) (n : Z) : bool :=
  let key1 := zbr_key (zbranch_at (deref c znode) (n - 1)) in
  (zn_level (deref c znode) =? 0) && (n =? fanout (c_cfg c))
  && (key_type key =? UBIFS_DATA_KEY)
  && (key_ino key1 =? key_ino key) && (key_type key1 =? UBIFS_DATA_KEY)
  && (key_block key1 =? key_block key - 1).

(** The block number of a key has 29 bits. *)
Definition key_block_ok (k : ubifs_key) : Prop :=
  0 <= key_block k <= UBIFS_S_KEY_BLOCK_MASK.

(** The numbers of branches C1 leaves in the old znode and in the new
    sibling: F and 1; in every other case (F+1)/2 of the old branches
    stay and F-(F+1)/2 move, and the new branch counts on the side of
    its slot. *)
Definition claimed_counts (F : Z) (appending : bool) (n : Z) : Z * Z :=
  if appending then (F, 1)
  else
    let keep := Z.quot (F + 1) 2 in
    if n <? keep then (keep + 1, F - keep) else (keep, F - keep + 1).

(** C1 as it is written, for the insertion of [zbr] at the slot [n] of
    [znode]: at every pass that finds its znode full, the old znode and
    the new sibling (the znode allocated in the pass) are left with the
    numbers of branches the claim gives. *)
Definition split_as_claimed {ext_t} (rb_insert_color : forall A : Type, rb_tree A -> rb_tree A) (fuel : nat) (znode : nat) (zbr : ubifs_zbranch) (n : Z) (c : ubifs_info ext_t) : Prop :=
  Forall (fun p =>
            zn_child_cnt (deref (p_before p) (p_znode p)) = fanout (c_cfg (p_before p)) ->
            (zn_child_cnt (deref (p_after p) (p_znode p)),
             zn_child_cnt (deref (p_after p) (next_znode (p_before p))))
            = claimed_counts (fanout (c_cfg (p_before p)))
                (claimed_appending (p_before p) (p_znode p) (zbr_key (p_zbr p)) (p_n p))
                (p_n p))
    (tnc_insert_passes rb_insert_color fuel fuel znode zbr n false c).

(** The F+1 branches of a split: the branches of [z] with [zbr] at the
    slot [n]. *)
Definition branches_with (z : ubifs_znode) (zbr : ubifs_zbranch) (n i : Z) : ubifs_zbranch :=
  if i <? n then zbranch_at z i
  else if i =? n then zbr
  else zbranch_at z (i - 1).

(** What a split and an insertion read and write of a znode: the array
    of zbranches, the number of children and the level. *)
Definition shape_of (z : ubifs_znode) : list ubifs_zbranch * Z * Z :=
  (zn_zbranch z, zn_child_cnt z, zn_level z).

Definition zshape {ext_t} (c : ubifs_info ext_t) (q : nat) : option (list ubifs_zbranch * Z * Z) :=
  shape_of <$> znodes c !! q.

(** The slot [i] of an array of zbranches, as [zbranch_at] reads it. *)
Definition lbr (l : list ubifs_zbranch) (i : Z) : ubifs_zbranch :=
  if i <? 0 then zero_zbranch else default zero_zbranch (l !! Z.to_nat i).

(** ** The order of the keys of a znode

    Two keys that may follow each other in a znode: the first is less
    than the second, or they are equal and hashed. *)
Definition key_le_ok (a b : ubifs_key) : Prop :=
  keys_cmp a b < 0 \/ (keys_cmp a b = 0 /\ is_hash_key a = true).

(** The keys of the children of a znode are in that order. *)
Definition keys_ordered (z : ubifs_znode) : Prop :=
  forall i, 0 <= i -> i + 1 < zn_child_cnt z ->
    key_le_ok (zbr_key (zbranch_at z i)) (zbr_key (zbranch_at z (i + 1))).

(** A znode whose children are within its array and in order. *)
Definition znode_ok (z : ubifs_znode) : Prop :=
  zn_child_cnt z <= Z.of_nat (length (zn_zbranch z)) /\ keys_ordered z.

(** The invariant of the index in memory: the allocator hands out unused
    addresses, and every znode is in order. *)
Definition keys_inv {ext_t} (c : ubifs_info ext_t) : Prop :=
  (forall q, (next_znode c <= q)%nat -> znodes c !! q = None)
  /\ forall q z, znodes c !! q = Some z -> znode_ok z.

(** The order of C6: in every znode of the index no key is less than
    the key before, and two neighbours are equal only when hashed. *)
Definition all_keys_ordered {ext_t} (c : ubifs_info ext_t) : Prop :=
  forall q z, znodes c !! q = Some z -> keys_ordered z.

(** The key fits into the slot [n] of the znode: it may follow the key
    before and the key of the slot may follow it. *)
Definition key_fits (z : ubifs_znode) (key : ubifs_key) (n : Z) : Prop :=
  0 <= n <= zn_child_cnt z
  /\ (0 < n -> key_le_ok (zbr_key (zbranch_at z (n - 1))) key)
  /\ (n < zn_child_cnt z -> key_le_ok key (zbr_key (zbranch_at z n))).

(** A computation that keeps the invariant. *)
Definition inv_pres {ext_t A} (m : M ext_t A) : Prop :=
  forall c, keys_inv c -> keys_inv (m c).2.

(** The loops that close the gap: every round copies the slot [i + 1]
    to the slot [i] of [znode] and leaves the arrays and the numbers of
    children of the other znodes alone. *)
Definition closes_gap {ext_t} (znode : nat) (step : ubifs_info ext_t -> Z -> ubifs_info ext_t) : Prop :=
  forall c i,
    next_znode (step c i) = next_znode c
    /\ (forall q, q <> znode -> zshape (step c i) q = zshape c q)
    /\ zshape (step c i) znode
       = (fun s => (if 0 <=? i then <[Z.to_nat i := lbr s.1.1 (i + 1)]> s.1.1 else s.1.1,
                    s.1.2, s.2)) <$> zshape c znode.

(** A pass of an insertion that goes well: the znode is there with its
    F slots, F is 2 at least, the znode is not its own parent, the key
    of the branch fits into the slot, and a branch for a znode above the
    leaves carries its child. *)
Definition pass_fits {ext_t} (p : insert_pass ext_t) : Prop :=
  exists z, znodes (p_before p) !! p_znode p = Some z
    /\ Z.of_nat (length (zn_zbranch z)) = fanout (c_cfg (p_before p))
    /\ 2 <= fanout (c_cfg (p_before p))
    /\ key_fits z (zbr_key (p_zbr p)) (p_n p)
    /\ zn_parent z <> Some (p_znode p)
    /\ (zn_level z <> 0 -> is_Some (zbr_znode (p_zbr p))).

(** The passes of the insertion [ubifs_tnc_add] makes; there is none
    when the lookup fails or finds the key, whose branch is replaced
    then. *)
Definition ubifs_tnc_add_passes {ext_t} (ubifs_add_dirt : ext_t -> Z -> Z -> Z * ext_t) (get_seconds : Z) (rb_insert_color : forall A : Type, rb_tree A -> rb_tree A) (fuel : nat) (key : ubifs_key) (lnum offs len : Z) (c : ubifs_info ext_t) : list (insert_pass ext_t) :=
  match lookup_level0_dirty ubifs_add_dirt get_seconds rb_insert_color fuel key c with
  | (Val (found, znode, n), c1) =>
      if found =? 0
      then tnc_insert_passes rb_insert_color fuel fuel znode (new_zbranch key lnum offs len)
             (n + 1) false c1
      else []
  | _ => []
  end.

(** C6 as it is written, for an insertion: [ubifs_tnc_add] keeps the
    keys of every znode in order. *)
Definition add_keeps_order_as_claimed {ext_t} (ubifs_add_dirt : ext_t -> Z -> Z -> Z * ext_t) (get_seconds : Z) (rb_insert_color : forall A : Type, rb_tree A -> rb_tree A) (fuel : nat) (key : ubifs_key) (lnum offs len : Z) (c : ubifs_info ext_t) : Prop :=
  all_keys_ordered c ->
  all_keys_ordered
    (ubifs_tnc_add ubifs_add_dirt get_seconds rb_insert_color fuel key lnum offs len c).2.

(** The invariant as a test. *)
Definition key_le_ok_b (a b : ubifs_key) : bool :=
  (keys_cmp a b <? 0) || ((keys_cmp a b =? 0) && is_hash_key a).

Definition znode_ok_b (z : ubifs_znode) : bool :=
  (zn_child_cnt z <=? Z.of_nat (length (zn_zbranch z)))
  && forallb (fun i => key_le_ok_b (zbr_key (zbranch_at z i)) (zbr_key (zbranch_at z (i + 1))))
       (seqZ 0 (zn_child_cnt z - 1)).

Definition keys_inv_b {ext_t} (c : ubifs_info ext_t) : bool :=
  forallb (fun qz => (qz.1 <? next_znode c)%nat && znode_ok_b qz.2) (map_to_list (znodes c)).

Definition key_fits_b (z : ubifs_znode) (key : ubifs_key) (n : Z) : bool :=
  (0 <=? n) && (n <=? zn_child_cnt z)
  && ((n <=? 0) || key_le_ok_b (zbr_key (zbranch_at z (n - 1))) key)
  && ((zn_child_cnt z <=? n) || key_le_ok_b key (zbr_key (zbranch_at z n))).

Definition pass_fits_b {ext_t} (p : insert_pass ext_t) : bool :=
  match znodes (p_before p) !! p_znode p with
  | Some z =>
      (Z.of_nat (length (zn_zbranch z)) =? fanout (c_cfg (p_before p)))
      && (2 <=? fanout (c_cfg (p_before p)))
      && key_fits_b z (zbr_key (p_zbr p)) (p_n p)
      && negb (bool_decide (zn_parent z = Some (p_znode p)))
      && ((zn_level z =? 0) || bool_decide (is_Some (zbr_znode (p_zbr p))))
  | None => false
  end.

(** What [ubifs_tnc_add_nm] does before it replaces or inserts: the
    lookup, the resolution of the collisions and the dirtying; the value
    is [found], the znode and the slot. *)
Definition ubifs_tnc_add_nm_lookup {ext_t} (ubifs_add_dirt : ext_t -> Z -> Z -> Z * ext_t) (get_seconds : Z) (rb_insert_color : forall A : Type, rb_tree A -> rb_tree A) (fuel : nat) (key : ubifs_key) (nm : qstr) : M ext_t (Z * nat * Z) :=
  let* r := lookup_level0_dirty ubifs_add_dirt get_seconds rb_insert_color fuel key in
  let '(found, znode, n) := r in
  let* c := get in
  if found =? 1 then
    let* rc :=
      (if replaying c then fallible_resolve_collision get_seconds fuel key znode n nm
       else resolve_collision get_seconds fuel key znode n nm) in
    let '(found, znode, n) := rc in
    let* c := get in
    let* znode :=
      (if needs_dirtying c znode
       then dirty_cow_bottom_up ubifs_add_dirt rb_insert_color fuel znode
       else ret znode) in
    ret (found, znode, n)
  else ret (found, znode, n).

(** The passes of the insertion [ubifs_tnc_add_nm] makes. *)
Definition ubifs_tnc_add_nm_passes {ext_t} (ubifs_add_dirt : ext_t -> Z -> Z -> Z * ext_t) (get_seconds : Z) (rb_insert_color : forall A : Type, rb_tree A -> rb_tree A) (fuel : nat) (key : ubifs_key) (lnum offs len : Z) (nm : qstr) (c : ubifs_info ext_t) : list (insert_pass ext_t) :=
  match ubifs_tnc_add_nm_lookup ubifs_add_dirt get_seconds rb_insert_color fuel key nm c with
  | (Val (found, znode, n), c1) =>
      if found =? 1 then []
      else tnc_insert_passes rb_insert_color fuel fuel znode (new_zbranch key lnum offs len)
             (n + 1) false c1
  | _ => []
  end.

(** Whether the loop of [replay_bud] enters a scanned node as a
    deletion: an inode node without links, an entry without inode
    number, a truncation node. *)
Definition snod_deletion (snod : ubifs_scan_node) : bool :=
  if sn_type snod =? UBIFS_INO_NODE then as_ino_nlink (sn_node snod) =? 0
  else if sn_type snod =? UBIFS_DATA_NODE then false
  else if (sn_type snod =? UBIFS_DENT_NODE) || (sn_type snod =? UBIFS_XENT_NODE)
       then d_inum (as_dent (sn_node snod)) =? 0
  else true.

(** The replay entry [insert_node] or [insert_dent] allocates for a
    scanned node of the bud in LEB [lnum]; the new size of a data node
    is the sum of its size and the bytes before its block, as the code
    forms it in unsigned 32-bit arithmetic. *)
Definition snod_entry (lnum : Z) (snod : ubifs_scan_node) : replay_entry :=
  mk_replay_entry lnum (sn_offs snod) (sn_len snod) (sn_sqnum snod)
    (if snod_deletion snod then REPLAY_DELETION else 0) (sn_key snod)
    (if sn_type snod =? UBIFS_INO_NODE then RSizes 0 (as_ino_size (sn_node snod))
     else if sn_type snod =? UBIFS_DATA_NODE
          then RSizes 0 (u32 (as_data_size (sn_node snod)
                              + key_block (sn_key snod) * UBIFS_BLOCK_SIZE))
     else if (sn_type snod =? UBIFS_DENT_NODE) || (sn_type snod =? UBIFS_XENT_NODE)
          then RName (mk_qstr (String.substring 0 (Z.to_nat (d_nlen (as_dent (sn_node snod))))
                                 (d_name (as_dent (sn_node snod))))
                        (d_nlen (as_dent (sn_node snod))))
     else RSizes (as_trun_old_size (sn_node snod)) (as_trun_new_size (sn_node snod))).

(** The checks of the loop of [replay_bud] on a scanned node, the
    sequence number in the replay tree apart. *)
Definition snod_valid (cfg : ubifs_cfg) (snod : ubifs_scan_node) : bool :=
  (sn_sqnum snod <? SQNUM_WATERMARK)
  && (if sn_type snod =? UBIFS_INO_NODE then true
      else if sn_type snod =? UBIFS_DATA_NODE then true
      else if (sn_type snod =? UBIFS_DENT_NODE) || (sn_type snod =? UBIFS_XENT_NODE)
           then ubifs_validate_entry (as_dent (sn_node snod)) =? 0
      else if sn_type snod =? UBIFS_TRUN_NODE
           then (0 <=? as_trun_old_size (sn_node snod))
                && (as_trun_old_size (sn_node snod) <=? max_inode_sz cfg)
                && (0 <=? as_trun_new_size (sn_node snod))
                && (as_trun_new_size (sn_node snod) <=? max_inode_sz cfg)
                && (as_trun_new_size (sn_node snod) <? as_trun_old_size (sn_node snod))
      else false).

(** The space of a bud that is in use: the aligned lengths of the
    scanned nodes that are not deletions. *)
Definition bud_used (snods : list ubifs_scan_node) : Z :=
  foldr (fun s u => (if snod_deletion s then 0 else ALIGN (sn_len s) 8) + u) 0 snods.

(** An index that is a single znode: the root is in memory, of level
    zero, dirty and not being committed, and its children are within its
    array and in order. *)
Definition leaf_root {ext_t} (c : ubifs_info ext_t) (root : nat) (z : ubifs_znode) : Prop :=
  zbr_znode (zroot c) = Some root
  /\ znodes c !! root = Some z
  /\ zn_level z = 0
  /\ zn_parent z = None
  /\ test_bit COW_ZNODE (zn_flags z) = false
  /\ test_bit DIRTY_ZNODE (zn_flags z) = true
  /\ 0 <= zn_child_cnt z
  /\ znode_ok z.

(** The entry has the name [nm]: the same length and the same bytes. *)
Definition name_is (dent : ubifs_dent_node) (nm : qstr) : Prop :=
  d_nlen dent = q_len nm
  /\ forall i, (i < Z.to_nat (q_len nm))%nat ->
       byte_at (list_ascii_of_string (d_name dent)) i
       = byte_at (list_ascii_of_string (q_name nm)) i.

(** Whether the [k]-th of the allocations of copy-on-write to come
    fails. *)
Definition nomem {ext_t} (c : ubifs_info ext_t) (k : nat) : bool :=
  nth k (alloc_fails c) false.

(** C2 as it is written, for a branch [zbr] whose znode carries the COW
    flag: after [dirty_cow_znode] there is a copy of the znode on which
    COW is cleared and DIRTY is set, the loaded children have the copy
    as parent, the original is OBSOLETE, the position of a branch with
    an on-flash length is in the old index, and the branch points to the
    copy with lnum, offs and len zero. *)
Definition cow_as_claimed {ext_t} (ubifs_add_dirt : ext_t -> Z -> Z -> Z * ext_t) (rb_insert_color : forall A : Type, rb_tree A -> rb_tree A) (zbr : zbr_ref) (c : ubifs_info ext_t) : Prop :=
  forall znode z,
    zbr_znode (zbr_get c zbr) = Some znode ->
    znodes c !! znode = Some z ->
    test_bit COW_ZNODE (zn_flags z) = true ->
    let b := zbr_get c zbr in
    let c' := (dirty_cow_znode ubifs_add_dirt rb_insert_color zbr c).2 in
    exists zn zc,
      zn <> znode
      /\ znodes c' !! zn = Some zc
      /\ zn_zbranch zc = zn_zbranch z
      /\ test_bit COW_ZNODE (zn_flags zc) = false
      /\ test_bit DIRTY_ZNODE (zn_flags zc) = true
      /\ (zn_level z <> 0 ->
          forall ch, ch ∈ loaded_children z -> zn_parent (deref c' ch) = Some zn)
      /\ test_bit OBSOLETE_ZNODE (zn_flags (deref c' znode)) = true
      /\ (zbr_len b <> 0 -> mk_old_idx (zbr_lnum b) (zbr_offs b) ∈ rb_inorder (old_idx c'))
      /\ zbr_get c' zbr = set_zbr_pos 0 0 0 (set_zbr_znode (Some zn) b).

(** ** A configuration to run the model on

    The collaborators are instantiated by the simplest functions: the
    state around the index is the list of the dirt charged, the clock
    stands still, and the trees are not rebalanced. *)

Definition ext0 : Type := list (Z * Z).

Definition add_dirt0 (e : ext0) (lnum dirt : Z) : Z * ext0 := (0, (lnum, dirt) :: e).

Definition cfg0 (fanout : Z) : ubifs_cfg :=
  mk_cfg fanout 131072 100 10 8 3 4 (2 ^ 41) 1 (fun _ => mk_range 0 0 0) false false 20 0.

(** A file-system object with the given root zbranch and znodes. *)
Definition mk_c0 (cfg : ubifs_cfg) (zroot : ubifs_zbranch) (zs : list ubifs_znode) : ubifs_info ext0 :=
  mk_info cfg zroot (list_to_map (zip (seq 0 (length zs)) zs)) (length zs)
    RbNil 0 0 0 0 [] ∅ RbNil [] [] 0 0 0 0 0 0 0 false [].

(** A dirty znode with the given zbranches in an array of [F] slots. *)
Definition mk_zn0 (F : nat) (parent : option nat) (iip level : Z) (bs : list ubifs_zbranch) : ubifs_znode :=
  mk_znode parent None (set_bit DIRTY_ZNODE 0) 0 level (Z.of_nat (length bs)) iip 0
    (bs ++ replicate (F - length bs) zero_zbranch).

(** Two replay entries with the sequence numbers 5 and 9. *)
Definition replay_c0 : ubifs_info ext0 :=
  set_replay_tree
    (RbNode RB_BLACK RbNil
       (mk_replay_entry 12 0 160 5 0 (ino_key_init 7) (RSizes 0 0))
       (RbNode RB_RED RbNil
          (mk_replay_entry 12 160 4144 9 0 (data_key_init 7 0) (RSizes 0 4096))
          RbNil))
    (mk_c0 (cfg0 8) zero_zbranch []).

(** A log LEB whose third record is older than the commit start: a
    commit-start node with sequence number 10, a reference node with
    sequence number 11 and a reference node with sequence number 7. *)
Definition log_leb0 : ubifs_scan_leb :=
  mk_sleb
    [ mk_snod UBIFS_CS_NODE 10 0 32 zero_key (SnCs 1);
      mk_snod UBIFS_REF_NODE 11 32 64 zero_key (SnRef (mk_ref 12 0 1));
      mk_snod UBIFS_REF_NODE 7 96 64 zero_key (SnRef (mk_ref 13 0 1)) ]
    160.

Definition scan0 (lnum offs : Z) : Z + ubifs_scan_leb :=
  if lnum =? UBIFS_LOG_LNUM then inr log_leb0 else inr (mk_sleb [] 0).

Definition recover_log0 (lnum offs : Z) : Z + ubifs_scan_leb := inl (- EINVAL).

(** The file-system object after an earlier log LEB gave the commit
    start its sequence number 10. *)
Definition log_c0 : ubifs_info ext0 :=
  set_cs_sqnum 10 (mk_c0 (cfg0 8) zero_zbranch []).

(** A log LEB that starts with a record older than the commit start. *)
Definition scan1 (lnum offs : Z) : Z + ubifs_scan_leb :=
  inr (mk_sleb [ mk_snod UBIFS_REF_NODE 7 0 64 zero_key (SnRef (mk_ref 13 0 1)) ] 64).

(** A reference node for LEB 12 at offset 4096 of journal head 1, and
    the file-system object with a bud for LEB 12 from offset 0 of the same
    head. *)
Definition ref_snod0 : ubifs_scan_node :=
  mk_snod UBIFS_REF_NODE 11 32 64 zero_key (SnRef (mk_ref 12 4096 1)).

Definition bud_c0 : ubifs_info ext0 :=
  set_buds [mk_bud 12 0 1] log_c0.

(** The scenario of the truncation, with fanout 8: the index holds the
    inode 7; the data nodes of its blocks 0 to 9 are added; the inode is
    truncated from 40960 to 4096 bytes. *)
Definition trun_c0 : ubifs_info ext0 :=
  mk_c0 (cfg0 8) (mk_zbr (ino_key_init 7) (Some 0%nat) 0 0 0 None)
    [mk_zn0 8 None 0 0 [new_zbranch (ino_key_init 7) 11 0 160]].

Definition trun_add_block (c : ubifs_info ext0) (b : Z) : ubifs_info ext0 :=
  (ubifs_tnc_add add_dirt0 0 no_rebalance 20 (data_key_init 7 b) 12 (b * 4144) 4144 c).2.

Definition trun_c1 : ubifs_info ext0 := foldl trun_add_block trun_c0 (seqZ 0 10).

Definition trun_entry0 : replay_entry :=
  mk_replay_entry 13 0 56 100 REPLAY_DELETION (mk_key 7 UBIFS_TRUN_KEY 0) (RSizes 40960 4096).

(** An index with the data keys of the blocks 0, 1 and 2 of inode 7,
    and the truncation of the inode from 8000 to 4097 bytes: both sizes
    end in block 1. *)
Definition trun_c2 : ubifs_info ext0 := foldl trun_add_block trun_c0 (seqZ 0 3).

Definition trun_entry1 : replay_entry :=
  mk_replay_entry 13 0 56 100 REPLAY_DELETION (mk_key 7 UBIFS_TRUN_KEY 0) (RSizes 8000 4097).

(** The truncation node of that entry, as the scan of a bud delivers
    it. *)
Definition trun_snod1 : ubifs_scan_node :=
  mk_snod UBIFS_TRUN_NODE 100 0 56 (mk_key 7 UBIFS_TRUN_KEY 0) (SnTrun 8000 4097).

Definition lpt_lookup0 (e : ext0) (lnum : Z) : (Z + ubifs_lprops) * ext0 :=
  (inr (mk_lprops 131072 0 0), e).
Definition change_lp0 (e : ext0) (lp : ubifs_lprops) (free dirty flags idx_gc_cnt : Z) : (Z + ubifs_lprops) * ext0 :=
  (inr (mk_lprops free dirty flags), e).
Definition size_accum0 (e : ext0) (key : ubifs_key) (deletion : bool) (new_size : Z) : Z * ext0 :=
  (0, e).

(** The first picture of the comment in [lookup_level0], with directory
    entry keys of inode 1 and fanout 4: the root has the keys 3 and 5,
    its children have the keys 3, 5 and 6, 7. *)
Definition dk (h : Z) : ubifs_key := dent_key_init_hash 1 h.

Definition probe_c0 : ubifs_info ext0 :=
  mk_c0 (cfg0 4) (mk_zbr (dk 3) (Some 0%nat) 0 0 0 None)
    [ mk_zn0 4 None 0 1
        [ mk_zbr (dk 3) (Some 1%nat) 0 0 0 None; mk_zbr (dk 5) (Some 2%nat) 0 0 0 None ];
      mk_zn0 4 (Some 0%nat) 0 0
        [ new_zbranch (dk 3) 12 0 64; new_zbranch (dk 5) 12 64 64 ];
      mk_zn0 4 (Some 0%nat) 1 0
        [ new_zbranch (dk 6) 12 128 64; new_zbranch (dk 7) 12 192 64 ] ].

(** The same picture one level higher, with fanout 4: the root, of
    level two, has the keys 3 and 5; the znodes below it have the keys
    3, 4 and 5, 8; the leaves have the keys 3; 4, 5; 6, 7; 8, 9. *)
Definition probe_c1 : ubifs_info ext0 :=
  mk_c0 (cfg0 4) (mk_zbr (dk 3) (Some 0%nat) 0 0 0 None)
    [ mk_zn0 4 None 0 2
        [ mk_zbr (dk 3) (Some 1%nat) 0 0 0 None; mk_zbr (dk 5) (Some 2%nat) 0 0 0 None ];
      mk_zn0 4 (Some 0%nat) 0 1
        [ mk_zbr (dk 3) (Some 3%nat) 0 0 0 None; mk_zbr (dk 4) (Some 4%nat) 0 0 0 None ];
      mk_zn0 4 (Some 0%nat) 1 1
        [ mk_zbr (dk 5) (Some 5%nat) 0 0 0 None; mk_zbr (dk 8) (Some 6%nat) 0 0 0 None ];
      mk_zn0 4 (Some 1%nat) 0 0 [ new_zbranch (dk 3) 12 0 64 ];
      mk_zn0 4 (Some 1%nat) 1 0 [ new_zbranch (dk 4) 12 64 64; new_zbranch (dk 5) 12 128 64 ];
      mk_zn0 4 (Some 2%nat) 0 0 [ new_zbranch (dk 6) 12 192 64; new_zbranch (dk 7) 12 256 64 ];
      mk_zn0 4 (Some 2%nat) 1 0 [ new_zbranch (dk 8) 12 320 64; new_zbranch (dk 9) 12 384 64 ] ].

(** An index that is being committed, with fanout 4: the root, of level
    one and written at offset 0 of LEB 11 with 100 bytes, carries the COW
    flag; its two children are in memory. *)
Definition cow_root0 : ubifs_znode :=
  set_zn_flags (set_bit COW_ZNODE 0)
    (mk_zn0 4 None 0 1
       [ mk_zbr (dk 3) (Some 1%nat) 12 0 64 None; mk_zbr (dk 6) (Some 2%nat) 12 64 64 None ]).

Definition cow_c0 : ubifs_info ext0 :=
  mk_c0 (cfg0 4) (mk_zbr (dk 3) (Some 0%nat) 11 0 100 None)
    [ cow_root0;
      mk_zn0 4 (Some 0%nat) 0 0
        [ new_zbranch (dk 3) 13 0 64; new_zbranch (dk 5) 13 64 64 ];
      mk_zn0 4 (Some 0%nat) 1 0
        [ new_zbranch (dk 6) 13 128 64; new_zbranch (dk 7) 13 192 64 ] ].

(** The same index when there is no memory for the copy. *)
Definition cow_c0_nomem : ubifs_info ext0 := set_alloc_fails [true] cow_c0.

(** An index with one extended attribute entry: the attribute [user.a]
    of inode 7, whose name hashes to 42, stored at offset 0 of LEB 12. *)
Definition xent_key0 : ubifs_key := xent_key_init_hash 7 42.

Definition xent_node0 : ubifs_dent_node :=
  mk_dent (mk_ch UBIFS_NODE_MAGIC true 5 63 UBIFS_XENT_NODE) xent_key0 9 0 6 "user.a".

Definition xent_c0 : ubifs_info ext0 :=
  mk_info (cfg0 4) (mk_zbr xent_key0 (Some 0%nat) 0 0 0 None)
    {[ 0%nat := mk_zn0 4 None 0 0 [new_zbranch xent_key0 12 0 63] ]} 1
    RbNil 0 0 0 0 [] {[ (12, 0) := Stored (OnFlashLeaf xent_node0) ]}
    RbNil [] [] 0 0 0 0 0 0 0 false [].

(** A replay with two dangling branches: the root is a level-0 znode
    whose two branches have the key of the directory entries of inode 1
    with hash 5; nothing is stored where they point to. *)
Definition dangling_c0 : ubifs_info ext0 :=
  mk_info (cfg0 4) (mk_zbr (dk 5) (Some 0%nat) 0 0 0 None)
    {[ 0%nat := mk_zn0 4 None 0 0 [new_zbranch (dk 5) 12 0 64; new_zbranch (dk 5) 12 64 64] ]} 1
    RbNil 0 0 0 0 [] ∅ RbNil [] [] 0 0 0 0 0 0 100 true [].

(** An index with fanout 4 and a full root of level one: the first three
    leaves hold the inodes 1 to 6, the last leaf is full with the blocks
    0 to 3 of inode 7. *)
Definition split_c0 : ubifs_info ext0 :=
  mk_c0 (cfg0 4) (mk_zbr (ino_key_init 1) (Some 0%nat) 0 0 0 None)
    [ mk_zn0 4 None 0 1
        [ mk_zbr (ino_key_init 1) (Some 1%nat) 0 0 0 None;
          mk_zbr (ino_key_init 3) (Some 2%nat) 0 0 0 None;
          mk_zbr (ino_key_init 5) (Some 3%nat) 0 0 0 None;
          mk_zbr (data_key_init 7 0) (Some 4%nat) 0 0 0 None ];
      mk_zn0 4 (Some 0%nat) 0 0
        [ new_zbranch (ino_key_init 1) 11 0 160; new_zbranch (ino_key_init 2) 11 160 160 ];
      mk_zn0 4 (Some 0%nat) 1 0
        [ new_zbranch (ino_key_init 3) 11 320 160; new_zbranch (ino_key_init 4) 11 480 160 ];
      mk_zn0 4 (Some 0%nat) 2 0
        [ new_zbranch (ino_key_init 5) 11 640 160; new_zbranch (ino_key_init 6) 11 800 160 ];
      mk_zn0 4 (Some 0%nat) 3 0
        [ new_zbranch (data_key_init 7 0) 12 0 4144;
          new_zbranch (data_key_init 7 1) 12 4144 4144;
          new_zbranch (data_key_init 7 2) 12 8288 4144;
          new_zbranch (data_key_init 7 3) 12 12432 4144 ] ].

(** The zbranch of block 4 of inode 7. *)
Definition split_zbr0 : ubifs_zbranch := new_zbranch (data_key_init 7 4) 12 16576 4144.

(** The zbranch of block 9 of inode 7. *)
Definition split_zbr2 : ubifs_zbranch := new_zbranch (data_key_init 7 9) 12 37296 4144.

(** The state after the first pass of that insertion, and the zbranch
    of the new leaf the second pass puts into the root. *)
Definition split_c1 : ubifs_info ext0 :=
  (tnc_insert_body no_rebalance 20 4%nat split_zbr0 4 false split_c0).2.

Definition split_zbr1 : ubifs_zbranch := mk_zbr (data_key_init 7 4) (Some 5%nat) 0 0 0 None.

(** An index whose root, with fanout 4, has the keys of the inodes 10
    and 20; its children are on the flash.  The index node of the first
    child, at offset 0 of LEB 12, holds the keys of the inodes 30 to 33:
    they are in order, but beyond the key 20 of the next branch of the
    root. *)
Definition order_cfg0 : ubifs_cfg :=
  mk_cfg 4 131072 100 10 8 3 4 (2 ^ 41) 1 (fun _ => mk_range 0 0 160) false false 20 0.

Definition order_idx0 : ubifs_idx_node :=
  mk_idx (mk_ch UBIFS_NODE_MAGIC true 1 120 UBIFS_IDX_NODE) 4 0
    [ mk_branch 13 0 160 (ino_key_init 30); mk_branch 13 160 160 (ino_key_init 31);
      mk_branch 13 320 160 (ino_key_init 32); mk_branch 13 480 160 (ino_key_init 33) ].

Definition order_c0 : ubifs_info ext0 :=
  mk_info order_cfg0 (mk_zbr (ino_key_init 10) (Some 0%nat) 0 0 0 None)
    {[ 0%nat := mk_zn0 4 None 0 1
                  [ mk_zbr (ino_key_init 10) None 12 0 120 None;
                    mk_zbr (ino_key_init 20) None 12 1024 120 None ] ]} 1
    RbNil 0 0 0 0 [] {[ (12, 0) := Stored (OnFlashIdx order_idx0) ]}
    RbNil [] [] 0 0 0 0 0 0 0 false [].

(** The index after the inode 15 was added. *)
Definition order_c1 : ubifs_info ext0 :=
  (ubifs_tnc_add add_dirt0 0 no_rebalance 20 (ino_key_init 15) 13 640 160 order_c0).2.

(** A bud in LEB 12 that holds an inode node, a data node and a
    truncation node of inode 7, with the sequence numbers 21 to 23; the
    scan that finds it, a recovery that is not needed, and a write
    buffer that takes every position. *)
Definition bud_leb0 : ubifs_scan_leb :=
  mk_sleb
    [ mk_snod UBIFS_INO_NODE 21 0 160 (ino_key_init 7) (SnIno 8192 1);
      mk_snod UBIFS_DATA_NODE 22 160 4144 (data_key_init 7 0) (SnData 4096);
      mk_snod UBIFS_TRUN_NODE 23 4304 56 (mk_key 7 UBIFS_TRUN_KEY 0) (SnTrun 8192 4096) ]
    4360.

Definition scan_bud0 (lnum offs : Z) : Z + ubifs_scan_leb := inr bud_leb0.

(** The same bud with the data node of block 2^20, whose end lies
    beyond 2^32 bytes. *)
Definition bud_leb1 : ubifs_scan_leb :=
  mk_sleb
    [ mk_snod UBIFS_INO_NODE 21 0 160 (ino_key_init 7) (SnIno 8192 1);
      mk_snod UBIFS_DATA_NODE 22 160 4144 (data_key_init 7 1048576) (SnData 4096);
      mk_snod UBIFS_TRUN_NODE 23 4304 56 (mk_key 7 UBIFS_TRUN_KEY 0) (SnTrun 8192 4096) ]
    4360.

Definition scan_bud1 (lnum offs : Z) : Z + ubifs_scan_leb := inr bud_leb1.

Definition recover_leb0 (lnum offs : Z) (grouped : bool) : Z + ubifs_scan_leb :=
  inl (- EINVAL).

Definition wbuf_seek0 (e : ext0) (jhead lnum offs : Z) : Z * ext0 := (0, e).

(** An index of one znode with fanout 4, which holds the inodes 1 and
    2. *)
Definition leaf_c0 : ubifs_info ext0 :=
  mk_c0 (cfg0 4) (mk_zbr (ino_key_init 1) (Some 0%nat) 0 0 0 None)
    [ mk_zn0 4 None 0 0
        [ new_zbranch (ino_key_init 1) 11 0 160; new_zbranch (ino_key_init 2) 11 160 160 ] ].

(** A medium that can be scanned in the log area only, where it reads
    as [scan0]. *)
Definition scan_log_only (lnum offs : Z) : Z + ubifs_scan_leb :=
  if (UBIFS_LOG_LNUM <=? lnum) && (lnum <? UBIFS_LOG_LNUM + 4) then scan0 lnum offs
  else inl (- EINVAL).

(** An index of one znode with the inode 7, whose branch points to
    offset 0 of LEB 12, where the flash holds a good inode node of
    inode 8. *)
Definition badkey_node0 : ubifs_dent_node :=
  mk_dent (mk_ch UBIFS_NODE_MAGIC true 5 160 UBIFS_INO_NODE) (ino_key_init 8) 0 0 0 "".

Definition badkey_c0 : ubifs_info ext0 :=
  mk_info (cfg0 4) (mk_zbr (ino_key_init 7) (Some 0%nat) 0 0 0 None)
    {[ 0%nat := mk_zn0 4 None 0 0 [new_zbranch (ino_key_init 7) 12 0 160] ]} 1
    RbNil 0 0 0 0 [] {[ (12, 0) := Stored (OnFlashLeaf badkey_node0) ]}
    RbNil [] [] 0 0 0 0 0 0 0 false [].
(** ** The monad *)

Section Monad.

Context {ext_t : Type}.

(** Unfolding one [bind]. *)
Lemma bind_val {A B} (m : M ext_t A) (k : A -> M ext_t B) (c c' : ubifs_info ext_t) (a : A) :
  m c = (Val a, c') -> bind m k c = k a c'.
Proof. intros H. unfold bind. rewrite H. reflexivity. Qed.

Lemma bind_inv {A B} (m : M ext_t A) (k : A -> M ext_t B) (c c' : ubifs_info ext_t) (b : B) :
  bind m k c = (Val b, c') -> exists a c1, m c = (Val a, c1) /\ k a c1 = (Val b, c').
Proof.
  unfold bind. destruct (m c) as [[a| | |] c1]; intros H; try discriminate H.
  exists a, c1. split; [reflexivity | exact H].
Qed.

Lemma bind_err {A B} (m : M ext_t A) (k : A -> M ext_t B) (c c' : ubifs_info ext_t) (e : Z) :
  m c = (Err e, c') -> bind m k c = (Err e, c').
Proof. intros H. unfold bind. rewrite H. reflexivity. Qed.

Lemma bind_modify {B} (f : ubifs_info ext_t -> ubifs_info ext_t) (k : unit -> M ext_t B) (c : ubifs_info ext_t) :
  bind (modify f) k c = k tt (f c).
Proof. reflexivity. Qed.

Lemma bind_get {B} (k : ubifs_info ext_t -> M ext_t B) (c : ubifs_info ext_t) :
  bind get k c = k c c.
Proof. reflexivity. Qed.

Lemma bind_ret {A B} (a : A) (k : A -> M ext_t B) (c : ubifs_info ext_t) :
  bind (ret a) k c = k a c.
Proof. reflexivity. Qed.

Lemma bind_fail {A B} (e : Z) (k : A -> M ext_t B) (c : ubifs_info ext_t) :
  bind (fail e) k c = fail e c.
Proof. reflexivity. Qed.

Lemma bind_assoc {A B C} (m : M ext_t A) (k : A -> M ext_t B) (h : B -> M ext_t C) (c : ubifs_info ext_t) :
  bind (bind m k) h c = bind m (fun a => bind (k a) h) c.
Proof. unfold bind. destruct (m c) as [[a | e | |] c1]; reflexivity. Qed.

Lemma bind_ext {A B} (m : M ext_t A) (k k' : A -> M ext_t B) (c : ubifs_info ext_t) :
  (forall a c1, k a c1 = k' a c1) -> bind m k c = bind m k' c.
Proof. intros H. unfold bind. destruct (m c) as [[a | e | |] c1]; [apply H | reflexivity ..]. Qed.

Lemma bind_cong_l {A B} (m m' : M ext_t A) (k : A -> M ext_t B) (c : ubifs_info ext_t) :
  m c = m' c -> bind m k c = bind m' k c.
Proof. intros H. unfold bind. rewrite H. reflexivity. Qed.

End Monad.


(** ** The replay tree *)

Lemma strictly_increasing_sorted (l : list Z) :
  strictly_increasing l = true <-> StronglySorted Z.lt l.
Proof.
  split.
  - intros H. apply Sorted.Sorted_StronglySorted; [intros x y z; lia |].
    induction l as [|x [|y l'] IH]; simpl in *; auto.
    apply andb_true_iff in H as [Hxy Hrest].
    constructor; [apply IH; exact Hrest | constructor; lia].
  - intros H. apply Sorted.StronglySorted_Sorted in H.
    induction H as [|x l Hs IH Hhd]; [reflexivity |].
    destruct l as [|y l']; [reflexivity |].
    simpl. inversion Hhd; subst.
    apply andb_true_iff; split; [lia | exact IH].
Qed.

Lemma sorted_node (l r : list Z) (x : Z) :
  StronglySorted Z.lt (l ++ x :: r) <->
  StronglySorted Z.lt l /\ StronglySorted Z.lt r
  /\ Forall (fun y => y < x) l /\ Forall (fun y => x < y) r.
Proof.
  rewrite StronglySorted_app, StronglySorted_cons, !Forall_forall.
  split.
  - intros (H1 & H2 & H3 & H4). repeat split; auto.
    intros y Hy. apply H1; [exact Hy | left].
  - intros (H1 & H2 & H3 & H4). repeat split; auto.
    intros y z Hy Hz. apply elem_of_cons in Hz as [-> | Hz]; [auto |].
    specialize (H3 y Hy). specialize (H4 z Hz). lia.
Qed.

(** What the descent through the replay tree yields on a tree that is in
    order: nothing when the sequence number is there, and otherwise a
    tree in order that holds the new entry and the old ones. *)
Lemma replay_tree_link_spec (r : replay_entry) (t : rb_tree replay_entry) :
  StronglySorted Z.lt (replay_sqnums t) ->
  match replay_tree_link r t with
  | None => r_sqnum r ∈ replay_sqnums t
  | Some t' =>
      (r_sqnum r ∉ replay_sqnums t)
      /\ StronglySorted Z.lt (replay_sqnums t')
      /\ (forall e, e ∈ rb_inorder t' <-> e = r \/ e ∈ rb_inorder t)
  end.
Proof.
  unfold replay_sqnums.
  induction t as [|col lt IHl x rt IHr]; simpl; intros Hs.
  - repeat split.
    + apply not_elem_of_nil.
    + repeat constructor.
    + intros He. apply list_elem_of_singleton in He. left; exact He.
    + intros [-> | He]; [apply list_elem_of_singleton; reflexivity |].
      inversion He.
  - rewrite fmap_app in Hs. simpl in Hs.
    apply sorted_node in Hs as (Hl & Hr & Hlx & Hrx).
    rewrite Forall_forall in Hlx, Hrx.
    destruct (Z.ltb_spec (r_sqnum r) (r_sqnum x)) as [Hlt | Hge].
    + specialize (IHl Hl).
      destruct (replay_tree_link r lt) as [lt'|]; simpl.
      * destruct IHl as (Hni & Hs' & Hel). repeat split.
        -- rewrite fmap_app. simpl. rewrite elem_of_app, elem_of_cons.
           intros [H | [H | H]]; [tauto | lia |].
           specialize (Hrx _ H). lia.
        -- rewrite fmap_app. simpl. apply sorted_node. repeat split; auto.
           ++ apply Forall_forall. intros y Hy.
              apply list_elem_of_fmap in Hy as (e & -> & He).
              apply Hel in He as [-> | He]; [lia |].
              apply Hlx. apply list_elem_of_fmap. eauto.
           ++ apply Forall_forall. exact Hrx.
        -- intros He. rewrite elem_of_app, elem_of_cons in He.
           rewrite elem_of_app, elem_of_cons. rewrite Hel in He. tauto.
        -- intros He. rewrite elem_of_app, elem_of_cons.
           rewrite elem_of_app, elem_of_cons in He. rewrite Hel. tauto.
      * rewrite fmap_app. apply elem_of_app. left. exact IHl.
    + destruct (Z.ltb_spec (r_sqnum x) (r_sqnum r)) as [Hgt | Hle].
      * specialize (IHr Hr).
        destruct (replay_tree_link r rt) as [rt'|]; simpl.
        -- destruct IHr as (Hni & Hs' & Hel). repeat split.
           ++ rewrite fmap_app. simpl. rewrite elem_of_app, elem_of_cons.
              intros [H | [H | H]]; [| lia | tauto].
              specialize (Hlx _ H). lia.
           ++ rewrite fmap_app. simpl. apply sorted_node. repeat split; auto.
              ** apply Forall_forall. exact Hlx.
              ** apply Forall_forall. intros y Hy.
                 apply list_elem_of_fmap in Hy as (e & -> & He).
                 apply Hel in He as [-> | He]; [lia |].
                 apply Hrx. apply list_elem_of_fmap. eauto.
           ++ intros He. rewrite elem_of_app, elem_of_cons in He.
              rewrite elem_of_app, elem_of_cons. rewrite Hel in He. tauto.
           ++ intros He. rewrite elem_of_app, elem_of_cons.
              rewrite elem_of_app, elem_of_cons in He. rewrite Hel. tauto.
        -- rewrite fmap_app. simpl. apply elem_of_app. right.
           apply elem_of_cons. right. exact IHr.
      * rewrite fmap_app. simpl. apply elem_of_app. right.
        apply elem_of_cons. left. lia.
Qed.

Lemma replay_tree_link_dup (r : replay_entry) (t : rb_tree replay_entry) :
  replay_tree_ok t -> r_sqnum r ∈ replay_sqnums t -> replay_tree_link r t = None.
Proof.
  intros Hok Hin. apply strictly_increasing_sorted in Hok.
  pose proof (replay_tree_link_spec r t Hok) as H.
  destruct (replay_tree_link r t); [tauto | reflexivity].
Qed.

Lemma replay_sqnums_NoDup (t : rb_tree replay_entry) :
  replay_tree_ok t -> NoDup (replay_sqnums t).
Proof.
  intros Hok. apply strictly_increasing_sorted in Hok.
  induction Hok as [|x l Hs IH Hall]; constructor; auto.
  intros Hin. rewrite Forall_forall in Hall. specialize (Hall _ Hin). lia.
Qed.

Section ReplayTree.

Context {ext_t : Type}.
Variable rb_insert_color : forall A : Type, rb_tree A -> rb_tree A.
Hypothesis rb_insert_color_inorder :
  forall (A : Type) (t : rb_tree A), rb_inorder (rb_insert_color A t) = rb_inorder t.

Lemma note_highest_inum_run (key : ubifs_key) (c : ubifs_info ext_t) :
  exists c', note_highest_inum key c = (Val tt, c') /\ replay_tree c' = replay_tree c.
Proof.
  unfold note_highest_inum, modify. eexists. split; [reflexivity |].
  destruct (highest_inum c <=? key_ino key); reflexivity.
Qed.

Lemma replay_tree_link_ok (r : replay_entry) (t t' : rb_tree replay_entry) :
  replay_tree_ok t -> replay_tree_link r t = Some t' ->
  replay_tree_ok (rb_insert_color _ t').
Proof.
  intros Hok Hlink. apply strictly_increasing_sorted in Hok.
  pose proof (replay_tree_link_spec r t Hok) as H. rewrite Hlink in H.
  apply strictly_increasing_sorted. unfold replay_sqnums.
  rewrite rb_insert_color_inorder. tauto.
Qed.

(** C7.  In a replay tree whose sequence numbers are in order no two
    entries have the same sequence number; [insert_node], [insert_dent]
    and [insert_ref_node] called with the sequence number of an entry of
    the tree return [-EINVAL] and leave the tree as it was; and when they
    succeed the tree is in order again. *)
Theorem replay_insert_duplicate_sqnum (c : ubifs_info ext_t) :
  replay_tree_ok (replay_tree c) ->
  NoDup (replay_sqnums (replay_tree c))
  /\ (forall e, e ∈ rb_inorder (replay_tree c) ->
      (forall lnum offs len key deletion used old_size new_size,
          let out := insert_node rb_insert_color lnum offs len key (r_sqnum e)
                       deletion used old_size new_size c in
          out.1 = Err (- EINVAL) /\ replay_tree out.2 = replay_tree c)
      /\ (forall lnum offs len key name nlen deletion used,
          let out := insert_dent rb_insert_color lnum offs len key name nlen
                       (r_sqnum e) deletion used c in
          out.1 = Err (- EINVAL) /\ replay_tree out.2 = replay_tree c)
      /\ (forall lnum offs free dirty,
          let out := insert_ref_node rb_insert_color lnum offs (r_sqnum e) free dirty c in
          out.1 = Err (- EINVAL) /\ replay_tree out.2 = replay_tree c))
  /\ (forall lnum offs len key sqnum deletion used old_size new_size,
        let out := insert_node rb_insert_color lnum offs len key sqnum
                     deletion used old_size new_size c in
        (exists used', out.1 = Val used') -> replay_tree_ok (replay_tree out.2))
  /\ (forall lnum offs len key name nlen sqnum deletion used,
        let out := insert_dent rb_insert_color lnum offs len key name nlen
                     sqnum deletion used c in
        (exists used', out.1 = Val used') -> replay_tree_ok (replay_tree out.2))
  /\ (forall lnum offs sqnum free dirty,
        let out := insert_ref_node rb_insert_color lnum offs sqnum free dirty c in
        out.1 = Val tt -> replay_tree_ok (replay_tree out.2)).
Proof.
  intros Hok. split; [apply replay_sqnums_NoDup; exact Hok |].
  split; [| split; [| split]].
  - intros e He.
    assert (Hin : r_sqnum e ∈ replay_sqnums (replay_tree c)).
    { unfold replay_sqnums. apply list_elem_of_fmap. eauto. }
    split; [| split].
    + intros. subst out. unfold insert_node, bind, get.
      destruct (note_highest_inum_run key c) as (c1 & Hn & Ht). rewrite Hn. cbv beta iota. rewrite Ht.
      rewrite replay_tree_link_dup; [| exact Hok | exact Hin].
      simpl. split; [reflexivity | exact Ht].
    + intros. subst out. unfold insert_dent, bind, get.
      destruct (note_highest_inum_run key c) as (c1 & Hn & Ht). rewrite Hn. cbv beta iota. rewrite Ht.
      rewrite replay_tree_link_dup; [| exact Hok | exact Hin].
      simpl. split; [reflexivity | exact Ht].
    + intros. subst out. unfold insert_ref_node, bind, get.
      rewrite replay_tree_link_dup; [| exact Hok | exact Hin].
      simpl. split; reflexivity.
  - intros. subst out. revert H. unfold insert_node, bind, get.
    destruct (note_highest_inum_run key c) as (c1 & Hn & Ht). rewrite Hn. cbv beta iota. rewrite Ht.
    destruct (replay_tree_link _ (replay_tree c)) as [t'|] eqn:Hl; simpl.
    + intros _. eapply replay_tree_link_ok; eauto.
    + intros [u Hu]. discriminate Hu.
  - intros. subst out. revert H. unfold insert_dent, bind, get.
    destruct (note_highest_inum_run key c) as (c1 & Hn & Ht). rewrite Hn. cbv beta iota. rewrite Ht.
    destruct (replay_tree_link _ (replay_tree c)) as [t'|] eqn:Hl; simpl.
    + intros _. eapply replay_tree_link_ok; eauto.
    + intros [u Hu]. discriminate Hu.
  - intros. subst out. revert H. unfold insert_ref_node, bind, get.
    destruct (replay_tree_link _ (replay_tree c)) as [t'|] eqn:Hl; simpl.
    + intros _. eapply replay_tree_link_ok; eauto.
    + intros Hu. discriminate Hu.
Qed.

End ReplayTree.

Lemma replay_insert_duplicate_sqnum_witness :
  replay_tree_ok (replay_tree replay_c0)
  /\ (insert_node no_rebalance 12 4304 160 (ino_key_init 7) 9 false 0 0 0 replay_c0).1
     = Err (- EINVAL).
Proof.
  split; [reflexivity |].
  assert (He : mk_replay_entry 12 160 4144 9 0 (data_key_init 7 0) (RSizes 0 4096)
               ∈ rb_inorder (replay_tree replay_c0)).
  { apply elem_of_cons. right. apply elem_of_cons. left. reflexivity. }
  exact (proj1 (proj1 (proj1 (proj2 (replay_insert_duplicate_sqnum no_rebalance
           (fun _ _ => eq_refl) replay_c0 eq_refl)) _ He)
           12 4304 160 (ino_key_init 7) false 0 0 0)).
Defined.

(** ** Replaying the log *)

Section ReplayLog.

Context {ext_t : Type}.
Variable ubifs_scan : Z -> Z -> Z + ubifs_scan_leb.
Variable ubifs_recover_log_leb : Z -> Z -> Z + ubifs_scan_leb.

Lemma note_max_sqnum_run (sqnum : Z) (c : ubifs_info ext_t) :
  exists c', note_max_sqnum sqnum c = (Val tt, c')
    /\ cs_sqnum c' = cs_sqnum c /\ buds c' = buds c
    /\ c_replay_buds c' = c_replay_buds c /\ c_cfg c' = c_cfg c.
Proof.
  unfold note_max_sqnum, modify. eexists. split; [reflexivity |].
  destruct (max_sqnum c <? sqnum); repeat split; reflexivity.
Qed.

(** A record of the log either is refused with [-EINVAL] or is taken and
    leaves the commit-start sequence number alone. *)
Lemma replay_log_node_cases (snod : ubifs_scan_node) (c : ubifs_info ext_t) :
  (replay_log_node snod c).1 = Err (- EINVAL)
  \/ ((replay_log_node snod c).1 = Val tt
      /\ cs_sqnum (replay_log_node snod c).2 = cs_sqnum c
      /\ cs_sqnum c <= sn_sqnum snod).
Proof.
  unfold replay_log_node, bind, get.
  destruct (SQNUM_WATERMARK <=? sn_sqnum snod); [left; reflexivity |].
  destruct (Z.ltb_spec (sn_sqnum snod) (cs_sqnum c)) as [Hlt | Hge]; [left; reflexivity |].
  destruct (note_max_sqnum_run (sn_sqnum snod) c) as (c1 & Hn & Hcs & Hb & Hrb & Hcfg).
  rewrite Hn. cbv beta iota.
  destruct (sn_type snod =? UBIFS_REF_NODE).
  - destruct (validate_ref c1 (as_ref (sn_node snod)) =? 1).
    + right. simpl. auto.
    + destruct (validate_ref c1 (as_ref (sn_node snod)) =? 0); simpl.
      * right. auto.
      * left. reflexivity.
  - destruct (sn_type snod =? UBIFS_CS_NODE); [| left; reflexivity].
    destruct (sn_offs snod =? 0); simpl; [right; auto | left; reflexivity].
Qed.

(** A record older than the commit start anywhere among the records the
    loop of [replay_log_leb] goes through makes the loop fail. *)
Lemma replay_log_nodes_older (snods : list ubifs_scan_node) (c : ubifs_info ext_t) :
  (exists s, s ∈ snods /\ sn_sqnum s < cs_sqnum c) ->
  (replay_log_nodes snods c).1 = Err (- EINVAL).
Proof.
  revert c. induction snods as [|h rest IH]; intros c [s [Hin Hlt]].
  - inversion Hin.
  - simpl. unfold bind.
    destruct (replay_log_node_cases h c) as [He | (Hv & Hcs & Hge)].
    + destruct (replay_log_node h c) as [r c1]. simpl in He. subst r. reflexivity.
    + destruct (replay_log_node h c) as [r c1]. simpl in Hv, Hcs. subst r.
      apply IH. apply elem_of_cons in Hin as [-> | Hin]; [lia |].
      exists s. split; [exact Hin | lia].
Qed.

(** C8, as the code has it.  When the commit-start sequence number is
    known and the first record of a log LEB is older, [replay_log_leb]
    returns 1 and changes nothing, and the loop of
    [ubifs_replay_journal] over the log LEBs stops there without an error;
    when the first record is not older and sits at offset zero, an older
    record further on in the LEB makes [replay_log_leb] fail with
    [-EINVAL]. *)
Theorem replay_log_leb_older_record (c : ubifs_info ext_t) (lnum offs : Z) (sleb : ubifs_scan_leb) (snod : ubifs_scan_node) (rest : list ubifs_scan_node) :
  cs_sqnum c <> 0 ->
  ubifs_scan lnum offs = inr sleb ->
  sl_nodes sleb = snod :: rest ->
  (sn_sqnum snod < cs_sqnum c ->
   replay_log_leb ubifs_scan ubifs_recover_log_leb lnum offs c = (Val 1, c)
   /\ (lnum < UBIFS_LOG_LNUM + log_lebs (c_cfg c) ->
       forall k, replay_log_lebs ubifs_scan ubifs_recover_log_leb (S k) lnum offs c = (Val tt, c)))
  /\ (cs_sqnum c <= sn_sqnum snod -> sn_offs snod = 0 ->
      (exists s, s ∈ rest /\ sn_sqnum s < cs_sqnum c) ->
      (replay_log_leb ubifs_scan ubifs_recover_log_leb lnum offs c).1 = Err (- EINVAL)).
Proof.
  intros Hcs Hscan Hnodes.
  assert (Hcs0 : (cs_sqnum c =? 0) = false) by (apply Z.eqb_neq; exact Hcs).
  split.
  - intros Hlt.
    assert (Hleb : replay_log_leb ubifs_scan ubifs_recover_log_leb lnum offs c = (Val 1, c)).
    { unfold replay_log_leb, bind, get. rewrite Hscan, Hnodes, Hcs0. simpl.
      destruct (Z.ltb_spec (sn_sqnum snod) (cs_sqnum c)); [reflexivity | lia]. }
    split; [exact Hleb |].
    intros Hwrap k. simpl. unfold bind, get.
    destruct (Z.leb_spec (UBIFS_LOG_LNUM + log_lebs (c_cfg c)) lnum); [lia |].
    rewrite Hleb. reflexivity.
  - intros Hge Hoffs Hold.
    assert (Hl : (replay_log_nodes (snod :: rest) c).1 = Err (- EINVAL)).
    { apply replay_log_nodes_older. destruct Hold as [s [Hin Hlt]].
      exists s. split; [apply elem_of_cons; right; exact Hin | exact Hlt]. }
    unfold replay_log_leb, bind, get. rewrite Hscan, Hnodes, Hcs0.
    cbv beta iota. unfold ret at 1. cbv beta iota.
    destruct (Z.ltb_spec (sn_sqnum snod) (cs_sqnum c)); [lia |].
    rewrite Hoffs. cbv beta iota. change (negb (0 =? 0)) with false. cbv beta iota.
    destruct (replay_log_nodes (snod :: rest) c) as [r c1].
    simpl in Hl. subst r. reflexivity.
Qed.

Lemma u32_small (x : Z) : 0 <= x < 2 ^ 32 -> u32 x = x.
Proof. intros H. unfold u32. apply Z.mod_small. exact H. Qed.

Lemma int_of_u32_small (x : Z) : 0 <= x < 2 ^ 31 -> int_of_u32 x = x.
Proof. intros H. unfold int_of_u32. destruct (Z.ltb_spec x (2 ^ 31)); lia. Qed.

Lemma land_pow2_mask (x k : Z) : 0 <= k -> Z.land x (2 ^ k - 1) = x mod 2 ^ k.
Proof.
  intros Hk. rewrite <- Z.land_ones by exact Hk.
  rewrite Z.ones_equiv. reflexivity.
Qed.

Lemma ubifs_search_bud_lnum (c : ubifs_info ext_t) (lnum : Z) (bud : ubifs_bud) :
  ubifs_search_bud c lnum = Some bud -> bud ∈ buds c /\ bud_lnum bud = lnum.
Proof.
  unfold ubifs_search_bud. intros H.
  apply find_some in H as [Hin Heq].
  split; [apply list_elem_of_In; exact Hin | apply Z.eqb_eq; exact Heq].
Qed.

(** [validate_ref] by the conditions it stands for. *)
Lemma validate_ref_spec (c : ubifs_info ext_t) (ref : ubifs_ref_node) :
  replay_cfg_ok c -> ref_in_u32 ref ->
  (~ ref_valid c ref -> validate_ref c ref = - EINVAL)
  /\ (ref_valid c ref ->
      validate_ref c ref =
        match ubifs_search_bud c (int_of_u32 (ref_lnum ref)) with
        | Some bud =>
            if (bud_jhead bud =? ref_jhead ref) && (bud_start bud <=? ref_offs ref)
            then 1 else - EINVAL
        | None => 0
        end).
Proof.
  intros (Hj & Hl & (k & Hk & Hmio) & Hbuds) (Hrl & Hro & Hrj).
  unfold validate_ref, ref_valid.
  rewrite (u32_small (jhead_cnt (c_cfg c))) by lia.
  rewrite (u32_small (leb_size (c_cfg c))) by lia.
  rewrite Hmio.
  assert (Hpow : 0 < 2 ^ k) by (apply Z.pow_pos_nonneg; lia).
  assert (Hpow2 : 2 ^ k <= 2 ^ 30) by (apply Z.pow_le_mono_r; lia).
  rewrite (u32_small (2 ^ k - 1)) by lia.
  rewrite land_pow2_mask by lia.
  split.
  - intros Hnv.
    destruct (Z.leb_spec (jhead_cnt (c_cfg c)) (ref_jhead ref)); [reflexivity |].
    destruct (Z.leb_spec (leb_cnt (c_cfg c)) (int_of_u32 (ref_lnum ref))); [reflexivity |].
    destruct (Z.ltb_spec (int_of_u32 (ref_lnum ref)) (main_first (c_cfg c))); [reflexivity |].
    destruct (Z.ltb_spec (leb_size (c_cfg c)) (ref_offs ref)); [reflexivity |].
    destruct (Z.eqb_spec (ref_offs ref mod 2 ^ k) 0); [| reflexivity].
    exfalso. apply Hnv. repeat split; lia.
  - intros (H1 & H2 & H3 & H4).
    destruct (Z.leb_spec (jhead_cnt (c_cfg c)) (ref_jhead ref)); [lia |].
    destruct (Z.leb_spec (leb_cnt (c_cfg c)) (int_of_u32 (ref_lnum ref))); [lia |].
    destruct (Z.ltb_spec (int_of_u32 (ref_lnum ref)) (main_first (c_cfg c))); [lia |].
    destruct (Z.ltb_spec (leb_size (c_cfg c)) (ref_offs ref)); [lia |].
    destruct (Z.eqb_spec (ref_offs ref mod 2 ^ k) 0); [| lia].
    simpl.
    destruct (ubifs_search_bud c (int_of_u32 (ref_lnum ref))) as [bud|] eqn:Hs; [| reflexivity].
    apply ubifs_search_bud_lnum in Hs as [Hin _].
    rewrite Forall_forall in Hbuds. destruct (Hbuds _ Hin) as [Hbj Hbs].
    rewrite (u32_small (bud_jhead bud)) by lia.
    rewrite (u32_small (bud_start bud)) by lia.
    reflexivity.
Qed.


End ReplayLog.

(** C8 as it is written fails: in [log_leb0] the third record is older
    than the commit start, and [replay_log_leb] returns [-EINVAL]. *)
Lemma older_record_ends_log_counterexample :
  ~ older_record_ends_log scan0 recover_log0 log_c0 UBIFS_LOG_LNUM 0.
Proof.
  intros H.
  specialize (H log_leb0 (mk_snod UBIFS_REF_NODE 7 96 64 zero_key (SnRef (mk_ref 13 0 1)))
                eq_refl).
  assert (Hin : mk_snod UBIFS_REF_NODE 7 96 64 zero_key (SnRef (mk_ref 13 0 1))
                ∈ sl_nodes log_leb0).
  { do 2 (apply elem_of_cons; right). apply elem_of_cons. left. reflexivity. }
  specialize (H Hin eq_refl). vm_compute in H. discriminate H.
Qed.

Lemma replay_log_leb_older_record_witness :
  replay_log_leb scan1 recover_log0 UBIFS_LOG_LNUM 0 log_c0 = (Val 1, log_c0).
Proof.
  refine (proj1 (proj1 (replay_log_leb_older_record scan1 recover_log0 log_c0 UBIFS_LOG_LNUM 0
            _ _ [] _ eq_refl eq_refl) _)).
  - discriminate.
  - reflexivity.
Defined.


(** ** Truncation entries *)

Lemma keys_cmp_eq (k1 k2 : ubifs_key) : keys_cmp k1 k2 = 0 <-> k1 = k2.
Proof.
  destruct k1 as [i1 t1 d1], k2 as [i2 t2 d2]. unfold keys_cmp, cmp3. simpl.
  destruct (Z.ltb_spec i1 i2), (Z.ltb_spec i2 i1), (Z.ltb_spec t1 t2), (Z.ltb_spec t2 t1),
    (Z.ltb_spec d1 d2), (Z.ltb_spec d2 d1);
    split; intros Hx; try discriminate Hx; try (inversion Hx; lia).
  f_equal; lia.
Qed.

(** The keys between the data keys of the blocks [lo] and [hi] of an
    inode are the data keys of that inode with a block from [lo] to
    [hi]. *)
Lemma key_in_range_data (k : ubifs_key) (ino lo hi : Z) :
  key_in_range k (data_key_init ino lo) (data_key_init ino hi) = true
  <-> key_type k = UBIFS_DATA_KEY /\ key_ino k = ino /\ lo <= key_block k <= hi.
Proof.
  destruct k as [i t d].
  unfold key_in_range, keys_cmp, cmp3, data_key_init, key_type, key_ino, key_block,
    UBIFS_DATA_KEY. simpl.
  destruct (Z.ltb_spec i ino), (Z.ltb_spec ino i), (Z.ltb_spec t 1), (Z.ltb_spec 1 t),
    (Z.ltb_spec d lo), (Z.ltb_spec lo d), (Z.ltb_spec d hi), (Z.ltb_spec hi d);
    simpl; split; intros Hx; try discriminate Hx; try lia; try reflexivity.
Qed.

Section Trun.

Context {ext_t : Type}.
Variable ubifs_add_dirt : ext_t -> Z -> Z -> Z * ext_t.
Variable get_seconds : Z.
Variable rb_insert_color : forall A : Type, rb_tree A -> rb_tree A.
Variable ubifs_lpt_lookup_dirty : ext_t -> Z -> (Z + ubifs_lprops) * ext_t.
Variable ubifs_change_lp : ext_t -> ubifs_lprops -> Z -> Z -> Z -> Z -> (Z + ubifs_lprops) * ext_t.
Variable ubifs_recover_size_accum : ext_t -> ubifs_key -> bool -> Z -> Z * ext_t.

(** The range of a truncation entry with [0 <= new_size < old_size]
    that [replay_bud] accepted ([old_size] is at most
    [c->max_inode_sz], which UBIFS keeps at or below 2^41 bytes, the
    2^29 blocks a data key can name): applying the entry is
    [ubifs_tnc_remove_range] from the data key of the inode with the
    block [new_size / BLOCK_SIZE], plus one if [new_size] is not a
    multiple of the block size, to the data key with the block
    [old_size / BLOCK_SIZE], minus one if [old_size] is a multiple of the
    block size; and the keys that lie in that range are the data keys of
    the inode whose block lies between the two. *)
Lemma trun_remove_range_keys (fuel : nat) (r : replay_entry) (c : ubifs_info ext_t) :
  0 <= r_new_size r < r_old_size r ->
  r_old_size r <= max_inode_sz (c_cfg c) ->
  max_inode_sz (c_cfg c) <= 2 ^ 41 ->
  r_flags r = REPLAY_DELETION ->
  key_type (r_key r) = UBIFS_TRUN_KEY ->
  let ino := key_ino (r_key r) in
  let lo := trun_min_blk (r_new_size r) in
  let hi := trun_max_blk (r_old_size r) in
  trun_remove_range ubifs_add_dirt get_seconds rb_insert_color fuel r
  = ubifs_tnc_remove_range ubifs_add_dirt get_seconds rb_insert_color fuel
      (data_key_init ino lo) (data_key_init ino hi)
  /\ apply_replay_entry ubifs_add_dirt get_seconds rb_insert_color ubifs_lpt_lookup_dirty
       ubifs_change_lp ubifs_recover_size_accum fuel r c
     = bind (ubifs_tnc_remove_range ubifs_add_dirt get_seconds rb_insert_color fuel
               (data_key_init ino lo) (data_key_init ino hi))
         (fun _ =>
            bind get (fun c' =>
              if need_recovery (c_cfg c')
              then bind (on_ext (fun e => ubifs_recover_size_accum e (r_key r) true (r_new_size r))) check
              else ret tt))
         (set_replay_sqnum (r_sqnum r) c)
  /\ (forall k,
        key_in_range k (data_key_init ino lo) (data_key_init ino hi) = true
        <-> key_type k = UBIFS_DATA_KEY /\ key_ino k = ino /\ lo <= key_block k <= hi).
Proof.
  intros Hsz Hold Hmax Hfl Hty ino lo hi.
  assert (Htrun : trun_remove_range ubifs_add_dirt get_seconds rb_insert_color fuel r
                  = ubifs_tnc_remove_range ubifs_add_dirt get_seconds rb_insert_color fuel
                      (data_key_init ino lo) (data_key_init ino hi)).
  { unfold trun_remove_range. fold ino.
    assert (Hbs : UBIFS_BLOCK_SIZE = 2 ^ 12) by reflexivity.
    assert (Hmask : UBIFS_BLOCK_SIZE - 1 = 2 ^ 12 - 1) by reflexivity.
    rewrite !Hmask, !land_pow2_mask by lia. rewrite <- !Hbs.
    rewrite !Z.quot_div_nonneg by (unfold UBIFS_BLOCK_SIZE; lia).
    assert (Hn : 0 <= r_new_size r / UBIFS_BLOCK_SIZE < 2 ^ 32 - 1).
    { unfold UBIFS_BLOCK_SIZE. split; [apply Z.div_pos; lia |].
      apply Z.div_lt_upper_bound; lia. }
    assert (Ho : 0 <= r_old_size r / UBIFS_BLOCK_SIZE < 2 ^ 32).
    { unfold UBIFS_BLOCK_SIZE. split; [apply Z.div_pos; lia |].
      apply Z.div_lt_upper_bound; lia. }
    assert (Ho1 : r_old_size r mod UBIFS_BLOCK_SIZE = 0 -> 1 <= r_old_size r / UBIFS_BLOCK_SIZE).
    { unfold UBIFS_BLOCK_SIZE. intros Hm.
      pose proof (Z.div_mod (r_old_size r) 4096 ltac:(lia)) as Hdm. lia. }
    rewrite (u32_small (r_new_size r / UBIFS_BLOCK_SIZE)) by lia.
    rewrite (u32_small (r_old_size r / UBIFS_BLOCK_SIZE)) by lia.
    f_equal.
    - unfold lo, trun_min_blk. f_equal.
      destruct (Z.eqb_spec (r_new_size r mod UBIFS_BLOCK_SIZE) 0); simpl;
        [lia | apply u32_small; lia].
    - unfold hi, trun_max_blk. f_equal.
      destruct (Z.eqb_spec (r_old_size r mod UBIFS_BLOCK_SIZE) 0) as [Hm|Hm]; simpl;
        [specialize (Ho1 Hm); rewrite u32_small by lia; lia | lia]. }
  split; [exact Htrun |]. split; [| intros k; apply key_in_range_data].
  unfold apply_replay_entry. rewrite Hfl.
  change (negb (Z.land REPLAY_DELETION REPLAY_REF =? 0)) with false.
  change (negb (Z.land REPLAY_DELETION REPLAY_DELETION =? 0)) with true.
  cbv beta iota.
  assert (Hh : is_hash_key (r_key r) = false).
  { unfold is_hash_key. rewrite Hty. reflexivity. }
  rewrite Hh, Hty.
  change (UBIFS_TRUN_KEY =? UBIFS_INO_KEY) with false.
  change (UBIFS_TRUN_KEY =? UBIFS_TRUN_KEY) with true.
  cbv beta iota. rewrite Htrun.
  unfold bind, modify. reflexivity.
Qed.

End Trun.

(** The scenario: before the truncation the index has the data keys of
    the blocks 0 to 9 of inode 7; applying the entry succeeds; afterwards
    it has the key of block 0 and none of the blocks 1 to 9, and the
    inode key is still there. *)
Example trun_scenario :
  let out := apply_replay_entry add_dirt0 0 no_rebalance lpt_lookup0 change_lp0 size_accum0
               20 trun_entry0 trun_c1 in
  map (fun b => has_key 0 20 (data_key_init 7 b) trun_c1) (seqZ 0 10)
  = [true; true; true; true; true; true; true; true; true; true]
  /\ out.1 = Val tt
  /\ map (fun b => has_key 0 20 (data_key_init 7 b) out.2) (seqZ 0 10)
     = [true; false; false; false; false; false; false; false; false; false]
  /\ has_key 0 20 (ino_key_init 7) out.2 = true.
Proof. vm_compute. repeat split; reflexivity. Qed.

(** C5.  The truncation of inode 7 from 8000 to 4097 bytes names no
    block: both sizes end in block 1, so the first block to remove is 2
    and the last is 1, and no key lies between their data keys.  Its
    node passes the checks of [replay_bud], which makes the entry
    [trun_entry1] of it.  Applied to an index that has the data keys of
    the blocks 0, 1 and 2 of the inode, the entry removes the key of
    block 2 all the same: [ubifs_tnc_remove_range] compares the keys it
    steps to with [to_key], but not a [from_key] that [lookup_level0]
    finds. *)
Theorem trun_remove_range_empty_range :
  let out := apply_replay_entry add_dirt0 0 no_rebalance lpt_lookup0 change_lp0 size_accum0
               20 trun_entry1 trun_c2 in
  snod_valid (c_cfg trun_c2) trun_snod1 = true
  /\ snod_entry 13 trun_snod1 = trun_entry1
  /\ trun_min_blk 4097 = 2
  /\ trun_max_blk 8000 = 1
  /\ trun_remove_range add_dirt0 0 no_rebalance 20 trun_entry1
     = ubifs_tnc_remove_range add_dirt0 0 no_rebalance 20 (data_key_init 7 2) (data_key_init 7 1)
  /\ (forall k, key_in_range k (data_key_init 7 2) (data_key_init 7 1) = false)
  /\ map (fun b => has_key 0 20 (data_key_init 7 b) trun_c2) (seqZ 0 3) = [true; true; true]
  /\ out.1 = Val tt
  /\ map (fun b => has_key 0 20 (data_key_init 7 b) out.2) (seqZ 0 3) = [true; true; false].
Proof.
  split; [vm_compute; reflexivity |]. split; [reflexivity |].
  split; [reflexivity |]. split; [reflexivity |]. split; [reflexivity |].
  split.
  { intros k. destruct (key_in_range k (data_key_init 7 2) (data_key_init 7 1)) eqn:E;
      [| reflexivity].
    apply key_in_range_data in E. lia. }
  vm_compute. repeat split; reflexivity.
Qed.

(** ** The left-edge probe of [lookup_level0] *)

Lemma search_zbranch_loop_exact (znode : ubifs_znode) (key : ubifs_key) (k : nat) (beg end_ : Z) :
  0 <= beg ->
  let r := search_zbranch_loop znode key k beg end_ in
  (r.1 = 0 \/ r.1 = 1) /\ (r.1 = 1 -> 0 <= r.2).
Proof.
  revert beg end_. induction k as [|k IH]; intros beg end_ Hbeg; simpl.
  - split; [left; reflexivity | discriminate].
  - destruct (Z.ltb_spec beg end_) as [Hlt|Hge]; [| simpl; split; [left; reflexivity | discriminate]].
    assert (Hmid : beg <= Z.shiftr (beg + end_) 1).
    { rewrite Z.shiftr_div_pow2 by lia. change (2 ^ 1) with 2.
      apply Z.div_le_lower_bound; lia. }
    destruct (0 <? keys_cmp key (zbr_key (zbranch_at znode (Z.shiftr (beg + end_) 1)))).
    + apply IH. lia.
    + destruct (keys_cmp key (zbr_key (zbranch_at znode (Z.shiftr (beg + end_) 1))) <? 0).
      * apply IH. lia.
      * simpl. split; [right; reflexivity | lia].
Qed.

Lemma ubifs_search_zbranch_exact (znode : ubifs_znode) (key : ubifs_key) :
  let r := ubifs_search_zbranch znode key in
  (r.1 = 0 \/ r.1 = 1) /\ (r.1 = 1 -> 0 <= r.2).
Proof. unfold ubifs_search_zbranch. apply search_zbranch_loop_exact. lia. Qed.

Section Lookup.

Context {ext_t : Type}.
Variable get_seconds : Z.

(** The search of the zero-level znode says "exact" only with a slot of
    the znode. *)
Lemma lookup_level0_descend_exact (k : nat) (key : ubifs_key) (znode : nat) (c c' : ubifs_info ext_t) (exact : Z) (zn : nat) (n : Z) :
  lookup_level0_descend get_seconds k key znode c = (Val (exact, zn, n), c') ->
  (exact = 0 \/ exact = 1) /\ (exact = 1 -> 0 <= n).
Proof.
  revert znode c. induction k as [|k IH]; intros znode c; simpl; [discriminate |].
  unfold bind at 1, get at 1.
  pose proof (ubifs_search_zbranch_exact (deref c znode) key) as Hs.
  destruct (ubifs_search_zbranch (deref c znode) key) as [e m]. simpl in Hs.
  destruct (zn_level (deref c znode) =? 0).
  - intros H. inversion H; subst. exact Hs.
  - destruct (zbr_znode (zbranch_at (deref c znode) (if m <? 0 then 0 else m))) as [child|].
    + intros H. apply bind_inv in H as ([] & c1 & _ & H). eapply IH; exact H.
    + intros H. apply bind_inv in H as (child & c1 & _ & H). eapply IH; exact H.
Qed.

Lemma lookup_level0_search_exact (fuel : nat) (key : ubifs_key) (c c' : ubifs_info ext_t) (exact : Z) (zn : nat) (n : Z) :
  lookup_level0_search get_seconds fuel key c = (Val (exact, zn, n), c') ->
  (exact = 0 \/ exact = 1) /\ (exact = 1 -> 0 <= n).
Proof.
  unfold lookup_level0_search. intros H.
  apply bind_inv in H as (c0 & c1 & _ & H).
  apply bind_inv in H as (root & c2 & _ & H).
  apply bind_inv in H as ([] & c3 & _ & H).
  eapply lookup_level0_descend_exact; exact H.
Qed.

(** *** The entry before *)

Lemma seqZ_snoc (n : Z) : 1 <= n -> seqZ 0 n = seqZ 0 (n - 1) ++ [n - 1].
Proof.
  intros H. replace n with (Z.of_nat (S (Z.to_nat (n - 1)))) at 1 by lia.
  rewrite seqZ_S, Z2Nat.id by lia. reflexivity.
Qed.

(** An element of the concatenation over the indices lies in the list
    of one index, behind the lists of the indices before. *)
Lemma concat_seqZ_split {B} (f : Z -> list B) (n : nat) (pre post : list B) (x : B) :
  concat (f <$> seqZ 0 (Z.of_nat n)) = pre ++ x :: post ->
  exists i pre_i post_i,
    0 <= i < Z.of_nat n
    /\ f i = pre_i ++ x :: post_i
    /\ pre = concat (f <$> seqZ 0 i) ++ pre_i.
Proof.
  revert pre post. induction n as [| n IH]; intros pre post H.
  - destruct pre; discriminate H.
  - rewrite seqZ_S, fmap_app, concat_app in H. cbn [fmap list_fmap concat] in H.
    rewrite app_nil_r in H. change (0 + Z.of_nat n) with (Z.of_nat n) in H.
    apply app_eq_app in H as [l [[H1 H2] | [H1 H2]]].
    + destruct l as [| y l].
      * exists (Z.of_nat n), [], post. split; [lia |]. split; [symmetry; exact H2 |].
        rewrite app_nil_r in H1 |- *. symmetry. exact H1.
      * injection H2 as <- H2. destruct (IH pre l H1) as (i & pi & po & Hi & Hf & Hp).
        exists i, pi, po. split; [lia |]. auto.
    + exists (Z.of_nat n), l, post. split; [lia |]. auto.
Qed.

Lemma tree_ok_node (c : ubifs_info ext_t) (h : nat) (p : nat) :
  tree_ok c (S h) p = true ->
  1 <= zn_child_cnt (deref c p)
  /\ zn_level (deref c p) = Z.of_nat h
  /\ (h <> 0%nat -> forall i, 0 <= i < zn_child_cnt (deref c p) ->
      exists q, zbr_znode (zbranch_at (deref c p) i) = Some q
                /\ zn_parent (deref c q) = Some p
                /\ zn_iip (deref c q) = i
                /\ tree_ok c h q = true).
Proof.
  cbn [tree_ok]. intros H.
  apply andb_true_iff in H as [H H3]. apply andb_true_iff in H as [H1 H2].
  apply Z.leb_le in H1. apply Z.eqb_eq in H2.
  split; [exact H1 |]. split; [exact H2 |].
  intros Hh i Hi.
  apply orb_true_iff in H3 as [H3 | H3]; [apply Z.eqb_eq in H3; lia |].
  rewrite forallb_forall in H3. specialize (H3 i).
  assert (Hin : In i (seqZ 0 (zn_child_cnt (deref c p)))).
  { apply list_elem_of_In, elem_of_seqZ. lia. }
  specialize (H3 Hin).
  destruct (zbr_znode (zbranch_at (deref c p) i)) as [q |]; [| discriminate H3].
  apply andb_true_iff in H3 as [H3 H6]. apply andb_true_iff in H3 as [H4 H5].
  exists q. split; [reflexivity |].
  apply bool_decide_eq_true in H4. apply Z.eqb_eq in H5. auto.
Qed.

Lemma leaf_entries_node (c : ubifs_info ext_t) (h : nat) (p : nat) :
  leaf_entries c (S h) p
  = if zn_level (deref c p) =? 0
    then (fun i => (p, i)) <$> seqZ 0 (zn_child_cnt (deref c p))
    else concat ((fun i => match zbr_znode (zbranch_at (deref c p) i) with
                           | Some q => leaf_entries c h q
                           | None => []
                           end) <$> seqZ 0 (zn_child_cnt (deref c p))).
Proof. reflexivity. Qed.

Lemma get_znode_loaded (p q : nat) (i : Z) (c : ubifs_info ext_t) :
  zbr_znode (zbranch_at (deref c p) i) = Some q ->
  get_znode get_seconds p i c = (Val q, c).
Proof. intros H. unfold get_znode. rewrite bind_get, H. reflexivity. Qed.

(** The descent of [tnc_prev] below a znode ends at its last entry. *)
Lemma tnc_prev_down_last (c : ubifs_info ext_t) (h : nat) :
  forall p k,
    tree_ok c (S h) p = true -> (h < k)%nat ->
    exists q, tnc_prev_down get_seconds k p c = (Val q, c)
              /\ last (leaf_entries c (S h) p) = Some (q, zn_child_cnt (deref c q) - 1).
Proof.
  induction h as [| h IH]; intros p k Hok Hk;
    destruct (tree_ok_node _ _ _ Hok) as (Hcnt & Hlv & Hch);
    (destruct k as [| k]; [lia |]); cbn [tnc_prev_down];
    rewrite bind_get, leaf_entries_node, Hlv.
  - change (Z.of_nat 0 =? 0) with true. cbn [negb]. exists p. split; [reflexivity |].
    rewrite fmap_last, (seqZ_snoc _ Hcnt), last_snoc. reflexivity.
  - change (Z.of_nat (S h) =? 0) with false. cbn [negb].
    destruct (Hch ltac:(discriminate) (zn_child_cnt (deref c p) - 1) ltac:(lia))
      as (q & Hq & _ & _ & Hokq).
    rewrite (bind_val _ _ _ _ _ (get_znode_loaded _ _ _ _ Hq)).
    destruct (IH q k Hokq ltac:(lia)) as (q' & Hrun & Hlast).
    exists q'. split; [exact Hrun |].
    rewrite (seqZ_snoc _ Hcnt), fmap_app, concat_app. cbn [fmap list_fmap concat].
    rewrite app_nil_r, Hq, last_app, Hlast. reflexivity.
Qed.

(** The climb of [tnc_prev] from the first slot of a zero-level znode
    below [p]: it ends at the entry before, if there is one below [p],
    and goes on above [p] otherwise. *)
Lemma tnc_prev_up_pred (c : ubifs_info ext_t) (fuel : nat) (h : nat) :
  forall p znode pre post k,
    tree_ok c (S h) p = true -> (h < fuel)%nat ->
    leaf_entries c (S h) p = pre ++ (znode, 0) :: post ->
    tnc_prev_up get_seconds (h + k) fuel znode c
    = match last pre with
      | Some e => (Val e, c)
      | None => tnc_prev_up get_seconds k fuel p c
      end.
Proof.
  induction h as [| h IH]; intros p znode pre post k Hok Hfuel Hent;
    destruct (tree_ok_node _ _ _ Hok) as (Hcnt & Hlv & Hch);
    rewrite leaf_entries_node, Hlv in Hent.
  - change (Z.of_nat 0 =? 0) with true in Hent. cbv iota in Hent.
    assert (Hl : ((fun i => (p, i)) <$> seqZ 0 (zn_child_cnt (deref c p))) !! length pre
                 = Some (znode, 0)).
    { rewrite Hent. apply list_lookup_middle. reflexivity. }
    rewrite list_lookup_fmap in Hl.
    destruct (seqZ 0 (zn_child_cnt (deref c p)) !! length pre) as [i |] eqn:Ei;
      [| discriminate Hl].
    apply lookup_seqZ in Ei as [-> _]. injection Hl as -> Hl.
    assert (Hp : pre = []) by (apply nil_length_inv; lia).
    rewrite Hp. reflexivity.
  - change (Z.of_nat (S h) =? 0) with false in Hent. cbv iota in Hent.
    replace (zn_child_cnt (deref c p))
      with (Z.of_nat (Z.to_nat (zn_child_cnt (deref c p)))) in Hent at 1 by lia.
    apply concat_seqZ_split in Hent as (i & pre_i & post_i & Hi & Hf & Hpre).
    destruct (Hch ltac:(discriminate) i ltac:(lia)) as (q & Hq & Hpar & Hiip & Hokq).
    rewrite Hq in Hf.
    replace (S h + k)%nat with (h + S k)%nat by lia.
    rewrite (IH q znode pre_i post_i (S k) Hokq ltac:(lia) Hf).
    rewrite Hpre, last_app. destruct (last pre_i) as [e |]; [reflexivity |].
    cbn [tnc_prev_up]. rewrite bind_get, Hpar, Hiip.
    destruct (Z.leb_spec 0 (i - 1)) as [Hge | Hlt].
    + destruct (Hch ltac:(discriminate) (i - 1) ltac:(lia)) as (q1 & Hq1 & _ & _ & Hokq1).
      rewrite (bind_val _ _ _ _ _ (get_znode_loaded _ _ _ _ Hq1)).
      destruct (tnc_prev_down_last c h q1 fuel Hokq1 ltac:(lia)) as (q2 & Hrun & Hlast).
      rewrite (bind_val _ _ _ _ _ Hrun), bind_get.
      rewrite (seqZ_snoc i) by lia. rewrite fmap_app, concat_app.
      cbn [fmap list_fmap concat]. rewrite app_nil_r, Hq1, last_app, Hlast. reflexivity.
    + replace i with 0 by lia. reflexivity.
Qed.

(** [tnc_prev] from the first slot of a zero-level znode of an index in
    memory steps to the entry before in the order of the index, and
    says [-ENOENT] when there is none. *)
Lemma tnc_prev_pred (c : ubifs_info ext_t) (fuel h : nat) (root znode : nat) (pre post : list (nat * Z)) :
  zn_parent (deref c root) = None ->
  tree_ok c (S h) root = true -> (h < fuel)%nat ->
  leaf_entries c (S h) root = pre ++ (znode, 0) :: post ->
  tnc_prev get_seconds fuel znode (-1) c
  = match last pre with
    | Some e => (Val e, c)
    | None => (Err (- ENOENT), c)
    end.
Proof.
  intros Hpar Hok Hfuel Hent. unfold tnc_prev. change (0 <? -1) with false. cbv iota.
  assert (E : tnc_prev_up get_seconds fuel fuel znode c
              = tnc_prev_up get_seconds (h + S (fuel - S h)) fuel znode c)
    by (f_equal; lia).
  rewrite E, (tnc_prev_up_pred c fuel h root znode pre post _ Hok Hfuel Hent).
  destruct (last pre); [reflexivity |].
  cbn [tnc_prev_up]. rewrite bind_get, Hpar. reflexivity.
Qed.

(** What [lookup_level0] makes of the entry [tnc_prev] steps to. *)
Lemma lookup_level0_probe_run (fuel : nat) (key : ubifs_key) (c c1 : ubifs_info ext_t) (exact : Z) (znode : nat) :
  lookup_level0_search get_seconds fuel key c = (Val (exact, znode, -1), c1) ->
  is_hash_key key = true ->
  (forall zp np c2,
     tnc_prev get_seconds fuel znode (-1) c1 = (Val (zp, np), c2) ->
     lookup_level0 get_seconds fuel key c
     = (Val (if bool_decide (zbr_key (zbranch_at (deref c2 zp) np) = key)
             then (1, zp, np) else (0, znode, -1)), c2))
  /\ (forall c2,
        tnc_prev get_seconds fuel znode (-1) c1 = (Err (- ENOENT), c2) ->
        lookup_level0 get_seconds fuel key c = (Val (0, znode, -1), c2)).
Proof.
  intros Hd Hh.
  destruct (lookup_level0_search_exact _ _ _ _ _ _ _ Hd) as [Hex Hn].
  assert (Hex0 : exact = 0)
    by (destruct Hex as [-> | ->]; [reflexivity | specialize (Hn eq_refl); lia]).
  subst exact. split.
  - intros zp np c2 Hp.
    unfold lookup_level0. rewrite (bind_val _ _ _ _ _ Hd). rewrite Hh. simpl.
    unfold bind at 1, try. rewrite Hp. unfold bind, get.
    destruct (Z.eqb_spec (keys_cmp key (zbr_key (zbranch_at (deref c2 zp) np))) 0) as [He | He];
      cbn [negb].
    + apply keys_cmp_eq in He. rewrite bool_decide_eq_true_2 by congruence. reflexivity.
    + rewrite bool_decide_eq_false_2; [reflexivity |].
      intros Hk. apply He, keys_cmp_eq. congruence.
  - intros c2 Hp.
    unfold lookup_level0. rewrite (bind_val _ _ _ _ _ Hd). rewrite Hh. simpl.
    unfold bind at 1, try. rewrite Hp. reflexivity.
Qed.


End Lookup.


(** ** The znode memory: reads after writes *)

Lemma zbranch_at_store_eq (z : ubifs_znode) (i : Z) (b : ubifs_zbranch) :
  0 <= i < Z.of_nat (length (zn_zbranch z)) ->
  zbranch_at (zbranch_store i b z) i = b.
Proof.
  intros Hi. unfold zbranch_at, zbranch_store.
  destruct (Z.ltb_spec i 0); [lia |]. simpl.
  rewrite list_lookup_insert_eq by lia. reflexivity.
Qed.

Lemma zbranch_at_store_ne (z : ubifs_znode) (i j : Z) (b : ubifs_zbranch) :
  i <> j -> zbranch_at (zbranch_store i b z) j = zbranch_at z j.
Proof.
  intros Hij. unfold zbranch_at, zbranch_store.
  destruct (Z.ltb_spec i 0); [reflexivity |]. simpl.
  destruct (Z.ltb_spec j 0); [reflexivity |].
  rewrite list_lookup_insert_ne by lia. reflexivity.
Qed.

Lemma zbranch_store_length (z : ubifs_znode) (i : Z) (b : ubifs_zbranch) :
  length (zn_zbranch (zbranch_store i b z)) = length (zn_zbranch z).
Proof.
  unfold zbranch_store. destruct (i <? 0); [reflexivity |]. simpl.
  apply length_insert.
Qed.

Section Store.

Context {ext_t : Type}.
Implicit Types c : ubifs_info ext_t.

Lemma lookup_zn_upd (p q : nat) (f : ubifs_znode -> ubifs_znode) c :
  znodes (zn_upd p f c) !! q
  = if decide (p = q) then f <$> znodes c !! p else znodes c !! q.
Proof. unfold zn_upd. simpl. apply lookup_alter. Qed.

Lemma lookup_zn_upd_ne (p q : nat) (f : ubifs_znode -> ubifs_znode) c :
  p <> q -> znodes (zn_upd p f c) !! q = znodes c !! q.
Proof. intros H. rewrite lookup_zn_upd. destruct (decide (p = q)); [contradiction | reflexivity]. Qed.

Lemma lookup_zn_upd_eq (p : nat) (f : ubifs_znode -> ubifs_znode) c :
  znodes (zn_upd p f c) !! p = f <$> znodes c !! p.
Proof. rewrite lookup_zn_upd. destruct (decide (p = p)); [reflexivity | contradiction]. Qed.

Lemma deref_lookup (p : nat) (z : ubifs_znode) c :
  znodes c !! p = Some z -> deref c p = z.
Proof. intros H. unfold deref. rewrite H. reflexivity. Qed.

Lemma deref_zn_upd_ne (p q : nat) (f : ubifs_znode -> ubifs_znode) c :
  p <> q -> deref (zn_upd p f c) q = deref c q.
Proof. intros H. unfold deref. rewrite lookup_zn_upd_ne by exact H. reflexivity. Qed.

Lemma deref_zn_upd_eq (p : nat) (z : ubifs_znode) (f : ubifs_znode -> ubifs_znode) c :
  znodes c !! p = Some z -> deref (zn_upd p f c) p = f z.
Proof. intros H. unfold deref. rewrite lookup_zn_upd_eq, H. reflexivity. Qed.

(** A write through a znode pointer that leaves a field alone leaves it
    alone in every znode. *)
Lemma deref_zn_upd_field {A} (g : ubifs_znode -> A) (p q : nat) (f : ubifs_znode -> ubifs_znode) c :
  (forall z, g (f z) = g z) -> g (deref (zn_upd p f c) q) = g (deref c q).
Proof.
  intros Hg. unfold deref. rewrite lookup_zn_upd.
  destruct (decide (p = q)) as [-> |]; [| reflexivity].
  destruct (znodes c !! q); simpl; [apply Hg | reflexivity].
Qed.

Lemma lookup_zbr_upd (r : zbr_ref) (f : ubifs_zbranch -> ubifs_zbranch) (q : nat) c :
  znodes (zbr_upd r f c) !! q
  = match r with
    | ZRoot => znodes c !! q
    | ZSlot p i =>
        if decide (p = q)
        then (fun z => zbranch_store i (f (zbranch_at z i)) z) <$> znodes c !! p
        else znodes c !! q
    end.
Proof. destruct r as [|p i]; [reflexivity |]. simpl. apply lookup_zn_upd. Qed.

(** A write through a zbranch pointer changes no field of a znode but
    its zbranches. *)
Lemma deref_zbr_upd_field {A} (g : ubifs_znode -> A) (r : zbr_ref) (f : ubifs_zbranch -> ubifs_zbranch) (q : nat) c :
  (forall z i b, g (zbranch_store i b z) = g z) ->
  g (deref (zbr_upd r f c) q) = g (deref c q).
Proof.
  intros Hg. destruct r as [|p i]; [reflexivity |]. simpl.
  apply deref_zn_upd_field. intros z. apply Hg.
Qed.

Lemma zbranch_store_parent (z : ubifs_znode) (i : Z) (b : ubifs_zbranch) :
  zn_parent (zbranch_store i b z) = zn_parent z.
Proof. unfold zbranch_store. destruct (i <? 0); reflexivity. Qed.

Lemma zbranch_store_flags (z : ubifs_znode) (i : Z) (b : ubifs_zbranch) :
  zn_flags (zbranch_store i b z) = zn_flags z.
Proof. unfold zbranch_store. destruct (i <? 0); reflexivity. Qed.

Lemma zbranch_store_child_cnt (z : ubifs_znode) (i : Z) (b : ubifs_zbranch) :
  zn_child_cnt (zbranch_store i b z) = zn_child_cnt z.
Proof. unfold zbranch_store. destruct (i <? 0); reflexivity. Qed.

Lemma zbranch_store_level (z : ubifs_znode) (i : Z) (b : ubifs_zbranch) :
  zn_level (zbranch_store i b z) = zn_level z.
Proof. unfold zbranch_store. destruct (i <? 0); reflexivity. Qed.

Lemma zbranch_store_iip (z : ubifs_znode) (i : Z) (b : ubifs_zbranch) :
  zn_iip (zbranch_store i b z) = zn_iip z.
Proof. unfold zbranch_store. destruct (i <? 0); reflexivity. Qed.

Lemma zbr_get_upd (r : zbr_ref) (f : ubifs_zbranch -> ubifs_zbranch) c :
  zbr_ref_ok c r -> zbr_get (zbr_upd r f c) r = f (zbr_get c r).
Proof.
  destruct r as [|p i]; simpl; [reflexivity |].
  intros [[z Hz] Hi]. rewrite (deref_lookup _ _ _ Hz) in *.
  rewrite (deref_zn_upd_eq _ _ _ _ Hz). apply zbranch_at_store_eq. exact Hi.
Qed.

Lemma zbr_ref_ok_upd (r : zbr_ref) (f : ubifs_zbranch -> ubifs_zbranch) c :
  zbr_ref_ok c r -> zbr_ref_ok (zbr_upd r f c) r.
Proof.
  destruct r as [| p i]; [trivial |]. intros [[w Hw] Hi].
  unfold zbr_ref_ok, zbr_upd. rewrite (deref_lookup _ _ _ Hw) in Hi.
  rewrite (deref_zn_upd_eq _ _ _ _ Hw), lookup_zn_upd_eq, Hw.
  split; [eexists; reflexivity |]. rewrite zbranch_store_length. exact Hi.
Qed.

End Store.

(** ** Copy-on-write *)

Lemma zbranch_at_ext (z z' : ubifs_znode) (i : Z) :
  zn_zbranch z = zn_zbranch z' -> zbranch_at z i = zbranch_at z' i.
Proof. intros H. unfold zbranch_at. rewrite H. reflexivity. Qed.

Lemma elem_of_loaded_children (z : ubifs_znode) (q : nat) :
  q ∈ loaded_children z
  <-> exists i, 0 <= i < zn_child_cnt z /\ zbr_znode (zbranch_at z i) = Some q.
Proof.
  unfold loaded_children. rewrite list_elem_of_omap. split.
  - intros (i & Hi & Hq). exists i. split; [| exact Hq].
    apply list_elem_of_lookup in Hi as [k Hk]. apply lookup_seqZ in Hk. lia.
  - intros (i & Hi & Hq). exists i. split; [| exact Hq].
    apply list_elem_of_lookup. exists (Z.to_nat i). apply lookup_seqZ. lia.
Qed.

Lemma omap_ext_all {A B} (f g : A -> option B) (l : list A) :
  (forall x, f x = g x) -> omap f l = omap g l.
Proof.
  intros H. induction l as [|x l IH]; [reflexivity |].
  csimpl. rewrite H, IH. reflexivity.
Qed.

Lemma omap_cons_Some {A B} (f : A -> option B) (x : A) (y : B) (l : list A) :
  f x = Some y -> omap f (x :: l) = y :: omap f l.
Proof. intros H. change (omap f (x :: l)) with (match f x with Some y => y :: omap f l | None => omap f l end). rewrite H. reflexivity. Qed.

Lemma omap_cons_None {A B} (f : A -> option B) (x : A) (l : list A) :
  f x = None -> omap f (x :: l) = omap f l.
Proof. intros H. change (omap f (x :: l)) with (match f x with Some y => y :: omap f l | None => omap f l end). rewrite H. reflexivity. Qed.

Section Cow.

Context {ext_t : Type}.
Implicit Types c : ubifs_info ext_t.

(** The loop of [copy_znode] over the indices [l]: the znodes the
    zbranches of [zn] point to get the parent [zn], nothing else
    changes. *)
Lemma copy_znode_reparent_spec (zn : nat) (l : list Z) c :
  let step := fun (c : ubifs_info ext_t) (i : Z) =>
    match zbr_znode (zbranch_at (deref c zn) i) with
    | Some child => zn_upd child (set_zn_parent (Some zn)) c
    | None => c
    end in
  exists m,
    foldl step c l = set_znodes m c
    /\ forall q,
        m !! q = if decide (q ∈ omap (fun i => zbr_znode (zbranch_at (deref c zn) i)) l)
                 then set_zn_parent (Some zn) <$> znodes c !! q
                 else znodes c !! q.
Proof.
  intros step. revert c. induction l as [|i l IH]; intros c.
  - exists (znodes c). split; [destruct c; reflexivity |].
    intros q. simpl. destruct (decide (q ∈ [])) as [H|]; [inversion H | reflexivity].
  - change (foldl step c (i :: l)) with (foldl step (step c i) l).
    assert (Hz : zn_zbranch (deref (step c i) zn) = zn_zbranch (deref c zn)).
    { unfold step. destruct (zbr_znode (zbranch_at (deref c zn) i)); [| reflexivity].
      apply (deref_zn_upd_field zn_zbranch). reflexivity. }
    destruct (IH (step c i)) as (m & Hm & Hq).
    exists m. split.
    + rewrite Hm. unfold step.
      destruct (zbr_znode (zbranch_at (deref c zn) i)); reflexivity.
    + intros q. rewrite Hq.
      assert (Hl : omap (fun j => zbr_znode (zbranch_at (deref (step c i) zn) j)) l
                   = omap (fun j => zbr_znode (zbranch_at (deref c zn) j)) l).
      { apply omap_ext_all. intros j.
        rewrite (zbranch_at_ext _ _ j Hz). reflexivity. }
      rewrite Hl. unfold step.
      destruct (zbr_znode (zbranch_at (deref c zn) i)) as [ch|] eqn:Hch.
      * rewrite (omap_cons_Some (fun j => zbr_znode (zbranch_at (deref c zn) j)) i ch l Hch). rewrite lookup_zn_upd.
        repeat case_decide; subst; try reflexivity;
          try (destruct (znodes c !! q); reflexivity);
          exfalso; rewrite elem_of_cons in *; intuition congruence.
      * rewrite (omap_cons_None (fun j => zbr_znode (zbranch_at (deref c zn) j)) i l Hch). reflexivity.
Qed.

(** The allocator: the outcome is the head of [alloc_fails]. *)
Lemma kmalloc_run c :
  kmalloc c = (Val (negb (hd false (alloc_fails c))), set_alloc_fails (tl (alloc_fails c)) c).
Proof. reflexivity. Qed.

(** [copy_znode]: without memory nothing is done; otherwise the copy
    lives at the address the allocator hands out, with COW cleared and
    DIRTY set; the original only gains OBSOLETE; above level zero the
    loaded children get the copy as parent; no other znode changes. *)
Lemma copy_znode_spec (znode : nat) (z : ubifs_znode) c :
  znodes c !! znode = Some z ->
  znodes c !! next_znode c = None ->
  (zn_level z <> 0 -> forall ch, ch ∈ loaded_children z -> ch <> znode /\ is_Some (znodes c !! ch)) ->
  let zn := next_znode c in
  let c0 := set_alloc_fails (tl (alloc_fails c)) c in
  if hd false (alloc_fails c) then copy_znode znode c = (Err (- ENOMEM), c0)
  else
  exists m,
    copy_znode znode c
    = (Val zn, set_dirty_zn_cnt (dirty_zn_cnt c + 1) (set_next_znode (S zn) (set_znodes m c0)))
    /\ m !! zn = Some (set_zn_flags (clear_bit COW_ZNODE (set_bit DIRTY_ZNODE (zn_flags z)))
                        (set_zn_cnext None z))
    /\ m !! znode = Some (set_zn_flags (set_bit OBSOLETE_ZNODE (zn_flags z)) z)
    /\ (forall q, q <> zn -> q <> znode ->
        m !! q = if decide (zn_level z <> 0 /\ q ∈ loaded_children z)
                 then set_zn_parent (Some zn) <$> znodes c !! q
                 else znodes c !! q).
Proof.
  intros Hz Hfresh Hch zn c0.
  destruct (hd false (alloc_fails c)) eqn:Hal.
  { unfold copy_znode, bind. rewrite kmalloc_run, Hal. reflexivity. }
  assert (Hne : zn <> znode) by (intros E; subst zn; rewrite E in Hfresh; congruence).
  set (c1 := set_next_znode (S zn) (set_znodes (<[zn := new_znode c]> (znodes c)) c0)).
  assert (Hd1 : deref c1 znode = z).
  { apply deref_lookup. unfold c1. simpl. rewrite lookup_insert_ne by exact Hne. exact Hz. }
  set (c3 := zn_upd znode (fun z0 => set_zn_flags (set_bit OBSOLETE_ZNODE (zn_flags z0)) z0)
               (zn_upd zn (fun _ => z) c1)).
  assert (H3zn : znodes c3 !! zn = Some z).
  { unfold c3. rewrite lookup_zn_upd_ne by congruence. rewrite lookup_zn_upd_eq.
    unfold c1. simpl. rewrite lookup_insert_eq. reflexivity. }
  assert (H3znode : znodes c3 !! znode = Some (set_zn_flags (set_bit OBSOLETE_ZNODE (zn_flags z)) z)).
  { unfold c3. rewrite lookup_zn_upd_eq. rewrite lookup_zn_upd_ne by exact Hne.
    unfold c1. simpl. rewrite lookup_insert_ne by exact Hne. rewrite Hz. reflexivity. }
  assert (H3q : forall q, q <> zn -> q <> znode -> znodes c3 !! q = znodes c !! q).
  { intros q Hq1 Hq2. unfold c3. rewrite !lookup_zn_upd_ne by congruence.
    unfold c1. simpl. apply lookup_insert_ne. congruence. }
  pose proof (copy_znode_reparent_spec zn (seqZ 0 (zn_child_cnt z)) c3) as Hs.
  cbv zeta in Hs. destruct Hs as (m4 & Hfold & Hm4).
  rewrite (deref_lookup _ _ _ H3zn) in Hm4.
  fold (loaded_children z) in Hm4.
  assert (Hrun : exists m3, m3 = (if zn_level z =? 0 then znodes c3 else m4) /\
     copy_znode znode c
     = (Val zn, set_dirty_zn_cnt (dirty_zn_cnt c + 1) (set_next_znode (S zn) (set_znodes
          (alter (fun z0 => set_zn_flags (clear_bit COW_ZNODE (zn_flags z0)) z0) zn
            (alter (fun z0 => set_zn_flags (set_bit DIRTY_ZNODE (zn_flags z0)) z0) zn
              (alter (set_zn_cnext None) zn m3))) c0)))).
  { eexists. split; [reflexivity |].
    unfold copy_znode. rewrite (bind_val kmalloc _ c c0 _ (kmalloc_run c)), Hal. cbn [negb].
    unfold bind, kzalloc_znode, modify, get, ret.
    change (set_next_znode (S (next_znode c0)) (set_znodes (<[next_znode c0 := new_znode c0]> (znodes c0)) c0))
      with c1.
    change (next_znode c0) with zn.
    rewrite Hd1. fold c3.
    rewrite (deref_lookup _ _ _ H3znode), (deref_lookup _ _ _ H3zn).
    change (zn_level (set_zn_flags (set_bit OBSOLETE_ZNODE (zn_flags z)) z)) with (zn_level z).
    destruct (zn_level z =? 0); simpl.
    - reflexivity.
    - unfold copy_znode_reparent. rewrite Hfold. reflexivity. }
  clear Hfold.
  destruct Hrun as (m3 & Hm3 & Hrun).
  eexists. split; [exact Hrun |]. clear Hrun.
  assert (Hnot : zn_level z <> 0 -> forall q, q ∈ loaded_children z -> q <> zn /\ q <> znode).
  { intros Hl q Hq. destruct (Hch Hl q Hq) as [Hq1 [w Hq2]]. split; [| exact Hq1].
    intros ->. unfold zn in Hq2. rewrite Hfresh in Hq2. discriminate. }
  assert (Hm3q : forall q,
     m3 !! q = if decide (zn_level z <> 0 /\ q ∈ loaded_children z)
               then set_zn_parent (Some zn) <$> znodes c3 !! q else znodes c3 !! q).
  { intros q. rewrite Hm3. destruct (Z.eqb_spec (zn_level z) 0) as [E | E].
    - destruct (decide (zn_level z <> 0 /\ q ∈ loaded_children z)); [tauto | reflexivity].
    - rewrite Hm4.
      destruct (decide (zn_level z <> 0 /\ q ∈ loaded_children z)),
        (decide (q ∈ loaded_children z)); tauto. }
  assert (Hm3zn : m3 !! zn = Some z).
  { rewrite Hm3q. destruct (decide (zn_level z <> 0 /\ zn ∈ loaded_children z)) as [Hd | Hd]; [| exact H3zn].
    destruct Hd as [Hl Hq]. destruct (Hnot Hl _ Hq); congruence. }
  assert (Hm3znode : m3 !! znode = Some (set_zn_flags (set_bit OBSOLETE_ZNODE (zn_flags z)) z)).
  { rewrite Hm3q. destruct (decide (zn_level z <> 0 /\ znode ∈ loaded_children z)) as [Hd | Hd]; [| exact H3znode].
    destruct Hd as [Hl Hq]. destruct (Hnot Hl _ Hq); congruence. }
  split; [| split].
  - rewrite !lookup_alter_eq, Hm3zn. reflexivity.
  - rewrite !lookup_alter_ne by exact Hne. exact Hm3znode.
  - intros q Hq1 Hq2. rewrite !lookup_alter_ne by congruence.
    rewrite Hm3q, (H3q q Hq1 Hq2). reflexivity.
Qed.

End Cow.

(** ** [dirty_cow_znode] *)

(** After the descent of [insert_old_idx] the pair is in the tree:
    linked as a new node, or there already. *)
Lemma old_idx_link_elem (lnum offs : Z) (t : rb_tree ubifs_old_idx) :
  match old_idx_link lnum offs t with
  | Some t' => mk_old_idx lnum offs ∈ rb_inorder t'
  | None => mk_old_idx lnum offs ∈ rb_inorder t
  end.
Proof.
  induction t as [| col l IHl o r IHr]; simpl.
  - apply list_elem_of_singleton. reflexivity.
  - destruct (Z.ltb_spec lnum (o_lnum o)) as [H1 | H1].
    { destruct (old_idx_link lnum offs l); simpl; rewrite elem_of_app; left; exact IHl. }
    destruct (Z.ltb_spec (o_lnum o) lnum) as [H2 | H2].
    { destruct (old_idx_link lnum offs r); simpl; rewrite elem_of_app, elem_of_cons;
        right; right; exact IHr. }
    destruct (Z.ltb_spec offs (o_offs o)) as [H3 | H3].
    { destruct (old_idx_link lnum offs l); simpl; rewrite elem_of_app; left; exact IHl. }
    destruct (Z.ltb_spec (o_offs o) offs) as [H4 | H4].
    { destruct (old_idx_link lnum offs r); simpl; rewrite elem_of_app, elem_of_cons;
        right; right; exact IHr. }
    rewrite elem_of_app, elem_of_cons. right. left.
    destruct o as [ol oo]. simpl in *. f_equal; lia.
Qed.

Section DirtyCow.

Context {ext_t : Type}.
Implicit Types c : ubifs_info ext_t.
Variable ubifs_add_dirt : ext_t -> Z -> Z -> Z * ext_t.
Variable rb_insert_color : forall A : Type, rb_tree A -> rb_tree A.
Hypothesis rb_insert_color_inorder :
  forall (A : Type) (t : rb_tree A), rb_inorder (rb_insert_color A t) = rb_inorder t.

Lemma nomem_0 c : nomem c 0 = hd false (alloc_fails c).
Proof. unfold nomem. destruct (alloc_fails c); reflexivity. Qed.

Lemma nomem_1 c : nomem c 1 = hd false (tl (alloc_fails c)).
Proof. unfold nomem. destruct (alloc_fails c) as [| x [| y l]]; reflexivity. Qed.

(** [insert_old_idx]: without memory nothing is recorded; otherwise the
    pair is in the old index afterwards. *)
Lemma insert_old_idx_spec (lnum offs : Z) c :
  let c0 := set_alloc_fails (tl (alloc_fails c)) c in
  if hd false (alloc_fails c)
  then insert_old_idx rb_insert_color lnum offs c = (Err (- ENOMEM), c0)
  else exists t,
    insert_old_idx rb_insert_color lnum offs c = (Val tt, set_old_idx t c0)
    /\ mk_old_idx lnum offs ∈ rb_inorder t.
Proof.
  intros c0. unfold insert_old_idx.
  rewrite (bind_val kmalloc _ c c0 _ (kmalloc_run c)).
  destruct (hd false (alloc_fails c)); cbn [negb]; [reflexivity |].
  rewrite bind_get.
  pose proof (old_idx_link_elem lnum offs (old_idx c)) as H.
  change (old_idx c0) with (old_idx c).
  destruct (old_idx_link lnum offs (old_idx c)) as [t |].
  - exists (rb_insert_color _ t). split; [reflexivity |].
    rewrite rb_insert_color_inorder. exact H.
  - exists (old_idx c). split; [destruct c; reflexivity | exact H].
Qed.

Lemma zbr_get_znodes (r : zbr_ref) c c1 :
  zroot c1 = zroot c ->
  (forall p, zn_zbranch (deref c1 p) = zn_zbranch (deref c p)) ->
  zbr_get c1 r = zbr_get c r.
Proof.
  intros Hr Hz. destruct r as [| p i]; simpl; [exact Hr |].
  apply zbranch_at_ext, Hz.
Qed.

(** C2.  Let the zbranch [zbr] point to the znode [znode], whose content
    is [z].  If [z] carries the COW flag: when the memory for the copy
    is not obtained, [dirty_cow_znode] returns [-ENOMEM] and only the
    allocator has moved on.  Otherwise there is a new znode which is [z]
    with COW cleared, DIRTY set and no commit successor; the original
    is [z] with OBSOLETE set and nothing else changed; above level zero
    every loaded child has the copy as its parent.  Then, when the
    on-flash length of the branch is not zero and the memory for the
    old-index entry is not obtained, the function returns [-ENOMEM]
    with the old index and the branch as they were; otherwise it
    returns the copy (or the error of the dirt accounting), the
    (lnum, offs) of a branch with an on-flash length is in the
    old-index tree, and the branch points to the copy and its lnum,
    offs and len are zero.  If [z] carries neither COW nor DIRTY, the
    same znode is returned, it is [z] with DIRTY set, the dirty counter
    is one more and the clean counters one less, and the on-flash image
    of the branch is charged to the index size and to the dirt of its
    LEB. *)
Theorem dirty_cow_znode_spec (zbr : zbr_ref) (znode : nat) (z : ubifs_znode) c :
  zbr_znode (zbr_get c zbr) = Some znode ->
  znodes c !! znode = Some z ->
  let b := zbr_get c zbr in
  let r := (dirty_cow_znode ubifs_add_dirt rb_insert_color zbr c).1 in
  let c' := (dirty_cow_znode ubifs_add_dirt rb_insert_color zbr c).2 in
  (test_bit COW_ZNODE (zn_flags z) = true ->
   znodes c !! next_znode c = None ->
   zbr_ref_ok c zbr ->
   (forall i, zbr <> ZSlot znode i) ->
   (zn_level z <> 0 ->
    forall ch, ch ∈ loaded_children z -> ch <> znode /\ is_Some (znodes c !! ch)) ->
   let zn := next_znode c in
   let err := if zbr_len b =? 0 then 0 else (ubifs_add_dirt (ext c) (zbr_lnum b) (zbr_len b)).1 in
   if nomem c 0 then
     r = Err (- ENOMEM) /\ c' = set_alloc_fails (tl (alloc_fails c)) c
   else
     znodes c' !! zn
     = Some (set_zn_flags (clear_bit COW_ZNODE (set_bit DIRTY_ZNODE (zn_flags z)))
               (set_zn_cnext None z))
     /\ znodes c' !! znode = Some (set_zn_flags (set_bit OBSOLETE_ZNODE (zn_flags z)) z)
     /\ (zn_level z <> 0 ->
         forall ch, ch ∈ loaded_children z -> zn_parent (deref c' ch) = Some zn)
     /\ if negb (zbr_len b =? 0) && nomem c 1 then
          r = Err (- ENOMEM) /\ old_idx c' = old_idx c /\ zbr_get c' zbr = b
        else
          r = (if err =? 0 then Val zn else Err err)
          /\ (zbr_len b <> 0 -> mk_old_idx (zbr_lnum b) (zbr_offs b) ∈ rb_inorder (old_idx c'))
          /\ zbr_get c' zbr = set_zbr_pos 0 0 0 (set_zbr_znode (Some zn) b))
  /\ (test_bit COW_ZNODE (zn_flags z) = false ->
      test_bit DIRTY_ZNODE (zn_flags z) = false ->
      let err := (ubifs_add_dirt (ext c) (zbr_lnum b) (zbr_len b)).1 in
      r = (if err =? 0 then Val znode else Err err)
      /\ znodes c' = <[znode := set_zn_flags (set_bit DIRTY_ZNODE (zn_flags z)) z]> (znodes c)
      /\ dirty_zn_cnt c' = dirty_zn_cnt c + 1
      /\ clean_zn_cnt c' = clean_zn_cnt c - 1
      /\ ubifs_clean_zn_cnt c' = ubifs_clean_zn_cnt c - 1
      /\ calc_idx_sz c' = calc_idx_sz c - ALIGN (zbr_len b) 8
      /\ ext c' = (ubifs_add_dirt (ext c) (zbr_lnum b) (zbr_len b)).2).
Proof.
  intros Hb Hz b r c'. split.
  - intros Hcow Hfresh Hok Hslot Hch zn err.
    pose proof (copy_znode_spec znode z c Hz Hfresh Hch) as Hcopy. cbv zeta in Hcopy.
    rewrite nomem_0. destruct (hd false (alloc_fails c)) eqn:Hal.
    { assert (Hrun : dirty_cow_znode ubifs_add_dirt rb_insert_color zbr c
                     = (Err (- ENOMEM), set_alloc_fails (tl (alloc_fails c)) c)).
      { unfold dirty_cow_znode. rewrite bind_get. rewrite Hb.
        rewrite (deref_lookup _ _ _ Hz), Hcow. change (negb true) with false. cbv iota.
        rewrite (bind_err _ _ _ _ _ Hcopy). reflexivity. }
      unfold r, c'. rewrite Hrun. split; reflexivity. }
    destruct Hcopy as (m & Hcopy & Hmzn & Hmznode & Hmq).
    fold zn in Hcopy, Hmzn, Hmq.
    set (c0 := set_alloc_fails (tl (alloc_fails c)) c) in Hcopy.
    set (c1 := set_dirty_zn_cnt (dirty_zn_cnt c + 1) (set_next_znode (S zn) (set_znodes m c0))) in Hcopy.
    assert (Hal1 : nomem c 1 = hd false (alloc_fails c1)) by apply nomem_1.
    assert (Hp : forall p i, zbr = ZSlot p i -> p <> zn /\ p <> znode /\ is_Some (znodes c !! p)).
    { intros p i ->. destruct Hok as [[zp Hzp] Hi]. repeat split.
      - intros ->. unfold zn in Hzp. congruence.
      - intros ->. apply (Hslot i). reflexivity.
      - exists zp. exact Hzp. }
    assert (Hmp : forall p i, zbr = ZSlot p i ->
              exists zp zp', znodes c !! p = Some zp /\ m !! p = Some zp'
                             /\ zn_zbranch zp' = zn_zbranch zp).
    { intros p i E. destruct (Hp p i E) as (H1 & H2 & [zp Hzp]).
      exists zp. rewrite (Hmq p H1 H2), Hzp.
      destruct (decide (zn_level z <> 0 /\ p ∈ loaded_children z)); eexists; eauto. }
    assert (Hb1 : zbr_get c1 zbr = b).
    { unfold b. destruct zbr as [| p i]; [reflexivity |]. simpl.
      destruct (Hmp p i eq_refl) as (zp & zp' & H1 & H2 & H3).
      apply zbranch_at_ext. unfold deref. change (znodes c1) with m.
      rewrite H1, H2. exact H3. }
    assert (Hrun : exists c2,
      dirty_cow_znode ubifs_add_dirt rb_insert_color zbr c
      = (if negb (zbr_len b =? 0) && nomem c 1 then (Err (- ENOMEM), c2)
         else (if err =? 0 then Val zn else Err err,
               zbr_upd zbr (set_zbr_pos 0 0 0) (zbr_upd zbr (set_zbr_znode (Some zn)) c2)))
      /\ znodes c2 = m /\ zroot c2 = zroot c
      /\ (if negb (zbr_len b =? 0) && nomem c 1 then old_idx c2 = old_idx c
          else zbr_len b <> 0 -> mk_old_idx (zbr_lnum b) (zbr_offs b) ∈ rb_inorder (old_idx c2))).
    { unfold dirty_cow_znode. rewrite bind_get. rewrite Hb.
      rewrite (deref_lookup _ _ _ Hz), Hcow. change (negb true) with false. cbv iota.
      rewrite (bind_val _ _ _ _ _ Hcopy). rewrite bind_get. cbv zeta. rewrite Hb1.
      assert (Htail : forall (e : Z) (c2 : ubifs_info ext_t),
        bind (modify (zbr_upd zbr (set_zbr_znode (Some zn))))
          (fun _ => bind (modify (zbr_upd zbr (set_zbr_pos 0 0 0)))
             (fun _ => bind (check e) (fun _ => ret zn))) c2
        = (if e =? 0 then Val zn else Err e,
           zbr_upd zbr (set_zbr_pos 0 0 0) (zbr_upd zbr (set_zbr_znode (Some zn)) c2))).
      { intros e c2. rewrite !bind_modify. unfold bind, check, ret, fail.
        destruct (e =? 0); reflexivity. }
      unfold err. destruct (Z.eqb_spec (zbr_len b) 0) as [Hl | Hl]; cbv beta iota; simpl negb; cbv iota.
      - exists c1. cbn [andb]. rewrite bind_ret, Htail. repeat split; try reflexivity. contradiction.
      - pose proof (insert_old_idx_spec (zbr_lnum b) (zbr_offs b) c1) as Hins. cbv zeta in Hins.
        cbn [andb]. rewrite Hal1.
        destruct (hd false (alloc_fails c1)).
        + eexists. split; [| split; [| split]].
          * apply bind_err. apply bind_err. exact Hins.
          * reflexivity.
          * reflexivity.
          * reflexivity.
        + destruct Hins as (t & Hins & Hel).
          destruct (ubifs_add_dirt (ext c) (zbr_lnum b) (zbr_len b)) as [e x'] eqn:Hadd.
          eexists. split; [| split; [| split]].
          * erewrite bind_val; [apply Htail |].
            rewrite (bind_val _ _ _ _ _ Hins). unfold add_idx_dirt. rewrite bind_modify.
            match goal with |- context [ubifs_add_dirt (ext ?s)] => change (ext s) with (ext c) end.
            rewrite Hadd. reflexivity.
          * reflexivity.
          * reflexivity.
          * intros _. exact Hel. }
    destruct Hrun as (c2 & Hrun & Hc2m & Hc2r & Hc2o).
    unfold r, c'. rewrite Hrun. clear Hrun.
    assert (Hb2 : zbr_get c2 zbr = b).
    { unfold b. destruct zbr as [| p i]; [exact Hc2r |]. simpl.
      destruct (Hmp p i eq_refl) as (zp & zp' & H1 & H2 & H3).
      apply zbranch_at_ext. unfold deref. rewrite Hc2m, H1, H2. exact H3. }
    assert (Hok2 : zbr_ref_ok c2 zbr).
    { destruct zbr as [| p i]; [exact I |]. simpl in *.
      destruct (Hmp p i eq_refl) as (zp & zp' & H1 & H2 & H3).
      unfold deref in *. rewrite Hc2m, H2. rewrite H1 in Hok. simpl in *.
      rewrite H3. split; [eauto | tauto]. }
    assert (Hq : forall q, (forall i, zbr <> ZSlot q i) ->
              znodes (zbr_upd zbr (set_zbr_pos 0 0 0)
                        (zbr_upd zbr (set_zbr_znode (Some zn)) c2)) !! q = m !! q).
    { intros q Hqs. rewrite !lookup_zbr_upd. destruct zbr as [| p i]; [exact (f_equal (.!! q) Hc2m) |].
      destruct (decide (p = q)) as [-> |]; [destruct (Hqs i); reflexivity |].
      rewrite Hc2m. reflexivity. }
    assert (Hzn : forall i, zbr <> ZSlot zn i).
    { intros i ->. destruct (Hp zn i eq_refl) as [H1 _]. congruence. }
    destruct (negb (zbr_len b =? 0) && nomem c 1); cbn [fst snd].
    + split; [rewrite Hc2m; exact Hmzn |].
      split; [rewrite Hc2m; exact Hmznode |].
      split; [| split; [reflexivity | split; [exact Hc2o | exact Hb2]]].
      intros Hl ch Hin. destruct (Hch Hl ch Hin) as [H1 [w H2]].
      unfold deref. rewrite Hc2m, Hmq; [| | exact H1].
      * destruct (decide (zn_level z <> 0 /\ ch ∈ loaded_children z)) as [| Hn]; [| tauto].
        rewrite H2. reflexivity.
      * intros ->. unfold zn in H2. congruence.
    + split; [rewrite Hq; [exact Hmzn | exact Hzn] |].
      split; [rewrite Hq; [exact Hmznode | exact Hslot] |].
      split; [| split; [reflexivity | split]].
      * intros Hl ch Hin. destruct (Hch Hl ch Hin) as [H1 [w H2]].
        rewrite !(deref_zbr_upd_field zn_parent) by (intros; apply zbranch_store_parent).
        unfold deref. rewrite Hc2m, Hmq; [| | exact H1].
        -- destruct (decide (zn_level z <> 0 /\ ch ∈ loaded_children z)) as [| Hn]; [| tauto].
           rewrite H2. reflexivity.
        -- intros ->. unfold zn in H2. congruence.
      * intros Hl. destruct zbr; apply Hc2o, Hl.
      * rewrite zbr_get_upd.
        -- rewrite zbr_get_upd by exact Hok2. rewrite Hb2. reflexivity.
        -- apply zbr_ref_ok_upd, Hok2.
  - intros Hcow Hdirty err.
    set (c4 := set_ubifs_clean_zn_cnt (ubifs_clean_zn_cnt c - 1)
                 (set_clean_zn_cnt (clean_zn_cnt c - 1)
                    (set_dirty_zn_cnt (dirty_zn_cnt c + 1)
                       (zn_upd znode
                          (fun z0 => set_zn_flags (set_bit DIRTY_ZNODE (zn_flags z0)) z0) c)))).
    assert (Hb4 : zbr_get c4 zbr = b).
    { unfold b. destruct zbr as [| p i]; [reflexivity |].
      exact (deref_zn_upd_field (fun z0 => zbranch_at z0 i) znode p
               (fun z0 => set_zn_flags (set_bit DIRTY_ZNODE (zn_flags z0)) z0) c (fun _ => eq_refl)). }
    assert (Hrun : dirty_cow_znode ubifs_add_dirt rb_insert_color zbr c
      = (if err =? 0 then Val znode else Err err,
         set_ext (ubifs_add_dirt (ext c) (zbr_lnum b) (zbr_len b)).2
           (set_calc_idx_sz (calc_idx_sz c - ALIGN (zbr_len b) 8) c4))).
    { unfold dirty_cow_znode. rewrite bind_get. rewrite Hb.
      rewrite (deref_lookup _ _ _ Hz), Hcow, Hdirty. change (negb false) with true. cbv iota.
      rewrite !bind_modify.
      match goal with |- bind get _ ?s = _ => change s with c4 end.
      rewrite bind_get, Hb4.
      unfold add_idx_dirt, err, bind, modify, check, ret, fail.
      change (ext (set_calc_idx_sz (calc_idx_sz c4 - ALIGN (zbr_len b) 8) c4)) with (ext c).
      destruct (ubifs_add_dirt (ext c) (zbr_lnum b) (zbr_len b)) as [e x'].
      cbn [fst snd]. destruct (e =? 0); reflexivity. }
    unfold r, c'. rewrite Hrun. cbn [fst snd].
    split; [reflexivity |]. split; [| repeat split].
    apply map_eq. intros q. change (znodes _ !! q) with (alter (fun z0 => set_zn_flags (set_bit DIRTY_ZNODE (zn_flags z0)) z0) znode (znodes c) !! q).
    rewrite lookup_alter. destruct (decide (znode = q)) as [<- |].
    + rewrite lookup_insert_eq, Hz. reflexivity.
    + rewrite lookup_insert_ne by assumption. reflexivity.
Qed.
End DirtyCow.

(** C2 as it is written fails: when the memory for the copy of the
    committed root of [cow_c0] is not obtained, [dirty_cow_znode]
    returns [-ENOMEM], nothing is copied and the root zbranch keeps its
    znode and its position. *)
Lemma cow_as_claimed_counterexample :
  ~ cow_as_claimed add_dirt0 no_rebalance ZRoot cow_c0_nomem.
Proof.
  intros H.
  assert (Hz : znodes cow_c0_nomem !! 0%nat = Some cow_root0) by (vm_compute; reflexivity).
  specialize (H 0%nat cow_root0 eq_refl Hz eq_refl). cbv zeta in H.
  destruct H as (zn & zc & _ & _ & _ & _ & _ & _ & _ & _ & Hg).
  apply (f_equal zbr_lnum) in Hg. vm_compute in Hg. discriminate Hg.
Qed.

(** The committed root of [cow_c0] is copied to the address 3; the
    children 1 and 2 get the copy as parent, the old index has (11, 0),
    and the root zbranch points to the copy with no position. *)
Lemma dirty_cow_znode_spec_witness :
  (dirty_cow_znode add_dirt0 no_rebalance ZRoot cow_c0).1 = Val 3%nat
  /\ znodes (dirty_cow_znode add_dirt0 no_rebalance ZRoot cow_c0).2 !! 0%nat
     = Some (set_zn_flags (set_bit OBSOLETE_ZNODE (zn_flags cow_root0)) cow_root0)
  /\ zn_parent (deref (dirty_cow_znode add_dirt0 no_rebalance ZRoot cow_c0).2 1%nat) = Some 3%nat
  /\ zn_parent (deref (dirty_cow_znode add_dirt0 no_rebalance ZRoot cow_c0).2 2%nat) = Some 3%nat
  /\ mk_old_idx 11 0 ∈ rb_inorder (old_idx (dirty_cow_znode add_dirt0 no_rebalance ZRoot cow_c0).2)
  /\ zbr_get (dirty_cow_znode add_dirt0 no_rebalance ZRoot cow_c0).2 ZRoot
     = mk_zbr (dk 3) (Some 3%nat) 0 0 0 None.
Proof.
  assert (Hb : zbr_znode (zbr_get cow_c0 ZRoot) = Some 0%nat) by reflexivity.
  assert (Hz : znodes cow_c0 !! 0%nat = Some cow_root0) by (vm_compute; reflexivity).
  assert (Hfresh : znodes cow_c0 !! next_znode cow_c0 = None) by (vm_compute; reflexivity).
  assert (Hch : zn_level cow_root0 <> 0 ->
                forall ch, ch ∈ loaded_children cow_root0 ->
                           ch <> 0%nat /\ is_Some (znodes cow_c0 !! ch)).
  { intros _ ch Hin. change (loaded_children cow_root0) with [1%nat; 2%nat] in Hin.
    apply elem_of_cons in Hin as [-> | Hin];
      [split; [discriminate | eexists; vm_compute; reflexivity] |].
    apply list_elem_of_singleton in Hin as ->.
    split; [discriminate | eexists; vm_compute; reflexivity]. }
  pose proof (proj1 (dirty_cow_znode_spec add_dirt0 no_rebalance (fun _ _ => eq_refl)
                       ZRoot 0%nat cow_root0 cow_c0 Hb Hz)
                eq_refl Hfresh I (fun i H => match H with end) Hch) as H.
  cbv zeta in H. change (nomem cow_c0 0) with false in H. cbv iota in H.
  destruct H as (_ & Ho & Hp & H).
  change (negb (zbr_len (zbr_get cow_c0 ZRoot) =? 0) && nomem cow_c0 1) with false in H.
  cbv iota in H. destruct H as (Hr & Hi & Hg).
  assert (Hl : zn_level cow_root0 <> 0) by discriminate.
  split; [exact Hr |]. split; [exact Ho |].
  split; [apply (Hp Hl); vm_compute; left |].
  split; [apply (Hp Hl); vm_compute; right; left |].
  split; [apply Hi; discriminate | exact Hg].
Defined.

(** ** [ubifs_tnc_lookup_nm] and [do_lookup_nm] *)

(** C10.  For the key of an extended attribute entry the two lookups
    differ.  In [xent_c0] the index has the entry [user.a];
    [ubifs_tnc_lookup_nm] reads it with [ubifs_tnc_lookup], finds the
    name equal and returns the node.  [do_lookup_nm] calls
    [resolve_collision], whose [matches_name] reads the node, which
    [lnc_add] does not put into the leaf-node-cache because the key is
    not a directory entry key, and then takes the name from
    [zbr->leaf], which is NULL. *)
Theorem lookup_nm_xent_diverges :
  is_hash_key xent_key0 = true
  /\ (ubifs_tnc_lookup_nm 0 10 xent_key0 (qstr_of "user.a") xent_c0).1 = Val xent_node0
  /\ (do_lookup_nm 0 10 xent_key0 (qstr_of "user.a") xent_c0).1 = Oops.
Proof. vm_compute. repeat split. Qed.

(** ** The dangling candidate of [fallible_resolve_collision] *)

Section Dangling.

Context {ext_t : Type}.
Variable get_seconds : Z.

Lemma last_dangling_cons (o : option (nat * Z)) (e : walk_event) (ev : list walk_event) :
  last_dangling o (e :: ev)
  = last_dangling (if e.2 =? NOT_ON_MEDIA then Some e.1 else o) ev.
Proof. reflexivity. Qed.

Lemma last_dangling_app (o : option (nat * Z)) (ev1 ev2 : list walk_event) :
  last_dangling o (ev1 ++ ev2) = last_dangling (last_dangling o ev1) ev2.
Proof. unfold last_dangling. apply foldl_app. Qed.

(** The loop to the left is its walk, with the last dangling branch of
    the walk as the candidate. *)
Lemma fallible_resolve_collision_left_walk (k fuel : nat) (key : ubifs_key) (nm : qstr) :
  forall (zn : nat) (n : Z) (o : option (nat * Z)) (unsure : bool) (c : ubifs_info ext_t),
    fallible_resolve_collision_left get_seconds k fuel key zn n nm o unsure c
    = (let* w := walk_left get_seconds k fuel key zn n nm unsure in
       ret (match w.2 with
            | Return b => Return b
            | Break (z, m, u) => Break (z, m, last_dangling o w.1, u)
            end)) c.
Proof.
  induction k as [| k IH]; intros zn n o unsure c; [reflexivity |].
  cbn [fallible_resolve_collision_left walk_left].
  rewrite bind_assoc. apply bind_ext. intros [err | [zn0 n0]] c1.
  - destruct (err =? - ENOENT); reflexivity.
  - rewrite bind_assoc, !bind_get.
    destruct (negb (keys_cmp (zbr_key (zbranch_at (deref c1 zn0) n0)) key =? 0));
      [reflexivity |].
    rewrite bind_assoc. apply bind_ext. intros cmp c2.
    destruct (Z.eqb_spec cmp NAME_LESS) as [-> | _]; [reflexivity |].
    destruct (Z.eqb_spec cmp NAME_MATCHES) as [-> | _]; [reflexivity |].
    rewrite bind_assoc.
    destruct (cmp =? NOT_ON_MEDIA) eqn:E; rewrite IH; apply bind_ext; intros w c3;
      rewrite bind_ret; cbn [fst snd]; rewrite last_dangling_cons; cbn [fst snd]; rewrite E;
      reflexivity.
Qed.

(** The loop to the right is its walk, with the last dangling branch of
    the walk as the candidate. *)
Lemma fallible_resolve_collision_right_walk (k fuel : nat) (key : ubifs_key) (nm : qstr) :
  forall (zn : nat) (n : Z) (znode : nat) (nn : Z) (o : option (nat * Z)) (c : ubifs_info ext_t),
    fallible_resolve_collision_right get_seconds k fuel key zn n znode nn nm o c
    = (let* w := walk_right get_seconds k fuel key zn n znode nn nm in
       ret (match w.2 with
            | Return b => Return b
            | Break (z, m) => Break (z, m, last_dangling o w.1)
            end)) c.
Proof.
  induction k as [| k IH]; intros zn n znode nn o c; [reflexivity |].
  cbn [fallible_resolve_collision_right walk_right].
  rewrite bind_assoc. apply bind_ext. intros [err | [zn0 n0]] c1.
  - destruct (err =? - ENOENT); reflexivity.
  - rewrite bind_assoc, !bind_get.
    destruct (negb (keys_cmp (zbr_key (zbranch_at (deref c1 zn0) n0)) key =? 0));
      [reflexivity |].
    rewrite bind_assoc. apply bind_ext. intros cmp c2.
    destruct (Z.eqb_spec cmp NAME_GREATER) as [-> | _]; [reflexivity |].
    destruct (Z.eqb_spec cmp NAME_MATCHES) as [-> | _]; [reflexivity |].
    rewrite bind_assoc.
    destruct (cmp =? NOT_ON_MEDIA) eqn:E; rewrite IH; apply bind_ext; intros w c3;
      rewrite bind_ret; cbn [fst snd]; rewrite last_dangling_cons; cbn [fst snd]; rewrite E;
      reflexivity.
Qed.
Lemma fallible_resolve_collision_right_part (fuel : nat) (key : ubifs_key) (zn : nat) (n : Z) (nm : qstr) (cmp : Z) (evL : list walk_event) (z : nat) (m : Z) (u : bool) (c : ubifs_info ext_t) :
  (let* r :=
     (if (cmp =? NAME_LESS) || u
      then fallible_resolve_collision_right get_seconds fuel fuel key zn n zn n nm
             (last_dangling None ((zn, n, cmp) :: evL))
      else ret (Break (z, m, last_dangling None ((zn, n, cmp) :: evL)))) in
   match r with
   | Return (zn1, n1) => ret (1, zn1, n1)
   | Break (zn1, n1, Some (o_znode, o_n)) => ret (1, o_znode, o_n)
   | Break (zn1, n1, None) => ret (0, zn1, n1)
   end) c
  = (let* r :=
       (if (cmp =? NAME_LESS) || u
        then walk_right get_seconds fuel fuel key zn n zn n nm
        else ret ([], Break (z, m))) in
     let* w :=
       match r.2 with
       | Return b => ret (mk_walk ((zn, n, cmp) :: evL ++ r.1) (Some b) b)
       | Break pos => ret (mk_walk ((zn, n, cmp) :: evL ++ r.1) None pos)
       end in
     ret (walk_answer (last_dangling None) w)) c.
Proof.
  assert (Hend : forall (r : list walk_event * loop_exit (nat * Z) (nat * Z)) (c2 : ubifs_info ext_t),
    match
      match r.2 with
      | Return b => Return b
      | Break (z0, m0) => Break (z0, m0, last_dangling (last_dangling None ((zn, n, cmp) :: evL)) r.1)
      end
    with
    | Return (zn1, n1) => ret (1, zn1, n1)
    | Break (zn1, n1, Some (o_znode, o_n)) => ret (1, o_znode, o_n)
    | Break (zn1, n1, None) => ret (0, zn1, n1)
    end c2
    = (let* w :=
         match r.2 with
         | Return b => ret (mk_walk ((zn, n, cmp) :: evL ++ r.1) (Some b) b)
         | Break pos => ret (mk_walk ((zn, n, cmp) :: evL ++ r.1) None pos)
         end in
       ret (walk_answer (last_dangling None) w)) c2).
  { intros [evR [[z1 m1] | [z1 m1]]] c2; cbn [fst snd]; rewrite bind_ret.
    - reflexivity.
    - unfold walk_answer. cbn [w_match w_events w_pos].
      change ((zn, n, cmp) :: evL ++ evR) with (((zn, n, cmp) :: evL) ++ evR).
      rewrite last_dangling_app.
      destruct (last_dangling (last_dangling None ((zn, n, cmp) :: evL)) evR) as [[oz on] |];
        reflexivity. }
  destruct ((cmp =? NAME_LESS) || u).
  - rewrite (bind_cong_l _ _ _ _ (fallible_resolve_collision_right_walk _ _ _ _ _ _ _ _ _ _)).
    rewrite bind_assoc.
    apply bind_ext. intros r c2. rewrite bind_ret. apply Hend.
  - rewrite !bind_ret. cbn [fst snd]. rewrite bind_ret.
    unfold walk_answer. cbn [w_match w_events w_pos]. rewrite app_nil_r.
    destruct (last_dangling None ((zn, n, cmp) :: evL)) as [[oz on] |]; reflexivity.
Qed.

(** C4, amended.  [fallible_resolve_collision] is its walk with the last
    dangling branch as the candidate: it returns 1 with the match when
    the walk finds one; without a match it returns 1 with the branch of
    the last comparison that gave [NOT_ON_MEDIA]; it returns 0 when no
    comparison gave a match or [NOT_ON_MEDIA]; it fails where the walk
    fails. *)
Theorem fallible_resolve_collision_last_dangling (fuel : nat) (key : ubifs_key) (zn : nat) (n : Z) (nm : qstr) (c : ubifs_info ext_t) :
  fallible_resolve_collision get_seconds fuel key zn n nm c
  = (let* w := fallible_walk get_seconds fuel key zn n nm in
     ret (walk_answer (last_dangling None) w)) c.
Proof.
  unfold fallible_resolve_collision, fallible_walk.
  rewrite bind_assoc. apply bind_ext. intros cmp c1.
  destruct (Z.eqb_spec cmp NAME_MATCHES) as [-> | Hm]; [reflexivity |].
  cbv zeta. rewrite bind_assoc.
  assert (Ho : (if cmp =? NOT_ON_MEDIA then Some (zn, n) else None)
               = last_dangling None [(zn, n, cmp)]) by reflexivity.
  assert (Hstep : forall (a : list walk_event * loop_exit (nat * Z) (nat * Z * bool)) (c2 : ubifs_info ext_t),
    match
      match a.2 with
      | Return b => Return b
      | Break (z, m, u) =>
          Break (z, m, last_dangling (if cmp =? NOT_ON_MEDIA then Some (zn, n) else None) a.1, u)
      end
    with
    | Return (zn0, n0) => ret (1, zn0, n0)
    | Break (zn0, n0, o, unsure) =>
        let* r :=
          (if (cmp =? NAME_LESS) || unsure
           then fallible_resolve_collision_right get_seconds fuel fuel key zn n zn n nm o
           else ret (Break (zn0, n0, o))) in
        match r with
        | Return (zn1, n1) => ret (1, zn1, n1)
        | Break (zn1, n1, Some (o_znode, o_n)) => ret (1, o_znode, o_n)
        | Break (zn1, n1, None) => ret (0, zn1, n1)
        end
    end c2
    = (let* w :=
         match a.2 with
         | Return b => ret (mk_walk ((zn, n, cmp) :: a.1) (Some b) b)
         | Break (zn', n', unsure) =>
             let* r :=
               (if (cmp =? NAME_LESS) || unsure
                then walk_right get_seconds fuel fuel key zn n zn n nm
                else ret ([], Break (zn', n'))) in
             match r.2 with
             | Return b => ret (mk_walk ((zn, n, cmp) :: a.1 ++ r.1) (Some b) b)
             | Break pos => ret (mk_walk ((zn, n, cmp) :: a.1 ++ r.1) None pos)
             end
         end in
       ret (walk_answer (last_dangling None) w)) c2).
  { intros [evL [[z1 m1] | [[z1 m1] u]]] c2; cbn [fst snd].
    - rewrite bind_ret. reflexivity.
    - rewrite bind_assoc. rewrite Ho, <- last_dangling_app.
      apply (fallible_resolve_collision_right_part fuel key zn n nm cmp evL z1 m1 u c2). }
  destruct ((cmp =? NAME_GREATER) || (cmp =? NOT_ON_MEDIA)).
  - rewrite (bind_cong_l _ _ _ _ (fallible_resolve_collision_left_walk _ _ _ _ _ _ _ _ _)).
    rewrite bind_assoc.
    apply bind_ext. intros a c2. rewrite bind_ret. apply Hstep.
  - rewrite !bind_ret.
    exact (Hstep ([], Break (zn, n, cmp =? NOT_ON_MEDIA)) c1).
Qed.

End Dangling.

(** C4 as it is written fails.  In [dangling_c0] both branches of the
    key are dangling; the search of the key ends at slot 1, the walk
    compares slot 1 and then slot 0, and [fallible_resolve_collision]
    returns slot 0, the last dangling branch, not slot 1, the first. *)
Lemma first_dangling_wins_counterexample :
  ~ first_dangling_wins 0 10 (dk 5) 0%nat 1 (qstr_of "a") dangling_c0.
Proof. unfold first_dangling_wins. vm_compute. discriminate. Qed.

Example dangling_scenario :
  (lookup_level0 0 10 (dk 5) dangling_c0).1 = Val (1, 0%nat, 1)
  /\ (fallible_walk 0 10 (dk 5) 0%nat 1 (qstr_of "a") dangling_c0).1
     = Val (mk_walk [(0%nat, 1, NOT_ON_MEDIA); (0%nat, 0, NOT_ON_MEDIA)] None (0%nat, 1))
  /\ (fallible_resolve_collision 0 10 (dk 5) 0%nat 1 (qstr_of "a") dangling_c0).1
     = Val (1, 0%nat, 0).
Proof. vm_compute. repeat split. Qed.

(** ** The arrays of zbranches under insertion *)

Lemma lbr_insert (l : list ubifs_zbranch) (i j : Z) (b : ubifs_zbranch) :
  0 <= i ->
  lbr (<[Z.to_nat i := b]> l) j
  = if decide (j = i /\ i < Z.of_nat (length l)) then b else lbr l j.
Proof.
  intros Hi. unfold lbr. destruct (Z.ltb_spec j 0) as [Hj | Hj].
  - destruct (decide (j = i /\ i < Z.of_nat (length l))) as [[-> _] |]; [lia | reflexivity].
  - destruct (decide (j = i /\ i < Z.of_nat (length l))) as [[-> Hl] | Hn].
    + rewrite list_lookup_insert_eq by lia. reflexivity.
    + destruct (decide (j = i)) as [-> | Hne].
      * rewrite list_insert_ge by lia. reflexivity.
      * rewrite list_lookup_insert_ne by lia. reflexivity.
Qed.

Lemma zbranch_at_lbr (z : ubifs_znode) (i : Z) : zbranch_at z i = lbr (zn_zbranch z) i.
Proof. reflexivity. Qed.

Section Shape.

Context {ext_t : Type}.
Implicit Types c : ubifs_info ext_t.

Lemma zshape_deref (q : nat) (l : list ubifs_zbranch) (k lv : Z) c :
  zshape c q = Some (l, k, lv) ->
  zn_zbranch (deref c q) = l /\ zn_child_cnt (deref c q) = k /\ zn_level (deref c q) = lv.
Proof.
  unfold zshape, deref. destruct (znodes c !! q) as [z |]; [| discriminate].
  simpl. intros [= <- <- <-]. auto.
Qed.

Lemma zshape_lookup (q : nat) (z : ubifs_znode) c :
  znodes c !! q = Some z -> zshape c q = Some (shape_of z).
Proof. intros H. unfold zshape. rewrite H. reflexivity. Qed.

(** A write that leaves the shape alone. *)
Lemma zshape_zn_upd_frame (p q : nat) (f : ubifs_znode -> ubifs_znode) c :
  (forall z, shape_of (f z) = shape_of z) -> zshape (zn_upd p f c) q = zshape c q.
Proof.
  intros Hf. unfold zshape. rewrite lookup_zn_upd.
  destruct (decide (p = q)) as [-> |]; [| reflexivity].
  destruct (znodes c !! q) as [z |]; simpl; [rewrite Hf |]; reflexivity.
Qed.

Lemma zshape_zn_upd_ne (p q : nat) (f : ubifs_znode -> ubifs_znode) c :
  p <> q -> zshape (zn_upd p f c) q = zshape c q.
Proof. intros H. unfold zshape. rewrite lookup_zn_upd_ne by exact H. reflexivity. Qed.

Lemma zshape_zn_upd_eq (p : nat) (f : ubifs_znode -> ubifs_znode) (g : list ubifs_zbranch * Z * Z -> list ubifs_zbranch * Z * Z) c :
  (forall z, shape_of (f z) = g (shape_of z)) ->
  zshape (zn_upd p f c) p = g <$> zshape c p.
Proof.
  intros Hf. unfold zshape. rewrite lookup_zn_upd_eq.
  destruct (znodes c !! p) as [z |]; simpl; [rewrite Hf |]; reflexivity.
Qed.

Lemma shape_of_store (i : Z) (b : ubifs_zbranch) (z : ubifs_znode) :
  0 <= i ->
  shape_of (zbranch_store i b z)
  = (fun s => (<[Z.to_nat i := b]> s.1.1, s.1.2, s.2)) (shape_of z).
Proof.
  intros Hi. unfold zbranch_store. destruct (Z.ltb_spec i 0); [lia |]. reflexivity.
Qed.

(** One round of the loop that moves zbranches to the new znode. *)
Lemma tnc_insert_move_shape (znode zn : nat) (keep i : Z) (bs l : list ubifs_zbranch) (k1 lv1 k2 lv2 : Z) c :
  znode <> zn -> 0 <= i ->
  zshape c znode = Some (bs, k1, lv1) ->
  zshape c zn = Some (l, k2, lv2) ->
  zshape (tnc_insert_move znode zn keep c i) znode = Some (bs, k1, lv1)
  /\ zshape (tnc_insert_move znode zn keep c i) zn
     = Some (<[Z.to_nat i := lbr bs (keep + i)]> l, k2, lv2).
Proof.
  intros Hne Hi H1 H2. unfold tnc_insert_move.
  destruct (zshape_deref _ _ _ _ _ H1) as (Hbs & _ & _).
  set (c1 := zn_upd zn (zbranch_store i (zbranch_at (deref c znode) (keep + i))) c).
  assert (Hc1 : zshape c1 znode = Some (bs, k1, lv1)).
  { unfold c1. rewrite zshape_zn_upd_ne by congruence. exact H1. }
  assert (Hc2 : zshape c1 zn = Some (<[Z.to_nat i := lbr bs (keep + i)]> l, k2, lv2)).
  { unfold c1. rewrite (zshape_zn_upd_eq _ _ _ _ (fun z => shape_of_store i _ z Hi)).
    rewrite H2. simpl. rewrite zbranch_at_lbr, Hbs. reflexivity. }
  destruct (negb (zn_level (deref c1 zn) =? 0)); [| auto].
  destruct (zbr_znode (zbranch_at (deref c1 zn) i)) as [child |]; [| auto].
  rewrite !zshape_zn_upd_frame by reflexivity. auto.
Qed.

(** The loop that moves zbranches to the new znode. *)
Lemma tnc_insert_move_loop_shape (znode zn : nat) (keep : Z) (bs : list ubifs_zbranch) (k1 lv1 k2 lv2 : Z) (m : nat) :
  forall (l : list ubifs_zbranch) c,
    znode <> zn ->
    zshape c znode = Some (bs, k1, lv1) ->
    zshape c zn = Some (l, k2, lv2) ->
    exists l',
      zshape (foldl (tnc_insert_move znode zn keep) c (seqZ 0 (Z.of_nat m))) znode
      = Some (bs, k1, lv1)
      /\ zshape (foldl (tnc_insert_move znode zn keep) c (seqZ 0 (Z.of_nat m))) zn
         = Some (l', k2, lv2)
      /\ length l' = length l
      /\ forall j, lbr l' j
                   = if decide (0 <= j < Z.of_nat m /\ j < Z.of_nat (length l))
                     then lbr bs (keep + j) else lbr l j.
Proof.
  induction m as [| m IH]; intros l c Hne H1 H2.
  - exists l. repeat split; try assumption. intros j.
    destruct (decide (0 <= j < Z.of_nat 0 /\ j < Z.of_nat (length l))); [lia | reflexivity].
  - rewrite seqZ_S, foldl_app. cbn [foldl].
    destruct (IH l c Hne H1 H2) as (l' & Ha & Hb & Hlen & Hl').
    destruct (tnc_insert_move_shape znode zn keep (0 + Z.of_nat m) bs l' k1 lv1 k2 lv2 _
                Hne ltac:(lia) Ha Hb) as [Hc Hd].
    eexists. split; [exact Hc |]. split; [exact Hd |].
    split; [rewrite length_insert; exact Hlen |].
    intros j. rewrite lbr_insert by lia. rewrite Hl', Hlen.
    repeat case_decide; try reflexivity; try lia.
    f_equal. lia.
Qed.

(** One round of the loop of [insert_zbranch]. *)
Lemma insert_zbranch_shift_shape (hl : bool) (znode : nat) (i : Z) (l : list ubifs_zbranch) (k lv : Z) c :
  0 <= i ->
  zshape c znode = Some (l, k, lv) ->
  zshape (insert_zbranch_shift hl znode c i) znode
  = Some (<[Z.to_nat i := lbr l (i - 1)]> l, k, lv)
  /\ forall q, q <> znode -> zshape (insert_zbranch_shift hl znode c i) q = zshape c q.
Proof.
  intros Hi H. unfold insert_zbranch_shift.
  set (c1 := zn_upd znode (fun z => zbranch_store i (zbranch_at z (i - 1)) z) c).
  assert (Hc1 : zshape c1 znode = Some (<[Z.to_nat i := lbr l (i - 1)]> l, k, lv)).
  { unfold c1.
    rewrite (zshape_zn_upd_eq _ _
               (fun s => (<[Z.to_nat i := lbr s.1.1 (i - 1)]> s.1.1, s.1.2, s.2))).
    - rewrite H. reflexivity.
    - intros z. rewrite shape_of_store by exact Hi. reflexivity. }
  assert (Hq : forall q, q <> znode -> zshape c1 q = zshape c q).
  { intros q Hq. unfold c1. apply zshape_zn_upd_ne. congruence. }
  destruct hl; [| auto].
  destruct (zbr_znode (zbranch_at (deref c1 znode) i)) as [child |]; [| auto].
  split; [| intros q Hne]; rewrite zshape_zn_upd_frame by reflexivity; auto.
Qed.

Lemma insert_zbranch_shift_loop_shape (hl : bool) (znode : nat) (n : Z) (k lv : Z) (m : nat) :
  forall (l : list ubifs_zbranch) c,
    0 <= n ->
    zshape c znode = Some (l, k, lv) ->
    exists l',
      zshape (foldl (insert_zbranch_shift hl znode) c (reverse (seqZ (n + 1) (Z.of_nat m)))) znode
      = Some (l', k, lv)
      /\ length l' = length l
      /\ (forall q, q <> znode ->
           zshape (foldl (insert_zbranch_shift hl znode) c
                     (reverse (seqZ (n + 1) (Z.of_nat m)))) q = zshape c q)
      /\ forall j, lbr l' j
                   = if decide (n < j <= n + Z.of_nat m /\ j < Z.of_nat (length l))
                     then lbr l (j - 1) else lbr l j.
Proof.
  induction m as [| m IH]; intros l c Hn H.
  - exists l. repeat split; try assumption; try reflexivity. intros j.
    destruct (decide (n < j <= n + Z.of_nat 0 /\ j < Z.of_nat (length l))); [lia | reflexivity].
  - rewrite seqZ_S, reverse_snoc. cbn [foldl].
    destruct (insert_zbranch_shift_shape hl znode (n + 1 + Z.of_nat m) l k lv c ltac:(lia) H)
      as [Ha Hq].
    destruct (IH _ _ Hn Ha) as (l' & Hb & Hlen & Hq' & Hl').
    exists l'. split; [exact Hb |].
    split; [rewrite Hlen, length_insert; reflexivity |].
    split; [intros q Hne; rewrite Hq', Hq by exact Hne; reflexivity |].
    intros j. rewrite Hl'. rewrite length_insert, !lbr_insert by lia.
    replace (n + 1 + Z.of_nat m - 1) with (n + Z.of_nat m) by lia.
    repeat case_decide; try reflexivity; try lia.
    f_equal. lia.
Qed.

Lemma insert_zbranch_shift_loop_cfg (hl : bool) (znode : nat) (idx : list Z) c :
  c_cfg (foldl (insert_zbranch_shift hl znode) c idx) = c_cfg c.
Proof.
  revert c. induction idx as [| i idx IH]; intros c; [reflexivity |].
  cbn [foldl]. rewrite IH. unfold insert_zbranch_shift.
  destruct hl; [| reflexivity].
  destruct (zbr_znode _); reflexivity.
Qed.

Lemma shape_of_child_cnt (v : Z) (z : ubifs_znode) :
  shape_of (set_zn_child_cnt v z) = (fun s => (s.1.1, v, s.2)) (shape_of z).
Proof. reflexivity. Qed.

(** [insert_zbranch]: the zbranches from the slot [n] on move one slot
    to the right, [zbr] is put into the slot [n], and the znode has one
    child more. *)
Lemma insert_zbranch_shape (zi : nat) (zbr : ubifs_zbranch) (n : Z) (l : list ubifs_zbranch) (k lv : Z) c :
  zshape c zi = Some (l, k, lv) ->
  0 <= n <= k ->
  exists c' l',
    insert_zbranch zi zbr n c = (Val tt, c')
    /\ c_cfg c' = c_cfg c
    /\ zshape c' zi = Some (l', k + 1, lv)
    /\ length l' = length l
    /\ (forall q, q <> zi -> zshape c' q = zshape c q)
    /\ forall j, lbr l' j
                 = if decide (j = n /\ n < Z.of_nat (length l)) then zbr
                   else if decide (n < j <= k /\ j < Z.of_nat (length l)) then lbr l (j - 1)
                   else lbr l j.
Proof.
  intros H Hn. destruct (zshape_deref _ _ _ _ _ H) as (_ & Hk & _).
  unfold insert_zbranch. rewrite bind_get. cbv zeta. rewrite bind_modify, Hk.
  replace (k - n) with (Z.of_nat (Z.to_nat (k - n))) by lia.
  set (hl := negb (zn_level (deref c zi) =? 0)).
  destruct (insert_zbranch_shift_loop_shape hl zi n k lv (Z.to_nat (k - n)) l c ltac:(lia) H)
    as (l1 & H1 & Hlen1 & Hq1 & Hl1).
  set (c1 := foldl (insert_zbranch_shift hl zi) c
               (reverse (seqZ (n + 1) (Z.of_nat (Z.to_nat (k - n)))))) in *.
  assert (Hcfg1 : c_cfg c1 = c_cfg c).
  { apply insert_zbranch_shift_loop_cfg. }
  assert (Hfin : forall c2 : ubifs_info ext_t,
    c_cfg c2 = c_cfg c ->
    zshape c2 zi = Some (l1, k, lv) ->
    (forall q, q <> zi -> zshape c2 q = zshape c q) ->
    exists c' l',
      (modify (zn_upd zi (zbranch_store n zbr)) ;;
       modify (zn_upd zi (fun z => set_zn_child_cnt (zn_child_cnt z + 1) z)) ;;
       if n =? 0 then modify (zn_upd zi (set_zn_alt 1)) else ret tt) c2 = (Val tt, c')
      /\ c_cfg c' = c_cfg c
      /\ zshape c' zi = Some (l', k + 1, lv)
      /\ length l' = length l
      /\ (forall q, q <> zi -> zshape c' q = zshape c q)
      /\ forall j, lbr l' j
                   = if decide (j = n /\ n < Z.of_nat (length l)) then zbr
                     else if decide (n < j <= k /\ j < Z.of_nat (length l)) then lbr l (j - 1)
                     else lbr l j).
  { intros c2 Hcfg2 H2 Hq2. rewrite !bind_modify.
    set (c3 := zn_upd zi (fun z => set_zn_child_cnt (zn_child_cnt z + 1) z)
                 (zn_upd zi (zbranch_store n zbr) c2)).
    assert (H3 : zshape c3 zi = Some (<[Z.to_nat n := zbr]> l1, k + 1, lv)).
    { unfold c3.
      rewrite (zshape_zn_upd_eq _ _ (fun s => (s.1.1, s.1.2 + 1, s.2))) by reflexivity.
      rewrite (zshape_zn_upd_eq _ _ _ _ (fun z => shape_of_store n zbr z (proj1 Hn))).
      rewrite H2. reflexivity. }
    assert (Hq3 : forall q, q <> zi -> zshape c3 q = zshape c q).
    { intros q Hq. unfold c3. rewrite !zshape_zn_upd_ne by congruence. apply Hq2, Hq. }
    assert (Hl3 : forall j, lbr (<[Z.to_nat n := zbr]> l1) j
                   = if decide (j = n /\ n < Z.of_nat (length l)) then zbr
                     else if decide (n < j <= k /\ j < Z.of_nat (length l)) then lbr l (j - 1)
                     else lbr l j).
    { intros j. rewrite lbr_insert by lia. rewrite Hlen1, Hl1.
      replace (n + Z.of_nat (Z.to_nat (k - n))) with k by lia.
      repeat case_decide; try reflexivity; lia. }
    destruct (n =? 0).
    - eexists _, _. split; [reflexivity |].
      split; [exact Hcfg2 |].
      split; [rewrite zshape_zn_upd_frame by reflexivity; exact H3 |].
      split; [rewrite length_insert; exact Hlen1 |].
      split; [| exact Hl3].
      intros q Hq. rewrite zshape_zn_upd_frame by reflexivity. apply Hq3, Hq.
    - eexists _, _. split; [reflexivity |].
      split; [exact Hcfg2 |].
      split; [exact H3 |].
      split; [rewrite length_insert; exact Hlen1 |].
      split; [exact Hq3 | exact Hl3]. }
  destruct hl.
  - destruct (zbr_znode zbr) as [child |].
    + rewrite bind_modify. apply Hfin.
      * exact Hcfg1.
      * rewrite zshape_zn_upd_frame by reflexivity. exact H1.
      * intros q Hq. rewrite zshape_zn_upd_frame by reflexivity. apply Hq1, Hq.
    + rewrite bind_ret. apply Hfin; assumption.
  - rewrite bind_ret. apply Hfin; assumption.
Qed.

End Shape.

(** ** The order of the keys *)

Lemma keys_cmp_lt (a b : ubifs_key) :
  keys_cmp a b < 0
  <-> k_ino a < k_ino b
      \/ (k_ino a = k_ino b
          /\ (k_type a < k_type b \/ (k_type a = k_type b /\ k_disc a < k_disc b))).
Proof.
  destruct a as [i1 t1 d1], b as [i2 t2 d2]. unfold keys_cmp, cmp3. simpl.
  destruct (Z.ltb_spec i1 i2), (Z.ltb_spec i2 i1), (Z.ltb_spec t1 t2), (Z.ltb_spec t2 t1),
    (Z.ltb_spec d1 d2), (Z.ltb_spec d2 d1); lia.
Qed.

Lemma keys_cmp_refl (a : ubifs_key) : keys_cmp a a = 0.
Proof. apply keys_cmp_eq. reflexivity. Qed.

Lemma key_le_ok_trans (a b c : ubifs_key) :
  key_le_ok a b -> key_le_ok b c -> key_le_ok a c.
Proof.
  unfold key_le_ok. intros [H1 | [H1 Ha]] [H2 | [H2 Hb]].
  - left. apply keys_cmp_lt in H1, H2. apply keys_cmp_lt. lia.
  - apply keys_cmp_eq in H2 as <-. left. exact H1.
  - apply keys_cmp_eq in H1 as <-. left. exact H2.
  - apply keys_cmp_eq in H1 as <-. right. auto.
Qed.

(** [read_znode_order] is the test of the order. *)
Lemma read_znode_order_spec (z : ubifs_znode) (k : nat) (i : Z) :
  read_znode_order z k i = true
  <-> forall j, i <= j < i + Z.of_nat k ->
        key_le_ok (zbr_key (zbranch_at z j)) (zbr_key (zbranch_at z (j + 1))).
Proof.
  revert i. induction k as [| k IH]; intros i.
  - simpl. split; [intros _ j Hj; lia | reflexivity].
  - cbn [read_znode_order]. cbv zeta.
    destruct (Z.ltb_spec 0 (keys_cmp (zbr_key (zbranch_at z i)) (zbr_key (zbranch_at z (i + 1)))))
      as [Hgt | Hle].
    { split; [discriminate |]. intros H. 
      destruct (H i ltac:(lia)) as [Hx | [Hx _]]; lia. }
    destruct (Z.eqb_spec (keys_cmp (zbr_key (zbranch_at z i)) (zbr_key (zbranch_at z (i + 1)))) 0)
      as [He | Hn].
    + destruct (is_hash_key (zbr_key (zbranch_at z i))) eqn:Hh; cbn [negb andb].
      * rewrite IH. split.
        -- intros H j Hj. destruct (decide (j = i)) as [-> |]; [right; auto | apply H; lia].
        -- intros H j Hj. apply H. lia.
      * split; [discriminate |]. intros H.
        destruct (H i ltac:(lia)) as [Hx | [_ Hx]]; [lia | congruence].
    + cbn [andb]. rewrite IH. split.
      * intros H j Hj. destruct (decide (j = i)) as [-> |]; [left; lia | apply H; lia].
      * intros H j Hj. apply H. lia.
Qed.

Section Load.

Context {ext_t : Type}.
Implicit Types c : ubifs_info ext_t.

Lemma read_znode_branches_shape c (idx : ubifs_idx_node) (k : nat) :
  forall (i : Z) (z z' : ubifs_znode),
    read_znode_branches c idx k i z = Some z' ->
    length (zn_zbranch z') = length (zn_zbranch z) /\ zn_child_cnt z' = zn_child_cnt z.
Proof.
  induction k as [| k IH]; intros i z z'; cbn [read_znode_branches]; cbv zeta.
  - intros [= <-]. auto.
  - set (b := mk_zbr _ _ _ _ _ _).
    assert (Hs : length (zn_zbranch (zbranch_store i b z)) = length (zn_zbranch z)
                 /\ zn_child_cnt (zbranch_store i b z) = zn_child_cnt z).
    { split; [apply zbranch_store_length | apply zbranch_store_child_cnt]. }
    destruct (bad_branch c b); [discriminate |].
    destruct (negb (good_key_type (key_type (zbr_key b)))); [discriminate |].
    destruct (negb (zn_level (zbranch_store i b z) =? 0)).
    + intros H. apply IH in H. destruct H, Hs. split; congruence.
    + destruct (bad_target_len c b); [discriminate |].
      intros H. apply IH in H. destruct H, Hs. split; congruence.
Qed.

(** A znode that [read_znode] accepts is in order and has at most
    [fanout] children; a node that was read and is not accepted gives
    [-EINVAL]; without a node read the znode is left as it was. *)
Lemma read_znode_ok c (lnum offs len : Z) (z0 : ubifs_znode) :
  let r := read_znode c lnum offs len z0 in
  (forall nd, ubifs_read_node c UBIFS_IDX_NODE len lnum offs = inr nd ->
     (r.1 = 0 \/ r.1 = - EINVAL)
     /\ (r.1 = 0 ->
         keys_ordered r.2
         /\ zn_child_cnt r.2 <= fanout (c_cfg c)
         /\ length (zn_zbranch r.2) = length (zn_zbranch z0)))
  /\ (forall err, ubifs_read_node c UBIFS_IDX_NODE len lnum offs = inl err -> r = (err, z0)).
Proof.
  unfold read_znode.
  destruct (ubifs_read_node c UBIFS_IDX_NODE len lnum offs) as [err | [idx | leaf]]; cbn [fst snd].
  - split; [intros nd; discriminate | intros e [= <-]; reflexivity].
  - split; [intros nd _ | intros e; discriminate].
    set (z1 := set_zn_level (idx_level idx) (set_zn_child_cnt (idx_child_cnt idx) z0)).
    destruct ((fanout (c_cfg c) <? zn_child_cnt z1) || (UBIFS_MAX_LEVELS <? zn_level z1)) eqn:Hb;
      cbn [fst snd]; [split; [right; reflexivity | intros H; discriminate H] |].
    apply orb_false_iff in Hb as [Hb _]. apply Z.ltb_ge in Hb.
    destruct (read_znode_branches c idx (Z.to_nat (zn_child_cnt z1)) 0 z1) as [z2 |] eqn:Hr;
      cbn [fst snd]; [| split; [right; reflexivity | intros H; discriminate H]].
    apply read_znode_branches_shape in Hr as [Hlen Hcnt].
    destruct (read_znode_order z2 (Z.to_nat (zn_child_cnt z2 - 1)) 0) eqn:Ho;
      cbn [fst snd]; [| split; [right; reflexivity | intros H; discriminate H]].
    split; [left; reflexivity |]. intros _.
    split; [| split; [congruence | rewrite Hlen; reflexivity]].
    intros i Hi1 Hi2. apply (proj1 (read_znode_order_spec z2 _ 0) Ho). lia.
  - split; [intros nd _ | intros e; discriminate]. cbn [fst snd].
    split; [right; reflexivity | intros H; discriminate H].
Qed.

End Load.

(** ** Keeping the znodes in order *)

Lemma znode_ok_ext (z z' : ubifs_znode) :
  zn_child_cnt z' = zn_child_cnt z ->
  length (zn_zbranch z') = length (zn_zbranch z) ->
  (forall i, zbr_key (zbranch_at z' i) = zbr_key (zbranch_at z i)) ->
  znode_ok z -> znode_ok z'.
Proof.
  intros Hc Hl Hk [H1 H2]. split; [rewrite Hc, Hl; exact H1 |].
  intros i Hi1 Hi2. rewrite !Hk. apply H2; [exact Hi1 | rewrite <- Hc; exact Hi2].
Qed.

Lemma znode_ok_store_key (z : ubifs_znode) (i : Z) (b : ubifs_zbranch) :
  zbr_key b = zbr_key (zbranch_at z i) -> znode_ok z -> znode_ok (zbranch_store i b z).
Proof.
  intros Hb. apply znode_ok_ext.
  - apply zbranch_store_child_cnt.
  - apply zbranch_store_length.
  - intros j. destruct (decide (i = j)) as [<- | Hne].
    + destruct (decide (0 <= i < Z.of_nat (length (zn_zbranch z)))) as [Hi | Hi].
      * rewrite zbranch_at_store_eq by exact Hi. exact Hb.
      * unfold zbranch_store, zbranch_at. destruct (Z.ltb_spec i 0); [reflexivity |].
        cbn [zn_zbranch set_zn_zbranch]. rewrite list_insert_ge by lia. reflexivity.
    + rewrite zbranch_at_store_ne by exact Hne. reflexivity.
Qed.

(** The key of the slot 0 may be replaced by a smaller key. *)
Lemma znode_ok_lower_key0 (z : ubifs_znode) (key : ubifs_key) :
  keys_cmp key (zbr_key (zbranch_at z 0)) < 0 ->
  znode_ok z -> znode_ok (zbranch_store 0 (set_zbr_key key (zbranch_at z 0)) z).
Proof.
  intros Hk [Hc Ho]. split.
  - rewrite zbranch_store_child_cnt, zbranch_store_length. exact Hc.
  - intros i Hi1 Hi2. rewrite zbranch_store_child_cnt in Hi2.
    rewrite (zbranch_at_store_ne z 0 (i + 1)) by lia.
    destruct (decide (i = 0)) as [-> | Hne].
    + rewrite zbranch_at_store_eq by lia.
      apply key_le_ok_trans with (zbr_key (zbranch_at z 0)); [left; exact Hk |].
      apply (Ho 0); lia.
    + rewrite zbranch_at_store_ne by lia. apply Ho; assumption.
Qed.

Lemma znode_ok_zero : znode_ok zero_znode.
Proof. split; [simpl; lia |]. intros i Hi1 Hi2. simpl in Hi2. lia. Qed.

Section Inv.

Context {ext_t : Type}.
Implicit Types c : ubifs_info ext_t.

Lemma keys_inv_deref (q : nat) c : keys_inv c -> znode_ok (deref c q).
Proof.
  intros [_ H]. unfold deref. destruct (znodes c !! q) as [z |] eqn:E; simpl.
  - eapply H, E.
  - apply znode_ok_zero.
Qed.

Lemma keys_inv_zn_upd (p : nat) (f : ubifs_znode -> ubifs_znode) c :
  (forall z, znodes c !! p = Some z -> znode_ok z -> znode_ok (f z)) ->
  keys_inv c -> keys_inv (zn_upd p f c).
Proof.
  intros Hf [Ha Hk]. split.
  - intros q Hq. rewrite lookup_zn_upd. destruct (decide (p = q)) as [-> |].
    + change (next_znode (zn_upd q f c)) with (next_znode c) in Hq.
      rewrite (Ha q Hq). reflexivity.
    + apply Ha, Hq.
  - intros q z. rewrite lookup_zn_upd. destruct (decide (p = q)) as [-> |].
    + destruct (znodes c !! q) as [z0 |] eqn:E; [| discriminate].
      simpl. intros [= <-]. apply Hf; [reflexivity | eapply Hk, E].
    + apply Hk.
Qed.

Lemma keys_inv_zbr_upd (r : zbr_ref) (g : ubifs_zbranch -> ubifs_zbranch) c :
  (forall b, zbr_key (g b) = zbr_key b) ->
  keys_inv c -> keys_inv (zbr_upd r g c).
Proof.
  intros Hg H. destruct r as [| p i]; [exact H |].
  apply keys_inv_zn_upd; [| exact H].
  intros z _. apply znode_ok_store_key, Hg.
Qed.

Lemma keys_inv_kzalloc c : keys_inv c -> keys_inv (kzalloc_znode c).2.
Proof.
  intros [Ha Hk]. split.
  - intros q Hq. cbn in Hq |- *. rewrite lookup_insert_ne by lia. apply Ha. lia.
  - intros q z. cbn. destruct (decide (next_znode c = q)) as [<- | Hne].
    + rewrite lookup_insert_eq. intros [= <-]. split; [simpl; lia |].
      intros i Hi1 Hi2. simpl in Hi2. lia.
    + rewrite lookup_insert_ne by exact Hne. apply Hk.
Qed.

Lemma keys_inv_kfree (p : nat) c : keys_inv c -> keys_inv (kfree_znode p c).2.
Proof.
  intros [Ha Hk]. split.
  - intros q Hq. cbn. destruct (decide (p = q)) as [-> |].
    + apply lookup_delete_eq.
    + rewrite lookup_delete_ne by assumption. apply Ha, Hq.
  - intros q z. cbn. destruct (decide (p = q)) as [-> |].
    + rewrite lookup_delete_eq. discriminate.
    + rewrite lookup_delete_ne by assumption. apply Hk.
Qed.

(** The rules of the monad. *)
Lemma inv_pres_ret {A} (a : A) : inv_pres (ret (ext_t := ext_t) a).
Proof. intros c H. exact H. Qed.

Lemma inv_pres_fail {A} (e : Z) : inv_pres (fail (ext_t := ext_t) (A := A) e).
Proof. intros c H. exact H. Qed.

Lemma inv_pres_oops {A} : inv_pres (oops (ext_t := ext_t) (A := A)).
Proof. intros c H. exact H. Qed.

Lemma inv_pres_nofuel {A} : inv_pres (nofuel (ext_t := ext_t) (A := A)).
Proof. intros c H. exact H. Qed.

Lemma inv_pres_get : inv_pres (get (ext_t := ext_t)).
Proof. intros c H. exact H. Qed.

Lemma inv_pres_check (e : Z) : inv_pres (check (ext_t := ext_t) e).
Proof. intros c H. unfold check. destruct (e =? 0); exact H. Qed.

Lemma inv_pres_modify (f : ubifs_info ext_t -> ubifs_info ext_t) :
  (forall c, keys_inv c -> keys_inv (f c)) -> inv_pres (modify f).
Proof. intros Hf c H. apply Hf, H. Qed.

Lemma inv_pres_bind {A B} (m : M ext_t A) (k : A -> M ext_t B) :
  inv_pres m -> (forall a, inv_pres (k a)) -> inv_pres (bind m k).
Proof.
  intros Hm Hk c H. specialize (Hm c H). unfold bind.
  destruct (m c) as [[a | e | |] c1]; cbn [snd] in *; try exact Hm.
  apply Hk, Hm.
Qed.

(** The same with what the first computation establishes. *)
Lemma inv_pres_bind_at {A B} (m : M ext_t A) (k : A -> M ext_t B) c :
  keys_inv c ->
  keys_inv (m c).2 ->
  (forall a c1, m c = (Val a, c1) -> keys_inv c1 -> keys_inv (k a c1).2) ->
  keys_inv (bind m k c).2.
Proof.
  intros H Hm Hk. unfold bind.
  destruct (m c) as [[a | e | |] c1] eqn:E; cbn [snd] in *; try exact Hm.
  apply (Hk a c1 eq_refl Hm).
Qed.

Lemma inv_pres_kmalloc : inv_pres (kmalloc (ext_t := ext_t)).
Proof. intros c H. exact H. Qed.

Lemma inv_pres_try {A} (m : M ext_t A) : inv_pres m -> inv_pres (try m).
Proof.
  intros Hm c H. specialize (Hm c H). unfold try.
  destruct (m c) as [[a | e | |] c1]; exact Hm.
Qed.

End Inv.

Ltac inv_step :=
  match goal with
  | |- inv_pres (ret _) => apply inv_pres_ret
  | |- inv_pres (fail _) => apply inv_pres_fail
  | |- inv_pres oops => apply inv_pres_oops
  | |- inv_pres nofuel => apply inv_pres_nofuel
  | |- inv_pres get => apply inv_pres_get
  | |- inv_pres kmalloc => apply inv_pres_kmalloc
  | |- inv_pres (check _) => apply inv_pres_check
  | |- inv_pres (try _) => apply inv_pres_try
  | |- inv_pres (bind _ _) => apply inv_pres_bind; [| intros ?]
  | |- inv_pres (modify _) => apply inv_pres_modify; intros ? ?
  | |- inv_pres (if ?b then _ else _) => destruct b
  | |- inv_pres (match ?x with _ => _ end) => destruct x
  | |- keys_inv (zn_upd _ _ _) => apply keys_inv_zn_upd; [intros ? _ ? |]
  | |- keys_inv (zbr_upd _ _ _) => apply keys_inv_zbr_upd; [intros ?; reflexivity |]
  | |- keys_inv (kzalloc_znode _).2 => apply keys_inv_kzalloc
  | |- keys_inv _ => assumption
  | |- znode_ok (deref _ _) => apply keys_inv_deref; assumption
  | |- znode_ok _ => assumption
  | |- inv_pres _ => solve [auto with inv]
  end.

Ltac inv_auto := repeat inv_step.

Create HintDb inv.

Section InvTnc.

Context {ext_t : Type}.
Implicit Types c : ubifs_info ext_t.
Variable ubifs_add_dirt : ext_t -> Z -> Z -> Z * ext_t.
Variable get_seconds : Z.
Variable rb_insert_color : forall A : Type, rb_tree A -> rb_tree A.

Lemma inv_pres_kzalloc : inv_pres (kzalloc_znode (ext_t := ext_t)).
Proof. intros c H. apply keys_inv_kzalloc, H. Qed.

Lemma inv_pres_kfree (p : nat) : inv_pres (kfree_znode (ext_t := ext_t) p).
Proof. intros c H. apply keys_inv_kfree, H. Qed.

Lemma inv_pres_insert_old_idx (lnum offs : Z) :
  inv_pres (insert_old_idx (ext_t := ext_t) rb_insert_color lnum offs).
Proof. unfold insert_old_idx. inv_auto. Qed.

Lemma inv_pres_insert_old_idx_znode (znode : nat) :
  inv_pres (insert_old_idx_znode (ext_t := ext_t) rb_insert_color znode).
Proof.
  pose proof inv_pres_insert_old_idx.
  unfold insert_old_idx_znode. inv_auto.
Qed.

Lemma inv_pres_ins_clr_old_idx_znode (znode : nat) :
  inv_pres (ins_clr_old_idx_znode (ext_t := ext_t) rb_insert_color znode).
Proof.
  pose proof inv_pres_insert_old_idx.
  unfold ins_clr_old_idx_znode. inv_auto.
Qed.

Lemma inv_pres_add_dirt (lnum dirt : Z) : inv_pres (add_dirt ubifs_add_dirt lnum dirt).
Proof.
  intros c H. unfold add_dirt. destruct (ubifs_add_dirt (ext c) lnum dirt). exact H.
Qed.

Lemma inv_pres_add_idx_dirt (lnum dirt : Z) : inv_pres (add_idx_dirt ubifs_add_dirt lnum dirt).
Proof.
  unfold add_idx_dirt. inv_auto.
  intros c H. destruct (ubifs_add_dirt (ext c) lnum dirt). exact H.
Qed.

(** [load_znode]: the znode read from the flash is put into the memory
    only when [read_znode] accepted it. *)
Lemma inv_pres_load_znode (zbr : zbr_ref) (parent : option nat) (iip : Z) :
  inv_pres (load_znode (ext_t := ext_t) get_seconds zbr parent iip).
Proof.
  intros c H. unfold load_znode.
  apply inv_pres_bind_at; [exact H | apply keys_inv_kzalloc, H |].
  intros znode c1 E H1.
  assert (Hnew : znode = next_znode c
                 /\ Z.of_nat (length (zn_zbranch (deref c1 znode)))
                    = Z.of_nat (Z.to_nat (fanout (c_cfg c1)))).
  { injection E as <- <-. split; [reflexivity |].
    unfold deref. cbn. rewrite lookup_insert_eq. cbn. rewrite length_replicate. reflexivity. }
  destruct Hnew as [-> Hnew]. clear E.
  rewrite bind_get. cbv zeta.
  set (b := zbr_get c1 zbr).
  pose proof (read_znode_ok c1 (zbr_lnum b) (zbr_offs b) (zbr_len b) (deref c1 (next_znode c)))
    as [Hr1 Hr2].
  cbv zeta in Hr1, Hr2.
  destruct (read_znode c1 (zbr_lnum b) (zbr_offs b) (zbr_len b) (deref c1 (next_znode c)))
    as [err z] eqn:Er.
  cbn [fst snd] in *.
  destruct (Z.eqb_spec err 0) as [-> | Hne]; cbn [negb].
  - assert (Hz : znode_ok z).
    { destruct (ubifs_read_node c1 UBIFS_IDX_NODE (zbr_len b) (zbr_lnum b) (zbr_offs b))
        as [e | nd] eqn:En.
      - specialize (Hr2 e eq_refl). injection Hr2 as _ ->. apply keys_inv_deref, H1.
      - destruct (Hr1 nd eq_refl) as [_ Hok]. destruct (Hok eq_refl) as (Ho & Hc & Hl).
        split; [| exact Ho].
        rewrite Hl, Hnew. lia. }
    revert H1. generalize c1. clear - Hz.
    change (inv_pres
              (modify (zn_upd (next_znode c) (fun _ => z)) ;;
               modify (fun c0 : ubifs_info ext_t => set_clean_zn_cnt (clean_zn_cnt c0 + 1) c0) ;;
               modify (fun c0 : ubifs_info ext_t =>
                         set_ubifs_clean_zn_cnt (ubifs_clean_zn_cnt c0 + 1) c0) ;;
               modify (zbr_upd zbr (set_zbr_znode (Some (next_znode c)))) ;;
               modify (zn_upd (next_znode c)
                         (fun z0 => set_zn_iip iip (set_zn_time get_seconds (set_zn_parent parent z0)))) ;;
               ret (next_znode c))).
    inv_auto.
  - revert H1. generalize c1.
    change (inv_pres (kfree_znode (ext_t := ext_t) (next_znode c) ;; fail (A := nat) err)).
    pose proof inv_pres_kfree. inv_auto.
Qed.

Lemma keys_inv_foldl {I} (f : ubifs_info ext_t -> I -> ubifs_info ext_t) (l : list I) c :
  (forall c i, keys_inv c -> keys_inv (f c i)) -> keys_inv c -> keys_inv (foldl f c l).
Proof.
  intros Hf. revert c. induction l as [| i l IH]; intros c H; [exact H |].
  cbn [foldl]. apply IH, Hf, H.
Qed.

Lemma inv_pres_copy_znode (znode : nat) : inv_pres (copy_znode (ext_t := ext_t) znode).
Proof.
  pose proof inv_pres_kzalloc.
  unfold copy_znode. inv_auto.
  unfold copy_znode_reparent. apply keys_inv_foldl; [| assumption].
  intros c1 i H1. destruct (zbr_znode _); inv_auto.
Qed.

Lemma inv_pres_dirty_cow_znode (zbr : zbr_ref) :
  inv_pres (dirty_cow_znode (ext_t := ext_t) ubifs_add_dirt rb_insert_color zbr).
Proof.
  pose proof inv_pres_copy_znode. pose proof inv_pres_insert_old_idx.
  pose proof inv_pres_add_idx_dirt.
  unfold dirty_cow_znode. inv_auto.
Qed.

Lemma inv_pres_get_znode (znode : nat) (n : Z) :
  inv_pres (get_znode (ext_t := ext_t) get_seconds znode n).
Proof.
  pose proof inv_pres_load_znode.
  unfold get_znode. inv_auto.
Qed.

Lemma inv_pres_tnc_next_down (k : nat) (znode : nat) :
  inv_pres (tnc_next_down (ext_t := ext_t) get_seconds k znode).
Proof.
  pose proof inv_pres_get_znode.
  revert znode. induction k as [| k IH]; intros znode; cbn [tnc_next_down]; inv_auto.
Qed.

Lemma inv_pres_tnc_next_up (k fuel : nat) (znode : nat) :
  inv_pres (tnc_next_up (ext_t := ext_t) get_seconds k fuel znode).
Proof.
  pose proof inv_pres_get_znode. pose proof inv_pres_tnc_next_down.
  revert znode. induction k as [| k IH]; intros znode; cbn [tnc_next_up]; inv_auto.
Qed.

Lemma inv_pres_tnc_next (fuel : nat) (zn : nat) (n : Z) :
  inv_pres (tnc_next (ext_t := ext_t) get_seconds fuel zn n).
Proof.
  pose proof inv_pres_tnc_next_up.
  unfold tnc_next. inv_auto.
Qed.

Lemma inv_pres_tnc_prev_down (k : nat) (znode : nat) :
  inv_pres (tnc_prev_down (ext_t := ext_t) get_seconds k znode).
Proof.
  pose proof inv_pres_get_znode.
  revert znode. induction k as [| k IH]; intros znode; cbn [tnc_prev_down]; inv_auto.
Qed.

Lemma inv_pres_tnc_prev_up (k fuel : nat) (znode : nat) :
  inv_pres (tnc_prev_up (ext_t := ext_t) get_seconds k fuel znode).
Proof.
  pose proof inv_pres_get_znode. pose proof inv_pres_tnc_prev_down.
  revert znode. induction k as [| k IH]; intros znode; cbn [tnc_prev_up]; inv_auto.
Qed.

Lemma inv_pres_tnc_prev (fuel : nat) (zn : nat) (n : Z) :
  inv_pres (tnc_prev (ext_t := ext_t) get_seconds fuel zn n).
Proof.
  pose proof inv_pres_tnc_prev_up.
  unfold tnc_prev. inv_auto.
Qed.

(** [correct_parent_keys] replaces the key of the slot 0 of a parent
    only by a smaller key. *)
Lemma inv_pres_correct_parent_keys_loop (k : nat) (key : zbr_ref) :
  forall znode, inv_pres (correct_parent_keys_loop (ext_t := ext_t) k key znode).
Proof.
  induction k as [| k IH]; intros znode c H; [exact H |].
  cbn [correct_parent_keys_loop]. rewrite bind_get.
  destruct (zn_parent (deref c znode)) as [zp |]; [| exact H]. cbv zeta.
  destruct (Z.ltb_spec (keys_cmp (zbr_key (zbr_get c key)) (zbr_key (zbr_get c (ZSlot zp 0)))) 0)
    as [Hlt | Hge]; [| exact H].
  rewrite bind_modify, bind_get.
  assert (H2 : keys_inv (zbr_upd (ZSlot zp 0) (set_zbr_key (zbr_key (zbr_get c key))) c)).
  { apply keys_inv_zn_upd; [| exact H]. intros z Hz Hok.
    apply znode_ok_lower_key0; [| exact Hok].
    cbn [zbr_get] in Hlt. rewrite (deref_lookup _ _ _ Hz) in Hlt. exact Hlt. }
  destruct (negb _ || negb _); [exact H2 | apply IH, H2].
Qed.

Lemma inv_pres_correct_parent_keys (fuel : nat) (znode : nat) :
  inv_pres (correct_parent_keys (ext_t := ext_t) fuel znode).
Proof. apply inv_pres_correct_parent_keys_loop. Qed.

Lemma inv_pres_obsolete_or_free (znode : nat) :
  inv_pres (obsolete_or_free (ext_t := ext_t) znode).
Proof.
  pose proof inv_pres_kfree.
  unfold obsolete_or_free. inv_auto.
Qed.

Lemma inv_pres_replace_zbranch (r : zbr_ref) (lnum offs len : Z) :
  inv_pres (replace_zbranch ubifs_add_dirt r lnum offs len).
Proof.
  pose proof inv_pres_add_dirt.
  unfold replace_zbranch. inv_auto.
Qed.

End InvTnc.

(** ** Deletion *)

Lemma shape_of_store_next (i : Z) (z : ubifs_znode) :
  shape_of (zbranch_store i (zbranch_at z (i + 1)) z)
  = (fun s => (if 0 <=? i then <[Z.to_nat i := lbr s.1.1 (i + 1)]> s.1.1 else s.1.1, s.1.2, s.2))
      (shape_of z).
Proof.
  unfold zbranch_store. destruct (Z.ltb_spec i 0), (Z.leb_spec 0 i); try lia; reflexivity.
Qed.

(** What is left of a znode in order when the slot [n] is closed and
    the number of children reduced is in order. *)
Lemma znode_ok_delete (z z' : ubifs_znode) (n : Z) :
  znode_ok z ->
  zn_child_cnt z' = zn_child_cnt z - 1 ->
  length (zn_zbranch z') = length (zn_zbranch z) ->
  (forall j, lbr (zn_zbranch z') j
             = if decide (n <= j < zn_child_cnt z - 1 /\ 0 <= j)
               then lbr (zn_zbranch z) (j + 1) else lbr (zn_zbranch z) j) ->
  znode_ok z'.
Proof.
  intros [Hc Ho] Hk Hl Hj. split; [rewrite Hk, Hl; lia |].
  intros i Hi1 Hi2. rewrite Hk in Hi2. rewrite !zbranch_at_lbr, !Hj.
  pose proof (Ho i Hi1 ltac:(lia)) as H1.
  pose proof (Ho (i + 1) ltac:(lia) ltac:(lia)) as H2.
  rewrite !zbranch_at_lbr in H1, H2.
  replace (i + 1 + 1) with (i + 2) in * by lia.
  repeat case_decide; try lia.
  - replace (i + 1 + 1) with (i + 2) by lia. exact H2.
  - replace (i + 1 + 1) with (i + 2) by lia.
    eapply key_le_ok_trans; [exact H1 | exact H2].
  - exact H1.
Qed.

Lemma lbr_ge (l : list ubifs_zbranch) (j : Z) :
  Z.of_nat (length l) <= j -> lbr l j = zero_zbranch.
Proof.
  intros H. unfold lbr. destruct (j <? 0); [reflexivity |].
  rewrite (lookup_ge_None_2 l (Z.to_nat j)) by lia. reflexivity.
Qed.

Section Delete.

Context {ext_t : Type}.
Implicit Types c : ubifs_info ext_t.

Lemma closes_gap_leaf (znode : nat) :
  closes_gap (ext_t := ext_t) znode
    (fun c i => zn_upd znode (fun z => zbranch_store i (zbranch_at z (i + 1)) z) c).
Proof.
  intros c i. split; [reflexivity |]. split.
  - intros q Hq. apply zshape_zn_upd_ne. congruence.
  - apply zshape_zn_upd_eq. intros z. apply shape_of_store_next.
Qed.

Lemma closes_gap_tnc_delete_shift (znode : nat) :
  closes_gap (ext_t := ext_t) znode (tnc_delete_shift znode).
Proof.
  intros c i. unfold tnc_delete_shift.
  destruct (closes_gap_leaf znode c i) as (H1 & H2 & H3).
  destruct (zbr_znode _) as [child |]; [| auto].
  split; [exact H1 |]. split.
  - intros q Hq. rewrite zshape_zn_upd_frame by reflexivity. apply H2, Hq.
  - rewrite zshape_zn_upd_frame by reflexivity. exact H3.
Qed.

Lemma closes_gap_loop (znode : nat) (step : ubifs_info ext_t -> Z -> ubifs_info ext_t) (k lv : Z) (m : nat) :
  closes_gap znode step ->
  forall (n : Z) (l0 : list ubifs_zbranch) c,
    zshape c znode = Some (l0, k, lv) ->
    exists l',
      zshape (foldl step c (seqZ n (Z.of_nat m))) znode = Some (l', k, lv)
      /\ length l' = length l0
      /\ forall j, lbr l' j
                   = if decide (n <= j < n + Z.of_nat m /\ 0 <= j)
                     then lbr l0 (j + 1) else lbr l0 j.
Proof.
  intros Hstep. induction m as [| m IH]; intros n l0 c H.
  - exists l0. split; [exact H |]. split; [reflexivity |]. intros j.
    case_decide; [lia | reflexivity].
  - rewrite seqZ_cons by lia. cbn [foldl].
    replace (Z.pred (Z.of_nat (S m))) with (Z.of_nat m) by lia.
    destruct (Hstep c n) as (_ & _ & H1). rewrite H in H1. cbn in H1.
    destruct (IH (Z.succ n) _ _ H1) as (l' & Ha & Hlen & Hl').
    exists l'. split; [exact Ha |]. split.
    + rewrite Hlen. destruct (0 <=? n); [apply length_insert | reflexivity].
    + intros j. rewrite Hl'.
      destruct (Z.leb_spec 0 n) as [Hn | Hn].
      * rewrite !lbr_insert by lia.
        repeat case_decide; try reflexivity; try lia.
        -- f_equal. lia.
        -- rewrite !lbr_ge by lia. reflexivity.
      * repeat case_decide; try reflexivity; lia.
Qed.

Lemma closes_gap_frame (znode : nat) (step : ubifs_info ext_t -> Z -> ubifs_info ext_t) (idx : list Z) :
  closes_gap znode step ->
  forall c,
    next_znode (foldl step c idx) = next_znode c
    /\ (forall q, q <> znode -> zshape (foldl step c idx) q = zshape c q)
    /\ (zshape c znode = None -> zshape (foldl step c idx) znode = None).
Proof.
  intros Hstep. induction idx as [| i idx IH]; intros c; [auto |].
  cbn [foldl]. destruct (IH (step c i)) as (H1 & H2 & H3).
  destruct (Hstep c i) as (H4 & H5 & H6).
  split; [congruence |]. split.
  - intros q Hq. rewrite H2, H5 by exact Hq. reflexivity.
  - intros Hn. apply H3. rewrite H6, Hn. reflexivity.
Qed.

Lemma znode_ok_shape (z z' : ubifs_znode) :
  shape_of z' = shape_of z -> znode_ok z -> znode_ok z'.
Proof.
  unfold shape_of. intros [= Hb Hk _]. apply znode_ok_ext.
  - exact Hk.
  - rewrite Hb. reflexivity.
  - intros i. rewrite !zbranch_at_lbr, Hb. reflexivity.
Qed.

(** The invariant after a change of the znode [p] alone. *)
Lemma keys_inv_shapes (p : nat) c c' :
  keys_inv c ->
  next_znode c' = next_znode c ->
  (forall q, q <> p -> zshape c' q = zshape c q) ->
  (zshape c p = None -> zshape c' p = None) ->
  (forall z z', znodes c !! p = Some z -> znodes c' !! p = Some z' -> znode_ok z') ->
  keys_inv c'.
Proof.
  intros [Ha Hk] Hn Hq Hnone Hp.
  assert (Hnn : forall q (cx : ubifs_info ext_t), zshape cx q = None <-> znodes cx !! q = None).
  { intros q cx. unfold zshape. destruct (znodes cx !! q); simpl; split; congruence. }
  split.
  - intros q Hge. rewrite Hn in Hge. apply Hnn.
    destruct (decide (q = p)) as [-> |]; [apply Hnone | rewrite Hq by assumption];
      apply Hnn, Ha, Hge.
  - intros q z' Hz'. destruct (decide (q = p)) as [-> | Hne].
    + destruct (znodes c !! p) as [z |] eqn:E.
      * eapply Hp; [reflexivity | exact Hz'].
      * assert (Hx : zshape c' p = None) by (apply Hnone, Hnn, E).
        apply Hnn in Hx. congruence.
    + pose proof (Hq q Hne) as Hs. unfold zshape in Hs. rewrite Hz' in Hs.
      destruct (znodes c !! q) as [z |] eqn:E; [| discriminate].
      simpl in Hs. assert (Hs' : shape_of z' = shape_of z) by congruence.
      apply (znode_ok_shape z); [exact Hs' | eapply Hk, E].
Qed.

(** Closing the gap of the slot [n] and counting one child less, in
    either order, keeps the znodes in order. *)
Lemma keys_inv_close_gap (znode : nat) (step : ubifs_info ext_t -> Z -> ubifs_info ext_t) (n : Z) c :
  closes_gap znode step ->
  keys_inv c ->
  keys_inv (zn_upd znode (fun z => set_zn_child_cnt (zn_child_cnt z - 1) z)
              (foldl step c (seqZ n (zn_child_cnt (deref c znode) - 1 - n))))
  /\ keys_inv (foldl step (zn_upd znode (fun z => set_zn_child_cnt (zn_child_cnt z - 1) z) c)
                 (seqZ n (zn_child_cnt
                            (deref (zn_upd znode
                                      (fun z => set_zn_child_cnt (zn_child_cnt z - 1) z) c) znode)
                          - n))).
Proof.
  intros Hstep H.
  set (dec := fun z => set_zn_child_cnt (zn_child_cnt z - 1) z).
  destruct (znodes c !! znode) as [z |] eqn:Ez.
  - pose proof (zshape_lookup _ _ _ Ez) as Hs. unfold shape_of in Hs.
    rewrite (deref_lookup _ _ _ Ez).
    assert (Hd : deref (zn_upd znode dec c) znode = dec z)
      by (apply deref_zn_upd_eq, Ez).
    rewrite Hd.
    change (zn_child_cnt (dec z) - n) with (zn_child_cnt z - 1 - n).
    set (idx := seqZ n (zn_child_cnt z - 1 - n)).
    assert (Hidx : idx = seqZ n (Z.of_nat (Z.to_nat (zn_child_cnt z - 1 - n)))).
    { unfold idx. destruct (Z.le_gt_cases 0 (zn_child_cnt z - 1 - n)).
      - rewrite Z2Nat.id by assumption. reflexivity.
      - rewrite !seqZ_nil by lia. reflexivity. }
    assert (Hok : znode_ok z) by (destruct H as [_ Hk]; eapply Hk, Ez).
    split.
    + destruct (closes_gap_frame znode step idx Hstep c) as (F1 & F2 & F3).
      destruct (closes_gap_loop znode step _ _ (Z.to_nat (zn_child_cnt z - 1 - n)) Hstep n _ c Hs)
        as (l' & Ha & Hlen & Hl'). rewrite <- Hidx in Ha.
      apply (keys_inv_shapes znode c); [exact H | exact F1 | | |].
      * intros q Hq. rewrite zshape_zn_upd_ne by congruence. apply F2, Hq.
      * rewrite Hs. discriminate.
      * intros z0 z' _ Hz'.
        pose proof (zshape_zn_upd_eq znode dec (fun s => (s.1.1, s.1.2 - 1, s.2))
                      (foldl step c idx) ltac:(reflexivity)) as Hs'.
        rewrite Ha in Hs'. unfold zshape in Hs'. rewrite Hz' in Hs'.
        cbn in Hs'. injection Hs' as Hb Hk _.
        apply (znode_ok_delete z z' n Hok Hk); [rewrite Hb; exact Hlen |].
        intros j. rewrite Hb, Hl'. repeat case_decide; try reflexivity; lia.
    + destruct (closes_gap_frame znode step idx Hstep (zn_upd znode dec c)) as (F1 & F2 & F3).
      assert (Hs1 : zshape (zn_upd znode dec c) znode
                    = Some (zn_zbranch z, zn_child_cnt z - 1, zn_level z)).
      { rewrite (zshape_zn_upd_eq znode dec (fun s => (s.1.1, s.1.2 - 1, s.2)))
          by reflexivity.
        rewrite Hs. reflexivity. }
      destruct (closes_gap_loop znode step _ _ (Z.to_nat (zn_child_cnt z - 1 - n)) Hstep n _ _ Hs1)
        as (l' & Ha & Hlen & Hl'). rewrite <- Hidx in Ha.
      apply (keys_inv_shapes znode c); [exact H | exact F1 | | |].
      * intros q Hq. rewrite F2 by exact Hq. apply zshape_zn_upd_ne. congruence.
      * rewrite Hs. discriminate.
      * intros z0 z' _ Hz'. unfold zshape in Ha. rewrite Hz' in Ha.
        cbn in Ha. injection Ha as Hb Hk _.
        apply (znode_ok_delete z z' n Hok Hk); [rewrite Hb; exact Hlen |].
        intros j. rewrite Hb, Hl'. repeat case_decide; try reflexivity; lia.
  - (* no znode at the address: nothing is written *)
    assert (Hnone : zshape c znode = None) by (unfold zshape; rewrite Ez; reflexivity).
    assert (Hdec : forall cx : ubifs_info ext_t,
              zshape cx znode = None -> zshape (zn_upd znode dec cx) znode = None).
    { intros cx Hx. rewrite (zshape_zn_upd_eq znode dec (fun s => (s.1.1, s.1.2 - 1, s.2)))
        by reflexivity. rewrite Hx. reflexivity. }
    split.
    + destruct (closes_gap_frame znode step
                  (seqZ n (zn_child_cnt (deref c znode) - 1 - n)) Hstep c) as (F1 & F2 & F3).
      apply (keys_inv_shapes znode c); [exact H | exact F1 | | |].
      * intros q Hq. rewrite zshape_zn_upd_ne by congruence. apply F2, Hq.
      * intros _. apply Hdec, F3, Hnone.
      * intros z0 z' Hz0. congruence.
    + destruct (closes_gap_frame znode step
                  (seqZ n (zn_child_cnt (deref (zn_upd znode dec c) znode) - n)) Hstep
                  (zn_upd znode dec c)) as (F1 & F2 & F3).
      apply (keys_inv_shapes znode c); [exact H | exact F1 | | |].
      * intros q Hq. rewrite F2 by exact Hq. apply zshape_zn_upd_ne. congruence.
      * intros _. apply F3, Hdec, Hnone.
      * intros z0 z' Hz0. congruence.
Qed.

End Delete.

Section DeleteTnc.

Context {ext_t : Type}.
Implicit Types c : ubifs_info ext_t.
Variable ubifs_add_dirt : ext_t -> Z -> Z -> Z * ext_t.
Variable get_seconds : Z.
Variable rb_insert_color : forall A : Type, rb_tree A -> rb_tree A.

Lemma inv_pres_tnc_delete_rise (k : nat) :
  forall znode, inv_pres (tnc_delete_rise (ext_t := ext_t) rb_insert_color k znode).
Proof.
  pose proof (inv_pres_insert_old_idx_znode (ext_t := ext_t) rb_insert_color).
  pose proof (inv_pres_obsolete_or_free (ext_t := ext_t)).
  induction k as [| k IH]; intros znode; cbn [tnc_delete_rise]; inv_auto.
Qed.

Lemma inv_pres_tnc_delete_collapse (k : nat) :
  forall znode,
    inv_pres (tnc_delete_collapse (ext_t := ext_t) ubifs_add_dirt get_seconds rb_insert_color
                k znode).
Proof.
  pose proof (inv_pres_get_znode (ext_t := ext_t) get_seconds).
  pose proof (inv_pres_dirty_cow_znode (ext_t := ext_t) ubifs_add_dirt rb_insert_color).
  pose proof (inv_pres_insert_old_idx (ext_t := ext_t) rb_insert_color).
  pose proof (inv_pres_obsolete_or_free (ext_t := ext_t)).
  induction k as [| k IH]; intros znode; cbn [tnc_delete_collapse]; inv_auto.
Qed.

(** [tnc_delete] keeps the znodes in order. *)
Lemma inv_pres_tnc_delete (fuel : nat) (znode : nat) (n : Z) :
  inv_pres (tnc_delete (ext_t := ext_t) ubifs_add_dirt get_seconds rb_insert_color
              fuel znode n).
Proof.
  intros c H. unfold tnc_delete. rewrite bind_modify.
  assert (H1 : keys_inv (zbr_upd (ZSlot znode n) lnc_free c))
    by (apply keys_inv_zbr_upd; [reflexivity | exact H]).
  revert H1. generalize (zbr_upd (ZSlot znode n) lnc_free c). clear c H. intros c H.
  rewrite bind_get. cbv zeta.
  apply inv_pres_bind_at; [exact H | apply inv_pres_add_dirt, H |].
  intros err c2 _ H2.
  apply inv_pres_bind_at; [exact H2 | apply inv_pres_check, H2 |].
  intros [] c3 _ H3.
  rewrite bind_get, !bind_modify.
  pose proof (proj1 (keys_inv_close_gap znode _ n c3 (closes_gap_leaf znode) H3)) as H4.
  revert H4.
  generalize (zn_upd znode (fun z => set_zn_child_cnt (zn_child_cnt z - 1) z)
                (foldl (fun c0 i => zn_upd znode (fun z => zbranch_store i (zbranch_at z (i + 1)) z) c0)
                   c3 (seqZ n (zn_child_cnt (deref c3 znode) - 1 - n)))).
  intros c4 H4. rewrite bind_get.
  destruct (0 <? zn_child_cnt (deref c4 znode)); [exact H4 |].
  apply inv_pres_bind_at; [exact H4 | apply inv_pres_tnc_delete_rise, H4 |].
  intros [zp n'] c5 _ H5.
  rewrite bind_modify, bind_get, bind_modify.
  pose proof (proj2 (keys_inv_close_gap zp _ n' c5 (closes_gap_tnc_delete_shift zp) H5)) as H6.
  revert H6.
  generalize (foldl (tnc_delete_shift zp)
                (zn_upd zp (fun z => set_zn_child_cnt (zn_child_cnt z - 1) z) c5)
                (seqZ n' (zn_child_cnt
                            (deref (zn_upd zp (fun z => set_zn_child_cnt (zn_child_cnt z - 1) z) c5)
                               zp) - n'))).
  intros c6 H6. rewrite bind_get.
  destruct (zn_parent (deref c6 zp)); [exact H6 |].
  apply inv_pres_tnc_delete_collapse, H6.
Qed.

End DeleteTnc.

(** ** The splits of [tnc_insert] *)


Section Split.

Context {ext_t : Type}.
Implicit Types c : ubifs_info ext_t.
Variable rb_insert_color : forall A : Type, rb_tree A -> rb_tree A.

Lemma zshape_eq_deref (q : nat) c c' :
  zshape c' q = zshape c q -> shape_of (deref c' q) = shape_of (deref c q).
Proof.
  unfold zshape, deref.
  destruct (znodes c' !! q), (znodes c !! q); simpl; congruence.
Qed.

Lemma tnc_insert_appending_shape (znode : nat) (key : ubifs_key) (n : Z) (a : bool) c c' :
  c_cfg c' = c_cfg c ->
  zshape c' znode = zshape c znode ->
  tnc_insert_appending c' znode key n a = tnc_insert_appending c znode key n a.
Proof.
  intros Hcfg Hs. apply zshape_eq_deref in Hs. unfold shape_of in Hs.
  injection Hs as Hb Hk Hl.
  unfold tnc_insert_appending. rewrite Hcfg, Hl, !zbranch_at_lbr, Hb. reflexivity.
Qed.

Lemma tnc_insert_move_loop_cfg (znode zn : nat) (keep : Z) (idx : list Z) c :
  c_cfg (foldl (tnc_insert_move znode zn keep) c idx) = c_cfg c.
Proof.
  revert c. induction idx as [| i idx IH]; intros c; [reflexivity |].
  cbn [foldl]. rewrite IH. unfold tnc_insert_move.
  destruct (negb _); [| reflexivity].
  destruct (zbr_znode _); reflexivity.
Qed.

Lemma insert_old_idx_run (lnum offs : Z) c :
  exists r t,
    insert_old_idx rb_insert_color lnum offs c
    = (r, set_old_idx t (set_alloc_fails (tl (alloc_fails c)) c))
    /\ (r = Val tt \/ r = Err (- ENOMEM)).
Proof.
  unfold insert_old_idx. rewrite (bind_val kmalloc _ c _ _ (kmalloc_run c)).
  destruct (hd false (alloc_fails c)); cbn [negb].
  - exists (Err (- ENOMEM)), (old_idx c). split; [destruct c; reflexivity | right; reflexivity].
  - rewrite bind_get.
    change (old_idx (set_alloc_fails (tl (alloc_fails c)) c)) with (old_idx c).
    destruct (old_idx_link lnum offs (old_idx c)) as [t |].
    + exists (Val tt), (rb_insert_color _ t). split; [reflexivity | left; reflexivity].
    + exists (Val tt), (old_idx c). split; [destruct c; reflexivity | left; reflexivity].
Qed.

(** [ins_clr_old_idx_znode] writes to the old index and to the zbranch
    of the parent that points to the znode. *)
Lemma ins_clr_old_idx_znode_run (znode : nat) c :
  exists r c',
    ins_clr_old_idx_znode rb_insert_color znode c = (r, c')
    /\ (r = Val tt \/ r = Err (- ENOMEM))
    /\ c_cfg c' = c_cfg c
    /\ next_znode c' = next_znode c
    /\ (forall q, zn_parent (deref c znode) <> Some q -> znodes c' !! q = znodes c !! q)
    /\ (forall q, znodes c !! q = None -> znodes c' !! q = None)
    /\ (forall q z', znodes c' !! q = Some z' ->
        exists z0, znodes c !! q = Some z0 /\ (znode_ok z0 -> znode_ok z')).
Proof.
  assert (Hsame : forall r (t : rb_tree ubifs_old_idx),
            r = Val tt \/ r = Err (- ENOMEM) ->
            exists (r0 : res unit) c',
              (r, set_old_idx t (set_alloc_fails (tl (alloc_fails c)) c)) = (r0, c')
              /\ (r0 = Val tt \/ r0 = Err (- ENOMEM))
              /\ c_cfg c' = c_cfg c
              /\ next_znode c' = next_znode c
              /\ (forall q, zn_parent (deref c znode) <> Some q -> znodes c' !! q = znodes c !! q)
              /\ (forall q, znodes c !! q = None -> znodes c' !! q = None)
              /\ (forall q z', znodes c' !! q = Some z' ->
                  exists z0, znodes c !! q = Some z0 /\ (znode_ok z0 -> znode_ok z'))).
  { intros r t Hr. eexists _, _. split; [reflexivity |]. split; [exact Hr |].
    repeat split; auto. intros q z' Hq. exists z'. auto. }
  unfold ins_clr_old_idx_znode. rewrite bind_get.
  destruct (zn_parent (deref c znode)) as [zp |]; cbv zeta.
  - destruct (negb (zbr_len (zbr_get c (ZSlot zp (zn_iip (deref c znode)))) =? 0)).
    + destruct (insert_old_idx_run (zbr_lnum (zbr_get c (ZSlot zp (zn_iip (deref c znode)))))
                  (zbr_offs (zbr_get c (ZSlot zp (zn_iip (deref c znode))))) c)
        as (r & t & Ht & [-> | ->]).
      * rewrite (bind_val _ _ _ _ _ Ht).
        set (c0 := set_old_idx t (set_alloc_fails (tl (alloc_fails c)) c)).
        exists (Val tt),
          (zn_upd zp (fun z => zbranch_store (zn_iip (deref c znode))
                                   (set_zbr_pos 0 0 0 (zbranch_at z (zn_iip (deref c znode)))) z)
             c0).
        split; [reflexivity |]. split; [left; reflexivity |].
        split; [reflexivity |]. split; [reflexivity |].
        split; [| split].
        -- intros q Hq. rewrite lookup_zn_upd_ne by congruence. reflexivity.
        -- intros q Hq. rewrite lookup_zn_upd. destruct (decide (zp = q)) as [-> |]; [| exact Hq].
           change (znodes c0) with (znodes c). rewrite Hq. reflexivity.
        -- intros q z'. rewrite lookup_zn_upd.
           change (znodes c0) with (znodes c).
           destruct (decide (zp = q)) as [-> |]; [| intros Hq; exists z'; auto].
           destruct (znodes c !! q) as [z0 |]; [| discriminate].
           cbn. intros [= <-]. exists z0. split; [reflexivity |].
           apply znode_ok_store_key. reflexivity.
      * rewrite (bind_err _ _ _ _ _ Ht). apply Hsame. right. reflexivity.
    + exists (Val tt), c. split; [reflexivity |]. split; [left; reflexivity |].
      repeat split; auto. intros q z' Hq. exists z'. auto.
  - destruct (negb (zbr_len (zroot c) =? 0)).
    + destruct (insert_old_idx_run (zbr_lnum (zroot c)) (zbr_offs (zroot c)) c)
        as (r & t & Ht & [-> | ->]).
      * rewrite (bind_val _ _ _ _ _ Ht). eexists _, _. split; [reflexivity |].
        split; [left; reflexivity |].
        repeat split; auto. intros q z' Hq. exists z'. auto.
      * rewrite (bind_err _ _ _ _ _ Ht). apply Hsame. right. reflexivity.
    + exists (Val tt), c. split; [reflexivity |]. split; [left; reflexivity |].
      repeat split; auto. intros q z' Hq. exists z'. auto.
Qed.

(** [tnc_insert] does not look at what [ins_clr_old_idx_znode]
    returns. *)
Lemma ins_clr_old_idx_znode_frame (znode : nat) c :
  exists c',
    (try (ins_clr_old_idx_znode rb_insert_color znode) ;; ret tt) c = (Val tt, c')
    /\ c_cfg c' = c_cfg c
    /\ next_znode c' = next_znode c
    /\ (forall q, zn_parent (deref c znode) <> Some q -> znodes c' !! q = znodes c !! q)
    /\ (forall q, znodes c !! q = None -> znodes c' !! q = None)
    /\ (forall q z', znodes c' !! q = Some z' ->
        exists z0, znodes c !! q = Some z0 /\ (znode_ok z0 -> znode_ok z')).
Proof.
  destruct (ins_clr_old_idx_znode_run znode c) as (r & c' & Hrun & Hr & Hframe).
  exists c'. split; [| exact Hframe].
  unfold bind, try. rewrite Hrun. destruct Hr as [-> | ->]; reflexivity.
Qed.

Lemma tnc_insert_move_loop_frame (znode zn : nat) (keep : Z) (idx : list Z) c :
  next_znode (foldl (tnc_insert_move znode zn keep) c idx) = next_znode c
  /\ forall q, q <> zn -> zshape (foldl (tnc_insert_move znode zn keep) c idx) q = zshape c q.
Proof.
  revert c. induction idx as [| i idx IH]; intros c; [auto |].
  cbn [foldl]. destruct (IH (tnc_insert_move znode zn keep c i)) as [H1 H2].
  assert (Hs : next_znode (tnc_insert_move znode zn keep c i) = next_znode c
               /\ forall q, q <> zn -> zshape (tnc_insert_move znode zn keep c i) q = zshape c q).
  { unfold tnc_insert_move. destruct (negb _); [destruct (zbr_znode _) |];
      (split; [reflexivity |]); intros q Hq;
      rewrite ?zshape_zn_upd_frame by reflexivity; apply zshape_zn_upd_ne; congruence. }
  destruct Hs as [H3 H4]. split; [congruence |].
  intros q Hq. rewrite H2, H4 by exact Hq. reflexivity.
Qed.

Lemma insert_zbranch_shift_loop_next (hl : bool) (znode : nat) (idx : list Z) c :
  next_znode (foldl (insert_zbranch_shift hl znode) c idx) = next_znode c.
Proof.
  revert c. induction idx as [| i idx IH]; intros c; [reflexivity |].
  cbn [foldl]. rewrite IH. unfold insert_zbranch_shift.
  destruct hl; [| reflexivity].
  destruct (zbr_znode _); reflexivity.
Qed.

Lemma insert_zbranch_next (zi : nat) (zbr : ubifs_zbranch) (n : Z) c :
  next_znode (insert_zbranch zi zbr n c).2 = next_znode c.
Proof.
  unfold insert_zbranch. rewrite bind_get. cbv zeta. rewrite bind_modify.
  destruct (negb _); [destruct (zbr_znode zbr) |];
    rewrite ?bind_ret, !bind_modify; destruct (n =? 0); cbn;
    apply insert_zbranch_shift_loop_next.
Qed.

Lemma zshape_inv (q : nat) (l : list ubifs_zbranch) (k lv : Z) c :
  zshape c q = Some (l, k, lv) ->
  exists z, znodes c !! q = Some z
            /\ zn_zbranch z = l /\ zn_child_cnt z = k /\ zn_level z = lv.
Proof.
  unfold zshape. destruct (znodes c !! q) as [z |]; [| discriminate].
  cbn. intros [= <- <- <-]. exists z. auto.
Qed.

(** The split of a full znode: what it returns, the old znode and the
    new sibling afterwards, and what it leaves alone. *)
Lemma tnc_insert_split_shapes (znode : nat) (z : ubifs_znode) (zbr : ubifs_zbranch) (n : Z) (appending : bool) c :
  znodes c !! znode = Some z ->
  zn_child_cnt z = fanout (c_cfg c) ->
  Z.of_nat (length (zn_zbranch z)) = fanout (c_cfg c) ->
  1 <= fanout (c_cfg c) ->
  0 <= n <= fanout (c_cfg c) ->
  znodes c !! next_znode c = None ->
  (zn_alt z <> 0 -> zn_parent z <> Some znode) ->
  (zn_level z <> 0 -> is_Some (zbr_znode zbr)) ->
  let A := tnc_insert_appending c znode (zbr_key zbr) n appending in
  let keep := if A then fanout (c_cfg c) else Z.quot (fanout (c_cfg c) + 1) 2 in
  let zn := next_znode c in
  exists zi n' c',
    tnc_insert_split rb_insert_color (zn_parent z) znode zbr n appending c
    = (Val (zn, zi, n', A), c')
    /\ c_cfg c' = c_cfg c
    /\ next_znode c' = S zn
    /\ 1 <= keep <= fanout (c_cfg c)
    /\ (exists zo, znodes c' !! znode = Some zo
                   /\ zn_child_cnt zo = keep
                   /\ length (zn_zbranch zo) = length (zn_zbranch z)
                   /\ forall i, 0 <= i < keep -> zbranch_at zo i = branches_with z zbr n i)
    /\ (exists zs, znodes c' !! zn = Some zs
                   /\ zn_child_cnt zs = fanout (c_cfg c) + 1 - keep
                   /\ Z.of_nat (length (zn_zbranch zs)) = fanout (c_cfg c)
                   /\ forall i, 0 <= i < fanout (c_cfg c) + 1 - keep ->
                                zbranch_at zs i = branches_with z zbr n (keep + i))
    /\ (forall q z', q <> znode -> q <> zn -> znodes c' !! q = Some z' ->
        exists z0, znodes c !! q = Some z0 /\ (znode_ok z0 -> znode_ok z'))
    /\ (forall q, q <> zn -> znodes c !! q = None -> znodes c' !! q = None).
Proof.
  intros Hz Hfull Hlen HF Hn Hfresh Hpar Hchild A keep zn.
  assert (Hne : zn <> znode) by (intros E; unfold zn in E; rewrite E in Hfresh; congruence).
  assert (Hd : deref c znode = z) by (apply deref_lookup, Hz).
  unfold tnc_insert_split. rewrite bind_get, Hd.
  assert (HA : exists cA,
    (if negb (zn_alt z =? 0) then try (ins_clr_old_idx_znode rb_insert_color znode) ;; ret tt
     else ret tt) c
    = (Val tt, cA)
    /\ c_cfg cA = c_cfg c /\ next_znode cA = zn
    /\ znodes cA !! znode = Some z /\ znodes cA !! zn = None
    /\ (forall q, znodes c !! q = None -> znodes cA !! q = None)
    /\ (forall q z', znodes cA !! q = Some z' ->
        exists z0, znodes c !! q = Some z0 /\ (znode_ok z0 -> znode_ok z'))).
  { destruct (Z.eqb_spec (zn_alt z) 0) as [Ha | Ha]; cbn [negb].
    - exists c. repeat split; auto. intros q z' Hq. exists z'. auto.
    - destruct (ins_clr_old_idx_znode_frame znode c) as (cA & H1 & H2 & H3 & H4 & H5 & H6).
      rewrite Hd in H4. exists cA. split; [exact H1 |]. split; [exact H2 |].
      split; [exact H3 |]. split; [| split; [| split]].
      + rewrite H4; [exact Hz | apply Hpar, Ha].
      + apply H5, Hfresh.
      + exact H5.
      + exact H6. }
  destruct HA as (cA & HcA & HcfgA & HnextA & HzA & HfreshA & HdomA & HokA).
  rewrite (bind_val _ _ _ _ _ HcA). clear HcA.
  unfold bind at 1. unfold kzalloc_znode at 1. rewrite HnextA.
  rewrite !bind_modify.
  match goal with |- context [bind get _ ?s] => set (cD := s) end.
  assert (HcfgD : c_cfg cD = c_cfg c) by exact HcfgA.
  assert (HnextD : next_znode cD = S zn) by reflexivity.
  assert (HfrD : forall q, q <> zn -> zshape cD q = zshape cA q).
  { intros q Hq. unfold cD. rewrite !zshape_zn_upd_ne by congruence.
    unfold zshape. cbn [znodes set_next_znode set_znodes].
    rewrite lookup_insert_ne by congruence. reflexivity. }
  assert (HsD : zshape cD znode = Some (shape_of z)).
  { unfold cD. rewrite !zshape_zn_upd_ne by exact Hne.
    unfold zshape. cbn [znodes set_next_znode set_znodes].
    rewrite lookup_insert_ne by exact Hne. rewrite HzA. reflexivity. }
  assert (HsN : zshape cD zn
                = Some (replicate (Z.to_nat (fanout (c_cfg c))) zero_zbranch, 0, zn_level z)).
  { unfold cD.
    rewrite (zshape_zn_upd_eq _ _ (fun s => (s.1.1, s.1.2, zn_level z))).
    - rewrite zshape_zn_upd_frame by reflexivity.
      unfold zshape. cbn [znodes set_next_znode set_znodes].
      rewrite lookup_insert_eq. unfold new_znode. rewrite HcfgA. reflexivity.
    - intros z0. unfold shape_of. cbn. f_equal.
      rewrite (deref_zn_upd_field zn_level) by reflexivity.
      unfold deref. cbn [znodes set_next_znode set_znodes].
      rewrite lookup_insert_ne by exact Hne. rewrite HzA. reflexivity. }
  rewrite bind_get.
  rewrite (tnc_insert_appending_shape znode (zbr_key zbr) n appending c cD HcfgD)
    by (rewrite HsD; symmetry; apply zshape_lookup, Hz).
  fold A. rewrite HcfgD. fold keep.
  set (F := fanout (c_cfg c)) in *.
  assert (Hkeep : 1 <= keep <= F).
  { unfold keep. destruct A; [lia |].
    rewrite Z.quot_div_nonneg by lia. split.
    - apply Z.div_le_lower_bound; lia.
    - apply Z.div_le_upper_bound; lia. }
  replace (if A then 0 else F - keep) with (F - keep)
    by (unfold keep; destruct A; lia).
  assert (HE : exists cE,
    (if n <? keep then ret tt
     else if negb (zn_level (deref cD zn) =? 0)
          then match zbr_znode zbr with
               | Some child => modify (zn_upd child (set_zn_parent (Some zn)))
               | None => oops
               end
          else ret tt) cD = (Val tt, cE)
    /\ c_cfg cE = c_cfg c
    /\ zshape cE znode = Some (shape_of z)
    /\ zshape cE zn = Some (replicate (Z.to_nat F) zero_zbranch, 0, zn_level z)
    /\ next_znode cE = S zn
    /\ (forall q, q <> zn -> zshape cE q = zshape cA q)).
  { destruct (n <? keep); [exists cD; repeat split; auto |].
    destruct (zshape_deref _ _ _ _ _ HsN) as (_ & _ & Hlv). rewrite Hlv.
    destruct (Z.eqb_spec (zn_level z) 0) as [H0 | H0]; cbn [negb];
      [exists cD; repeat split; auto |].
    destruct (Hchild H0) as [child Hc]. rewrite Hc.
    eexists. split; [reflexivity |]. split; [exact HcfgD |].
    rewrite !zshape_zn_upd_frame by reflexivity.
    split; [exact HsD |]. split; [exact HsN |]. split; [exact HnextD |].
    intros q Hq. rewrite zshape_zn_upd_frame by reflexivity. apply HfrD, Hq. }
  destruct HE as (cE & HcE & HcfgE & HsE & HsNE & HnextE & HfrE).
  rewrite (bind_val _ _ _ _ _ HcE). clear HcE.
  rewrite !bind_modify.
  set (keep2 := if n <? keep then keep - 1 else keep).
  set (move2 := if n <? keep then F - keep + 1 else F - keep).
  assert (Hmove2 : 0 <= move2) by (unfold move2; destruct (n <? keep); lia).
  set (cF := zn_upd znode (set_zn_child_cnt keep2)
               (zn_upd zn (set_zn_child_cnt move2)
                  (set_dirty_zn_cnt
                     (dirty_zn_cnt
                        (zn_upd zn (fun z0 => set_zn_flags (set_bit DIRTY_ZNODE (zn_flags z0)) z0)
                           cE) + 1)
                     (zn_upd zn (fun z0 => set_zn_flags (set_bit DIRTY_ZNODE (zn_flags z0)) z0)
                        cE)))).
  assert (HsF : zshape cF znode = Some (zn_zbranch z, keep2, zn_level z)).
  { unfold cF. rewrite (zshape_zn_upd_eq _ _ _ _ (shape_of_child_cnt keep2)).
    rewrite zshape_zn_upd_ne by exact Hne.
    change (zshape (set_dirty_zn_cnt _ ?s) znode) with (zshape s znode).
    rewrite zshape_zn_upd_frame by reflexivity. rewrite HsE. reflexivity. }
  assert (HsNF : zshape cF zn = Some (replicate (Z.to_nat F) zero_zbranch, move2, zn_level z)).
  { unfold cF. rewrite zshape_zn_upd_ne by congruence.
    rewrite (zshape_zn_upd_eq _ _ _ _ (shape_of_child_cnt move2)).
    change (zshape (set_dirty_zn_cnt _ ?s) zn) with (zshape s zn).
    rewrite zshape_zn_upd_frame by reflexivity. rewrite HsNE. reflexivity. }
  assert (HcfgF : c_cfg cF = c_cfg c) by exact HcfgE.
  assert (HnextF : next_znode cF = S zn) by exact HnextE.
  assert (HfrF : forall q, q <> znode -> q <> zn -> zshape cF q = zshape cA q).
  { intros q Hq1 Hq2. unfold cF. rewrite !zshape_zn_upd_ne by congruence.
    change (zshape (set_dirty_zn_cnt _ ?s) q) with (zshape s q).
    rewrite zshape_zn_upd_ne by congruence. apply HfrE, Hq2. }
  replace move2 with (Z.of_nat (Z.to_nat move2)) by lia.
  destruct (tnc_insert_move_loop_shape znode zn keep2 (zn_zbranch z) keep2 (zn_level z)
              move2 (zn_level z) (Z.to_nat move2) _ cF ltac:(congruence) HsF HsNF)
    as (lz & HsG & HsNG & Hlz & Hlzj).
  rewrite length_replicate in Hlz, Hlzj.
  set (cG := foldl (tnc_insert_move znode zn keep2) cF (seqZ 0 (Z.of_nat (Z.to_nat move2)))) in *.
  assert (HcfgG : c_cfg cG = c_cfg c).
  { unfold cG. rewrite tnc_insert_move_loop_cfg. exact HcfgF. }
  destruct (tnc_insert_move_loop_frame znode zn
              (if n <? keep then keep - 1 else keep) (seqZ 0 (Z.of_nat (Z.to_nat move2))) cF)
    as [HnextG HfrG0].
  fold keep2 in HnextG, HfrG0. fold cG in HnextG, HfrG0.
  assert (Hfinal : forall (zi : nat) c',
    (zi = znode \/ zi = zn) ->
    next_znode c' = next_znode cG ->
    (forall q, q <> zi -> zshape c' q = zshape cG q) ->
    next_znode c' = S zn
    /\ (forall q z', q <> znode -> q <> zn -> znodes c' !! q = Some z' ->
        exists z0, znodes c !! q = Some z0 /\ (znode_ok z0 -> znode_ok z'))
    /\ (forall q, q <> zn -> znodes c !! q = None -> znodes c' !! q = None)).
  { intros zi c' Hzi Hnx Hfr.
    assert (Hsh : forall q, q <> znode -> q <> zn -> zshape c' q = zshape cA q).
    { intros q Hq1 Hq2. rewrite Hfr by (destruct Hzi; congruence).
      rewrite HfrG0 by exact Hq2. apply HfrF; assumption. }
    split; [congruence |]. split.
    - intros q z' Hq1 Hq2 Hz'. pose proof (Hsh q Hq1 Hq2) as Hs.
      unfold zshape in Hs. rewrite Hz' in Hs.
      destruct (znodes cA !! q) as [zA |] eqn:EA; [| discriminate].
      cbn in Hs. destruct (HokA q zA EA) as (z0 & Hz0 & Hok0).
      exists z0. split; [exact Hz0 |]. intros Hok.
      apply (znode_ok_shape zA); [congruence | apply Hok0, Hok].
    - intros q Hq Hnone. destruct (decide (q = znode)) as [-> | Hq1]; [congruence |].
      pose proof (Hsh q Hq1 Hq) as Hs. unfold zshape in Hs.
      rewrite (HdomA q Hnone) in Hs. destruct (znodes c' !! q); [discriminate | reflexivity]. }
  assert (Hzero : forall j, lbr (replicate (Z.to_nat F) zero_zbranch) j = zero_zbranch).
  { intros j. unfold lbr. destruct (j <? 0); [reflexivity |].
    destruct (replicate (Z.to_nat F) zero_zbranch !! Z.to_nat j) as [b |] eqn:E; [| reflexivity].
    apply lookup_replicate in E as [-> _]. reflexivity. }
  unfold keep2, move2 in *. clear keep2 move2.
  destruct (Z.ltb_spec n keep) as [Hlt | Hge].
  - (* the new zbranch goes to the old znode *)
    destruct (insert_zbranch_shape znode zbr n _ _ _ cG HsG ltac:(lia))
      as (c' & l' & Hrun & Hcfg' & Hs' & Hlen' & Hq' & Hl').
    exists znode, n, c'. rewrite (bind_val _ _ _ _ _ Hrun).
    split; [reflexivity |]. split; [congruence |].
    pose proof (insert_zbranch_next znode zbr n cG) as Hnx. rewrite Hrun in Hnx. cbn [snd] in Hnx.
    destruct (Hfinal znode c' (or_introl eq_refl) Hnx Hq') as (Fn & Fg & Fd).
    split; [exact Fn |]. split; [exact Hkeep |].
    destruct (zshape_inv _ _ _ _ _ Hs') as (zo & Hzo & Hb' & Hk' & _).
    pose proof (Hq' zn Hne) as HsN'. rewrite HsNG in HsN'.
    destruct (zshape_inv _ _ _ _ _ HsN') as (zs & Hzs & HbN' & HkN' & _).
    split; [exists zo; split; [exact Hzo |]; split; [lia |]; split; [congruence |]
           | split; [exists zs; split; [exact Hzs |]; split; [lia |]; split; [rewrite HbN'; lia |]
                    | split; [exact Fg | exact Fd]]].
    + intros i Hi. rewrite zbranch_at_lbr, Hb', Hl'. unfold branches_with.
      rewrite !zbranch_at_lbr.
      destruct (Z.ltb_spec i n), (Z.eqb_spec i n); repeat case_decide; try reflexivity; lia.
    + intros i Hi. rewrite zbranch_at_lbr, HbN', Hlzj. unfold branches_with.
      rewrite !zbranch_at_lbr.
      destruct (Z.ltb_spec (keep + i) n), (Z.eqb_spec (keep + i) n);
        repeat case_decide; try lia.
      f_equal. lia.
  - (* the new zbranch goes to the new znode *)
    destruct (insert_zbranch_shape zn zbr (n - keep) _ _ _ cG HsNG ltac:(lia))
      as (c' & l' & Hrun & Hcfg' & Hs' & Hlen' & Hq' & Hl').
    exists zn, (n - keep), c'. rewrite (bind_val _ _ _ _ _ Hrun).
    split; [reflexivity |]. split; [congruence |].
    pose proof (insert_zbranch_next zn zbr (n - keep) cG) as Hnx.
    rewrite Hrun in Hnx. cbn [snd] in Hnx.
    destruct (Hfinal zn c' (or_intror eq_refl) Hnx Hq') as (Fn & Fg & Fd).
    split; [exact Fn |]. split; [exact Hkeep |].
    destruct (zshape_inv _ _ _ _ _ Hs') as (zs & Hzs & Hb' & Hk' & _).
    pose proof (Hq' znode ltac:(congruence)) as HsZ'. rewrite HsG in HsZ'.
    destruct (zshape_inv _ _ _ _ _ HsZ') as (zo & Hzo & HbZ' & HkZ' & _).
    split; [exists zo; split; [exact Hzo |]; split; [lia |]; split; [congruence |]
           | split; [exists zs; split; [exact Hzs |]; split; [lia |]; split; [rewrite Hb'; lia |]
                    | split; [exact Fg | exact Fd]]].
    + intros i Hi. rewrite zbranch_at_lbr, HbZ'. unfold branches_with.
      rewrite !zbranch_at_lbr.
      destruct (Z.ltb_spec i n); [reflexivity | lia].
    + intros i Hi. rewrite zbranch_at_lbr, Hb', Hl', Hlz, !Hlzj. unfold branches_with.
      rewrite !zbranch_at_lbr.
      destruct (Z.ltb_spec (keep + i) n), (Z.eqb_spec (keep + i) n);
        repeat case_decide; try reflexivity; try lia; f_equal; lia.
Qed.

(** The test of "Decide where to split" is the condition of C1: the
    code compares the block before with the block of the key less one
    in unsigned arithmetic, which is the same for block numbers of 29
    bits. *)
Lemma tnc_insert_appending_claimed (znode : nat) (key : ubifs_key) (n : Z) (appending : bool) c :
  key_block_ok key ->
  key_block_ok (zbr_key (zbranch_at (deref c znode) (n - 1))) ->
  tnc_insert_appending c znode key n appending
  = claimed_appending c znode key n || appending.
Proof.
  unfold key_block_ok, UBIFS_S_KEY_BLOCK_MASK. intros Hk Hk1.
  unfold tnc_insert_appending, claimed_appending. cbv zeta.
  assert (Hb : (key_block (zbr_key (zbranch_at (deref c znode) (n - 1)))
                =? u32 (key_block key - 1))
               = (key_block (zbr_key (zbranch_at (deref c znode) (n - 1)))
                  =? key_block key - 1)).
  { unfold u32. destruct (Z.eq_dec (key_block key) 0) as [E | E].
    - rewrite E. change ((0 - 1) mod 2 ^ 32) with 4294967295.
      destruct (Z.eqb_spec (key_block (zbr_key (zbranch_at (deref c znode) (n - 1))))
                  4294967295); [lia |].
      destruct (Z.eqb_spec (key_block (zbr_key (zbranch_at (deref c znode) (n - 1))))
                  (0 - 1)); [lia | reflexivity].
    - rewrite Z.mod_small by lia. reflexivity. }
  rewrite Hb.
  destruct (zn_level (deref c znode) =? 0), (n =? fanout (c_cfg c)),
    (key_type key =? UBIFS_DATA_KEY),
    (key_ino (zbr_key (zbranch_at (deref c znode) (n - 1))) =? key_ino key),
    (key_type (zbr_key (zbranch_at (deref c znode) (n - 1))) =? UBIFS_DATA_KEY),
    (key_block (zbr_key (zbranch_at (deref c znode) (n - 1))) =? key_block key - 1),
    appending; reflexivity.
Qed.


End Split.


(** ** The order of the keys under insertion *)

(** The branches of a znode with a new one at a slot where its key fits
    are in order. *)
Lemma branches_with_ordered (z : ubifs_znode) (zbr : ubifs_zbranch) (n i : Z) :
  znode_ok z -> key_fits z (zbr_key zbr) n ->
  0 <= i -> i + 1 <= zn_child_cnt z ->
  key_le_ok (zbr_key (branches_with z zbr n i)) (zbr_key (branches_with z zbr n (i + 1))).
Proof.
  intros [_ Ho] (Hn & Hl & Hr) Hi1 Hi2. unfold branches_with.
  destruct (Z.ltb_spec i n), (Z.ltb_spec (i + 1) n), (Z.eqb_spec i n), (Z.eqb_spec (i + 1) n);
    try lia.
  - apply Ho; lia.
  - replace i with (n - 1) by lia. apply Hl. lia.
  - subst i. replace (n + 1 - 1) with n by lia. apply Hr. lia.
  - replace (i + 1 - 1) with (i - 1 + 1) by lia. apply Ho; lia.
Qed.

Lemma branches_with_chain (z : ubifs_znode) (zbr : ubifs_zbranch) (n i : Z) (d : nat) :
  znode_ok z -> key_fits z (zbr_key zbr) n ->
  0 <= i -> i + Z.of_nat (S d) <= zn_child_cnt z ->
  key_le_ok (zbr_key (branches_with z zbr n i))
    (zbr_key (branches_with z zbr n (i + Z.of_nat (S d)))).
Proof.
  intros Hz Hf Hi. induction d as [| d IH]; intros Hd.
  - apply branches_with_ordered; [assumption .. | lia].
  - eapply key_le_ok_trans; [apply IH; lia |].
    replace (i + Z.of_nat (S (S d))) with (i + Z.of_nat (S d) + 1) by lia.
    apply branches_with_ordered; [assumption .. | lia | lia].
Qed.

(** A znode that holds a run of these branches is in order. *)
Lemma znode_ok_branches (z zo : ubifs_znode) (zbr : ubifs_zbranch) (n off : Z) :
  znode_ok z -> key_fits z (zbr_key zbr) n ->
  0 <= off -> off + zn_child_cnt zo <= zn_child_cnt z + 1 ->
  zn_child_cnt zo <= Z.of_nat (length (zn_zbranch zo)) ->
  (forall i, 0 <= i < zn_child_cnt zo -> zbranch_at zo i = branches_with z zbr n (off + i)) ->
  znode_ok zo.
Proof.
  intros Hz Hf Hoff Hcnt Hlen Hb. split; [exact Hlen |].
  intros i Hi1 Hi2. rewrite !Hb by lia.
  replace (off + (i + 1)) with (off + i + 1) by lia.
  apply branches_with_ordered; [assumption .. | lia | lia].
Qed.

Lemma shape_of_store_at (i : Z) (f : ubifs_zbranch -> ubifs_zbranch) (z : ubifs_znode) :
  0 <= i ->
  shape_of (zbranch_store i (f (zbranch_at z i)) z)
  = (fun s => (<[Z.to_nat i := f (lbr s.1.1 i)]> s.1.1, s.1.2, s.2)) (shape_of z).
Proof.
  intros Hi. unfold zbranch_store. destruct (Z.ltb_spec i 0); [lia |]. reflexivity.
Qed.

Section Insert.

Context {ext_t : Type}.
Implicit Types c : ubifs_info ext_t.

Variable rb_insert_color : forall A : Type, rb_tree A -> rb_tree A.

Lemma zshape_set_zroot (v : ubifs_zbranch) (q : nat) c : zshape (set_zroot v c) q = zshape c q.
Proof. reflexivity. Qed.

Lemma zshape_set_dirty_zn_cnt (v : Z) (q : nat) c :
  zshape (set_dirty_zn_cnt v c) q = zshape c q.
Proof. reflexivity. Qed.

Lemma zshape_zbr_upd_root (f : ubifs_zbranch -> ubifs_zbranch) (q : nat) c :
  zshape (zbr_upd ZRoot f c) q = zshape c q.
Proof. reflexivity. Qed.

Lemma zshape_zbr_upd_slot (p : nat) (i : Z) (f : ubifs_zbranch -> ubifs_zbranch) c :
  0 <= i ->
  zshape (zbr_upd (ZSlot p i) f c) p
  = (fun s => (<[Z.to_nat i := f (lbr s.1.1 i)]> s.1.1, s.1.2, s.2)) <$> zshape c p.
Proof.
  intros Hi. unfold zbr_upd. apply zshape_zn_upd_eq. intros z. apply shape_of_store_at, Hi.
Qed.

Lemma zshape_zbr_upd_ne (p q : nat) (i : Z) (f : ubifs_zbranch -> ubifs_zbranch) c :
  p <> q -> zshape (zbr_upd (ZSlot p i) f c) q = zshape c q.
Proof. intros H. unfold zbr_upd. apply zshape_zn_upd_ne, H. Qed.

Lemma zshape_zn_upd_child_cnt (p : nat) (v : Z) c :
  zshape (zn_upd p (set_zn_child_cnt v) c) p = (fun s => (s.1.1, v, s.2)) <$> zshape c p.
Proof. apply zshape_zn_upd_eq. reflexivity. Qed.

Lemma zshape_zn_upd_level (p : nat) (v : Z) c :
  zshape (zn_upd p (set_zn_level v) c) p = (fun s => (s.1.1, s.1.2, v)) <$> zshape c p.
Proof. apply zshape_zn_upd_eq. reflexivity. Qed.

Lemma zshape_None (q : nat) c : zshape c q = None <-> znodes c !! q = None.
Proof. unfold zshape. destruct (znodes c !! q); simpl; split; congruence. Qed.

(** [insert_zbranch] at a slot where the key fits, into a znode with a
    free slot. *)
Lemma keys_inv_insert_zbranch (zi : nat) (z : ubifs_znode) (zbr : ubifs_zbranch) (n : Z) c :
  keys_inv c ->
  znodes c !! zi = Some z ->
  zn_child_cnt z < Z.of_nat (length (zn_zbranch z)) ->
  key_fits z (zbr_key zbr) n ->
  exists c', insert_zbranch zi zbr n c = (Val tt, c') /\ keys_inv c'.
Proof.
  intros Hinv Hz Hfree Hfit.
  pose proof (zshape_lookup _ _ _ Hz) as Hs. unfold shape_of in Hs.
  destruct (insert_zbranch_shape zi zbr n _ _ _ c Hs (proj1 Hfit))
    as (c' & l' & Hrun & Hcfg & Hs' & Hlen & Hfr & Hl).
  exists c'. split; [exact Hrun |].
  pose proof (insert_zbranch_next zi zbr n c) as Hnx. rewrite Hrun in Hnx. cbn [snd] in Hnx.
  apply (keys_inv_shapes zi c c' Hinv Hnx Hfr).
  - rewrite Hs. discriminate.
  - intros z0 z' Hz0 Hz'. rewrite Hz in Hz0. injection Hz0 as <-.
    pose proof Hs' as Hs2. unfold zshape in Hs2. rewrite Hz' in Hs2.
    cbn in Hs2. injection Hs2 as Hb Hk _.
    apply (znode_ok_branches z z' zbr n 0).
    * eapply (proj2 Hinv), Hz.
    * exact Hfit.
    * lia.
    * rewrite Hk. lia.
    * rewrite Hk, Hb, Hlen. lia.
    * intros i Hi. rewrite Hk in Hi. rewrite zbranch_at_lbr, Hb, Hl.
      unfold branches_with. destruct Hfit as (Hn & _).
      destruct (Z.ltb_spec (0 + i) n), (Z.eqb_spec (0 + i) n);
        repeat case_decide; try lia; try reflexivity.
Qed.

(** The split of a full znode for a key that fits: the two halves are
    in order, and so is the first key of the new sibling after the first
    key of the old znode. *)
Lemma keys_inv_tnc_insert_split (znode : nat) (z : ubifs_znode) (zbr : ubifs_zbranch) (n : Z) (appending : bool) c :
  keys_inv c ->
  znodes c !! znode = Some z ->
  zn_child_cnt z = fanout (c_cfg c) ->
  Z.of_nat (length (zn_zbranch z)) = fanout (c_cfg c) ->
  1 <= fanout (c_cfg c) ->
  key_fits z (zbr_key zbr) n ->
  zn_parent z <> Some znode ->
  (zn_level z <> 0 -> is_Some (zbr_znode zbr)) ->
  exists s c',
    tnc_insert_split rb_insert_color (zn_parent z) znode zbr n appending c = (Val s, c')
    /\ s.1.1.1 = next_znode c
    /\ c_cfg c' = c_cfg c
    /\ keys_inv c'
    /\ is_Some (znodes c' !! znode)
    /\ is_Some (znodes c' !! next_znode c)
    /\ key_le_ok (zbr_key (zbranch_at (deref c' znode) 0))
         (zbr_key (zbranch_at (deref c' (next_znode c)) 0)).
Proof.
  intros Hinv Hz Hfull Hlen HF Hfit Hpar Hchild.
  assert (Hfresh : znodes c !! next_znode c = None) by (apply (proj1 Hinv); lia).
  assert (Hn : 0 <= n <= fanout (c_cfg c)) by (rewrite <- Hfull; apply Hfit).
  assert (Hok : znode_ok z) by (eapply (proj2 Hinv), Hz).
  destruct (tnc_insert_split_shapes rb_insert_color znode z zbr n appending c Hz Hfull Hlen HF Hn
              Hfresh (fun _ => Hpar) Hchild)
    as (zi & n2 & c' & Hrun & Hcfg & Hnext & Hkeep & (zo & Hzo & Hk1 & Hl1 & Hb1)
        & (zs & Hzs & Hk2 & Hl2 & Hb2) & Hfr & Hdom).
  set (keep := if tnc_insert_appending c znode (zbr_key zbr) n appending
               then fanout (c_cfg c) else Z.quot (fanout (c_cfg c) + 1) 2) in *.
  eexists. exists c'. split; [exact Hrun |]. split; [reflexivity |]. split; [exact Hcfg |].
  assert (Hoko : znode_ok zo).
  { apply (znode_ok_branches z zo zbr n 0); try assumption; try lia.
    intros i Hi. rewrite Hk1 in Hi. apply Hb1, Hi. }
  assert (Hoks : znode_ok zs).
  { apply (znode_ok_branches z zs zbr n keep); try assumption; try lia.
    intros i Hi. rewrite Hk2 in Hi. apply Hb2, Hi. }
  split; [| split; [eauto | split; [eauto |]]].
  - split.
    + intros q Hq. rewrite Hnext in Hq. apply Hdom; [lia |]. apply (proj1 Hinv). lia.
    + intros q z' Hq.
      destruct (decide (q = znode)) as [-> | H1]; [congruence |].
      destruct (decide (q = next_znode c)) as [-> | H2]; [congruence |].
      destruct (Hfr q z' H1 H2 Hq) as (z0 & Hz0 & Himp). apply Himp.
      eapply (proj2 Hinv), Hz0.
  - rewrite (deref_lookup _ _ _ Hzo), (deref_lookup _ _ _ Hzs).
    rewrite Hb1, Hb2 by lia. replace (keep + 0) with (0 + Z.of_nat (S (Z.to_nat (keep - 1)))) by lia.
    apply branches_with_chain; try assumption; lia.
Qed.

(** The new root over the two halves of the old one. *)
Lemma keys_inv_tnc_insert_new_root (znode zn : nat) c :
  keys_inv c ->
  2 <= fanout (c_cfg c) ->
  is_Some (znodes c !! znode) -> is_Some (znodes c !! zn) ->
  key_le_ok (zbr_key (zbranch_at (deref c znode) 0)) (zbr_key (zbranch_at (deref c zn) 0)) ->
  keys_inv (tnc_insert_new_root znode zn c).2.
Proof.
  intros Hinv HF [zo Hzo] [zs Hzs] Hle.
  set (zi := next_znode c).
  assert (Hfresh : znodes c !! zi = None) by (apply (proj1 Hinv); unfold zi; lia).
  assert (H1 : zi <> znode) by congruence.
  assert (H2 : zi <> zn) by congruence.
  unfold tnc_insert_new_root.
  rewrite (bind_val kzalloc_znode _ c _ zi eq_refl).
  rewrite !bind_modify. unfold modify. cbn [snd].
  match goal with |- keys_inv ?s => set (cf := s) end.
  assert (Hnext : next_znode cf = S zi) by reflexivity.
  assert (Hbase : forall q, q <> zi ->
            zshape (set_next_znode (S zi) (set_znodes (<[zi := new_znode c]> (znodes c)) c)) q
            = zshape c q).
  { intros q Hq. unfold zshape. cbn [znodes set_next_znode set_znodes].
    rewrite lookup_insert_ne by congruence. reflexivity. }
  assert (Hfr : forall q, q <> zi -> zshape cf q = zshape c q).
  { intros q Hq. unfold cf.
    repeat first
      [ rewrite zshape_zn_upd_frame by reflexivity
      | rewrite zshape_zn_upd_ne by congruence
      | rewrite zshape_zbr_upd_ne by congruence
      | rewrite zshape_zbr_upd_root
      | rewrite zshape_set_dirty_zn_cnt ].
    apply Hbase, Hq. }
  assert (Hk : forall (s : ubifs_info ext_t) q,
            zshape s q = zshape c q -> zbranch_at (deref s q) 0 = zbranch_at (deref c q) 0).
  { intros s q Hs. apply zshape_eq_deref in Hs. unfold shape_of in Hs.
    injection Hs as Hb _ _. rewrite !zbranch_at_lbr, Hb. reflexivity. }
  assert (Hzi : exists l lv, zshape cf zi = Some (l, 2, lv)
                             /\ 2 <= Z.of_nat (length l)
                             /\ key_le_ok (zbr_key (lbr l 0)) (zbr_key (lbr l 1))).
  { unfold cf.
    repeat first
      [ rewrite zshape_zn_upd_frame by reflexivity
      | rewrite zshape_zbr_upd_root
      | rewrite zshape_set_dirty_zn_cnt
      | rewrite zshape_zbr_upd_slot by lia
      | rewrite zshape_zn_upd_child_cnt
      | rewrite zshape_zn_upd_level ].
    repeat match goal with
           | |- context [zbranch_at (deref ?s ?q) 0] =>
               lazymatch s with
               | c => fail
               | _ => rewrite (Hk s q) by
                     (repeat first
                        [ rewrite zshape_zn_upd_frame by reflexivity
                        | rewrite zshape_zn_upd_ne by congruence
                        | rewrite zshape_zbr_upd_ne by congruence
                        | rewrite zshape_zbr_upd_root
                        | rewrite zshape_set_dirty_zn_cnt ];
                      apply Hbase; congruence)
               end
           end.
    match goal with |- context [set_zbr_pos ?a ?b ?d] => generalize a, b, d end.
    intros a b d.
    match goal with
    | |- context [zn_level (deref ?s znode) + 1] => generalize (zn_level (deref s znode) + 1)
    end.
    intros lv0.
    assert (Hb1 : zshape (set_next_znode (S zi)
                            (set_znodes (<[zi := new_znode c]> (znodes c)) c)) zi
                  = Some (replicate (Z.to_nat (fanout (c_cfg c))) zero_zbranch, 0, 0)).
    { unfold zshape. cbn [znodes set_next_znode set_znodes].
      rewrite lookup_insert_eq. reflexivity. }
    fold zi. rewrite Hb1. cbn [fmap option_fmap option_map fst snd].
    eexists. eexists. split; [reflexivity |]. split.
    - rewrite !length_insert, length_replicate. lia.
    - destruct (Z.to_nat (fanout (c_cfg c))) as [| [| m]] eqn:EF; [lia | lia |].
      cbn -[deref zbranch_at]. exact Hle. }
  destruct Hzi as (l & lv & Hzi & Hlen & Hord).
  split.
  - intros q Hq. rewrite Hnext in Hq. apply zshape_None. rewrite Hfr by lia.
    apply zshape_None, (proj1 Hinv). unfold zi in Hq. lia.
  - intros q z' Hq. destruct (decide (q = zi)) as [-> | Hne].
    + unfold zshape in Hzi. rewrite Hq in Hzi. cbn in Hzi. injection Hzi as Hb Hc _.
      split; [rewrite Hc, Hb; exact Hlen |].
      intros i Hi1 Hi2. rewrite Hc in Hi2. replace i with 0 by lia.
      rewrite !zbranch_at_lbr, Hb. exact Hord.
    + pose proof (Hfr q Hne) as Hs. unfold zshape in Hs. rewrite Hq in Hs.
      destruct (znodes c !! q) as [z0 |] eqn:E0; [| discriminate].
      cbn in Hs. apply (znode_ok_shape z0); [congruence |]. eapply (proj2 Hinv), E0.
Qed.

(** One pass through the body of [tnc_insert], for a key that fits
    into its slot. *)
Lemma keys_inv_tnc_insert_body (fuel : nat) (znode : nat) (z : ubifs_znode) (zbr : ubifs_zbranch) (n : Z) (appending : bool) c :
  keys_inv c ->
  znodes c !! znode = Some z ->
  Z.of_nat (length (zn_zbranch z)) = fanout (c_cfg c) ->
  2 <= fanout (c_cfg c) ->
  key_fits z (zbr_key zbr) n ->
  zn_parent z <> Some znode ->
  (zn_level z <> 0 -> is_Some (zbr_znode zbr)) ->
  keys_inv (tnc_insert_body rb_insert_color fuel znode zbr n appending c).2.
Proof.
  intros Hinv Hz Hlen HF Hfit Hpar Hchild.
  pose proof (inv_pres_correct_parent_keys (ext_t := ext_t)) as Hcpk.
  assert (Hok : znode_ok z) by (eapply (proj2 Hinv), Hz).
  unfold tnc_insert_body. rewrite bind_get, (deref_lookup _ _ _ Hz).
  destruct (Z.ltb_spec (zn_child_cnt z) (fanout (c_cfg c))) as [Hfree | Hfull].
  - destruct (keys_inv_insert_zbranch znode z zbr n c Hinv Hz ltac:(lia) Hfit)
      as (c' & Hrun & Hinv').
    rewrite (bind_val _ _ _ _ _ Hrun).
    revert c' Hinv' Hrun. clear - Hcpk. intros c' Hinv' _. revert c' Hinv'.
    change (inv_pres
              (let* c0 := get in
               (if (n =? 0) && bool_decide (is_Some (zn_parent z))
                   && (zn_iip (deref c0 znode) =? 0)
                then correct_parent_keys fuel znode else ret tt) ;;
               ret (ext_t := ext_t) (Return (S := tnc_insert_again) tt))).
    inv_auto.
  - assert (Hcnt : zn_child_cnt z = fanout (c_cfg c)) by (destruct Hok; lia).
    destruct (keys_inv_tnc_insert_split znode z zbr n appending c Hinv Hz Hcnt Hlen ltac:(lia)
                Hfit Hpar Hchild)
      as ([[[zn zi] n'] A] & c' & Hrun & Hzn & Hcfg & Hinv' & Ho & Hs & Hle).
    cbn [fst] in Hzn. subst zn.
    rewrite (bind_val _ _ _ _ _ Hrun). cbv beta iota.
    destruct (zn_parent z) as [zp |].
    + revert c' Hinv' Hrun Hcfg Ho Hs Hle. clear - Hcpk. intros c' Hinv' _ _ _ _ _.
      revert c' Hinv'. generalize (next_znode c). intros zn.
      change (inv_pres
                (let* c0 := get in
                 (if (n' =? 0) && bool_decide (zi = znode) && (zn_iip (deref c0 znode) =? 0)
                  then correct_parent_keys fuel znode else ret tt) ;;
                 let* c1 := get in
                 ret (ext_t := ext_t)
                   (Break (R := unit)
                      (zp,
                       set_zbr_pos 0 0 0
                         (set_zbr_znode (Some zn)
                            (set_zbr_key (zbr_key (zbranch_at (deref c1 zn) 0)) zbr)),
                       zn_iip (deref c0 znode) + 1,
                       if A && negb (zn_iip (deref c0 znode) + 1 =? fanout (c_cfg c0))
                       then false else A)))).
      inv_auto.
    + apply inv_pres_bind_at; [exact Hinv' | | intros; assumption].
      apply keys_inv_tnc_insert_new_root; try assumption. rewrite Hcfg. exact HF.
Qed.

End Insert.

(** ** The operations on the index *)

Lemma lnc_add_key (zbr zbr' : ubifs_zbranch) (node : ubifs_dent_node) (err : Z) :
  lnc_add zbr node = (err, zbr') -> zbr_key zbr' = zbr_key zbr.
Proof.
  unfold lnc_add. destruct (negb _); [intros [= _ <-]; reflexivity |].
  destruct (negb _); intros [= _ <-]; reflexivity.
Qed.

Section Ops.

Context {ext_t : Type}.
Implicit Types c : ubifs_info ext_t.

Variable ubifs_add_dirt : ext_t -> Z -> Z -> Z * ext_t.
Variable get_seconds : Z.
Variable rb_insert_color : forall A : Type, rb_tree A -> rb_tree A.

Lemma tnc_read_node_key c (zbr zbr' : ubifs_zbranch) (node : ubifs_dent_node) :
  tnc_read_node c zbr = inr (node, zbr') -> zbr_key zbr' = zbr_key zbr.
Proof.
  unfold tnc_read_node. destruct (lnc_lookup zbr); [intros [= _ <-]; reflexivity |].
  destruct (ubifs_read_node _ _ _ _ _) as [e | [idx | leaf]]; try discriminate.
  destruct (negb (bool_decide _)); [intros [= _ <-]; reflexivity |].
  destruct (lnc_add zbr leaf) as [err z1] eqn:E. apply lnc_add_key in E.
  destruct (negb _); [discriminate |]. intros [= _ <-]. exact E.
Qed.

Lemma fallible_read_node_key c (key : ubifs_key) (zbr zbr' : ubifs_zbranch) (r : Z) (buf : option ubifs_dent_node) :
  fallible_read_node c key zbr = (r, buf, zbr') -> zbr_key zbr' = zbr_key zbr.
Proof.
  unfold fallible_read_node. destruct (lnc_lookup zbr); [intros [= _ _ <-]; reflexivity |].
  destruct (try_read_node _ _ _ _ _) as [e b].
  destruct (e =? 1); [| intros [= _ _ <-]; reflexivity].
  destruct b as [dent |]; [| intros [= _ _ <-]; reflexivity].
  destruct (keys_cmp _ _ =? 0); [| intros [= _ _ <-]; reflexivity].
  destruct (_ <? _); [intros [= _ _ <-]; reflexivity |].
  destruct (lnc_add zbr dent) as [err z1] eqn:E. apply lnc_add_key in E.
  destruct (negb _); intros [= _ _ <-]; [reflexivity | exact E].
Qed.

Lemma keys_inv_zbr_upd_at (r : zbr_ref) (g : ubifs_zbranch -> ubifs_zbranch) c :
  zbr_key (g (zbr_get c r)) = zbr_key (zbr_get c r) ->
  keys_inv c -> keys_inv (zbr_upd r g c).
Proof.
  intros Hg H. destruct r as [| p i]; [exact H |].
  apply keys_inv_zn_upd; [| exact H].
  intros z Hz Hok. apply znode_ok_store_key; [| exact Hok].
  cbn [zbr_get] in Hg. rewrite (deref_lookup _ _ _ Hz) in Hg. exact Hg.
Qed.

Lemma inv_pres_tnc_read_node_at (r : zbr_ref) :
  inv_pres (tnc_read_node_at (ext_t := ext_t) r).
Proof.
  intros c H. unfold tnc_read_node_at. rewrite bind_get.
  destruct (tnc_read_node c (zbr_get c r)) as [e | [node zbr']] eqn:E; [exact H |].
  rewrite bind_modify. cbn. apply keys_inv_zbr_upd_at; [| exact H].
  apply (tnc_read_node_key _ _ _ _ E).
Qed.

Lemma inv_pres_matches_name (zbr : zbr_ref) (nm : qstr) :
  inv_pres (matches_name (ext_t := ext_t) zbr nm).
Proof.
  pose proof inv_pres_tnc_read_node_at.
  unfold matches_name. inv_auto.
Qed.

Lemma inv_pres_fallible_matches_name (zbr : zbr_ref) (nm : qstr) :
  inv_pres (fallible_matches_name (ext_t := ext_t) zbr nm).
Proof.
  intros c H. unfold fallible_matches_name. rewrite bind_get.
  apply inv_pres_bind_at; [exact H | |].
  - destruct (zbr_leaf (zbr_get c zbr)); [exact H |].
    destruct (fallible_read_node c (zbr_key (zbr_get c zbr)) (zbr_get c zbr))
      as [[e buf] zbr'] eqn:E.
    apply fallible_read_node_key in E. rewrite bind_modify.
    assert (H2 : keys_inv (zbr_upd zbr (fun _ => zbr') c))
      by (apply keys_inv_zbr_upd_at; assumption).
    destruct (e <? 0); [exact H2 |]. destruct (e =? 0); [exact H2 |].
    destruct (negb _); [| exact H2].
    rewrite bind_modify. apply keys_inv_zbr_upd; [reflexivity | exact H2].
  - intros present c1 _ H1. destruct (negb present); [exact H1 |].
    rewrite bind_get. destruct (zbr_leaf _); exact H1.
Qed.

Lemma inv_pres_resolve_collision_left (k fuel : nat) (key : ubifs_key) (nm : qstr) :
  forall zn n, inv_pres (resolve_collision_left (ext_t := ext_t) get_seconds k fuel key zn n nm).
Proof.
  pose proof (inv_pres_tnc_prev (ext_t := ext_t) get_seconds).
  pose proof inv_pres_matches_name.
  induction k as [| k IH]; intros zn n; cbn [resolve_collision_left]; inv_auto.
Qed.

Lemma inv_pres_resolve_collision_right (k fuel : nat) (key : ubifs_key) (nm : qstr) :
  forall zn n znode nn,
    inv_pres (resolve_collision_right (ext_t := ext_t) get_seconds k fuel key zn n znode nn nm).
Proof.
  pose proof (inv_pres_tnc_next (ext_t := ext_t) get_seconds).
  pose proof inv_pres_matches_name.
  induction k as [| k IH]; intros zn n znode nn; cbn [resolve_collision_right]; inv_auto.
Qed.

Lemma inv_pres_resolve_collision (fuel : nat) (key : ubifs_key) (zn : nat) (n : Z) (nm : qstr) :
  inv_pres (resolve_collision (ext_t := ext_t) get_seconds fuel key zn n nm).
Proof.
  pose proof inv_pres_resolve_collision_left. pose proof inv_pres_resolve_collision_right.
  pose proof inv_pres_matches_name.
  unfold resolve_collision. inv_auto.
Qed.

Lemma inv_pres_fallible_resolve_collision_left (k fuel : nat) (key : ubifs_key) (nm : qstr) :
  forall zn n o unsure,
    inv_pres (fallible_resolve_collision_left (ext_t := ext_t) get_seconds k fuel key zn n nm
                o unsure).
Proof.
  pose proof (inv_pres_tnc_prev (ext_t := ext_t) get_seconds).
  pose proof inv_pres_fallible_matches_name.
  induction k as [| k IH]; intros zn n o unsure; cbn [fallible_resolve_collision_left];
    inv_auto.
Qed.

Lemma inv_pres_fallible_resolve_collision_right (k fuel : nat) (key : ubifs_key) (nm : qstr) :
  forall zn n znode nn o,
    inv_pres (fallible_resolve_collision_right (ext_t := ext_t) get_seconds k fuel key zn n
                znode nn nm o).
Proof.
  pose proof (inv_pres_tnc_next (ext_t := ext_t) get_seconds).
  pose proof inv_pres_fallible_matches_name.
  induction k as [| k IH]; intros zn n znode nn o; cbn [fallible_resolve_collision_right];
    inv_auto.
Qed.

Lemma inv_pres_fallible_resolve_collision (fuel : nat) (key : ubifs_key) (zn : nat) (n : Z) (nm : qstr) :
  inv_pres (fallible_resolve_collision (ext_t := ext_t) get_seconds fuel key zn n nm).
Proof.
  pose proof inv_pres_fallible_resolve_collision_left.
  pose proof inv_pres_fallible_resolve_collision_right.
  pose proof inv_pres_fallible_matches_name.
  unfold fallible_resolve_collision. inv_auto.
Qed.

Lemma inv_pres_resolve_collision_directly_left (k fuel : nat) (key : ubifs_key) (lnum offs : Z) :
  forall znode nn,
    inv_pres (resolve_collision_directly_left (ext_t := ext_t) get_seconds k fuel key znode nn
                lnum offs).
Proof.
  pose proof (inv_pres_tnc_prev (ext_t := ext_t) get_seconds).
  induction k as [| k IH]; intros znode nn; cbn [resolve_collision_directly_left]; inv_auto.
Qed.

Lemma inv_pres_resolve_collision_directly_right (k fuel : nat) (key : ubifs_key) (lnum offs : Z) :
  forall zn n znode nn,
    inv_pres (resolve_collision_directly_right (ext_t := ext_t) get_seconds k fuel key zn n
                znode nn lnum offs).
Proof.
  pose proof (inv_pres_tnc_next (ext_t := ext_t) get_seconds).
  induction k as [| k IH]; intros zn n znode nn; cbn [resolve_collision_directly_right];
    inv_auto.
Qed.

Lemma inv_pres_resolve_collision_directly (fuel : nat) (key : ubifs_key) (zn : nat) (n : Z) (lnum offs : Z) :
  inv_pres (resolve_collision_directly (ext_t := ext_t) get_seconds fuel key zn n lnum offs).
Proof.
  pose proof inv_pres_resolve_collision_directly_left.
  pose proof inv_pres_resolve_collision_directly_right.
  unfold resolve_collision_directly. inv_auto.
Qed.

Lemma inv_pres_dirty_cow_bottom_up_rise (k : nat) :
  forall znode path, inv_pres (dirty_cow_bottom_up_rise (ext_t := ext_t) k znode path).
Proof.
  induction k as [| k IH]; intros znode path; cbn [dirty_cow_bottom_up_rise]; inv_auto.
Qed.

Lemma inv_pres_dirty_cow_bottom_up_descend (k : nat) :
  forall znode path,
    inv_pres (dirty_cow_bottom_up_descend (ext_t := ext_t) ubifs_add_dirt rb_insert_color k
                znode path).
Proof.
  pose proof (inv_pres_dirty_cow_znode (ext_t := ext_t) ubifs_add_dirt rb_insert_color).
  induction k as [| k IH]; intros znode path; cbn [dirty_cow_bottom_up_descend]; inv_auto.
Qed.

Lemma inv_pres_dirty_cow_bottom_up (fuel : nat) (znode : nat) :
  inv_pres (dirty_cow_bottom_up (ext_t := ext_t) ubifs_add_dirt rb_insert_color fuel znode).
Proof.
  pose proof inv_pres_dirty_cow_bottom_up_rise.
  pose proof inv_pres_dirty_cow_bottom_up_descend.
  unfold dirty_cow_bottom_up. inv_auto.
Qed.

Lemma inv_pres_lookup_level0_descend (k : nat) (key : ubifs_key) :
  forall znode, inv_pres (lookup_level0_descend (ext_t := ext_t) get_seconds k key znode).
Proof.
  pose proof (inv_pres_load_znode (ext_t := ext_t) get_seconds).
  induction k as [| k IH]; intros znode; cbn [lookup_level0_descend]; inv_auto.
Qed.

Lemma inv_pres_lookup_level0 (fuel : nat) (key : ubifs_key) :
  inv_pres (lookup_level0 (ext_t := ext_t) get_seconds fuel key).
Proof.
  pose proof (inv_pres_load_znode (ext_t := ext_t) get_seconds).
  pose proof (inv_pres_tnc_prev (ext_t := ext_t) get_seconds).
  pose proof inv_pres_lookup_level0_descend.
  unfold lookup_level0, lookup_level0_search. inv_auto.
Qed.

Lemma inv_pres_lookup_level0_dirty_descend (k : nat) (key : ubifs_key) :
  forall znode,
    inv_pres (lookup_level0_dirty_descend (ext_t := ext_t) ubifs_add_dirt get_seconds
                rb_insert_color k key znode).
Proof.
  pose proof (inv_pres_load_znode (ext_t := ext_t) get_seconds).
  pose proof (inv_pres_dirty_cow_znode (ext_t := ext_t) ubifs_add_dirt rb_insert_color).
  induction k as [| k IH]; intros znode; cbn [lookup_level0_dirty_descend]; inv_auto.
Qed.

Lemma inv_pres_lookup_level0_dirty (fuel : nat) (key : ubifs_key) :
  inv_pres (lookup_level0_dirty (ext_t := ext_t) ubifs_add_dirt get_seconds rb_insert_color
              fuel key).
Proof.
  pose proof (inv_pres_load_znode (ext_t := ext_t) get_seconds).
  pose proof (inv_pres_dirty_cow_znode (ext_t := ext_t) ubifs_add_dirt rb_insert_color).
  pose proof (inv_pres_tnc_prev (ext_t := ext_t) get_seconds).
  pose proof inv_pres_dirty_cow_bottom_up.
  pose proof inv_pres_lookup_level0_dirty_descend.
  unfold lookup_level0_dirty. inv_auto.
Qed.

(** [ubifs_tnc_remove] and [ubifs_tnc_remove_nm] keep the znodes in
    order. *)
Lemma inv_pres_ubifs_tnc_remove (fuel : nat) (key : ubifs_key) :
  inv_pres (ubifs_tnc_remove (ext_t := ext_t) ubifs_add_dirt get_seconds rb_insert_color
              fuel key).
Proof.
  pose proof inv_pres_lookup_level0_dirty.
  pose proof (inv_pres_tnc_delete (ext_t := ext_t) ubifs_add_dirt get_seconds rb_insert_color).
  unfold ubifs_tnc_remove. inv_auto.
Qed.

Lemma inv_pres_ubifs_tnc_remove_nm (fuel : nat) (key : ubifs_key) (nm : qstr) :
  inv_pres (ubifs_tnc_remove_nm (ext_t := ext_t) ubifs_add_dirt get_seconds rb_insert_color
              fuel key nm).
Proof.
  pose proof inv_pres_lookup_level0_dirty.
  pose proof inv_pres_resolve_collision. pose proof inv_pres_fallible_resolve_collision.
  pose proof inv_pres_dirty_cow_bottom_up.
  pose proof (inv_pres_tnc_delete (ext_t := ext_t) ubifs_add_dirt get_seconds rb_insert_color).
  unfold ubifs_tnc_remove_nm. inv_auto.
Qed.

(** [ubifs_tnc_replace] keeps the znodes in order. *)
Lemma inv_pres_ubifs_tnc_replace (fuel : nat) (key : ubifs_key) (old_lnum old_offs lnum offs len : Z) :
  inv_pres (ubifs_tnc_replace (ext_t := ext_t) ubifs_add_dirt get_seconds rb_insert_color
              fuel key old_lnum old_offs lnum offs len).
Proof.
  pose proof inv_pres_lookup_level0_dirty.
  pose proof inv_pres_resolve_collision_directly.
  pose proof inv_pres_dirty_cow_bottom_up.
  pose proof (inv_pres_add_dirt (ext_t := ext_t) ubifs_add_dirt).
  unfold ubifs_tnc_replace. inv_auto.
Qed.


End Ops.

(** ** Removing a range of keys *)

(** The keys of a znode in order are in order at any distance. *)
Lemma keys_ordered_chain (z : ubifs_znode) (i : Z) (d : nat) :
  keys_ordered z -> 0 <= i -> i + Z.of_nat (S d) < zn_child_cnt z ->
  key_le_ok (zbr_key (zbranch_at z i)) (zbr_key (zbranch_at z (i + Z.of_nat (S d)))).
Proof.
  intros Ho Hi. induction d as [| d IH]; intros Hd.
  - apply Ho; lia.
  - eapply key_le_ok_trans; [apply IH; lia |].
    replace (i + Z.of_nat (S (S d))) with (i + Z.of_nat (S d) + 1) by lia.
    apply Ho; lia.
Qed.

(** The loop of [ubifs_tnc_remove_range] that moves the branches after
    the range [k] slots to the left, on the znode. *)
Lemma remove_range_shift_spec (k s : Z) (m : nat) (z : ubifs_znode) :
  0 < k ->
  let z' := foldl (fun z i => zbranch_store (i - k) (zbranch_at z i) z) z (seqZ s (Z.of_nat m)) in
  zn_child_cnt z' = zn_child_cnt z
  /\ length (zn_zbranch z') = length (zn_zbranch z)
  /\ forall j, zbranch_at z' j
               = if decide (s - k <= j < s - k + Z.of_nat m
                            /\ 0 <= j < Z.of_nat (length (zn_zbranch z)))
                 then zbranch_at z (j + k) else zbranch_at z j.
Proof.
  intros Hk. induction m as [| m IH]; cbv zeta.
  - cbn. split; [reflexivity |]. split; [reflexivity |]. intros j.
    destruct (decide _) as [H |]; [lia | reflexivity].
  - rewrite seqZ_S, foldl_app. cbn [foldl].
    cbv zeta in IH. destruct IH as (IH1 & IH2 & IH3).
    set (z1 := foldl (fun z i => zbranch_store (i - k) (zbranch_at z i) z) z
                 (seqZ s (Z.of_nat m))) in *.
    rewrite zbranch_store_child_cnt, zbranch_store_length.
    split; [exact IH1 |]. split; [exact IH2 |]. intros j.
    assert (Hr : zbranch_at z1 (s + Z.of_nat m) = zbranch_at z (s + Z.of_nat m)).
    { rewrite IH3. destruct (decide _) as [H |]; [lia | reflexivity]. }
    rewrite Hr.
    destruct (decide (s + Z.of_nat m - k = j)) as [<- | Hne].
    + destruct (decide (0 <= s + Z.of_nat m - k < Z.of_nat (length (zn_zbranch z))))
        as [Hin | Hout].
      * rewrite zbranch_at_store_eq by (rewrite IH2; exact Hin).
        destruct (decide _) as [| H]; [f_equal; lia | lia].
      * assert (Hd : zbranch_at (zbranch_store (s + Z.of_nat m - k)
                                   (zbranch_at z (s + Z.of_nat m)) z1) (s + Z.of_nat m - k)
                     = zbranch_at z1 (s + Z.of_nat m - k)).
        { unfold zbranch_store, zbranch_at.
          destruct (Z.ltb_spec (s + Z.of_nat m - k) 0); [reflexivity |].
          cbn [zn_zbranch set_zn_zbranch]. rewrite list_insert_ge by lia. reflexivity. }
        rewrite Hd, IH3. repeat case_decide; try lia; reflexivity.
    + rewrite zbranch_at_store_ne by exact Hne. rewrite IH3.
      repeat case_decide; try lia; reflexivity.
Qed.

(** After the move, with [k] children less, the znode is in order. *)
Lemma znode_ok_remove_range (k n : Z) (z : ubifs_znode) :
  0 < k -> znode_ok z ->
  znode_ok
    (set_zn_child_cnt
       (zn_child_cnt
          (foldl (fun z i => zbranch_store (i - k) (zbranch_at z i) z) z
             (seqZ (n + 1 + k) (zn_child_cnt z - (n + 1 + k)))) - k)
       (foldl (fun z i => zbranch_store (i - k) (zbranch_at z i) z) z
          (seqZ (n + 1 + k) (zn_child_cnt z - (n + 1 + k))))).
Proof.
  intros Hk [Hc Ho].
  assert (Hseq : seqZ (n + 1 + k) (zn_child_cnt z - (n + 1 + k))
                 = seqZ (n + 1 + k) (Z.of_nat (Z.to_nat (zn_child_cnt z - (n + 1 + k))))).
  { unfold seqZ. rewrite Nat2Z.id. reflexivity. }
  rewrite Hseq.
  destruct (remove_range_shift_spec k (n + 1 + k) (Z.to_nat (zn_child_cnt z - (n + 1 + k))) z Hk)
    as (H1 & H2 & H3).
  set (z' := foldl (fun z i => zbranch_store (i - k) (zbranch_at z i) z) z
               (seqZ (n + 1 + k) (Z.of_nat (Z.to_nat (zn_child_cnt z - (n + 1 + k)))))) in *.
  split.
  - cbn [zn_child_cnt set_zn_child_cnt zn_zbranch]. rewrite H1.
    change (zn_zbranch (set_zn_child_cnt _ z')) with (zn_zbranch z'). rewrite H2. lia.
  - intros i Hi1 Hi2. cbn [zn_child_cnt set_zn_child_cnt] in Hi2. rewrite H1 in Hi2.
    change (zbranch_at (set_zn_child_cnt ?v z') ?j) with (zbranch_at z' j).
    rewrite !H3. repeat case_decide; try lia.
    + replace (i + 1 + k) with (i + k + 1) by lia. apply Ho; lia.
    + replace (i + 1 + k) with (i + Z.of_nat (S (Z.to_nat k))) by lia.
      apply keys_ordered_chain; [exact Ho | lia | lia].
    + apply Ho; lia.
Qed.

Section Range.

Context {ext_t : Type}.
Implicit Types c : ubifs_info ext_t.

Variable ubifs_add_dirt : ext_t -> Z -> Z -> Z * ext_t.
Variable get_seconds : Z.
Variable rb_insert_color : forall A : Type, rb_tree A -> rb_tree A.

(** A loop of stores to one znode is one store of the loop on the
    znode. *)
Lemma foldl_zn_upd {I} (p : nat) (g : ubifs_znode -> I -> ubifs_znode) (idx : list I) c :
  foldl (fun c i => zn_upd p (fun z => g z i) c) c idx
  = zn_upd p (fun z => foldl g z idx) c.
Proof.
  revert c. induction idx as [| i idx IH]; intros c; cbn [foldl].
  - unfold zn_upd. rewrite alter_id by reflexivity. destruct c; reflexivity.
  - rewrite IH. unfold zn_upd. cbn [znodes set_znodes].
    rewrite alter_alter_eq. reflexivity.
Qed.

Lemma zn_upd_zn_upd (p : nat) (f g : ubifs_znode -> ubifs_znode) c :
  zn_upd p f (zn_upd p g c) = zn_upd p (fun z => f (g z)) c.
Proof. unfold zn_upd. cbn [znodes set_znodes]. rewrite alter_alter_eq. reflexivity. Qed.

Lemma remove_range_dirt_k (j : nat) (znode : nat) (from_key to_key : ubifs_key) :
  forall (i k k' : Z) c c',
    remove_range_dirt ubifs_add_dirt j znode from_key to_key i k c = (Val k', c') -> k <= k'.
Proof.
  induction j as [| j IH]; intros i k k' c c'; cbn [remove_range_dirt].
  - intros [= <- _]. lia.
  - rewrite bind_get. destruct (_ <? _); [| intros [= <- _]; lia].
    destruct (negb _); [intros [= <- _]; lia |].
    rewrite bind_modify, bind_get. cbv zeta. intros H.
    apply bind_inv in H as (err & c1 & _ & H).
    apply bind_inv in H as (u & c2 & _ & H).
    apply IH in H. lia.
Qed.

Lemma inv_pres_remove_range_dirt (j : nat) (znode : nat) (from_key to_key : ubifs_key) :
  forall i k, inv_pres (remove_range_dirt (ext_t := ext_t) ubifs_add_dirt j znode from_key
                          to_key i k).
Proof.
  pose proof (inv_pres_add_dirt (ext_t := ext_t) ubifs_add_dirt).
  induction j as [| j IH]; intros i k; cbn [remove_range_dirt]; inv_auto.
Qed.

Lemma inv_pres_remove_range_body (fuel : nat) (from_key to_key : ubifs_key) :
  inv_pres (remove_range_body (ext_t := ext_t) ubifs_add_dirt get_seconds rb_insert_color
              fuel from_key to_key).
Proof.
  pose proof (inv_pres_lookup_level0 (ext_t := ext_t) get_seconds).
  pose proof (inv_pres_tnc_next (ext_t := ext_t) get_seconds).
  pose proof (inv_pres_dirty_cow_bottom_up (ext_t := ext_t) ubifs_add_dirt rb_insert_color).
  pose proof (inv_pres_tnc_delete (ext_t := ext_t) ubifs_add_dirt get_seconds rb_insert_color).
  unfold remove_range_body.
  apply inv_pres_bind; [auto | intros [[err znode] n]].
  apply inv_pres_bind; [inv_auto | intros [[zn1 n1] |]; [| inv_auto]].
  apply inv_pres_bind; [inv_auto | intros c0].
  apply inv_pres_bind; [inv_auto | intros zn2].
  apply inv_pres_bind; [inv_auto | intros c1].
  intros c Hc. apply inv_pres_bind_at; [exact Hc | apply inv_pres_remove_range_dirt, Hc |].
  intros k c2 Hk Hc2. apply remove_range_dirt_k in Hk.
  apply inv_pres_bind_at; [exact Hc2 | | intros _ c3 _ Hc3; revert c3 Hc3].
  - destruct (Z.eqb_spec k 0) as [-> | Hne]; cbn [negb]; [exact Hc2 |].
    rewrite bind_get, bind_modify. cbn.
    rewrite (foldl_zn_upd zn2 (fun z i => zbranch_store (i - k) (zbranch_at z i) z)).
    rewrite zn_upd_zn_upd.
    apply keys_inv_zn_upd; [| exact Hc2].
    intros z Hz Hok. rewrite (deref_lookup _ _ _ Hz).
    apply znode_ok_remove_range; [lia | exact Hok].
  - change (inv_pres
              (tnc_delete ubifs_add_dirt get_seconds rb_insert_color fuel zn2 n1 ;;
               ret (ext_t := ext_t) (Break (R := unit) tt))).
    inv_auto.
Qed.

Lemma inv_pres_remove_range_loop (k fuel : nat) (from_key to_key : ubifs_key) :
  inv_pres (remove_range_loop (ext_t := ext_t) ubifs_add_dirt get_seconds rb_insert_color
              k fuel from_key to_key).
Proof.
  pose proof inv_pres_remove_range_body.
  induction k as [| k IH]; cbn [remove_range_loop]; inv_auto.
Qed.

(** [ubifs_tnc_remove_range] keeps the znodes in order. *)
Lemma inv_pres_ubifs_tnc_remove_range (fuel : nat) (from_key to_key : ubifs_key) :
  inv_pres (ubifs_tnc_remove_range (ext_t := ext_t) ubifs_add_dirt get_seconds rb_insert_color
              fuel from_key to_key).
Proof. apply inv_pres_remove_range_loop. Qed.

Lemma inv_pres_next_ent_loop (k fuel : nat) (key : ubifs_key) :
  forall znode n, inv_pres (next_ent_loop (ext_t := ext_t) get_seconds k fuel key znode n).
Proof.
  pose proof (inv_pres_tnc_next (ext_t := ext_t) get_seconds).
  pose proof (inv_pres_tnc_read_node_at (ext_t := ext_t)).
  induction k as [| k IH]; intros znode n; cbn [next_ent_loop]; inv_auto.
Qed.

Lemma inv_pres_ubifs_tnc_next_ent (fuel : nat) (key : ubifs_key) (nm : qstr) :
  inv_pres (ubifs_tnc_next_ent (ext_t := ext_t) get_seconds fuel key nm).
Proof.
  pose proof (inv_pres_lookup_level0 (ext_t := ext_t) get_seconds).
  pose proof (inv_pres_resolve_collision (ext_t := ext_t) get_seconds).
  pose proof inv_pres_next_ent_loop.
  unfold ubifs_tnc_next_ent. inv_auto.
Qed.

Lemma inv_pres_remove_ino_xattrs (k fuel : nat) :
  forall key1 nm,
    inv_pres (remove_ino_xattrs (ext_t := ext_t) ubifs_add_dirt get_seconds rb_insert_color
                k fuel key1 nm).
Proof.
  pose proof inv_pres_ubifs_tnc_next_ent.
  pose proof (inv_pres_ubifs_tnc_remove_nm (ext_t := ext_t) ubifs_add_dirt get_seconds
                rb_insert_color).
  pose proof inv_pres_ubifs_tnc_remove_range.
  induction k as [| k IH]; intros key1 nm; cbn [remove_ino_xattrs]; inv_auto.
Qed.

(** [ubifs_tnc_remove_ino] keeps the znodes in order. *)
Lemma inv_pres_ubifs_tnc_remove_ino (fuel : nat) (inum : Z) :
  inv_pres (ubifs_tnc_remove_ino (ext_t := ext_t) ubifs_add_dirt get_seconds rb_insert_color
              fuel inum).
Proof.
  pose proof inv_pres_remove_ino_xattrs. pose proof inv_pres_ubifs_tnc_remove_range.
  unfold ubifs_tnc_remove_ino. inv_auto.
Qed.

End Range.

(** ** The slot of the search *)

Lemma keys_cmp_gt (a b : ubifs_key) : 0 < keys_cmp a b <-> keys_cmp b a < 0.
Proof.
  rewrite keys_cmp_lt. destruct a as [i1 t1 d1], b as [i2 t2 d2]. unfold keys_cmp, cmp3. simpl.
  destruct (Z.ltb_spec i1 i2), (Z.ltb_spec i2 i1), (Z.ltb_spec t1 t2), (Z.ltb_spec t2 t1),
    (Z.ltb_spec d1 d2), (Z.ltb_spec d2 d1); lia.
Qed.

Lemma key_le_ok_lt (a b c : ubifs_key) :
  key_le_ok a b -> keys_cmp b c < 0 -> keys_cmp a c < 0.
Proof.
  intros [H1 | [H1 _]] H2.
  - apply keys_cmp_lt in H1, H2. apply keys_cmp_lt. lia.
  - apply keys_cmp_eq in H1 as <-. exact H2.
Qed.

Lemma key_lt_le_ok (a b c : ubifs_key) :
  keys_cmp a b < 0 -> key_le_ok b c -> keys_cmp a c < 0.
Proof.
  intros H1 [H2 | [H2 _]].
  - apply keys_cmp_lt in H1, H2. apply keys_cmp_lt. lia.
  - apply keys_cmp_eq in H2 as <-. exact H1.
Qed.

(** The binary search in a znode in order: when the key is not found,
    it fits into the slot after the one returned. *)
Lemma search_zbranch_loop_fits (z : ubifs_znode) (key : ubifs_key) (k : nat) :
  keys_ordered z ->
  forall beg end_ n,
    0 <= beg <= end_ -> end_ <= zn_child_cnt z ->
    end_ - beg < Z.of_nat k ->
    (forall i, 0 <= i < beg -> keys_cmp (zbr_key (zbranch_at z i)) key < 0) ->
    (forall i, end_ <= i < zn_child_cnt z -> keys_cmp key (zbr_key (zbranch_at z i)) < 0) ->
    search_zbranch_loop z key k beg end_ = (0, n) ->
    key_fits z key (n + 1).
Proof.
  intros Ho. induction k as [| k IH]; intros beg end_ n Hb He Hk Hl Hr; [lia |].
  cbn [search_zbranch_loop].
  destruct (Z.ltb_spec beg end_) as [Hlt | Hge].
  - cbv zeta. rewrite Z.shiftr_div_pow2 by lia. change (2 ^ 1) with 2.
    set (mid := (beg + end_) / 2).
    assert (Hmid : beg <= mid < end_).
    { unfold mid. split; [apply Z.div_le_lower_bound; lia | apply Z.div_lt_upper_bound; lia]. }
    destruct (Z.ltb_spec 0 (keys_cmp key (zbr_key (zbranch_at z mid)))) as [Hgt | Hngt].
    + apply IH; try lia.
      * intros i Hi. apply keys_cmp_gt in Hgt.
        destruct (decide (i < beg)) as [H1 | H1]; [apply Hl; lia |].
        destruct (decide (i = mid)) as [-> | H2]; [exact Hgt |].
        eapply key_le_ok_lt; [| exact Hgt].
        replace mid with (i + Z.of_nat (S (Z.to_nat (mid - i - 1)))) by lia.
        apply keys_ordered_chain; [exact Ho | lia | lia].
      * exact Hr.
    + destruct (Z.ltb_spec (keys_cmp key (zbr_key (zbranch_at z mid))) 0) as [Hlt2 | Hnlt];
        [| discriminate].
      apply IH; try lia.
      * exact Hl.
      * intros i Hi.
        destruct (decide (end_ <= i)) as [H1 | H1]; [apply Hr; lia |].
        destruct (decide (i = mid)) as [-> | H2]; [exact Hlt2 |].
        eapply key_lt_le_ok; [exact Hlt2 |].
        replace i with (mid + Z.of_nat (S (Z.to_nat (i - mid - 1)))) by lia.
        apply keys_ordered_chain; [exact Ho | lia | lia].
  - intros [= <-]. replace (end_ - 1 + 1) with end_ by lia.
    assert (beg = end_) by lia. subst beg.
    split; [lia |]. split.
    + intros H. left. apply Hl. lia.
    + intros H. left. apply Hr. lia.
Qed.

Lemma ubifs_search_zbranch_fits (z : ubifs_znode) (key : ubifs_key) (n : Z) :
  znode_ok z -> 0 <= zn_child_cnt z ->
  ubifs_search_zbranch z key = (0, n) -> key_fits z key (n + 1).
Proof.
  intros [_ Ho] Hc. unfold ubifs_search_zbranch.
  apply search_zbranch_loop_fits; try assumption; lia.
Qed.

(** The test of the invariant is sound. *)
Lemma key_le_ok_b_spec (a b : ubifs_key) : key_le_ok_b a b = true -> key_le_ok a b.
Proof.
  unfold key_le_ok_b, key_le_ok. intros H.
  apply orb_true_iff in H as [H | H]; [left; lia |].
  apply andb_true_iff in H as [H1 H2]. right. split; [lia | exact H2].
Qed.

Lemma znode_ok_b_spec (z : ubifs_znode) : znode_ok_b z = true -> znode_ok z.
Proof.
  unfold znode_ok_b. intros H. apply andb_true_iff in H as [H1 H2].
  split; [lia |]. intros i Hi1 Hi2.
  rewrite forallb_forall in H2. apply key_le_ok_b_spec, H2.
  apply list_elem_of_In, elem_of_seqZ. lia.
Qed.

Lemma keys_inv_b_spec {ext_t} (c : ubifs_info ext_t) : keys_inv_b c = true -> keys_inv c.
Proof.
  unfold keys_inv_b. rewrite forallb_forall. intros H.
  assert (H' : forall q z, znodes c !! q = Some z -> (q < next_znode c)%nat /\ znode_ok z).
  { intros q z Hq. apply elem_of_map_to_list, list_elem_of_In, H in Hq.
    apply andb_true_iff in Hq as [Hq1 Hq2]. cbn [fst snd] in *.
    split; [apply Nat.ltb_lt, Hq1 | apply znode_ok_b_spec, Hq2]. }
  split.
  - intros q Hq. destruct (znodes c !! q) as [z |] eqn:E; [| reflexivity].
    apply H' in E. lia.
  - intros q z Hq. apply (H' q z Hq).
Qed.

(** ** The order of the keys under the operations *)

Lemma key_fits_b_spec (z : ubifs_znode) (key : ubifs_key) (n : Z) :
  key_fits_b z key n = true -> key_fits z key n.
Proof.
  unfold key_fits_b, key_fits. intros H.
  apply andb_true_iff in H as [H H4]. apply andb_true_iff in H as [H H3].
  apply andb_true_iff in H as [H1 H2].
  split; [lia |]. split; intros Hn.
  - apply orb_true_iff in H3 as [H3 | H3]; [lia | apply key_le_ok_b_spec, H3].
  - apply orb_true_iff in H4 as [H4 | H4]; [lia | apply key_le_ok_b_spec, H4].
Qed.

Lemma pass_fits_b_spec {ext_t} (l : list (insert_pass ext_t)) :
  forallb pass_fits_b l = true -> Forall pass_fits l.
Proof.
  rewrite forallb_forall, Forall_forall. intros H p Hp.
  apply list_elem_of_In, H in Hp. unfold pass_fits_b in Hp. unfold pass_fits.
  destruct (znodes (p_before p) !! p_znode p) as [z |]; [| discriminate].
  exists z. split; [reflexivity |].
  apply andb_true_iff in Hp as [Hp H5]. apply andb_true_iff in Hp as [Hp H4].
  apply andb_true_iff in Hp as [Hp H3]. apply andb_true_iff in Hp as [H1 H2].
  split; [lia |]. split; [lia |]. split; [apply key_fits_b_spec, H3 |]. split.
  - apply negb_true_iff, bool_decide_eq_false in H4. exact H4.
  - intros Hl. apply orb_true_iff in H5 as [H5 | H5]; [lia |].
    apply bool_decide_eq_true in H5. exact H5.
Qed.

Section Order.

Context {ext_t : Type}.
Implicit Types c : ubifs_info ext_t.

Variable ubifs_add_dirt : ext_t -> Z -> Z -> Z * ext_t.
Variable get_seconds : Z.
Variable rb_insert_color : forall A : Type, rb_tree A -> rb_tree A.

(** [tnc_insert] keeps the znodes in order when every pass goes well. *)
Lemma keys_inv_tnc_insert_loop (k fuel : nat) :
  forall znode zbr n appending c,
    keys_inv c ->
    Forall pass_fits (tnc_insert_passes rb_insert_color k fuel znode zbr n appending c) ->
    keys_inv (tnc_insert_loop rb_insert_color k fuel znode zbr n appending c).2.
Proof.
  induction k as [| k IH]; intros znode zbr n appending c H HF; [exact H |].
  cbn [tnc_insert_loop tnc_insert_passes] in *.
  assert (Hb : keys_inv (tnc_insert_body rb_insert_color fuel znode zbr n appending c).2
               /\ forall zp zbr' n' appending' c',
                    tnc_insert_body rb_insert_color fuel znode zbr n appending c
                    = (Val (Break (zp, zbr', n', appending')), c') ->
                    Forall pass_fits
                      (tnc_insert_passes rb_insert_color k fuel zp zbr' n' appending' c')).
  { destruct (tnc_insert_body rb_insert_color fuel znode zbr n appending c)
      as [[[r | [[[zp zbr'] n'] appending']] | e | |] c'] eqn:E;
      apply Forall_cons in HF as [(z & Hz & Hlen & HF2 & Hfit & Hpar & Hch) HF];
      cbn [p_before p_znode p_zbr p_n] in *;
      pose proof (keys_inv_tnc_insert_body rb_insert_color fuel znode z zbr n appending c H Hz
                    Hlen HF2 Hfit Hpar Hch) as Hc';
      rewrite E in Hc'; (split; [exact Hc' |]); intros ? ? ? ? ? [=]; subst; exact HF. }
  destruct Hb as [Hb1 Hb2]. unfold bind.
  destruct (tnc_insert_body rb_insert_color fuel znode zbr n appending c)
    as [[[r | [[[zp zbr'] n'] appending']] | e | |] c']; cbn [snd] in *; try exact Hb1.
  apply IH; [exact Hb1 | apply Hb2; reflexivity].
Qed.

(** [ubifs_tnc_add] keeps the znodes in order when every pass of its
    insertion goes well. *)
Lemma keys_inv_ubifs_tnc_add (fuel : nat) (key : ubifs_key) (lnum offs len : Z) c :
  keys_inv c ->
  Forall pass_fits
    (ubifs_tnc_add_passes ubifs_add_dirt get_seconds rb_insert_color fuel key lnum offs len c) ->
  keys_inv (ubifs_tnc_add ubifs_add_dirt get_seconds rb_insert_color fuel key lnum offs len c).2.
Proof.
  intros H HF. unfold ubifs_tnc_add, ubifs_tnc_add_passes in *.
  pose proof (inv_pres_lookup_level0_dirty ubifs_add_dirt get_seconds rb_insert_color fuel key c H)
    as H1.
  unfold bind at 1.
  destruct (lookup_level0_dirty ubifs_add_dirt get_seconds rb_insert_color fuel key c)
    as [[[[found znode] n] | e | |] c1]; cbn [snd] in *; try exact H1.
  destruct (found =? 0).
  - apply keys_inv_tnc_insert_loop; assumption.
  - revert c1 H1 HF. intros c1 H1 _. revert c1 H1.
    change (inv_pres (let* err := replace_zbranch ubifs_add_dirt (ZSlot znode n) lnum offs len in
                      check (ext_t := ext_t) err)).
    pose proof (inv_pres_replace_zbranch (ext_t := ext_t) ubifs_add_dirt).
    inv_auto.
Qed.

(** [ubifs_tnc_add_nm] is the lookup followed by the replacement or the
    insertion. *)
Lemma ubifs_tnc_add_nm_lookup_eq (fuel : nat) (key : ubifs_key) (lnum offs len : Z) (nm : qstr) c :
  ubifs_tnc_add_nm ubifs_add_dirt get_seconds rb_insert_color fuel key lnum offs len nm c
  = (let* r := ubifs_tnc_add_nm_lookup ubifs_add_dirt get_seconds rb_insert_color fuel key nm in
     let '(found, znode, n) := r in
     if found =? 1 then
       let* err := replace_zbranch ubifs_add_dirt (ZSlot znode n) lnum offs len in
       check err
     else tnc_insert rb_insert_color fuel znode (new_zbranch key lnum offs len) (n + 1)) c.
Proof.
  unfold ubifs_tnc_add_nm, ubifs_tnc_add_nm_lookup.
  rewrite bind_assoc. apply bind_ext. intros [[found znode] n] c1.
  unfold bind, get, ret. destruct (found =? 1) eqn:Ef; [| rewrite Ef; reflexivity].
  destruct ((if replaying c1
             then fallible_resolve_collision get_seconds fuel key znode n nm
             else resolve_collision get_seconds fuel key znode n nm) c1)
    as [[[[found2 znode2] n2] | e | |] c2]; try reflexivity.
  destruct ((if needs_dirtying c2 znode2
             then dirty_cow_bottom_up ubifs_add_dirt rb_insert_color fuel znode2
             else fun c => (Val znode2, c)) c2)
    as [[znode3 | e | |] c3]; reflexivity.
Qed.

Lemma inv_pres_ubifs_tnc_add_nm_lookup (fuel : nat) (key : ubifs_key) (nm : qstr) :
  inv_pres (ubifs_tnc_add_nm_lookup ubifs_add_dirt get_seconds rb_insert_color fuel key nm).
Proof.
  pose proof (inv_pres_lookup_level0_dirty (ext_t := ext_t) ubifs_add_dirt get_seconds
                rb_insert_color).
  pose proof (inv_pres_resolve_collision (ext_t := ext_t) get_seconds).
  pose proof (inv_pres_fallible_resolve_collision (ext_t := ext_t) get_seconds).
  pose proof (inv_pres_dirty_cow_bottom_up (ext_t := ext_t) ubifs_add_dirt rb_insert_color).
  unfold ubifs_tnc_add_nm_lookup. inv_auto.
Qed.

(** [ubifs_tnc_add_nm] keeps the znodes in order when every pass of its
    insertion goes well. *)
Lemma keys_inv_ubifs_tnc_add_nm (fuel : nat) (key : ubifs_key) (lnum offs len : Z) (nm : qstr) c :
  keys_inv c ->
  Forall pass_fits
    (ubifs_tnc_add_nm_passes ubifs_add_dirt get_seconds rb_insert_color fuel key lnum offs len
       nm c) ->
  keys_inv
    (ubifs_tnc_add_nm ubifs_add_dirt get_seconds rb_insert_color fuel key lnum offs len nm c).2.
Proof.
  intros H HF. rewrite ubifs_tnc_add_nm_lookup_eq. unfold ubifs_tnc_add_nm_passes in HF.
  pose proof (inv_pres_ubifs_tnc_add_nm_lookup fuel key nm c H) as H1.
  unfold bind at 1.
  destruct (ubifs_tnc_add_nm_lookup ubifs_add_dirt get_seconds rb_insert_color fuel key nm c)
    as [[[[found znode] n] | e | |] c1]; cbn [snd] in *; try exact H1.
  destruct (found =? 1).
  - revert c1 H1 HF. intros c1 H1 _. revert c1 H1.
    change (inv_pres (let* err := replace_zbranch ubifs_add_dirt (ZSlot znode n) lnum offs len in
                      check (ext_t := ext_t) err)).
    pose proof (inv_pres_replace_zbranch (ext_t := ext_t) ubifs_add_dirt).
    inv_auto.
  - apply keys_inv_tnc_insert_loop; assumption.
Qed.

End Order.

(** ** The order of the keys: what the operations keep *)

Section OrderKept.

Context {ext_t : Type}.
Implicit Types c : ubifs_info ext_t.

Variable ubifs_add_dirt : ext_t -> Z -> Z -> Z * ext_t.
Variable get_seconds : Z.
Variable rb_insert_color : forall A : Type, rb_tree A -> rb_tree A.

Lemma inv_pres_ubifs_tnc_lookup (fuel : nat) (key : ubifs_key) :
  inv_pres (ubifs_tnc_lookup (ext_t := ext_t) get_seconds fuel key).
Proof.
  pose proof (inv_pres_lookup_level0 (ext_t := ext_t) get_seconds).
  pose proof (inv_pres_tnc_read_node_at (ext_t := ext_t)).
  unfold ubifs_tnc_lookup. inv_auto.
Qed.

Lemma inv_pres_do_lookup_nm (fuel : nat) (key : ubifs_key) (nm : qstr) :
  inv_pres (do_lookup_nm (ext_t := ext_t) get_seconds fuel key nm).
Proof.
  pose proof (inv_pres_lookup_level0 (ext_t := ext_t) get_seconds).
  pose proof (inv_pres_resolve_collision (ext_t := ext_t) get_seconds).
  unfold do_lookup_nm. inv_auto.
Qed.

Lemma inv_pres_ubifs_tnc_lookup_nm (fuel : nat) (key : ubifs_key) (nm : qstr) :
  inv_pres (ubifs_tnc_lookup_nm (ext_t := ext_t) get_seconds fuel key nm).
Proof.
  pose proof inv_pres_ubifs_tnc_lookup. pose proof inv_pres_do_lookup_nm.
  unfold ubifs_tnc_lookup_nm. inv_auto.
Qed.

(** [read_znode] checks the order: when an index node was read, either
    the znode is accepted, and then its keys are in order (no key is
    less than the one before, and two neighbours are equal only when
    hashed) and it has no more than [fanout] children, or the function
    returns [-EINVAL]. *)
Theorem read_znode_accepts_in_order c (lnum offs len : Z) (z0 : ubifs_znode) (nd : media_node) :
  ubifs_read_node c UBIFS_IDX_NODE len lnum offs = inr nd ->
  ((read_znode c lnum offs len z0).1 = 0
   /\ keys_ordered (read_znode c lnum offs len z0).2
   /\ zn_child_cnt (read_znode c lnum offs len z0).2 <= fanout (c_cfg c))
  \/ (read_znode c lnum offs len z0).1 = - EINVAL.
Proof.
  intros Hnd.
  destruct (proj1 (read_znode_ok c lnum offs len z0) nd Hnd) as [[H0 | H0] H1].
  - left. split; [exact H0 |]. destruct (H1 H0) as (Ho & Hc & _). auto.
  - right. exact H0.
Qed.

(** The lookups keep the znodes in order, although they load znodes,
    copy znodes that are being committed and fill the cache of leaf
    nodes. *)
Theorem lookups_keep_order (fuel : nat) (key : ubifs_key) (nm : qstr) c :
  keys_inv c ->
  keys_inv (lookup_level0 get_seconds fuel key c).2
  /\ keys_inv (lookup_level0_dirty ubifs_add_dirt get_seconds rb_insert_color fuel key c).2
  /\ keys_inv (ubifs_tnc_lookup get_seconds fuel key c).2
  /\ keys_inv (ubifs_tnc_lookup_nm get_seconds fuel key nm c).2
  /\ keys_inv (ubifs_tnc_next_ent get_seconds fuel key nm c).2.
Proof.
  intros H.
  split; [apply inv_pres_lookup_level0, H |].
  split; [apply inv_pres_lookup_level0_dirty, H |].
  split; [apply inv_pres_ubifs_tnc_lookup, H |].
  split; [apply inv_pres_ubifs_tnc_lookup_nm, H | apply inv_pres_ubifs_tnc_next_ent, H].
Qed.

(** [load_znode] and [dirty_cow_znode] keep the znodes in order. *)
Theorem load_and_cow_keep_order (zbr : zbr_ref) (parent : option nat) (iip : Z) c :
  keys_inv c ->
  keys_inv (load_znode get_seconds zbr parent iip c).2
  /\ keys_inv (dirty_cow_znode ubifs_add_dirt rb_insert_color zbr c).2.
Proof.
  intros H. split; [apply inv_pres_load_znode, H | apply inv_pres_dirty_cow_znode, H].
Qed.

(** [tnc_delete] keeps the znodes in order, whatever the znode and the
    slot. *)
Theorem tnc_delete_keeps_order (fuel : nat) (znode : nat) (n : Z) c :
  keys_inv c ->
  keys_inv (tnc_delete ubifs_add_dirt get_seconds rb_insert_color fuel znode n c).2.
Proof. apply inv_pres_tnc_delete. Qed.

(** [ubifs_tnc_remove] and [ubifs_tnc_remove_nm] keep the znodes in
    order. *)
Theorem ubifs_tnc_remove_keeps_order (fuel : nat) (key : ubifs_key) (nm : qstr) c :
  keys_inv c ->
  keys_inv (ubifs_tnc_remove ubifs_add_dirt get_seconds rb_insert_color fuel key c).2
  /\ keys_inv (ubifs_tnc_remove_nm ubifs_add_dirt get_seconds rb_insert_color fuel key nm c).2.
Proof.
  intros H. split; [apply inv_pres_ubifs_tnc_remove, H | apply inv_pres_ubifs_tnc_remove_nm, H].
Qed.

(** [ubifs_tnc_remove_range], which takes several branches out of a
    znode at once, and [ubifs_tnc_remove_ino] keep the znodes in
    order. *)
Theorem ubifs_tnc_remove_range_keeps_order (fuel : nat) (from_key to_key : ubifs_key) (inum : Z) c :
  keys_inv c ->
  keys_inv (ubifs_tnc_remove_range ubifs_add_dirt get_seconds rb_insert_color fuel from_key
              to_key c).2
  /\ keys_inv (ubifs_tnc_remove_ino ubifs_add_dirt get_seconds rb_insert_color fuel inum c).2.
Proof.
  intros H.
  split; [apply inv_pres_ubifs_tnc_remove_range, H | apply inv_pres_ubifs_tnc_remove_ino, H].
Qed.

(** [ubifs_tnc_replace] keeps the znodes in order. *)
Theorem ubifs_tnc_replace_keeps_order (fuel : nat) (key : ubifs_key) (old_lnum old_offs lnum offs len : Z) c :
  keys_inv c ->
  keys_inv (ubifs_tnc_replace ubifs_add_dirt get_seconds rb_insert_color fuel key old_lnum
              old_offs lnum offs len c).2.
Proof. apply inv_pres_ubifs_tnc_replace. Qed.

(** [tnc_insert] keeps the znodes in order when on every pass (the
    znode it is called for, and after a split the parent that gets the
    new sibling) the znode is there with its [fanout] slots and the key
    of the new branch fits between the keys of its neighbours. *)
Theorem tnc_insert_keeps_order (fuel : nat) (znode : nat) (zbr : ubifs_zbranch) (n : Z) c :
  keys_inv c ->
  Forall pass_fits (tnc_insert_passes rb_insert_color fuel fuel znode zbr n false c) ->
  keys_inv (tnc_insert rb_insert_color fuel znode zbr n c).2.
Proof. intros H HF. apply keys_inv_tnc_insert_loop; assumption. Qed.

(** [ubifs_tnc_add] and [ubifs_tnc_add_nm] keep the znodes in order
    when every pass of the insertion they make fits; they make none
    when they find the key and replace its branch. *)
Theorem ubifs_tnc_add_keeps_order (fuel : nat) (key : ubifs_key) (lnum offs len : Z) (nm : qstr) c :
  keys_inv c ->
  (Forall pass_fits
     (ubifs_tnc_add_passes ubifs_add_dirt get_seconds rb_insert_color fuel key lnum offs len c) ->
   keys_inv (ubifs_tnc_add ubifs_add_dirt get_seconds rb_insert_color fuel key lnum offs len
               c).2)
  /\ (Forall pass_fits
        (ubifs_tnc_add_nm_passes ubifs_add_dirt get_seconds rb_insert_color fuel key lnum offs
           len nm c) ->
      keys_inv (ubifs_tnc_add_nm ubifs_add_dirt get_seconds rb_insert_color fuel key lnum offs
                  len nm c).2).
Proof.
  intros H. split; intros HF;
    [apply keys_inv_ubifs_tnc_add; assumption | apply keys_inv_ubifs_tnc_add_nm; assumption].
Qed.


End OrderKept.

Lemma read_znode_accepts_in_order_witness :
  ((read_znode order_c0 12 0 120 (new_znode order_c0)).1 = 0
   /\ keys_ordered (read_znode order_c0 12 0 120 (new_znode order_c0)).2
   /\ zn_child_cnt (read_znode order_c0 12 0 120 (new_znode order_c0)).2
      <= fanout (c_cfg order_c0))
  \/ (read_znode order_c0 12 0 120 (new_znode order_c0)).1 = - EINVAL.
Proof.
  apply (read_znode_accepts_in_order order_c0 12 0 120 (new_znode order_c0)
           (OnFlashIdx order_idx0)).
  vm_compute. reflexivity.
Defined.

Lemma lookups_keep_order_witness :
  keys_inv (lookup_level0 0 20 (dk 5) probe_c0).2
  /\ keys_inv (lookup_level0_dirty add_dirt0 0 no_rebalance 20 (dk 5) probe_c0).2
  /\ keys_inv (ubifs_tnc_lookup 0 20 (dk 5) probe_c0).2
  /\ keys_inv (ubifs_tnc_lookup_nm 0 20 (dk 5) (qstr_of "a") probe_c0).2
  /\ keys_inv (ubifs_tnc_next_ent 0 20 (dk 5) (qstr_of "a") probe_c0).2.
Proof.
  apply (lookups_keep_order add_dirt0 0 no_rebalance 20 (dk 5) (qstr_of "a") probe_c0).
  apply keys_inv_b_spec. vm_compute. reflexivity.
Defined.

Lemma load_and_cow_keep_order_witness :
  keys_inv (load_znode 0 (ZSlot 0 0) (Some 0%nat) 0 order_c0).2
  /\ keys_inv (dirty_cow_znode add_dirt0 no_rebalance (ZSlot 0 0) order_c0).2.
Proof.
  apply (load_and_cow_keep_order add_dirt0 0 no_rebalance (ZSlot 0 0) (Some 0%nat) 0 order_c0).
  apply keys_inv_b_spec. vm_compute. reflexivity.
Defined.

Lemma tnc_delete_keeps_order_witness :
  keys_inv (tnc_delete add_dirt0 0 no_rebalance 20 4%nat 1 split_c0).2.
Proof.
  apply (tnc_delete_keeps_order add_dirt0 0 no_rebalance 20 4%nat 1 split_c0).
  apply keys_inv_b_spec. vm_compute. reflexivity.
Defined.

Lemma ubifs_tnc_remove_keeps_order_witness :
  keys_inv (ubifs_tnc_remove add_dirt0 0 no_rebalance 20 (dk 5) probe_c0).2
  /\ keys_inv (ubifs_tnc_remove_nm add_dirt0 0 no_rebalance 20 (dk 5) (qstr_of "a") probe_c0).2.
Proof.
  apply (ubifs_tnc_remove_keeps_order add_dirt0 0 no_rebalance 20 (dk 5) (qstr_of "a") probe_c0).
  apply keys_inv_b_spec. vm_compute. reflexivity.
Defined.

Lemma ubifs_tnc_remove_range_keeps_order_witness :
  keys_inv (ubifs_tnc_remove_range add_dirt0 0 no_rebalance 20 (data_key_init 7 1)
              (data_key_init 7 3) split_c0).2
  /\ keys_inv (ubifs_tnc_remove_ino add_dirt0 0 no_rebalance 20 7 split_c0).2.
Proof.
  apply (ubifs_tnc_remove_range_keeps_order add_dirt0 0 no_rebalance 20 (data_key_init 7 1)
           (data_key_init 7 3) 7 split_c0).
  apply keys_inv_b_spec. vm_compute. reflexivity.
Defined.

Lemma ubifs_tnc_replace_keeps_order_witness :
  keys_inv (ubifs_tnc_replace add_dirt0 0 no_rebalance 20 (data_key_init 7 1) 12 4144 14 0
              4144 split_c0).2.
Proof.
  apply (ubifs_tnc_replace_keeps_order add_dirt0 0 no_rebalance 20 (data_key_init 7 1) 12 4144
           14 0 4144 split_c0).
  apply keys_inv_b_spec. vm_compute. reflexivity.
Defined.

(** The insertion of block 4 of inode 7 into the full leaf 4 of
    [split_c0]: the leaf and the full root are split, the key fits on
    both passes. *)
Lemma tnc_insert_keeps_order_witness :
  keys_inv (tnc_insert no_rebalance 20 4%nat split_zbr0 4 split_c0).2.
Proof.
  apply (tnc_insert_keeps_order no_rebalance 20 4%nat split_zbr0 4 split_c0).
  - apply keys_inv_b_spec. vm_compute. reflexivity.
  - apply pass_fits_b_spec. vm_compute. reflexivity.
Defined.

Lemma ubifs_tnc_add_keeps_order_witness :
  keys_inv (ubifs_tnc_add add_dirt0 0 no_rebalance 20 (data_key_init 7 4) 12 16576 4144
              split_c0).2
  /\ keys_inv (ubifs_tnc_add_nm add_dirt0 0 no_rebalance 20 (dk 4) 12 256 64 (qstr_of "a")
                 probe_c0).2.
Proof.
  split.
  - refine (proj1 (ubifs_tnc_add_keeps_order add_dirt0 0 no_rebalance 20 (data_key_init 7 4) 12
                     16576 4144 (qstr_of "a") split_c0 _) _).
    + apply keys_inv_b_spec. vm_compute. reflexivity.
    + apply pass_fits_b_spec. vm_compute. reflexivity.
  - refine (proj2 (ubifs_tnc_add_keeps_order add_dirt0 0 no_rebalance 20 (dk 4) 12 256 64
                     (qstr_of "a") probe_c0 _) _).
    + apply keys_inv_b_spec. vm_compute. reflexivity.
    + apply pass_fits_b_spec. vm_compute. reflexivity.
Defined.

(** The condition on the passes is needed.  In [order_c0] every znode
    is in order, and the index node of the first child of the root
    passes the tests of [read_znode]; [ubifs_tnc_add] of the key of
    inode 15 loads that child, splits it and puts the key of inode 31
    between the keys 10 and 20 of the root: on the second pass the key
    does not fit. *)
Example ubifs_tnc_add_unfit_pass :
  keys_inv order_c0
  /\ (read_znode order_c0 12 0 120 (new_znode order_c0)).1 = 0
  /\ (ubifs_tnc_add add_dirt0 0 no_rebalance 20 (ino_key_init 15) 13 640 160 order_c0).1
     = Val tt
  /\ (pass_fits_b <$> ubifs_tnc_add_passes add_dirt0 0 no_rebalance 20 (ino_key_init 15) 13
                        640 160 order_c0)
     = [true; false]
  /\ (zbr_key <$> take 3 (zn_zbranch (deref order_c1 0%nat)))
     = [ino_key_init 10; ino_key_init 31; ino_key_init 20]
  /\ ~ keys_inv order_c1.
Proof.
  split; [apply keys_inv_b_spec; vm_compute; reflexivity |].
  split; [vm_compute; reflexivity |].
  split; [vm_compute; reflexivity |].
  split; [vm_compute; reflexivity |].
  split; [vm_compute; reflexivity |].
  intros Hinv. pose proof (keys_inv_deref 0%nat order_c1 Hinv) as [_ Ho].
  assert (Hc : zn_child_cnt (deref order_c1 0%nat) = 3) by (vm_compute; reflexivity).
  specialize (Ho 1 ltac:(lia) ltac:(rewrite Hc; lia)).
  assert (H1 : zbr_key (zbranch_at (deref order_c1 0%nat) 1) = ino_key_init 31)
    by (vm_compute; reflexivity).
  assert (H2 : zbr_key (zbranch_at (deref order_c1 0%nat) (1 + 1)) = ino_key_init 20)
    by (vm_compute; reflexivity).
  rewrite H1, H2 in Ho. destruct Ho as [Ho | [Ho _]]; vm_compute in Ho; discriminate Ho.
Qed.



(** ** The location of a node and the questions of the garbage
    collector *)

Section Locate.

Context {ext_t : Type}.
Implicit Types c : ubifs_info ext_t.

Variable ubifs_add_dirt : ext_t -> Z -> Z -> Z * ext_t.
Variable get_seconds : Z.
Variable rb_insert_color : forall A : Type, rb_tree A -> rb_tree A.

(** [ubifs_tnc_locate] is [ubifs_tnc_lookup] with the position: without
    the position it is the same computation, and the position it
    returns is the one of the zbranch that [lookup_level0] found. *)
Theorem ubifs_tnc_locate_lookup (fuel : nat) (key : ubifs_key) c :
  (let* r := ubifs_tnc_locate get_seconds fuel key in ret r.1.1) c
  = ubifs_tnc_lookup get_seconds fuel key c
  /\ forall node lnum offs c2,
       ubifs_tnc_locate get_seconds fuel key c = (Val (node, lnum, offs), c2) ->
       exists found znode n c1,
         lookup_level0 get_seconds fuel key c = (Val (found, znode, n), c1)
         /\ found <> 0
         /\ lnum = zbr_lnum (zbranch_at (deref c1 znode) n)
         /\ offs = zbr_offs (zbranch_at (deref c1 znode) n).
Proof.
  unfold ubifs_tnc_locate, ubifs_tnc_lookup. split.
  - rewrite bind_assoc. apply bind_ext. intros [[found znode] n] c1.
    destruct (found =? 0); [reflexivity |].
    destruct (is_hash_key key).
    + unfold bind, get. destruct (tnc_read_node_at (ZSlot znode n) c1) as [[node | e | |] c2];
        reflexivity.
    + unfold bind, get.
      destruct (tnc_read_node c1 (zbranch_at (deref c1 znode) n)) as [e | [node z]];
        reflexivity.
  - intros node lnum offs c2 H.
    apply bind_inv in H as ([[found znode] n] & c1 & H1 & H).
    exists found, znode, n, c1. split; [exact H1 |].
    destruct (Z.eqb_spec found 0) as [-> | Hf]; [discriminate H |].
    split; [exact Hf |].
    destruct (is_hash_key key).
    + rewrite bind_get in H. apply bind_inv in H as (nd & c3 & _ & H).
      injection H as _ <- <- _. auto.
    + rewrite bind_get in H.
      destruct (tnc_read_node c1 (zbranch_at (deref c1 znode) n)) as [e | [nd z]];
        [discriminate H |].
      injection H as _ <- <- _. auto.
Qed.

Lemma inv_pres_ubifs_tnc_locate (fuel : nat) (key : ubifs_key) :
  inv_pres (ubifs_tnc_locate (ext_t := ext_t) get_seconds fuel key).
Proof.
  pose proof (inv_pres_lookup_level0 (ext_t := ext_t) get_seconds).
  pose proof (inv_pres_tnc_read_node_at (ext_t := ext_t)).
  unfold ubifs_tnc_locate. inv_auto.
Qed.

Lemma inv_pres_left_znode_down (k : nat) (level : Z) :
  forall znode, inv_pres (left_znode_down (ext_t := ext_t) get_seconds k znode level).
Proof.
  pose proof (inv_pres_get_znode (ext_t := ext_t) get_seconds).
  induction k as [| k IH]; intros znode; cbn [left_znode_down]; inv_auto.
Qed.

Lemma inv_pres_left_znode_up (k fuel : nat) (level : Z) :
  forall znode, inv_pres (left_znode_up (ext_t := ext_t) get_seconds k fuel znode level).
Proof.
  pose proof (inv_pres_get_znode (ext_t := ext_t) get_seconds).
  pose proof inv_pres_left_znode_down.
  induction k as [| k IH]; intros znode; cbn [left_znode_up]; inv_auto.
Qed.

Lemma inv_pres_left_znode (fuel : nat) (znode : nat) :
  inv_pres (left_znode (ext_t := ext_t) get_seconds fuel znode).
Proof. pose proof inv_pres_left_znode_up. unfold left_znode. inv_auto. Qed.

Lemma inv_pres_right_znode_down (k : nat) (level : Z) :
  forall znode, inv_pres (right_znode_down (ext_t := ext_t) get_seconds k znode level).
Proof.
  pose proof (inv_pres_get_znode (ext_t := ext_t) get_seconds).
  induction k as [| k IH]; intros znode; cbn [right_znode_down]; inv_auto.
Qed.

Lemma inv_pres_right_znode_up (k fuel : nat) (level : Z) :
  forall znode, inv_pres (right_znode_up (ext_t := ext_t) get_seconds k fuel znode level).
Proof.
  pose proof (inv_pres_get_znode (ext_t := ext_t) get_seconds).
  pose proof inv_pres_right_znode_down.
  induction k as [| k IH]; intros znode; cbn [right_znode_up]; inv_auto.
Qed.

Lemma inv_pres_right_znode (fuel : nat) (znode : nat) :
  inv_pres (right_znode (ext_t := ext_t) get_seconds fuel znode).
Proof. pose proof inv_pres_right_znode_up. unfold right_znode. inv_auto. Qed.

Lemma inv_pres_lookup_znode_descend (k fuel : nat) (key : ubifs_key) (level : Z) :
  forall znode,
    inv_pres (lookup_znode_descend (ext_t := ext_t) get_seconds k fuel key level znode).
Proof.
  pose proof (inv_pres_get_znode (ext_t := ext_t) get_seconds).
  pose proof inv_pres_left_znode.
  induction k as [| k IH]; intros znode; cbn [lookup_znode_descend]; inv_auto.
Qed.

Lemma inv_pres_lookup_znode_left (k fuel : nat) (key : ubifs_key) (lnum offs : Z) :
  forall znode n,
    inv_pres (lookup_znode_left (ext_t := ext_t) get_seconds k fuel key lnum offs znode n).
Proof.
  pose proof (inv_pres_get_znode (ext_t := ext_t) get_seconds).
  pose proof inv_pres_left_znode.
  induction k as [| k IH]; intros znode n; cbn [lookup_znode_left]; inv_auto.
Qed.

Lemma inv_pres_lookup_znode_right (k fuel : nat) (key : ubifs_key) (lnum offs : Z) :
  forall znode n,
    inv_pres (lookup_znode_right (ext_t := ext_t) get_seconds k fuel key lnum offs znode n).
Proof.
  pose proof (inv_pres_get_znode (ext_t := ext_t) get_seconds).
  pose proof inv_pres_right_znode.
  induction k as [| k IH]; intros znode n; cbn [lookup_znode_right]; inv_auto.
Qed.

Lemma inv_pres_lookup_znode (fuel : nat) (key : ubifs_key) (level lnum offs : Z) :
  inv_pres (lookup_znode (ext_t := ext_t) get_seconds fuel key level lnum offs).
Proof.
  pose proof (inv_pres_get_znode (ext_t := ext_t) get_seconds).
  pose proof (inv_pres_load_znode (ext_t := ext_t) get_seconds).
  pose proof inv_pres_lookup_znode_descend.
  pose proof inv_pres_lookup_znode_left. pose proof inv_pres_lookup_znode_right.
  unfold lookup_znode. inv_auto.
Qed.

Lemma inv_pres_is_leaf_node_in_tnc_left (k fuel : nat) (key : ubifs_key) (lnum offs : Z) :
  forall znode n,
    inv_pres (is_leaf_node_in_tnc_left (ext_t := ext_t) get_seconds k fuel key lnum offs
                znode n).
Proof.
  pose proof (inv_pres_tnc_prev (ext_t := ext_t) get_seconds).
  induction k as [| k IH]; intros znode n; cbn [is_leaf_node_in_tnc_left]; inv_auto.
Qed.

Lemma inv_pres_is_leaf_node_in_tnc_right (k fuel : nat) (key : ubifs_key) (lnum offs : Z) :
  forall znode n,
    inv_pres (is_leaf_node_in_tnc_right (ext_t := ext_t) get_seconds k fuel key lnum offs
                znode n).
Proof.
  pose proof (inv_pres_tnc_next (ext_t := ext_t) get_seconds).
  induction k as [| k IH]; intros znode n; cbn [is_leaf_node_in_tnc_right]; inv_auto.
Qed.

Lemma inv_pres_is_leaf_node_in_tnc (fuel : nat) (key : ubifs_key) (lnum offs : Z) :
  inv_pres (is_leaf_node_in_tnc (ext_t := ext_t) get_seconds fuel key lnum offs).
Proof.
  pose proof (inv_pres_lookup_level0 (ext_t := ext_t) get_seconds).
  pose proof inv_pres_is_leaf_node_in_tnc_left.
  pose proof inv_pres_is_leaf_node_in_tnc_right.
  unfold is_leaf_node_in_tnc. inv_auto.
Qed.

Lemma inv_pres_ubifs_tnc_has_node (fuel : nat) (key : ubifs_key) (level lnum offs : Z) (is_idx : bool) :
  inv_pres (ubifs_tnc_has_node (ext_t := ext_t) get_seconds fuel key level lnum offs is_idx).
Proof.
  pose proof inv_pres_lookup_znode. pose proof inv_pres_is_leaf_node_in_tnc.
  unfold ubifs_tnc_has_node, is_idx_node_in_tnc. inv_auto.
Qed.

Lemma inv_pres_ubifs_dirty_idx_node (fuel : nat) (key : ubifs_key) (level lnum offs : Z) :
  inv_pres (ubifs_dirty_idx_node (ext_t := ext_t) ubifs_add_dirt get_seconds rb_insert_color
              fuel key level lnum offs).
Proof.
  pose proof inv_pres_lookup_znode.
  pose proof (inv_pres_dirty_cow_bottom_up (ext_t := ext_t) ubifs_add_dirt rb_insert_color).
  unfold ubifs_dirty_idx_node. inv_auto.
Qed.

(** The questions of the garbage collector and [ubifs_tnc_locate] keep
    the znodes in order. *)
Theorem gc_queries_keep_order (fuel : nat) (key : ubifs_key) (level lnum offs : Z) (is_idx : bool) c :
  keys_inv c ->
  keys_inv (ubifs_tnc_locate get_seconds fuel key c).2
  /\ keys_inv (lookup_znode get_seconds fuel key level lnum offs c).2
  /\ keys_inv (ubifs_tnc_has_node get_seconds fuel key level lnum offs is_idx c).2
  /\ keys_inv (ubifs_dirty_idx_node ubifs_add_dirt get_seconds rb_insert_color fuel key level
                 lnum offs c).2.
Proof.
  intros H.
  split; [apply inv_pres_ubifs_tnc_locate, H |].
  split; [apply inv_pres_lookup_znode, H |].
  split; [apply inv_pres_ubifs_tnc_has_node, H | apply inv_pres_ubifs_dirty_idx_node, H].
Qed.

Lemma is_leaf_node_in_tnc_right_bool (k fuel : nat) (key : ubifs_key) (lnum offs : Z) :
  forall znode n r c c',
    is_leaf_node_in_tnc_right get_seconds k fuel key lnum offs znode n c = (Val r, c') ->
    r = 0 \/ r = 1.
Proof.
  induction k as [| k IH]; intros znode n r c c'; cbn [is_leaf_node_in_tnc_right];
    [discriminate |].
  intros H. apply bind_inv in H as ([e | [zn nn]] & c1 & _ & H).
  - destruct (e =? - ENOENT); [injection H as <- _; auto | discriminate H].
  - rewrite bind_get in H. cbv zeta in H.
    destruct (negb _); [injection H as <- _; auto |].
    destruct (_ && _); [injection H as <- _; auto |].
    apply IH in H. exact H.
Qed.

(** [ubifs_tnc_has_node] answers 0 or 1.  For an index node the answer
    is 1 exactly when [lookup_znode] finds its znode and the znode is
    clean, and the [BUG_ON] of the function is reached only when
    [lookup_znode] itself fails that way. *)
Theorem ubifs_tnc_has_node_answer (fuel : nat) (key : ubifs_key) (level lnum offs : Z) (is_idx : bool) c :
  (forall r c',
     ubifs_tnc_has_node get_seconds fuel key level lnum offs is_idx c = (Val r, c') ->
     (r = 0 \/ r = 1)
     /\ (is_idx = true ->
         exists z, lookup_znode get_seconds fuel key level lnum offs c = (Val z, c')
                   /\ (r = 1 <-> exists zn, z = Some zn
                                            /\ ubifs_zn_dirty (deref c' zn) = false)))
  /\ ((ubifs_tnc_has_node get_seconds fuel key level lnum offs true c).1 = Oops ->
      (lookup_znode get_seconds fuel key level lnum offs c).1 = Oops).
Proof.
  split.
  - intros r c' H. unfold ubifs_tnc_has_node in H. destruct is_idx.
    + unfold is_idx_node_in_tnc in H.
      apply bind_inv in H as (e & c1 & H1 & H).
      apply bind_inv in H1 as (z & c2 & Hz & H1).
      destruct z as [zn |].
      * rewrite bind_get in H1. injection H1 as <- <-.
        destruct (ubifs_zn_dirty (deref c2 zn)) eqn:Ed; cbn in H; injection H as <- <-.
        -- split; [auto |]. intros _. exists (Some zn). split; [exact Hz |].
           split; [discriminate |]. intros (zn' & [= <-] & Hd). congruence.
        -- split; [auto |]. intros _. exists (Some zn). split; [exact Hz |].
           split; [intros _; exists zn; auto | reflexivity].
      * injection H1 as <- <-. cbn in H. injection H as <- <-.
        split; [auto |]. intros _. exists None. split; [exact Hz |].
        split; [discriminate | intros (zn' & [=] & _)].
    + split; [| discriminate]. unfold is_leaf_node_in_tnc in H.
      apply bind_inv in H as ([[found znode] n] & c1 & _ & H).
      destruct (found =? 0); [injection H as <- _; auto |].
      rewrite bind_get in H. cbv zeta in H.
      destruct (_ && _); [injection H as <- _; auto |].
      destruct (negb _); [injection H as <- _; auto |].
      apply bind_inv in H as (l & c2 & _ & H).
      destruct l; [injection H as <- _; auto |].
      apply is_leaf_node_in_tnc_right_bool in H. exact H.
  - unfold ubifs_tnc_has_node, is_idx_node_in_tnc. unfold bind, get, ret, oops.
    destruct (lookup_znode get_seconds fuel key level lnum offs c) as [[[zn |] | e | |] c1];
      cbn [fst snd]; try discriminate; try reflexivity.
    destruct (ubifs_zn_dirty (deref c1 zn)); cbn; discriminate.
Qed.

End Locate.

Lemma gc_queries_keep_order_witness :
  keys_inv (ubifs_tnc_locate 0 20 (data_key_init 7 0) split_c0).2
  /\ keys_inv (lookup_znode 0 20 (data_key_init 7 0) 0 12 0 split_c0).2
  /\ keys_inv (ubifs_tnc_has_node 0 20 (data_key_init 7 0) 0 12 0 false split_c0).2
  /\ keys_inv (ubifs_dirty_idx_node add_dirt0 0 no_rebalance 20 (data_key_init 7 0) 0 12 0
                 split_c0).2.
Proof.
  refine (gc_queries_keep_order add_dirt0 0 no_rebalance 20 _ 0 12 0 false split_c0 _).
  apply keys_inv_b_spec. vm_compute. reflexivity.
Defined.

(** The index node of the first child of the root of [order_c0] is
    found and loaded clean: the answer is 1. *)
Lemma ubifs_tnc_has_node_answer_witness :
  exists z,
    lookup_znode 0 20 (ino_key_init 10) 0 12 0 order_c0
    = (Val z, (ubifs_tnc_has_node 0 20 (ino_key_init 10) 0 12 0 true order_c0).2)
    /\ (1 = 1 <-> exists zn,
                    z = Some zn
                    /\ ubifs_zn_dirty
                         (deref (ubifs_tnc_has_node 0 20 (ino_key_init 10) 0 12 0 true
                                   order_c0).2 zn) = false).
Proof.
  refine (proj2 (proj1 (ubifs_tnc_has_node_answer 0 20 (ino_key_init 10) 0 12 0 true order_c0)
                   1 _ _) eq_refl).
  vm_compute. reflexivity.
Defined.

(** ** What [insert_zbranch] does to a znode *)

Section InsertSpec.

Context {ext_t : Type}.
Implicit Types c : ubifs_info ext_t.

(** The run of [insert_zbranch] on a znode with a free slot. *)
Lemma insert_zbranch_run (zi : nat) (z : ubifs_znode) (zbr : ubifs_zbranch) (n : Z) c :
  znodes c !! zi = Some z ->
  0 <= n <= zn_child_cnt z ->
  zn_child_cnt z < Z.of_nat (length (zn_zbranch z)) ->
  exists c',
    insert_zbranch zi zbr n c = (Val tt, c')
    /\ zn_child_cnt (deref c' zi) = zn_child_cnt z + 1
    /\ zn_level (deref c' zi) = zn_level z
    /\ (forall i, 0 <= i <= zn_child_cnt z ->
                  zbranch_at (deref c' zi) i = branches_with z zbr n i)
    /\ (forall q, q <> zi -> shape_of (deref c' q) = shape_of (deref c q)).
Proof.
  intros Hz Hn Hfree.
  pose proof (zshape_lookup _ _ _ Hz) as Hs. unfold shape_of in Hs.
  destruct (insert_zbranch_shape zi zbr n _ _ _ c Hs Hn)
    as (c' & l' & Hrun & _ & Hs' & Hlen & Hfr & Hl).
  exists c'. split; [exact Hrun |].
  destruct (zshape_deref _ _ _ _ _ Hs') as (Hb & Hk & Hlv).
  split; [exact Hk |]. split; [exact Hlv |]. split.
  - intros i Hi. rewrite zbranch_at_lbr, Hb, Hl. unfold branches_with.
    destruct (Z.ltb_spec i n), (Z.eqb_spec i n); repeat case_decide; try lia; reflexivity.
  - intros q Hq. apply zshape_eq_deref, Hfr, Hq.
Qed.

(** [insert_zbranch] into a znode with a free slot: the znode has one
    child more, its branches are the old ones with the new branch at the
    slot [n] (the branches from [n] on moved one slot to the right), its
    level is as before, and the arrays of branches, the numbers of
    children and the levels of the other znodes are as before. *)
Theorem insert_zbranch_spec (zi : nat) (z : ubifs_znode) (zbr : ubifs_zbranch) (n : Z) c :
  znodes c !! zi = Some z ->
  0 <= n <= zn_child_cnt z ->
  zn_child_cnt z < Z.of_nat (length (zn_zbranch z)) ->
  exists c',
    insert_zbranch zi zbr n c = (Val tt, c')
    /\ zn_child_cnt (deref c' zi) = zn_child_cnt z + 1
    /\ zn_level (deref c' zi) = zn_level z
    /\ (forall i, 0 <= i <= zn_child_cnt z ->
                  zbranch_at (deref c' zi) i = branches_with z zbr n i)
    /\ (forall q, q <> zi -> shape_of (deref c' q) = shape_of (deref c q)).
Proof. apply insert_zbranch_run. Qed.

End InsertSpec.

(** The key of inode 4 goes into the slot 1 of the leaf 2 of
    [split_c0], between the keys of the inodes 3 and 4. *)
Lemma insert_zbranch_spec_witness :
  exists c',
    insert_zbranch 2%nat (new_zbranch (data_key_init 3 0) 12 0 4144) 1 split_c0 = (Val tt, c')
    /\ zn_child_cnt (deref c' 2%nat) = 2 + 1
    /\ zn_level (deref c' 2%nat) = 0
    /\ (forall i, 0 <= i <= 2 ->
                  zbranch_at (deref c' 2%nat) i
                  = branches_with (deref split_c0 2%nat)
                      (new_zbranch (data_key_init 3 0) 12 0 4144) 1 i)
    /\ (forall q, q <> 2%nat -> shape_of (deref c' q) = shape_of (deref split_c0 q)).
Proof.
  refine (insert_zbranch_spec 2%nat (deref split_c0 2%nat)
            (new_zbranch (data_key_init 3 0) 12 0 4144) 1 split_c0 _ _ _).
  - vm_compute. reflexivity.
  - vm_compute. split; discriminate.
  - vm_compute. reflexivity.
Defined.

(** ** Reading leaf nodes *)

Section Reads.

Context {ext_t : Type}.
Implicit Types c : ubifs_info ext_t.

Lemma try_read_node_present c (type len lnum offs : Z) (buf : option ubifs_dent_node) :
  (forall err, media c !! (lnum, offs) = Some (IoError err) -> err < 0) ->
  try_read_node c type len lnum offs = (1, buf) ->
  exists dent,
    buf = Some dent
    /\ media c !! (lnum, offs) = Some (Stored (OnFlashLeaf dent))
    /\ ch_magic (d_ch dent) = UBIFS_NODE_MAGIC
    /\ ch_node_type (d_ch dent) = type
    /\ ch_len (d_ch dent) = len
    /\ ch_crc_ok (d_ch dent) = true.
Proof.
  intros Hio. unfold try_read_node.
  destruct (media c !! (lnum, offs)) as [[err | [idx | dent]] |] eqn:E; try discriminate.
  - intros [= H _]. specialize (Hio err eq_refl). lia.
  - destruct (Z.eqb_spec (ch_magic (d_ch dent)) UBIFS_NODE_MAGIC) as [H1 | H1];
      cbn [negb]; [| discriminate].
    destruct (Z.eqb_spec (ch_node_type (d_ch dent)) type) as [H2 | H2];
      cbn [negb]; [| discriminate].
    destruct (Z.eqb_spec (ch_len (d_ch dent)) len) as [H3 | H3]; cbn [negb]; [| discriminate].
    destruct (ch_crc_ok (d_ch dent)) eqn:H4; cbn [negb]; [| discriminate].
    intros [= <-]. exists dent. auto 10.
Qed.

(** [fallible_read_node] says that the node is there (1) only when the
    branch has no cached node and the media holds, at the position of
    the branch, a node with the magic number, the type of the key, the
    length of the branch and a good CRC, whose key is the key looked
    for and whose sequence number is not beyond the replay; in every
    other case the branch is left as it was; the key and the position of
    the branch never change. *)
Theorem fallible_read_node_spec c (key : ubifs_key) (zbr zbr' : ubifs_zbranch) (r : Z) (buf : option ubifs_dent_node) :
  (forall err, media c !! (zbr_lnum zbr, zbr_offs zbr) = Some (IoError err) -> err < 0) ->
  fallible_read_node c key zbr = (r, buf, zbr') ->
  (r = 1 ->
   zbr_leaf zbr = None
   /\ exists dent,
        buf = Some dent
        /\ media c !! (zbr_lnum zbr, zbr_offs zbr) = Some (Stored (OnFlashLeaf dent))
        /\ ch_magic (d_ch dent) = UBIFS_NODE_MAGIC
        /\ ch_node_type (d_ch dent) = key_type key
        /\ ch_len (d_ch dent) = zbr_len zbr
        /\ ch_crc_ok (d_ch dent) = true
        /\ d_key dent = key
        /\ ch_sqnum (d_ch dent) <= replay_sqnum c)
  /\ (r <> 1 -> zbr' = zbr)
  /\ zbr_key zbr' = zbr_key zbr
  /\ zbr_lnum zbr' = zbr_lnum zbr /\ zbr_offs zbr' = zbr_offs zbr /\ zbr_len zbr' = zbr_len zbr.
Proof.
  intros Hio. unfold fallible_read_node, lnc_lookup.
  destruct (zbr_leaf zbr) as [node |] eqn:El.
  { intros [= <- _ <-]. split; [discriminate | auto 10]. }
  destruct (try_read_node c (key_type key) (zbr_len zbr) (zbr_lnum zbr) (zbr_offs zbr))
    as [e b] eqn:Et.
  destruct (Z.eqb_spec e 1) as [-> | He]; [| intros [= <- _ <-]; split; [contradiction | auto 10]].
  destruct (try_read_node_present _ _ _ _ _ _ Hio Et) as (dent & -> & Hm & H1 & H2 & H3 & H4).
  destruct (Z.eqb_spec (keys_cmp key (d_key dent)) 0) as [Hk | Hk];
    [| intros [= <- _ <-]; split; [discriminate | auto 10]].
  apply keys_cmp_eq in Hk.
  destruct (Z.ltb_spec (replay_sqnum c) (ch_sqnum (d_ch dent))) as [Hs | Hs];
    [intros [= <- _ <-]; split; [discriminate | auto 10] |].
  destruct (lnc_add zbr dent) as [err z1] eqn:Ea.
  assert (Hz1 : zbr_key z1 = zbr_key zbr /\ zbr_lnum z1 = zbr_lnum zbr
                /\ zbr_offs z1 = zbr_offs zbr /\ zbr_len z1 = zbr_len zbr).
  { unfold lnc_add in Ea. destruct (negb _); [injection Ea as _ <-; auto |].
    destruct (negb _); injection Ea as _ <-; auto. }
  destruct (negb (err =? 0)) eqn:Ee.
  - intros [= <- _ <-]. split; [| auto 10].
    intros Hr1. subst err. unfold lnc_add in Ea. destruct (negb (key_type (zbr_key zbr) =? UBIFS_DENT_KEY)).
    + injection Ea as Ea _. discriminate Ea.
    + destruct (negb (ubifs_validate_entry dent =? 0)) eqn:Ev.
      * injection Ea as Ea _. exfalso.
        unfold ubifs_validate_entry in Ea.
        destruct (_ || _) in Ea; [discriminate Ea |].
        destruct (_ && _) in Ea; discriminate Ea.
      * injection Ea as Ea _. discriminate Ea.
  - intros [= <- <- <-]. split; [| split; [contradiction | exact Hz1]].
    intros _. split; [reflexivity |]. exists dent. auto 10.
Qed.

(** [tnc_read_node] gives the cached node of the branch when there is
    one, without a look at the media.  Without a cached node it gives
    the node the media holds at the position of the branch, which has
    the magic number, the type of the key of the branch, the length of
    the branch and a good CRC; the node is cached only when its key is
    the key of the branch, that key is a directory entry key and the
    entry is valid. *)
Theorem tnc_read_node_spec c (zbr zbr' : ubifs_zbranch) (node : ubifs_dent_node) :
  tnc_read_node c zbr = inr (node, zbr') ->
  (zbr_leaf zbr = Some node /\ zbr' = zbr)
  \/ (zbr_leaf zbr = None
      /\ media c !! (zbr_lnum zbr, zbr_offs zbr) = Some (Stored (OnFlashLeaf node))
      /\ ch_magic (d_ch node) = UBIFS_NODE_MAGIC
      /\ ch_node_type (d_ch node) = key_type (zbr_key zbr)
      /\ ch_len (d_ch node) = zbr_len zbr
      /\ ch_crc_ok (d_ch node) = true
      /\ (zbr' = zbr
          \/ (zbr' = set_zbr_leaf (Some node) zbr
              /\ d_key node = zbr_key zbr
              /\ key_type (zbr_key zbr) = UBIFS_DENT_KEY
              /\ ubifs_validate_entry node = 0))).
Proof.
  unfold tnc_read_node, lnc_lookup.
  destruct (zbr_leaf zbr) as [cached |] eqn:El; [intros [= <- <-]; left; auto |].
  unfold ubifs_read_node.
  destruct (media c !! (zbr_lnum zbr, zbr_offs zbr)) as [[err | [idx | leaf]] |] eqn:E;
    try discriminate.
  - destruct (_ && _); discriminate.
  - cbn [node_ch].
    destruct (Z.eqb_spec (ch_magic (d_ch leaf)) UBIFS_NODE_MAGIC) as [H1 | H1];
      cbn [andb]; [| discriminate].
    destruct (Z.eqb_spec (ch_node_type (d_ch leaf)) (key_type (zbr_key zbr))) as [H2 | H2];
      cbn [andb]; [| discriminate].
    destruct (Z.eqb_spec (ch_len (d_ch leaf)) (zbr_len zbr)) as [H3 | H3];
      cbn [andb]; [| discriminate].
    destruct (ch_crc_ok (d_ch leaf)) eqn:H4; [| discriminate].
    destruct (bool_decide (d_key leaf = zbr_key zbr)) eqn:Ek; cbn [negb].
    + apply bool_decide_eq_true in Ek.
      unfold lnc_add.
      destruct (Z.eqb_spec (key_type (zbr_key zbr)) UBIFS_DENT_KEY) as [Ht | Ht]; cbn [negb].
      * destruct (Z.eqb_spec (ubifs_validate_entry leaf) 0) as [Hv | Hv]; cbn [negb].
        -- rewrite Z.eqb_refl. cbn [negb]. intros [= <- <-]. right. auto 12.
        -- destruct (Z.eqb_spec (ubifs_validate_entry leaf) 0); [contradiction |].
           cbn [negb]. discriminate.
      * rewrite Z.eqb_refl. cbn [negb]. intros [= <- <-]. right. auto 12.
    + intros [= <- <-]. right. auto 12.
Qed.

End Reads.

(** The extended attribute entry of [xent_c0], with sequence number 5,
    read during a replay that has reached the sequence number 10. *)
Lemma fallible_read_node_spec_witness :
  (1 = 1 ->
   zbr_leaf (new_zbranch xent_key0 12 0 63) = None
   /\ exists dent,
        Some xent_node0 = Some dent
        /\ media (set_replay_sqnum 10 xent_c0) !! (12, 0) = Some (Stored (OnFlashLeaf dent))
        /\ ch_magic (d_ch dent) = UBIFS_NODE_MAGIC
        /\ ch_node_type (d_ch dent) = key_type xent_key0
        /\ ch_len (d_ch dent) = 63
        /\ ch_crc_ok (d_ch dent) = true
        /\ d_key dent = xent_key0
        /\ ch_sqnum (d_ch dent) <= 10)
  /\ (1 <> 1 -> new_zbranch xent_key0 12 0 63 = new_zbranch xent_key0 12 0 63)
  /\ zbr_key (new_zbranch xent_key0 12 0 63) = xent_key0
  /\ zbr_lnum (new_zbranch xent_key0 12 0 63) = 12
  /\ zbr_offs (new_zbranch xent_key0 12 0 63) = 0
  /\ zbr_len (new_zbranch xent_key0 12 0 63) = 63.
Proof.
  refine (fallible_read_node_spec (set_replay_sqnum 10 xent_c0) xent_key0
            (new_zbranch xent_key0 12 0 63) (new_zbranch xent_key0 12 0 63) 1
            (Some xent_node0) _ _).
  - intros err H. vm_compute in H. discriminate H.
  - vm_compute. reflexivity.
Defined.

Lemma tnc_read_node_spec_witness :
  (zbr_leaf (new_zbranch xent_key0 12 0 63) = Some xent_node0
   /\ new_zbranch xent_key0 12 0 63 = new_zbranch xent_key0 12 0 63)
  \/ (zbr_leaf (new_zbranch xent_key0 12 0 63) = None
      /\ media xent_c0 !! (zbr_lnum (new_zbranch xent_key0 12 0 63),
                           zbr_offs (new_zbranch xent_key0 12 0 63))
         = Some (Stored (OnFlashLeaf xent_node0))
      /\ ch_magic (d_ch xent_node0) = UBIFS_NODE_MAGIC
      /\ ch_node_type (d_ch xent_node0) = key_type (zbr_key (new_zbranch xent_key0 12 0 63))
      /\ ch_len (d_ch xent_node0) = zbr_len (new_zbranch xent_key0 12 0 63)
      /\ ch_crc_ok (d_ch xent_node0) = true
      /\ (new_zbranch xent_key0 12 0 63 = new_zbranch xent_key0 12 0 63
          \/ (new_zbranch xent_key0 12 0 63
              = set_zbr_leaf (Some xent_node0) (new_zbranch xent_key0 12 0 63)
              /\ d_key xent_node0 = zbr_key (new_zbranch xent_key0 12 0 63)
              /\ key_type (zbr_key (new_zbranch xent_key0 12 0 63)) = UBIFS_DENT_KEY
              /\ ubifs_validate_entry xent_node0 = 0))).
Proof.
  refine (tnc_read_node_spec xent_c0 (new_zbranch xent_key0 12 0 63)
            (new_zbranch xent_key0 12 0 63) xent_node0 _).
  vm_compute. reflexivity.
Defined.

(** ** What [tnc_delete] does to a leaf *)

(** The loop that closes the gap, on the znode. *)
Lemma delete_shift_spec (n : Z) (m : nat) (z : ubifs_znode) :
  let z' := foldl (fun z i => zbranch_store i (zbranch_at z (i + 1)) z) z (seqZ n (Z.of_nat m)) in
  zn_child_cnt z' = zn_child_cnt z
  /\ length (zn_zbranch z') = length (zn_zbranch z)
  /\ zn_level z' = zn_level z
  /\ forall j, zbranch_at z' j
               = if decide (n <= j < n + Z.of_nat m
                            /\ 0 <= j < Z.of_nat (length (zn_zbranch z)))
                 then zbranch_at z (j + 1) else zbranch_at z j.
Proof.
  induction m as [| m IH]; cbv zeta.
  - cbn. split; [reflexivity |]. split; [reflexivity |]. split; [reflexivity |]. intros j.
    destruct (decide _) as [H |]; [lia | reflexivity].
  - rewrite seqZ_S, foldl_app. cbn [foldl].
    cbv zeta in IH. destruct IH as (IH1 & IH2 & IH0 & IH3).
    set (z1 := foldl (fun z i => zbranch_store i (zbranch_at z (i + 1)) z) z
                 (seqZ n (Z.of_nat m))) in *.
    rewrite zbranch_store_child_cnt, zbranch_store_length, zbranch_store_level.
    split; [exact IH1 |]. split; [exact IH2 |]. split; [exact IH0 |]. intros j.
    assert (Hr : zbranch_at z1 (n + Z.of_nat m + 1) = zbranch_at z (n + Z.of_nat m + 1)).
    { rewrite IH3. destruct (decide _) as [H |]; [lia | reflexivity]. }
    rewrite Hr.
    destruct (decide (n + Z.of_nat m = j)) as [<- | Hne].
    + destruct (decide (0 <= n + Z.of_nat m < Z.of_nat (length (zn_zbranch z))))
        as [Hin | Hout].
      * rewrite zbranch_at_store_eq by (rewrite IH2; exact Hin).
        destruct (decide _) as [| H]; [reflexivity | lia].
      * assert (Hd : zbranch_at (zbranch_store (n + Z.of_nat m)
                                   (zbranch_at z (n + Z.of_nat m + 1)) z1) (n + Z.of_nat m)
                     = zbranch_at z1 (n + Z.of_nat m)).
        { unfold zbranch_store, zbranch_at.
          destruct (Z.ltb_spec (n + Z.of_nat m) 0); [reflexivity |].
          cbn [zn_zbranch set_zn_zbranch]. rewrite list_insert_ge by lia. reflexivity. }
        rewrite Hd, IH3. repeat case_decide; try lia; reflexivity.
    + rewrite zbranch_at_store_ne by exact Hne. rewrite IH3.
      repeat case_decide; try lia; reflexivity.
Qed.

Section DeleteSpec.

Context {ext_t : Type}.
Implicit Types c : ubifs_info ext_t.

Variable ubifs_add_dirt : ext_t -> Z -> Z -> Z * ext_t.
Variable get_seconds : Z.
Variable rb_insert_color : forall A : Type, rb_tree A -> rb_tree A.

(** The state [tnc_delete] leaves when the znode keeps a child. *)
Lemma tnc_delete_leaf_state (fuel : nat) (znode : nat) (z : ubifs_znode) (n : Z) c :
  znodes c !! znode = Some z ->
  0 <= n < zn_child_cnt z ->
  1 < zn_child_cnt z ->
  zn_child_cnt z <= Z.of_nat (length (zn_zbranch z)) ->
  let b := zbranch_at z n in
  let d := ubifs_add_dirt (ext c) (zbr_lnum b) (zbr_len b) in
  let z' := foldl (fun z i => zbranch_store i (zbranch_at z (i + 1)) z)
              (zbranch_store n (lnc_free b) z)
              (seqZ n (Z.of_nat (Z.to_nat (zn_child_cnt z - 1 - n)))) in
  let r := tnc_delete ubifs_add_dirt get_seconds rb_insert_color fuel znode n c in
  if d.1 =? 0
  then exists c3,
         r = (Val tt, c3) /\ ext c3 = d.2 /\ zroot c3 = zroot c
         /\ znodes c3 = <[znode := set_zn_child_cnt (zn_child_cnt z - 1) z']> (znodes c)
  else r = (Err d.1, set_ext d.2 (zbr_upd (ZSlot znode n) lnc_free c)).
Proof.
  intros Hz Hn Hcnt Hlen b d z' r.
  set (c1 := zbr_upd (ZSlot znode n) lnc_free c).
  assert (Hz1 : znodes c1 !! znode = Some (zbranch_store n (lnc_free b) z)).
  { unfold c1. cbn [zbr_upd]. rewrite lookup_zn_upd_eq, Hz. reflexivity. }
  assert (Hq1 : forall q, q <> znode -> znodes c1 !! q = znodes c !! q).
  { intros q Hq. unfold c1. cbn [zbr_upd]. apply lookup_zn_upd_ne. congruence. }
  set (c2 := set_ext d.2 c1).
  destruct (delete_shift_spec n (Z.to_nat (zn_child_cnt z - 1 - n))
              (zbranch_store n (lnc_free b) z)) as (H1 & H2 & H0 & H3).
  fold z' in H1, H2, H0, H3.
  rewrite zbranch_store_child_cnt in H1. rewrite zbranch_store_length in H2, H3.
  rewrite zbranch_store_level in H0.
  assert (Hstep : r = (let* err := (fun c0 : ubifs_info ext_t => (Val d.1, set_ext d.2 c0)) in
                         check err ;;
                         let* c := get in
                         modify (fun c => foldl (fun c i => zn_upd znode (fun z => zbranch_store i (zbranch_at z (i + 1)) z) c)
                                            c (seqZ n (zn_child_cnt (deref c znode) - 1 - n))) ;;
                         modify (zn_upd znode (fun z => set_zn_child_cnt (zn_child_cnt z - 1) z)) ;;
                         let* c := get in
                         if 0 <? zn_child_cnt (deref c znode) then ret tt
                         else
                           let* r := tnc_delete_rise rb_insert_color fuel znode in
                           let '(znode, n) := r in
                           modify (zn_upd znode (fun z => set_zn_child_cnt (zn_child_cnt z - 1) z)) ;;
                           let* c := get in
                           modify (fun c => foldl (tnc_delete_shift znode) c (seqZ n (zn_child_cnt (deref c znode) - n))) ;;
                           let* c := get in
                           match zn_parent (deref c znode) with
                           | None => tnc_delete_collapse ubifs_add_dirt get_seconds rb_insert_color fuel znode
                           | Some _ => ret tt
                           end) c1).
    { unfold r, tnc_delete. rewrite bind_modify, bind_get. cbv zeta. fold c1.
      rewrite (deref_lookup _ _ _ Hz1).
      rewrite zbranch_at_store_eq by lia.
      change (zbr_lnum (lnc_free b)) with (zbr_lnum b).
      change (zbr_len (lnc_free b)) with (zbr_len b).
      apply bind_cong_l. unfold add_dirt. change (ext c1) with (ext c). fold d.
      destruct d; reflexivity. }
    rewrite Hstep. clear Hstep.
    destruct d as [err e'] eqn:Ed. cbn [fst snd] in *.
    destruct (Z.eqb_spec err 0) as [-> | Herr].
    - unfold bind at 1. fold c2. unfold check at 1. cbn [Z.eqb]. rewrite bind_ret, bind_get, !bind_modify, bind_get.
      change (deref c2 znode) with (deref c1 znode).
      rewrite (deref_lookup _ _ _ Hz1).
      rewrite zbranch_store_child_cnt.
      rewrite (foldl_zn_upd znode (fun z i => zbranch_store i (zbranch_at z (i + 1)) z)).
      rewrite zn_upd_zn_upd.
      replace (zn_child_cnt z - 1 - n) with (Z.of_nat (Z.to_nat (zn_child_cnt z - 1 - n)))
        by lia.
      match goal with |- context [deref ?s znode] => set (c3 := s) end.
      assert (Hz3 : znodes c3 = <[znode := set_zn_child_cnt (zn_child_cnt z - 1) z']> (znodes c)).
      { apply map_eq. intros q. unfold c3. rewrite lookup_zn_upd.
        change (znodes c2) with (znodes c1).
        destruct (decide (znode = q)) as [<- | Hq].
        - rewrite Hz1, lookup_insert_eq. cbn. fold z'. rewrite H1. reflexivity.
        - rewrite lookup_insert_ne by exact Hq. apply Hq1. congruence. }
      assert (Hd3 : deref c3 znode = set_zn_child_cnt (zn_child_cnt z - 1) z').
      { apply deref_lookup. rewrite Hz3. apply lookup_insert_eq. }
      rewrite Hd3. cbn [zn_child_cnt set_zn_child_cnt].
      destruct (Z.ltb_spec 0 (zn_child_cnt z - 1)) as [_ | Hbad]; [| lia].
      exists c3. split; [reflexivity |]. split; [reflexivity |].
      split; [reflexivity | exact Hz3].
    - unfold bind at 1. fold c2. unfold check at 1.
      destruct (Z.eqb_spec err 0) as [| _]; [contradiction |].
      reflexivity.
Qed.

(** The run of [tnc_delete] on a znode that keeps a child. *)
Lemma tnc_delete_leaf_run (fuel : nat) (znode : nat) (z : ubifs_znode) (n : Z) c :
  znodes c !! znode = Some z ->
  0 <= n < zn_child_cnt z ->
  1 < zn_child_cnt z ->
  zn_child_cnt z <= Z.of_nat (length (zn_zbranch z)) ->
  let b := zbranch_at z n in
  let d := ubifs_add_dirt (ext c) (zbr_lnum b) (zbr_len b) in
  let r := tnc_delete ubifs_add_dirt get_seconds rb_insert_color fuel znode n c in
  ext r.2 = d.2
  /\ (forall q, q <> znode -> znodes r.2 !! q = znodes c !! q)
  /\ (d.1 <> 0 ->
      r.1 = Err d.1
      /\ znodes r.2 !! znode = Some (zbranch_store n (lnc_free b) z))
  /\ (d.1 = 0 ->
      r.1 = Val tt
      /\ zn_child_cnt (deref r.2 znode) = zn_child_cnt z - 1
      /\ zn_level (deref r.2 znode) = zn_level z
      /\ forall i, 0 <= i < zn_child_cnt z - 1 ->
                   zbranch_at (deref r.2 znode) i
                   = if i <? n then zbranch_at z i else zbranch_at z (i + 1)).
Proof.
  intros Hz Hn Hcnt Hlen b d r.
  pose proof (tnc_delete_leaf_state fuel znode z n c Hz Hn Hcnt Hlen) as Hrun.
  cbv zeta in Hrun. fold b d r in Hrun.
  destruct (delete_shift_spec n (Z.to_nat (zn_child_cnt z - 1 - n))
              (zbranch_store n (lnc_free b) z)) as (H1 & H2 & H0 & H3).
  set (z' := foldl (fun z i => zbranch_store i (zbranch_at z (i + 1)) z)
               (zbranch_store n (lnc_free b) z)
               (seqZ n (Z.of_nat (Z.to_nat (zn_child_cnt z - 1 - n))))) in *.
  rewrite zbranch_store_child_cnt in H1. rewrite zbranch_store_length in H2, H3.
  rewrite zbranch_store_level in H0.
  destruct (Z.eqb_spec d.1 0) as [Hd | Hd].
  - destruct Hrun as (c3 & -> & He & _ & Hz3). cbn [fst snd]. split; [exact He |]. split.
    + intros q Hq. rewrite Hz3, lookup_insert_ne by congruence. reflexivity.
    + split; [intros Hc; contradiction |]. intros _. split; [reflexivity |].
      unfold deref. rewrite Hz3, lookup_insert_eq.
      cbn [default zn_child_cnt set_zn_child_cnt zn_level].
      split; [reflexivity |]. split; [exact H0 |].
      intros i Hi.
      assert (Hza : forall v zz j, zbranch_at (set_zn_child_cnt v zz) j = zbranch_at zz j)
        by reflexivity.
      unfold id. rewrite Hza, H3.
      destruct (Z.ltb_spec i n); repeat case_decide; try lia.
      * apply zbranch_at_store_ne. lia.
      * apply zbranch_at_store_ne. lia.
  - rewrite Hrun. cbn [fst snd]. split; [reflexivity |]. split.
    + intros q Hq. unfold zbr_upd, set_ext. cbn [znodes]. apply lookup_zn_upd_ne. congruence.
    + split; [| intros Hc; contradiction]. intros _. split; [reflexivity |].
      unfold zbr_upd, set_ext. cbn [znodes]. rewrite lookup_zn_upd_eq, Hz. reflexivity.
Qed.

(** [tnc_delete] of a branch of a znode that keeps a child: the space
    of the node the branch points to is charged as dirt to its LEB; if
    that fails, the error is returned and only the cached leaf of the
    branch is gone; else the znode has one child less, the branches
    before the slot [n] are as they were and the branches behind it have
    moved one slot to the left, and the other znodes are as they
    were. *)
Theorem tnc_delete_leaf_spec (fuel : nat) (znode : nat) (z : ubifs_znode) (n : Z) c :
  znodes c !! znode = Some z ->
  0 <= n < zn_child_cnt z ->
  1 < zn_child_cnt z ->
  zn_child_cnt z <= Z.of_nat (length (zn_zbranch z)) ->
  let b := zbranch_at z n in
  let d := ubifs_add_dirt (ext c) (zbr_lnum b) (zbr_len b) in
  let r := tnc_delete ubifs_add_dirt get_seconds rb_insert_color fuel znode n c in
  ext r.2 = d.2
  /\ (forall q, q <> znode -> znodes r.2 !! q = znodes c !! q)
  /\ (d.1 <> 0 ->
      r.1 = Err d.1
      /\ znodes r.2 !! znode = Some (zbranch_store n (lnc_free b) z))
  /\ (d.1 = 0 ->
      r.1 = Val tt
      /\ zn_child_cnt (deref r.2 znode) = zn_child_cnt z - 1
      /\ zn_level (deref r.2 znode) = zn_level z
      /\ forall i, 0 <= i < zn_child_cnt z - 1 ->
                   zbranch_at (deref r.2 znode) i
                   = if i <? n then zbranch_at z i else zbranch_at z (i + 1)).
Proof. apply tnc_delete_leaf_run. Qed.

End DeleteSpec.

(** Witness: the branch of block 1 of inode 7 is deleted from the full
    leaf of [split_c0]. *)
Lemma tnc_delete_leaf_spec_witness :
  ext (tnc_delete add_dirt0 0 no_rebalance 5 4%nat 1 split_c0).2
  = (add_dirt0 (ext split_c0) (zbr_lnum (zbranch_at (deref split_c0 4%nat) 1))
       (zbr_len (zbranch_at (deref split_c0 4%nat) 1))).2
  /\ (forall q, q <> 4%nat ->
        znodes (tnc_delete add_dirt0 0 no_rebalance 5 4%nat 1 split_c0).2 !! q
        = znodes split_c0 !! q)
  /\ ((add_dirt0 (ext split_c0) (zbr_lnum (zbranch_at (deref split_c0 4%nat) 1))
         (zbr_len (zbranch_at (deref split_c0 4%nat) 1))).1 <> 0 ->
      (tnc_delete add_dirt0 0 no_rebalance 5 4%nat 1 split_c0).1
      = Err (add_dirt0 (ext split_c0) (zbr_lnum (zbranch_at (deref split_c0 4%nat) 1))
               (zbr_len (zbranch_at (deref split_c0 4%nat) 1))).1
      /\ znodes (tnc_delete add_dirt0 0 no_rebalance 5 4%nat 1 split_c0).2 !! 4%nat
         = Some (zbranch_store 1 (lnc_free (zbranch_at (deref split_c0 4%nat) 1))
                   (deref split_c0 4%nat)))
  /\ ((add_dirt0 (ext split_c0) (zbr_lnum (zbranch_at (deref split_c0 4%nat) 1))
         (zbr_len (zbranch_at (deref split_c0 4%nat) 1))).1 = 0 ->
      (tnc_delete add_dirt0 0 no_rebalance 5 4%nat 1 split_c0).1 = Val tt
      /\ zn_child_cnt (deref (tnc_delete add_dirt0 0 no_rebalance 5 4%nat 1 split_c0).2 4%nat)
         = zn_child_cnt (deref split_c0 4%nat) - 1
      /\ zn_level (deref (tnc_delete add_dirt0 0 no_rebalance 5 4%nat 1 split_c0).2 4%nat)
         = zn_level (deref split_c0 4%nat)
      /\ forall i, 0 <= i < zn_child_cnt (deref split_c0 4%nat) - 1 ->
                   zbranch_at (deref (tnc_delete add_dirt0 0 no_rebalance 5 4%nat 1 split_c0).2
                                 4%nat) i
                   = if i <? 1 then zbranch_at (deref split_c0 4%nat) i
                     else zbranch_at (deref split_c0 4%nat) (i + 1)).
Proof.
  refine (tnc_delete_leaf_spec add_dirt0 0 no_rebalance 5 4%nat (deref split_c0 4%nat) 1
            split_c0 _ _ _ _).
  - vm_compute. reflexivity.
  - vm_compute. split; [discriminate | reflexivity].
  - vm_compute. reflexivity.
  - vm_compute. discriminate.
Defined.

(** ** Filling the replay tree *)

Lemma replay_tree_link_perm (r : replay_entry) (t t' : rb_tree replay_entry) :
  replay_tree_link r t = Some t' -> rb_inorder t' ≡ₚ r :: rb_inorder t.
Proof.
  revert t'. induction t as [| col lt IHl x rt IHr]; intros t'; simpl.
  - intros [= <-]. reflexivity.
  - destruct (r_sqnum r <? r_sqnum x).
    + destruct (replay_tree_link r lt) as [lt' |]; [| discriminate].
      intros [= <-]. simpl. rewrite (IHl lt' eq_refl). reflexivity.
    + destruct (r_sqnum x <? r_sqnum r); [| discriminate].
      destruct (replay_tree_link r rt) as [rt' |]; [| discriminate].
      intros [= <-]. simpl. rewrite (IHr rt' eq_refl).
      replace (rb_inorder lt ++ x :: r :: rb_inorder rt)
        with ((rb_inorder lt ++ [x]) ++ r :: rb_inorder rt)
        by (rewrite <- app_assoc; reflexivity).
      replace (rb_inorder lt ++ x :: rb_inorder rt)
        with ((rb_inorder lt ++ [x]) ++ rb_inorder rt)
        by (rewrite <- app_assoc; reflexivity).
      symmetry. apply Permutation_middle.
Qed.

Lemma replay_tree_link_new (r : replay_entry) (t : rb_tree replay_entry) :
  replay_tree_ok t ->
  (r_sqnum r ∉ replay_sqnums t -> exists t', replay_tree_link r t = Some t')
  /\ (r_sqnum r ∈ replay_sqnums t -> replay_tree_link r t = None).
Proof.
  intros Hok. split.
  - intros Hni. apply strictly_increasing_sorted in Hok.
    pose proof (replay_tree_link_spec r t Hok) as H.
    destruct (replay_tree_link r t) as [t' |]; [eauto | contradiction].
  - apply replay_tree_link_dup. exact Hok.
Qed.

Section ReplayFill.

Context {ext_t : Type}.
Implicit Types c : ubifs_info ext_t.

Variable rb_insert_color : forall A : Type, rb_tree A -> rb_tree A.
Hypothesis rb_insert_color_inorder :
  forall (A : Type) (t : rb_tree A), rb_inorder (rb_insert_color A t) = rb_inorder t.

Lemma note_highest_inum_fields (key : ubifs_key) c :
  replay_tree ((note_highest_inum key c).2) = replay_tree c
  /\ highest_inum ((note_highest_inum key c).2) = Z.max (highest_inum c) (key_ino key)
  /\ max_sqnum ((note_highest_inum key c).2) = max_sqnum c
  /\ c_cfg ((note_highest_inum key c).2) = c_cfg c.
Proof.
  unfold note_highest_inum, modify. cbn [snd]. destruct (Z.leb_spec (highest_inum c) (key_ino key)); cbn; repeat split; lia.
Qed.

Lemma insert_node_run (lnum offs len : Z) (key : ubifs_key) (sqnum : Z) (deletion : bool) (used old_size new_size : Z) c :
  insert_node rb_insert_color lnum offs len key sqnum deletion used old_size new_size c
  = match replay_tree_link
            (mk_replay_entry lnum offs len sqnum (if deletion then REPLAY_DELETION else 0)
               key (RSizes old_size new_size)) (replay_tree c) with
    | None => (Err (- EINVAL), (note_highest_inum key c).2)
    | Some t => (Val (if deletion then used else used + ALIGN len 8),
                 set_replay_tree (rb_insert_color _ t) ((note_highest_inum key c).2))
    end.
Proof.
  unfold insert_node, note_highest_inum. rewrite bind_modify, bind_get.
  change (if highest_inum c <=? key_ino key then set_highest_inum (key_ino key) c else c)
    with (note_highest_inum key c).2.
  rewrite (proj1 (note_highest_inum_fields key c)).
  destruct (replay_tree_link _ (replay_tree c)); reflexivity.
Qed.

Lemma insert_dent_run (lnum offs len : Z) (key : ubifs_key) (name : string) (nlen sqnum : Z) (deletion : bool) (used : Z) c :
  insert_dent rb_insert_color lnum offs len key name nlen sqnum deletion used c
  = match replay_tree_link
            (mk_replay_entry lnum offs len sqnum (if deletion then REPLAY_DELETION else 0)
               key (RName (mk_qstr (String.substring 0 (Z.to_nat nlen) name) nlen)))
            (replay_tree c) with
    | None => (Err (- EINVAL), (note_highest_inum key c).2)
    | Some t => (Val (if deletion then used else used + ALIGN len 8),
                 set_replay_tree (rb_insert_color _ t) ((note_highest_inum key c).2))
    end.
Proof.
  unfold insert_dent, note_highest_inum. rewrite bind_modify, bind_get.
  change (if highest_inum c <=? key_ino key then set_highest_inum (key_ino key) c else c)
    with (note_highest_inum key c).2.
  rewrite (proj1 (note_highest_inum_fields key c)).
  destruct (replay_tree_link _ (replay_tree c)); reflexivity.
Qed.

Lemma linked_tree (r : replay_entry) (t t' : rb_tree replay_entry) :
  replay_tree_ok t -> replay_tree_link r t = Some t' ->
  rb_inorder (rb_insert_color _ t') ≡ₚ r :: rb_inorder t
  /\ replay_tree_ok (rb_insert_color _ t').
Proof.
  intros Hok Hl. split.
  - rewrite rb_insert_color_inorder. apply replay_tree_link_perm. exact Hl.
  - apply strictly_increasing_sorted. unfold replay_sqnums.
    rewrite rb_insert_color_inorder.
    apply strictly_increasing_sorted in Hok.
    pose proof (replay_tree_link_spec r t Hok) as H. rewrite Hl in H. tauto.
Qed.


Lemma note_max_sqnum_fields (sqnum : Z) c :
  replay_tree (note_max_sqnum sqnum c).2 = replay_tree c
  /\ max_sqnum (note_max_sqnum sqnum c).2 = Z.max (max_sqnum c) sqnum
  /\ highest_inum (note_max_sqnum sqnum c).2 = highest_inum c
  /\ c_cfg (note_max_sqnum sqnum c).2 = c_cfg c.
Proof.
  unfold note_max_sqnum, modify. cbn [snd].
  destruct (Z.ltb_spec (max_sqnum c) sqnum); cbn; repeat split; lia.
Qed.

(** What the descent makes of an entry, on a tree in order. *)
Lemma linked_outcome (r : replay_entry) (t : rb_tree replay_entry) :
  replay_tree_ok t ->
  match replay_tree_link r t with
  | Some t' =>
      (r_sqnum r ∉ replay_sqnums t)
      /\ rb_inorder (rb_insert_color _ t') ≡ₚ r :: rb_inorder t
      /\ replay_tree_ok (rb_insert_color _ t')
  | None => r_sqnum r ∈ replay_sqnums t
  end.
Proof.
  intros Hok. pose proof (linked_tree r t) as Hl.
  pose proof (replay_tree_link_spec r t (proj1 (strictly_increasing_sorted _) Hok)) as Hs.
  destruct (replay_tree_link r t) as [t' |]; [| exact Hs].
  destruct (Hl t' Hok eq_refl). tauto.
Qed.

(** One round of the loop of [replay_bud]. *)
Lemma replay_bud_node_spec (lnum : Z) (snod : ubifs_scan_node) (used : Z) c :
  replay_tree_ok (replay_tree c) ->
  let out := replay_bud_node rb_insert_color lnum snod used c in
  (snod_valid (c_cfg c) snod = true -> sn_sqnum snod ∉ replay_sqnums (replay_tree c) ->
   out.1 = Val (used + (if snod_deletion snod then 0 else ALIGN (sn_len snod) 8))
   /\ rb_inorder (replay_tree out.2) ≡ₚ snod_entry lnum snod :: rb_inorder (replay_tree c)
   /\ replay_tree_ok (replay_tree out.2)
   /\ max_sqnum out.2 = Z.max (max_sqnum c) (sn_sqnum snod)
   /\ highest_inum out.2 = Z.max (highest_inum c) (key_ino (sn_key snod))
   /\ c_cfg out.2 = c_cfg c)
  /\ (snod_valid (c_cfg c) snod = false \/ sn_sqnum snod ∈ replay_sqnums (replay_tree c) ->
      out.1 = Err (- EINVAL)).
Proof.
  intros Hok out.
  assert (Hout : out = replay_bud_node rb_insert_color lnum snod used c) by reflexivity.
  clearbody out. unfold replay_bud_node in Hout. unfold snod_valid.
  destruct (Z.leb_spec SQNUM_WATERMARK (sn_sqnum snod)) as [Hw | Hw].
  { destruct (Z.ltb_spec (sn_sqnum snod) SQNUM_WATERMARK); [lia |].
    cbn [andb]. subst out. split; [discriminate | reflexivity]. }
  destruct (Z.ltb_spec (sn_sqnum snod) SQNUM_WATERMARK) as [_ |]; [| lia].
  cbn [andb]. unfold note_max_sqnum in Hout. rewrite bind_modify, bind_get in Hout.
  change (if max_sqnum c <? sn_sqnum snod then set_max_sqnum (sn_sqnum snod) c else c)
    with (note_max_sqnum (sn_sqnum snod) c).2 in Hout.
  destruct (note_max_sqnum_fields (sn_sqnum snod) c) as (Ht & Hm & Hh & Hc).
  set (c1 := (note_max_sqnum (sn_sqnum snod) c).2) in *.
  destruct (note_highest_inum_fields (sn_key snod) c1) as (Ht2 & Hh2 & Hm2 & Hc2).
  assert (Hok1 : replay_tree_ok (replay_tree c1)) by (rewrite Ht; exact Hok).
  assert (Hfin : forall (r : replay_entry) (u : Z) (o : res Z * ubifs_info ext_t),
             r_sqnum r = sn_sqnum snod ->
             o = match replay_tree_link r (replay_tree c1) with
                 | None => (Err (- EINVAL), (note_highest_inum (sn_key snod) c1).2)
                 | Some t => (Val u, set_replay_tree (rb_insert_color _ t)
                                       (note_highest_inum (sn_key snod) c1).2)
                 end ->
             (sn_sqnum snod ∉ replay_sqnums (replay_tree c) ->
              o.1 = Val u
              /\ rb_inorder (replay_tree o.2) ≡ₚ r :: rb_inorder (replay_tree c)
              /\ replay_tree_ok (replay_tree o.2)
              /\ max_sqnum o.2 = Z.max (max_sqnum c) (sn_sqnum snod)
              /\ highest_inum o.2 = Z.max (highest_inum c) (key_ino (sn_key snod))
              /\ c_cfg o.2 = c_cfg c)
             /\ (sn_sqnum snod ∈ replay_sqnums (replay_tree c) -> o.1 = Err (- EINVAL))).
  { clear Hout. intros r u o Hs ->.
    pose proof (linked_outcome r (replay_tree c1) Hok1) as Ho.
    rewrite Hs in Ho.
    destruct (replay_tree_link r (replay_tree c1)) as [t' |]; cbn [fst snd];
      rewrite Ht in Ho.
    - destruct Ho as (Hni & Hp & Ho). split; [| intros Hin; contradiction].
      intros _. split; [reflexivity |]. split; [exact Hp |]. split; [exact Ho |].
      unfold set_replay_tree. cbn [max_sqnum highest_inum c_cfg].
      rewrite Hm2, Hh2, Hc2, Hm, Hh, Hc. auto.
    - split; [intros Hni; contradiction | reflexivity]. }
  unfold snod_entry, snod_deletion.
  destruct (sn_type snod =? UBIFS_INO_NODE) eqn:E1.
  { rewrite insert_node_run in Hout.
    apply Hfin in Hout as [Hy Hn]; [| reflexivity]. split.
    - intros _ Hni. destruct (Hy Hni) as (Hv & Hrest). split; [| exact Hrest].
      rewrite Hv. destruct (as_ino_nlink (sn_node snod) =? 0); f_equal; lia.
    - intros [Hf | Hin]; [discriminate | auto]. }
  destruct (sn_type snod =? UBIFS_DATA_NODE) eqn:E2.
  { rewrite insert_node_run in Hout. cbv iota in Hout.
    apply Hfin in Hout as [Hy Hn]; [| reflexivity]. split.
    - intros _ Hni. destruct (Hy Hni) as (Hv & Hrest). split; [exact Hv | exact Hrest].
    - intros [Hf | Hin]; [discriminate | auto]. }
  destruct ((sn_type snod =? UBIFS_DENT_NODE) || (sn_type snod =? UBIFS_XENT_NODE)) eqn:E3.
  { destruct (Z.eqb_spec (ubifs_validate_entry (as_dent (sn_node snod))) 0) as [Hv | Hv];
      cbn [negb] in Hout.
    2: { subst out. split; [discriminate | reflexivity]. }
    rewrite insert_dent_run in Hout.
    apply Hfin in Hout as [Hy Hn]; [| reflexivity]. split.
    - intros _ Hni. destruct (Hy Hni) as (Hv' & Hrest). split; [| exact Hrest].
      rewrite Hv'. destruct (d_inum (as_dent (sn_node snod)) =? 0); f_equal; lia.
    - intros [Hf | Hin]; [discriminate | auto]. }
  destruct (sn_type snod =? UBIFS_TRUN_NODE) eqn:E4.
  2: { subst out. split; [discriminate | reflexivity]. }
  rewrite Hc in Hout.
  set (o := as_trun_old_size (sn_node snod)) in *.
  set (n := as_trun_new_size (sn_node snod)) in *.
  destruct (Z.ltb_spec o 0), (Z.leb_spec 0 o); try lia; cbn [orb andb] in Hout |- *;
    try (subst out; split; [discriminate | reflexivity]).
  destruct (Z.ltb_spec (max_inode_sz (c_cfg c)) o), (Z.leb_spec o (max_inode_sz (c_cfg c)));
    try lia; cbn [orb andb] in Hout |- *;
    try (subst out; split; [discriminate | reflexivity]).
  destruct (Z.ltb_spec n 0), (Z.leb_spec 0 n); try lia; cbn [orb andb] in Hout |- *;
    try (subst out; split; [discriminate | reflexivity]).
  destruct (Z.ltb_spec (max_inode_sz (c_cfg c)) n), (Z.leb_spec n (max_inode_sz (c_cfg c)));
    try lia; cbn [orb andb] in Hout |- *;
    try (subst out; split; [discriminate | reflexivity]).
  destruct (Z.leb_spec o n), (Z.ltb_spec n o); try lia; cbn [orb andb] in Hout |- *;
    try (subst out; split; [discriminate | reflexivity]).
  rewrite insert_node_run in Hout. cbv iota in Hout.
  apply Hfin in Hout as [Hy Hn]; [| reflexivity]. split.
  - intros _ Hni. destruct (Hy Hni) as (Hv & Hrest). split; [| exact Hrest].
    rewrite Hv. f_equal. lia.
  - intros [Hf | Hin]; [discriminate | auto].
Qed.

(** The loop of [replay_bud]. *)
Lemma replay_bud_nodes_spec (lnum : Z) (snods : list ubifs_scan_node) (used : Z) c :
  replay_tree_ok (replay_tree c) ->
  let out := replay_bud_nodes rb_insert_color lnum snods used c in
  (Forall (fun s => snod_valid (c_cfg c) s = true) snods ->
   NoDup ((sn_sqnum <$> snods) ++ replay_sqnums (replay_tree c)) ->
   out.1 = Val (used + bud_used snods)
   /\ rb_inorder (replay_tree out.2)
      ≡ₚ (snod_entry lnum <$> snods) ++ rb_inorder (replay_tree c)
   /\ replay_tree_ok (replay_tree out.2)
   /\ max_sqnum out.2 = foldl Z.max (max_sqnum c) (sn_sqnum <$> snods)
   /\ highest_inum out.2
      = foldl Z.max (highest_inum c) ((fun s => key_ino (sn_key s)) <$> snods)
   /\ c_cfg out.2 = c_cfg c)
  /\ (~ (Forall (fun s => snod_valid (c_cfg c) s = true) snods
         /\ NoDup ((sn_sqnum <$> snods) ++ replay_sqnums (replay_tree c))) ->
      out.1 = Err (- EINVAL)).
Proof.
  revert used c. induction snods as [| s rest IH]; intros used c Hok out.
  - subst out. cbn. split.
    + intros _ _. split; [f_equal; lia |]. auto.
    + intros Hn. exfalso. apply Hn. split; [constructor |].
      apply replay_sqnums_NoDup. exact Hok.
  - assert (Hout : out = replay_bud_nodes rb_insert_color lnum (s :: rest) used c)
      by reflexivity.
    clearbody out. cbn [replay_bud_nodes] in Hout. unfold bind in Hout.
    destruct (replay_bud_node_spec lnum s used c Hok) as [Hy Hn].
    cbv zeta in Hy, Hn.
    destruct (replay_bud_node rb_insert_color lnum s used c) as [r1 c1] eqn:E1.
    cbn [fst snd] in Hy, Hn.
    destruct (snod_valid (c_cfg c) s) eqn:Ev.
    2: { rewrite (Hn (or_introl eq_refl)) in Hout. subst out. split; [| reflexivity].
         intros Hf. apply Forall_cons in Hf as [Hf _]. congruence. }
    destruct (decide (sn_sqnum s ∈ replay_sqnums (replay_tree c))) as [Hin | Hni].
    { rewrite (Hn (or_intror Hin)) in Hout. subst out. split; [| reflexivity].
      intros _ Hnd. cbn in Hnd. apply NoDup_cons in Hnd as [Hnd _].
      exfalso. apply Hnd. apply elem_of_app. right. exact Hin. }
    destruct (Hy eq_refl Hni) as (-> & Hp & Hok1 & Hm & Hh & Hc).
    specialize (IH (used + (if snod_deletion s then 0 else ALIGN (sn_len s) 8)) c1 Hok1).
    cbv zeta in IH. rewrite <- Hout in IH. destruct IH as [IHy IHn].
    assert (Hsq : replay_sqnums (replay_tree c1) ≡ₚ sn_sqnum s :: replay_sqnums (replay_tree c)).
    { unfold replay_sqnums. rewrite Hp. reflexivity. }
    assert (Hnd : NoDup ((sn_sqnum <$> rest) ++ replay_sqnums (replay_tree c1))
                  <-> NoDup ((sn_sqnum <$> s :: rest) ++ replay_sqnums (replay_tree c))).
    { rewrite Hsq. cbn. rewrite <- Permutation_middle. reflexivity. }
    rewrite Hc in IHy, IHn. split.
    + intros Hf Hd. apply Forall_cons in Hf as [_ Hf]. apply Hnd in Hd.
      destruct (IHy Hf Hd) as (Hv & Hp' & Hok' & Hm' & Hh' & Hc').
      split; [rewrite Hv; cbn [bud_used foldr]; f_equal; unfold bud_used; lia |].
      split.
      { etrans; [exact Hp' |]. etrans; [apply Permutation_app_head; exact Hp |].
        cbn. symmetry. apply Permutation_middle. }
      split; [exact Hok' |].
      split; [rewrite Hm', Hm; reflexivity |].
      split; [rewrite Hh', Hh; reflexivity |].
      exact Hc'.
    + intros Hneg. apply IHn. intros [Hf Hd]. apply Hneg. split.
      * apply Forall_cons. split; [exact Ev | exact Hf].
      * apply Hnd. exact Hd.
Qed.

Variable ubifs_wbuf_seek_nolock : ext_t -> Z -> Z -> Z -> Z * ext_t.
Variable ubifs_scan : Z -> Z -> Z + ubifs_scan_leb.
Variable ubifs_recover_leb : Z -> Z -> bool -> Z + ubifs_scan_leb.

(** [replay_bud] on a bud that was scanned, with the replay tree in
    order.  It fails with [-EINVAL] unless every scanned node passes
    the checks of the loop and the sequence numbers of the nodes differ
    from each other and from those in the tree.  When it succeeds, the
    free space it reports is the space behind the end of the scanned
    data, the dirty space is what lies between the start of the bud and
    that end less the aligned lengths of the nodes that are not
    deletions, the tree, still in order, holds one entry for each
    scanned node besides the entries it had, and the greatest sequence
    number and the highest inode number seen are brought up to those of
    the nodes. *)
Theorem replay_bud_spec (lnum offs jhead : Z) (sleb : ubifs_scan_leb) c :
  replay_tree_ok (replay_tree c) ->
  (if need_recovery (c_cfg c) then ubifs_recover_leb lnum offs (negb (jhead =? GCHD))
   else ubifs_scan lnum offs) = inr sleb ->
  let out := replay_bud rb_insert_color ubifs_wbuf_seek_nolock ubifs_scan ubifs_recover_leb
               lnum offs jhead c in
  (forall free dirty, out.1 = Val (free, dirty) ->
     Forall (fun s => snod_valid (c_cfg c) s = true) (sl_nodes sleb)
     /\ NoDup ((sn_sqnum <$> sl_nodes sleb) ++ replay_sqnums (replay_tree c))
     /\ free = leb_size (c_cfg c) - sl_endpt sleb
     /\ dirty = sl_endpt sleb - offs - bud_used (sl_nodes sleb)
     /\ rb_inorder (replay_tree out.2)
        ≡ₚ (snod_entry lnum <$> sl_nodes sleb) ++ rb_inorder (replay_tree c)
     /\ replay_tree_ok (replay_tree out.2)
     /\ max_sqnum out.2 = foldl Z.max (max_sqnum c) (sn_sqnum <$> sl_nodes sleb)
     /\ highest_inum out.2
        = foldl Z.max (highest_inum c) ((fun s => key_ino (sn_key s)) <$> sl_nodes sleb))
  /\ (~ (Forall (fun s => snod_valid (c_cfg c) s = true) (sl_nodes sleb)
         /\ NoDup ((sn_sqnum <$> sl_nodes sleb) ++ replay_sqnums (replay_tree c))) ->
      out.1 = Err (- EINVAL)).
Proof.
  intros Hok Hscan out.
  assert (Hout : out = replay_bud rb_insert_color ubifs_wbuf_seek_nolock ubifs_scan
                         ubifs_recover_leb lnum offs jhead c) by reflexivity.
  clearbody out. unfold replay_bud in Hout. rewrite bind_get in Hout.
  rewrite Hscan in Hout. unfold bind at 1 in Hout.
  destruct (replay_bud_nodes_spec lnum (sl_nodes sleb) 0 c Hok) as [Hy Hn].
  cbv zeta in Hy, Hn.
  destruct (replay_bud_nodes rb_insert_color lnum (sl_nodes sleb) 0 c) as [r1 c1] eqn:E1.
  cbn [fst snd] in Hy, Hn.
  destruct (decide (Forall (fun s => snod_valid (c_cfg c) s = true) (sl_nodes sleb)
                    /\ NoDup ((sn_sqnum <$> sl_nodes sleb) ++ replay_sqnums (replay_tree c))))
    as [[Hf Hd] | Hneg].
  2: { rewrite (Hn Hneg) in Hout. subst out. split; [discriminate | reflexivity]. }
  destruct (Hy Hf Hd) as (-> & Hp & Hok1 & Hm & Hh & Hc).
  split; [| intros Hneg; exfalso; apply Hneg; split; assumption].
  intros free dirty Hv. rewrite bind_get in Hout.
  destruct (ubifs_search_bud c1 lnum) as [bud |]; [| subst out; discriminate Hv].
  rewrite Hc in Hout. unfold bind at 1 in Hout.
  set (seek := if (sl_endpt sleb + min_io_size (c_cfg c) <=? leb_size (c_cfg c))
                  && negb (ms_rdonly (c_cfg c))
               then on_ext (fun e => ubifs_wbuf_seek_nolock e jhead lnum (sl_endpt sleb))
               else ret 0) in Hout.
  assert (Hseek : exists err e, seek c1 = (Val err, set_ext e c1)).
  { unfold seek.
    destruct ((sl_endpt sleb + min_io_size (c_cfg c) <=? leb_size (c_cfg c))
              && negb (ms_rdonly (c_cfg c))).
    - unfold on_ext. destruct (ubifs_wbuf_seek_nolock _ _ _ _) as [err e]. eauto.
    - exists 0, (ext c1). unfold ret. destruct c1; reflexivity. }
  destruct Hseek as (err & e & Hseek). rewrite Hseek in Hout.
  unfold check, bind, ret, fail in Hout.
  destruct (err =? 0); subst out; [| discriminate Hv].
  cbn [fst snd] in Hv |- *. injection Hv as <- <-.
  split; [exact Hf |]. split; [exact Hd |]. split; [reflexivity |].
  split; [f_equal; lia |].
  split; [exact Hp |]. split; [exact Hok1 |]. split; [exact Hm | exact Hh].
Qed.

End ReplayFill.


(** The bud [bud_leb1] is replayed: 126712 bytes are free and the 56
    bytes of the truncation node are dirty; the entry of the data node
    of block 2^20 carries the size 4096, the 32-bit sum of its 4096
    bytes and the 2^32 bytes before the block. *)
Lemma replay_bud_spec_witness :
  replay_tree_ok (replay_tree bud_c0)
  /\ 126712 = leb_size (c_cfg bud_c0) - sl_endpt bud_leb1
  /\ 56 = sl_endpt bud_leb1 - 0 - bud_used (sl_nodes bud_leb1)
  /\ mk_replay_entry 12 160 4144 22 0 (data_key_init 7 1048576) (RSizes 0 4096)
     ∈ rb_inorder (replay_tree (replay_bud no_rebalance wbuf_seek0 scan_bud1 recover_leb0
                                  12 0 1 bud_c0).2).
Proof.
  split; [reflexivity |].
  pose proof (proj1 (replay_bud_spec no_rebalance (fun _ _ => eq_refl) wbuf_seek0 scan_bud1
                       recover_leb0 12 0 1 bud_leb1 bud_c0 eq_refl eq_refl)
                126712 56 eq_refl) as H.
  destruct H as (_ & _ & Hfree & Hdirty & Hperm & _).
  split; [exact Hfree |]. split; [exact Hdirty |].
  rewrite Hperm. apply elem_of_app. left.
  apply elem_of_cons. right. apply elem_of_cons. left. reflexivity.
Defined.

Section ReplayJournal.

Context {ext_t : Type}.
Implicit Types c : ubifs_info ext_t.

Variable ubifs_add_dirt : ext_t -> Z -> Z -> Z * ext_t.
Variable get_seconds : Z.
Variable rb_insert_color : forall A : Type, rb_tree A -> rb_tree A.
Variable ubifs_lpt_lookup_dirty : ext_t -> Z -> (Z + ubifs_lprops) * ext_t.
Variable ubifs_change_lp : ext_t -> ubifs_lprops -> Z -> Z -> Z -> Z -> (Z + ubifs_lprops) * ext_t.
Variable ubifs_wbuf_seek_nolock : ext_t -> Z -> Z -> Z -> Z * ext_t.
Variable ubifs_recover_size_accum : ext_t -> ubifs_key -> bool -> Z -> Z * ext_t.
Variable ubifs_scan : Z -> Z -> Z + ubifs_scan_leb.
Variable ubifs_recover_leb : Z -> Z -> bool -> Z + ubifs_scan_leb.
Variable ubifs_recover_log_leb : Z -> Z -> Z + ubifs_scan_leb.

Lemma take_ihead_cfg c :
  c_cfg (take_ihead ubifs_lpt_lookup_dirty ubifs_change_lp c).2 = c_cfg c.
Proof.
  unfold take_ihead, bind, get, on_ext.
  destruct (ubifs_lpt_lookup_dirty (ext c) (ihead_lnum (c_cfg c))) as [[err | lp] e];
    [reflexivity |].
  cbn [ext set_ext].
  destruct (ubifs_change_lp _ lp (-1) (-1) _ 0) as [[err | lp'] e']; reflexivity.
Qed.


End ReplayJournal.

(** ** Taking a branch out again *)

Section Undo.

Context {ext_t : Type}.
Implicit Types c : ubifs_info ext_t.

Variable ubifs_add_dirt : ext_t -> Z -> Z -> Z * ext_t.
Variable get_seconds : Z.
Variable rb_insert_color : forall A : Type, rb_tree A -> rb_tree A.

Lemma insert_zbranch_shift_ext (hl : bool) (zi : nat) (l : list Z) c :
  ext (foldl (insert_zbranch_shift hl zi) c l) = ext c.
Proof.
  revert c. induction l as [| i l IH]; intros c; [reflexivity |].
  cbn [foldl]. rewrite IH. unfold insert_zbranch_shift.
  destruct hl; [| reflexivity].
  destruct (zbr_znode _); reflexivity.
Qed.

Lemma insert_zbranch_ext (zi : nat) (zbr : ubifs_zbranch) (n : Z) c :
  ext (insert_zbranch zi zbr n c).2 = ext c.
Proof.
  unfold insert_zbranch. rewrite bind_get. cbv zeta. rewrite bind_modify.
  set (c1 := foldl _ c _).
  assert (H1 : ext c1 = ext c) by apply insert_zbranch_shift_ext.
  clearbody c1. rewrite <- H1. clear H1.
  destruct (negb (zn_level (deref c zi) =? 0)); [destruct (zbr_znode zbr) |];
    unfold bind, modify, ret; destruct (n =? 0); reflexivity.
Qed.

(** A branch that [insert_zbranch] has put into the slot [n] of a
    zero-level znode with a free slot is taken out again by [tnc_delete]
    of the slot [n]: the znode has the children it had, in their slots,
    no other znode has changed its branches, and what is left of the two
    operations is the dirt charged for the node of the branch. *)
Theorem tnc_delete_undoes_insert_zbranch (fuel : nat) (zi : nat) (z : ubifs_znode) (zbr : ubifs_zbranch) (n : Z) c :
  znodes c !! zi = Some z ->
  zn_level z = 0 ->
  0 <= n <= zn_child_cnt z ->
  1 <= zn_child_cnt z ->
  zn_child_cnt z < Z.of_nat (length (zn_zbranch z)) ->
  (ubifs_add_dirt (ext c) (zbr_lnum zbr) (zbr_len zbr)).1 = 0 ->
  exists c1 c2,
    insert_zbranch zi zbr n c = (Val tt, c1)
    /\ tnc_delete ubifs_add_dirt get_seconds rb_insert_color fuel zi n c1 = (Val tt, c2)
    /\ zn_child_cnt (deref c2 zi) = zn_child_cnt z
    /\ zn_level (deref c2 zi) = 0
    /\ (forall i, 0 <= i < zn_child_cnt z -> zbranch_at (deref c2 zi) i = zbranch_at z i)
    /\ (forall q, q <> zi -> shape_of (deref c2 q) = shape_of (deref c q))
    /\ ext c2 = (ubifs_add_dirt (ext c) (zbr_lnum zbr) (zbr_len zbr)).2.
Proof.
  intros Hz Hlv Hn Hone Hfree Hd.
  pose proof (zshape_lookup _ _ _ Hz) as Hs. unfold shape_of in Hs.
  destruct (insert_zbranch_shape zi zbr n _ _ _ c Hs (conj (proj1 Hn) (proj2 Hn)))
    as (c1 & l1 & Hrun & _ & Hs1 & Hlen & Hfr & Hl).
  pose proof (insert_zbranch_ext zi zbr n c) as He. rewrite Hrun in He. cbn [snd] in He.
  assert (Hz1 : znodes c1 !! zi = Some (deref c1 zi)).
  { unfold zshape in Hs1. unfold deref. destruct (znodes c1 !! zi); [reflexivity | discriminate]. }
  destruct (zshape_deref _ _ _ _ _ Hs1) as (Hb1 & Hk1 & Hlv1).
  assert (Hat : forall i, zbranch_at (deref c1 zi) i
                          = if decide (i = n) then zbr
                            else if decide (n < i <= zn_child_cnt z) then zbranch_at z (i - 1)
                            else zbranch_at z i).
  { intros i. rewrite zbranch_at_lbr, Hb1, Hl.
    repeat case_decide; try lia; reflexivity. }
  pose proof (tnc_delete_leaf_run ubifs_add_dirt get_seconds rb_insert_color fuel zi
                (deref c1 zi) n c1 Hz1) as Hdel.
  rewrite Hk1, Hb1, Hlen, Hlv1 in Hdel.
  specialize (Hdel ltac:(lia) ltac:(lia) ltac:(lia)). cbv zeta in Hdel.
  rewrite (Hat n) in Hdel. destruct (decide (n = n)) as [_ |]; [| congruence].
  rewrite He in Hdel.
  destruct Hdel as (Hext & Hq & _ & Hok). specialize (Hok Hd).
  destruct (tnc_delete ubifs_add_dirt get_seconds rb_insert_color fuel zi n c1) as [r c2]
    eqn:Edel.
  cbn [fst snd] in *. destruct Hok as (-> & Hk2 & Hlv2 & Hbr).
  exists c1, c2. split; [exact Hrun |]. split; [exact Edel |].
  split; [lia |]. split; [congruence |]. split; [| split; [| exact Hext]].
  - intros i Hi. rewrite Hbr by lia.
    destruct (Z.ltb_spec i n); rewrite Hat; repeat case_decide; try lia; try reflexivity.
    f_equal. lia.
  - intros q Hq'. transitivity (shape_of (deref c1 q)).
    + unfold deref. rewrite (Hq q Hq'). reflexivity.
    + apply zshape_eq_deref, Hfr, Hq'.
Qed.

End Undo.

(** The key of block 0 of inode 3 goes into the slot 1 of the leaf 2 of
    [split_c0] and is taken out again. *)
Lemma tnc_delete_undoes_insert_zbranch_witness :
  exists c1 c2,
    insert_zbranch 2%nat (new_zbranch (data_key_init 3 0) 12 0 4144) 1 split_c0 = (Val tt, c1)
    /\ tnc_delete add_dirt0 0 no_rebalance 5 2%nat 1 c1 = (Val tt, c2)
    /\ zn_child_cnt (deref c2 2%nat) = zn_child_cnt (deref split_c0 2%nat)
    /\ zn_level (deref c2 2%nat) = 0
    /\ (forall i, 0 <= i < zn_child_cnt (deref split_c0 2%nat) ->
                  zbranch_at (deref c2 2%nat) i = zbranch_at (deref split_c0 2%nat) i)
    /\ (forall q, q <> 2%nat -> shape_of (deref c2 q) = shape_of (deref split_c0 q))
    /\ ext c2 = (add_dirt0 (ext split_c0) (zbr_lnum (new_zbranch (data_key_init 3 0) 12 0 4144))
                   (zbr_len (new_zbranch (data_key_init 3 0) 12 0 4144))).2.
Proof.
  refine (tnc_delete_undoes_insert_zbranch add_dirt0 0 no_rebalance 5 2%nat
            (deref split_c0 2%nat) (new_zbranch (data_key_init 3 0) 12 0 4144) 1 split_c0
            _ _ _ _ _ _).
  - vm_compute. reflexivity.
  - vm_compute. reflexivity.
  - vm_compute. split; discriminate.
  - vm_compute. discriminate.
  - vm_compute. reflexivity.
  - vm_compute. reflexivity.
Defined.

(** ** What [ubifs_tnc_replace] does *)

Lemma zbranch_store_store (i : Z) (a b : ubifs_zbranch) (z : ubifs_znode) :
  zbranch_store i b (zbranch_store i a z) = zbranch_store i b z.
Proof.
  unfold zbranch_store. destruct (i <? 0); [reflexivity |].
  unfold set_zn_zbranch. cbn. rewrite list_insert_insert_eq. reflexivity.
Qed.

Section Replace.

Context {ext_t : Type}.
Implicit Types c : ubifs_info ext_t.

Variable ubifs_add_dirt : ext_t -> Z -> Z -> Z * ext_t.
Variable get_seconds : Z.
Variable rb_insert_color : forall A : Type, rb_tree A -> rb_tree A.

(** [ubifs_tnc_replace], which the garbage collector calls for a node
    it has moved, after its lookup of the key.  When the branch found
    still points to the old position, the old node is charged as dirt
    and the branch gets the new position, its key and the other znodes
    staying as they are; when charging fails the error is returned and
    the branch has only lost its cached leaf.  When the key is not
    found, or is found at another position and is not hashed, the index
    is left alone and the new node itself is charged as dirt. *)
Theorem ubifs_tnc_replace_spec (fuel : nat) (key : ubifs_key) (old_lnum old_offs lnum offs len : Z) (found : Z) (znode : nat) (n : Z) c c1 :
  lookup_level0_dirty ubifs_add_dirt get_seconds rb_insert_color fuel key c
  = (Val (found, znode, n), c1) ->
  let b := zbranch_at (deref c1 znode) n in
  let out := ubifs_tnc_replace ubifs_add_dirt get_seconds rb_insert_color fuel key
               old_lnum old_offs lnum offs len c in
  (found = 1 -> zbr_lnum b = old_lnum -> zbr_offs b = old_offs ->
   forall z, znodes c1 !! znode = Some z -> 0 <= n < Z.of_nat (length (zn_zbranch z)) ->
   let d := ubifs_add_dirt (ext c1) (zbr_lnum b) (zbr_len b) in
   ext out.2 = d.2
   /\ (forall q, q <> znode -> znodes out.2 !! q = znodes c1 !! q)
   /\ (d.1 <> 0 ->
       out.1 = Err d.1
       /\ znodes out.2 !! znode = Some (zbranch_store n (lnc_free b) z))
   /\ (d.1 = 0 ->
       out.1 = Val tt
       /\ znodes out.2 !! znode
          = Some (zbranch_store n (set_zbr_pos lnum offs len (lnc_free b)) z)))
  /\ (found = 0
      \/ (found = 1 /\ is_hash_key key = false
          /\ (zbr_lnum b <> old_lnum \/ zbr_offs b <> old_offs)) ->
      let d := ubifs_add_dirt (ext c1) lnum len in
      out = (if d.1 =? 0 then Val tt else Err d.1, set_ext d.2 c1)).
Proof.
  intros Hlook b out.
  assert (Hout : out = ubifs_tnc_replace ubifs_add_dirt get_seconds rb_insert_color fuel key
                         old_lnum old_offs lnum offs len c) by reflexivity.
  clearbody out. unfold ubifs_tnc_replace in Hout.
  rewrite (bind_val _ _ _ _ _ Hlook) in Hout. cbv iota beta in Hout.
  assert (Hcharge : forall c2, (let* err := add_dirt ubifs_add_dirt lnum len in check err) c2
                    = (if (ubifs_add_dirt (ext c2) lnum len).1 =? 0 then Val tt
                       else Err (ubifs_add_dirt (ext c2) lnum len).1,
                       set_ext (ubifs_add_dirt (ext c2) lnum len).2 c2)).
  { intros c2. unfold bind, add_dirt, check, ret, fail.
    destruct (ubifs_add_dirt (ext c2) lnum len) as [err e]. cbn [fst snd].
    destruct (err =? 0); reflexivity. }
  split.
  - intros -> Hl Ho z Hz Hn d. cbn [Z.eqb Pos.eqb] in Hout.
    unfold bind at 1 in Hout. rewrite bind_get in Hout. cbv zeta in Hout.
    fold b in Hout. rewrite Hl, Ho, !Z.eqb_refl in Hout. cbn [andb] in Hout.
    rewrite bind_modify in Hout.
    set (c2 := zbr_upd (ZSlot znode n) lnc_free c1) in *.
    unfold bind at 1, add_dirt at 1 in Hout.
    change (ext c2) with (ext c1) in Hout. rewrite <- Hl in Hout. fold d in Hout.
    pose proof (deref_lookup _ _ _ Hz) as Hdz.
    assert (Hb : b = zbranch_at z n) by (unfold b; rewrite Hdz; reflexivity).
    assert (Hz2 : znodes c2 !! znode = Some (zbranch_store n (lnc_free b) z)).
    { unfold c2. cbn [zbr_upd]. rewrite lookup_zn_upd_eq, Hz, Hb. reflexivity. }
    assert (Hq2 : forall q, q <> znode -> znodes c2 !! q = znodes c1 !! q).
    { intros q Hq. unfold c2. cbn [zbr_upd]. apply lookup_zn_upd_ne. congruence. }
    destruct d as [err e]. cbn [fst snd] in *. unfold check, bind, ret, fail, modify in Hout.
    destruct (Z.eqb_spec err 0) as [-> | Herr].
    + cbn [Z.eqb] in Hout. subst out. cbn [fst snd].
      split; [reflexivity |]. split.
      * intros q Hq. unfold zbr_upd at 1. rewrite lookup_zn_upd_ne by congruence.
        apply Hq2. exact Hq.
      * split; [intros Hc; contradiction |]. intros _. split; [reflexivity |].
        unfold zbr_upd at 1. rewrite lookup_zn_upd_eq.
        change (znodes (set_ext e c2)) with (znodes c2).
        rewrite Hz2. cbn [fmap option_fmap option_map].
        rewrite zbranch_at_store_eq by exact Hn. rewrite zbranch_store_store. reflexivity.
    + subst out. cbn [fst snd].
      split; [reflexivity |]. split; [exact Hq2 |].
      split; [intros _; split; [reflexivity | exact Hz2] | intros Hc; contradiction].
  - intros Hcase d.
    assert (Hf0 : out = (let* err := add_dirt ubifs_add_dirt lnum len in check err) c1).
    { destruct Hcase as [-> | (-> & Hh & Hpos)].
      - cbn [Z.eqb] in Hout. rewrite bind_ret in Hout. exact Hout.
      - cbn [Z.eqb Pos.eqb] in Hout. unfold bind at 1 in Hout. rewrite bind_get in Hout.
        cbv zeta in Hout. fold b in Hout. rewrite Hh in Hout.
        assert (Hm : (zbr_lnum b =? old_lnum) && (zbr_offs b =? old_offs) = false).
        { destruct (Z.eqb_spec (zbr_lnum b) old_lnum), (Z.eqb_spec (zbr_offs b) old_offs);
            cbn; try reflexivity. destruct Hpos; contradiction. }
        rewrite Hm in Hout. exact Hout. }
    rewrite Hcharge in Hf0. exact Hf0.
Qed.

End Replace.

(** The inode node of inode 3, which the leaf 2 of [split_c0] has at
    offset 320 of LEB 11, was moved to LEB 13. *)
Lemma ubifs_tnc_replace_spec_witness :
  lookup_level0_dirty add_dirt0 0 no_rebalance 10 (ino_key_init 3) split_c0
  = (Val (1, 2%nat, 0), split_c0)
  /\ (ubifs_tnc_replace add_dirt0 0 no_rebalance 10 (ino_key_init 3) 11 320 13 0 160
        split_c0).1 = Val tt
  /\ znodes (ubifs_tnc_replace add_dirt0 0 no_rebalance 10 (ino_key_init 3) 11 320 13 0 160
               split_c0).2 !! 2%nat
     = Some (zbranch_store 0
               (set_zbr_pos 13 0 160 (lnc_free (zbranch_at (deref split_c0 2%nat) 0)))
               (deref split_c0 2%nat)).
Proof.
  assert (Hl : lookup_level0_dirty add_dirt0 0 no_rebalance 10 (ino_key_init 3) split_c0
               = (Val (1, 2%nat, 0), split_c0)) by (vm_compute; reflexivity).
  split; [exact Hl |].
  refine (proj2 (proj2 (proj2 (proj1 (ubifs_tnc_replace_spec add_dirt0 0 no_rebalance 10
            (ino_key_init 3) 11 320 13 0 160 1 2%nat 0 split_c0 split_c0 Hl)
            eq_refl _ _ (deref split_c0 2%nat) _ _))) _).
  - vm_compute. reflexivity.
  - vm_compute. reflexivity.
  - vm_compute. reflexivity.
  - vm_compute. split; [discriminate | reflexivity].
  - vm_compute. reflexivity.
Defined.

(** ** The binary search in a znode in order *)

Lemma shiftr1_mid (beg end_ : Z) : beg < end_ -> beg <= Z.shiftr (beg + end_) 1 < end_.
Proof.
  intros H. rewrite Z.shiftr_div_pow2 by lia. change (2 ^ 1) with 2.
  split; [apply Z.div_le_lower_bound; lia | apply Z.div_lt_upper_bound; lia].
Qed.

(** The search reads the keys of the slots it is given, nothing else. *)
Lemma search_zbranch_loop_keys (z z' : ubifs_znode) (key : ubifs_key) (k : nat) :
  forall beg end_,
    0 <= beg ->
    (forall i, beg <= i < end_ -> zbr_key (zbranch_at z' i) = zbr_key (zbranch_at z i)) ->
    search_zbranch_loop z' key k beg end_ = search_zbranch_loop z key k beg end_.
Proof.
  induction k as [| k IH]; intros beg end_ Hb Hk; cbn [search_zbranch_loop]; [reflexivity |].
  destruct (Z.ltb_spec beg end_) as [Hlt | Hge]; [| reflexivity].
  pose proof (shiftr1_mid beg end_ Hlt) as Hm. cbv zeta.
  rewrite (Hk (Z.shiftr (beg + end_) 1)) by lia.
  destruct (0 <? _); [apply IH; [lia | intros i Hi; apply Hk; lia] |].
  destruct (_ <? 0); [apply IH; [lia | intros i Hi; apply Hk; lia] | reflexivity].
Qed.

Lemma ubifs_search_zbranch_keys (z z' : ubifs_znode) (key : ubifs_key) :
  zn_child_cnt z' = zn_child_cnt z ->
  (forall i, 0 <= i < zn_child_cnt z -> zbr_key (zbranch_at z' i) = zbr_key (zbranch_at z i)) ->
  ubifs_search_zbranch z' key = ubifs_search_zbranch z key.
Proof.
  intros Hc Hk. unfold ubifs_search_zbranch. rewrite Hc.
  apply search_zbranch_loop_keys; [lia | exact Hk].
Qed.

(** The search says "found" only at a slot that has the key. *)
Lemma search_zbranch_loop_sound (z : ubifs_znode) (key : ubifs_key) (k : nat) :
  forall beg end_ n,
    0 <= beg -> search_zbranch_loop z key k beg end_ = (1, n) ->
    beg <= n < end_ /\ zbr_key (zbranch_at z n) = key.
Proof.
  induction k as [| k IH]; intros beg end_ n Hb; cbn [search_zbranch_loop]; [discriminate |].
  destruct (Z.ltb_spec beg end_) as [Hlt | Hge]; [| discriminate].
  pose proof (shiftr1_mid beg end_ Hlt) as Hm. cbv zeta.
  destruct (Z.ltb_spec 0 (keys_cmp key (zbr_key (zbranch_at z (Z.shiftr (beg + end_) 1)))))
    as [Hgt | Hle].
  { intros H. apply IH in H; [| lia]. split; [lia | tauto]. }
  destruct (Z.ltb_spec (keys_cmp key (zbr_key (zbranch_at z (Z.shiftr (beg + end_) 1)))) 0)
    as [Hlt' | Hge'].
  { intros H. apply IH in H; [| lia]. split; [lia | tauto]. }
  intros [= <-]. split; [lia |]. symmetry. apply keys_cmp_eq. lia.
Qed.

Lemma ubifs_search_zbranch_sound (z : ubifs_znode) (key : ubifs_key) (n : Z) :
  ubifs_search_zbranch z key = (1, n) ->
  0 <= n < zn_child_cnt z /\ zbr_key (zbranch_at z n) = key.
Proof. unfold ubifs_search_zbranch. apply search_zbranch_loop_sound. lia. Qed.

Lemma key_le_ok_cmp (a b : ubifs_key) : key_le_ok a b -> keys_cmp a b <= 0.
Proof. intros [H | [H _]]; lia. Qed.

Lemma keys_ordered_le (z : ubifs_znode) (i j : Z) :
  keys_ordered z -> 0 <= i -> i < j -> j < zn_child_cnt z ->
  key_le_ok (zbr_key (zbranch_at z i)) (zbr_key (zbranch_at z j)).
Proof.
  intros Ho Hi Hij Hj.
  replace j with (i + Z.of_nat (S (Z.to_nat (j - i - 1)))) by lia.
  apply keys_ordered_chain; [exact Ho | exact Hi | lia].
Qed.

(** In a znode in order the search finds a key that is there. *)
Lemma search_zbranch_loop_finds (z : ubifs_znode) (key : ubifs_key) (k : nat) :
  keys_ordered z ->
  forall beg end_ m,
    0 <= beg -> end_ <= zn_child_cnt z -> end_ - beg < Z.of_nat k ->
    beg <= m < end_ -> zbr_key (zbranch_at z m) = key ->
    exists n, search_zbranch_loop z key k beg end_ = (1, n).
Proof.
  intros Ho. induction k as [| k IH]; intros beg end_ m Hb He Hk Hm Hkey; [lia |].
  cbn [search_zbranch_loop].
  destruct (Z.ltb_spec beg end_) as [Hlt | Hge]; [| lia].
  pose proof (shiftr1_mid beg end_ Hlt) as Hmid. cbv zeta.
  set (mid := Z.shiftr (beg + end_) 1) in *.
  destruct (Z.ltb_spec 0 (keys_cmp key (zbr_key (zbranch_at z mid)))) as [Hgt | Hle].
  { apply (IH _ _ m); try lia; [| exact Hkey].
    destruct (Z.le_gt_cases m mid) as [Hmm | Hmm]; [| lia]. exfalso.
    destruct (Z.eq_dec m mid) as [-> | Hne].
    - rewrite Hkey, keys_cmp_refl in Hgt. lia.
    - pose proof (key_le_ok_cmp _ _ (keys_ordered_le z m mid Ho ltac:(lia) ltac:(lia)
                                       ltac:(lia))) as Hc.
      rewrite Hkey in Hc. lia. }
  destruct (Z.ltb_spec (keys_cmp key (zbr_key (zbranch_at z mid))) 0) as [Hlt' | Hge'].
  { apply (IH _ _ m); try lia; [| exact Hkey].
    destruct (Z.le_gt_cases mid m) as [Hmm | Hmm]; [| lia]. exfalso.
    destruct (Z.eq_dec m mid) as [-> | Hne].
    - rewrite Hkey, keys_cmp_refl in Hlt'. lia.
    - pose proof (key_le_ok_cmp _ _ (keys_ordered_le z mid m Ho ltac:(lia) ltac:(lia)
                                       ltac:(lia))) as Hc.
      rewrite Hkey in Hc. apply keys_cmp_gt in Hlt'. lia. }
  eauto.
Qed.

(** Two slots of a znode in order with the same key that is not hashed
    are one slot. *)
Lemma keys_ordered_unique (z : ubifs_znode) (i j : Z) :
  keys_ordered z -> 0 <= i < zn_child_cnt z -> 0 <= j < zn_child_cnt z ->
  zbr_key (zbranch_at z i) = zbr_key (zbranch_at z j) ->
  is_hash_key (zbr_key (zbranch_at z i)) = false -> i = j.
Proof.
  intros Ho Hi Hj Heq Hh.
  destruct (Z.lt_trichotomy i j) as [Hlt | [-> | Hgt]]; [| reflexivity |]; exfalso.
  - destruct (keys_ordered_le z i j Ho ltac:(lia) Hlt ltac:(lia)) as [Hc | [_ Hc]].
    + rewrite Heq, keys_cmp_refl in Hc. lia.
    + congruence.
  - destruct (keys_ordered_le z j i Ho ltac:(lia) Hgt ltac:(lia)) as [Hc | [_ Hc]].
    + rewrite Heq, keys_cmp_refl in Hc. lia.
    + congruence.
Qed.

(** The search in a znode in order: it finds the key exactly when a
    slot has it, at a slot that has it. *)
Lemma ubifs_search_zbranch_finds (z : ubifs_znode) (key : ubifs_key) (m : Z) :
  keys_ordered z -> 0 <= m < zn_child_cnt z -> zbr_key (zbranch_at z m) = key ->
  exists n, ubifs_search_zbranch z key = (1, n)
            /\ 0 <= n < zn_child_cnt z /\ zbr_key (zbranch_at z n) = key
            /\ (is_hash_key key = false -> n = m).
Proof.
  intros Ho Hm Hkey.
  destruct (search_zbranch_loop_finds z key (S (Z.to_nat (zn_child_cnt z))) Ho 0
              (zn_child_cnt z) m ltac:(lia) ltac:(lia) ltac:(lia) Hm Hkey) as [n Hn].
  exists n. split; [exact Hn |].
  destruct (ubifs_search_zbranch_sound z key n Hn) as [Hr Hk].
  split; [exact Hr |]. split; [exact Hk |].
  intros Hh. apply (keys_ordered_unique z n m Ho Hr Hm); [congruence |].
  rewrite Hk. exact Hh.
Qed.

Lemma ubifs_search_zbranch_absent (z : ubifs_znode) (key : ubifs_key) :
  keys_ordered z ->
  (forall i, 0 <= i < zn_child_cnt z -> zbr_key (zbranch_at z i) <> key) ->
  exists n, ubifs_search_zbranch z key = (0, n).
Proof.
  intros Ho Habs. pose proof (ubifs_search_zbranch_exact z key) as [He _].
  destruct (ubifs_search_zbranch z key) as [e n] eqn:Es. cbn [fst] in He.
  destruct He as [-> | ->]; [eauto |].
  apply ubifs_search_zbranch_sound in Es as [Hr Hk]. exfalso. exact (Habs n Hr Hk).
Qed.

Lemma ubifs_search_zbranch_miss (z : ubifs_znode) (key : ubifs_key) (n : Z) :
  keys_ordered z -> ubifs_search_zbranch z key = (0, n) ->
  forall i, 0 <= i < zn_child_cnt z -> zbr_key (zbranch_at z i) <> key.
Proof.
  intros Ho Hs i Hi Hk.
  destruct (ubifs_search_zbranch_finds z key i Ho Hi Hk) as (m & Hm & _). congruence.
Qed.

(** *** The search after a change of the znode *)

Lemma keys_ordered_insert (z z' : ubifs_znode) (zbr : ubifs_zbranch) (p : Z) :
  znode_ok z -> key_fits z (zbr_key zbr) p ->
  zn_child_cnt z' = zn_child_cnt z + 1 ->
  (forall i, 0 <= i <= zn_child_cnt z -> zbranch_at z' i = branches_with z zbr p i) ->
  keys_ordered z'.
Proof.
  intros Hok Hfit Hc Hb i Hi1 Hi2. rewrite !Hb by lia.
  apply branches_with_ordered; [assumption .. | lia].
Qed.

Lemma keys_ordered_delete (z z' : ubifs_znode) (p : Z) :
  keys_ordered z -> 0 <= p ->
  zn_child_cnt z' = zn_child_cnt z - 1 ->
  (forall i, 0 <= i < zn_child_cnt z - 1 ->
             zbranch_at z' i = if i <? p then zbranch_at z i else zbranch_at z (i + 1)) ->
  keys_ordered z'.
Proof.
  intros Ho Hp Hc Hb i Hi1 Hi2. rewrite !Hb by lia.
  destruct (Z.ltb_spec i p), (Z.ltb_spec (i + 1) p); try lia.
  - apply Ho; lia.
  - apply keys_ordered_le; [exact Ho | lia ..].
  - apply Ho; lia.
Qed.

(** After a branch with a new key was put into the slot [p]: the search
    finds the new key at [p], and what it says of any other key that is
    not hashed is as before, with the same branch when the key is
    there. *)
Lemma search_after_insert (z z' : ubifs_znode) (zbr : ubifs_zbranch) (p : Z) :
  znode_ok z -> key_fits z (zbr_key zbr) p ->
  zn_child_cnt z' = zn_child_cnt z + 1 ->
  (forall i, 0 <= i <= zn_child_cnt z -> zbranch_at z' i = branches_with z zbr p i) ->
  (forall i, 0 <= i < zn_child_cnt z -> zbr_key (zbranch_at z i) <> zbr_key zbr) ->
  ubifs_search_zbranch z' (zbr_key zbr) = (1, p)
  /\ forall k, k <> zbr_key zbr -> is_hash_key k = false ->
       exists e m m',
         ubifs_search_zbranch z k = (e, m) /\ ubifs_search_zbranch z' k = (e, m')
         /\ (e = 1 -> zbranch_at z' m' = zbranch_at z m).
Proof.
  intros Hok Hfit Hc Hb Habs.
  pose proof (keys_ordered_insert z z' zbr p Hok Hfit Hc Hb) as Ho'.
  destruct Hfit as (Hp & _). destruct Hok as [_ Ho].
  assert (Hat : forall i, 0 <= i <= zn_child_cnt z -> i <> p ->
                  exists j, 0 <= j < zn_child_cnt z /\ zbranch_at z' i = zbranch_at z j).
  { intros i Hi Hne. rewrite Hb by lia. unfold branches_with.
    destruct (Z.ltb_spec i p); [exists i; split; [lia | reflexivity] |].
    destruct (Z.eqb_spec i p); [lia |]. exists (i - 1). split; [lia | reflexivity]. }
  assert (Hpp : zbranch_at z' p = zbr).
  { rewrite Hb by lia. unfold branches_with. rewrite Z.ltb_irrefl, Z.eqb_refl. reflexivity. }
  split.
  - destruct (ubifs_search_zbranch_finds z' (zbr_key zbr) p Ho' ltac:(lia)
                ltac:(rewrite Hpp; reflexivity)) as (n & Hn & Hr & Hk & _).
    rewrite Hn. f_equal.
    destruct (Z.eq_dec n p) as [-> | Hne]; [reflexivity |]. exfalso.
    destruct (Hat n ltac:(lia) Hne) as (j & Hj & Hz). rewrite Hz in Hk.
    exact (Habs j Hj Hk).
  - intros k Hk Hh. pose proof (ubifs_search_zbranch_exact z k) as [He _].
    destruct (ubifs_search_zbranch z k) as [e m] eqn:Es. cbn [fst] in He.
    exists e, m. destruct He as [-> | ->].
    + pose proof (ubifs_search_zbranch_miss z k m Ho Es) as Hmiss.
      destruct (ubifs_search_zbranch_absent z' k Ho') as [m' Hm'].
      * intros i Hi Hki. destruct (Z.eq_dec i p) as [-> | Hne].
        -- rewrite Hpp in Hki. congruence.
        -- destruct (Hat i ltac:(lia) Hne) as (j & Hj & Hz). rewrite Hz in Hki.
           exact (Hmiss j Hj Hki).
      * exists m'. split; [reflexivity |]. split; [exact Hm' | discriminate].
    + apply ubifs_search_zbranch_sound in Es as [Hm Hkm].
      set (m1 := if m <? p then m else m + 1).
      assert (Hm1 : 0 <= m1 < zn_child_cnt z' /\ zbranch_at z' m1 = zbranch_at z m).
      { unfold m1. destruct (Z.ltb_spec m p).
        - split; [lia |]. rewrite Hb by lia. unfold branches_with.
          destruct (Z.ltb_spec m p); [reflexivity | lia].
        - split; [lia |]. rewrite Hb by lia. unfold branches_with.
          destruct (Z.ltb_spec (m + 1) p); [lia |].
          destruct (Z.eqb_spec (m + 1) p); [lia |]. f_equal. lia. }
      destruct Hm1 as [Hr1 Hz1].
      destruct (ubifs_search_zbranch_finds z' k m1 Ho' Hr1 ltac:(rewrite Hz1; exact Hkm))
        as (n & Hn & _ & _ & Hu).
      rewrite (Hu Hh) in Hn. exists m1. split; [reflexivity |]. split; [exact Hn |].
      intros _. exact Hz1.
Qed.

(** After the branch of the slot [p], whose key is not hashed, was
    taken out: the search does not find its key, and what it says of
    any other key that is not hashed is as before. *)
Lemma search_after_delete (z z' : ubifs_znode) (p : Z) :
  keys_ordered z -> 0 <= p < zn_child_cnt z ->
  zn_child_cnt z' = zn_child_cnt z - 1 ->
  (forall i, 0 <= i < zn_child_cnt z - 1 ->
             zbranch_at z' i = if i <? p then zbranch_at z i else zbranch_at z (i + 1)) ->
  is_hash_key (zbr_key (zbranch_at z p)) = false ->
  (exists m, ubifs_search_zbranch z' (zbr_key (zbranch_at z p)) = (0, m))
  /\ forall k, k <> zbr_key (zbranch_at z p) -> is_hash_key k = false ->
       exists e m m',
         ubifs_search_zbranch z k = (e, m) /\ ubifs_search_zbranch z' k = (e, m')
         /\ (e = 1 -> zbranch_at z' m' = zbranch_at z m).
Proof.
  intros Ho Hp Hc Hb Hh.
  pose proof (keys_ordered_delete z z' p Ho ltac:(lia) Hc Hb) as Ho'.
  assert (Hat : forall i, 0 <= i < zn_child_cnt z' ->
                  exists j, 0 <= j < zn_child_cnt z /\ j <> p
                            /\ zbranch_at z' i = zbranch_at z j).
  { intros i Hi. rewrite Hb by lia.
    destruct (Z.ltb_spec i p); [exists i | exists (i + 1)]; (split; [lia |]);
      (split; [lia | reflexivity]). }
  split.
  - apply (ubifs_search_zbranch_absent z' _ Ho'). intros i Hi Hk.
    destruct (Hat i Hi) as (j & Hj & Hne & Hz). rewrite Hz in Hk.
    apply Hne. apply (keys_ordered_unique z j p Ho Hj Hp Hk). rewrite Hk. exact Hh.
  - intros k Hk Hhk. pose proof (ubifs_search_zbranch_exact z k) as [He _].
    destruct (ubifs_search_zbranch z k) as [e m] eqn:Es. cbn [fst] in He.
    exists e, m. destruct He as [-> | ->].
    + pose proof (ubifs_search_zbranch_miss z k m Ho Es) as Hmiss.
      destruct (ubifs_search_zbranch_absent z' k Ho') as [m' Hm'].
      * intros i Hi Hki. destruct (Hat i Hi) as (j & Hj & _ & Hz). rewrite Hz in Hki.
        exact (Hmiss j Hj Hki).
      * exists m'. split; [reflexivity |]. split; [exact Hm' | discriminate].
    + apply ubifs_search_zbranch_sound in Es as [Hm Hkm].
      assert (Hmp : m <> p) by (intros ->; congruence).
      set (m1 := if m <? p then m else m - 1).
      assert (Hm1 : 0 <= m1 < zn_child_cnt z' /\ zbranch_at z' m1 = zbranch_at z m).
      { unfold m1. destruct (Z.ltb_spec m p).
        - split; [lia |]. rewrite Hb by lia.
          destruct (Z.ltb_spec m p); [reflexivity | lia].
        - split; [lia |]. rewrite Hb by lia.
          destruct (Z.ltb_spec (m - 1) p); [lia |]. f_equal. lia. }
      destruct Hm1 as [Hr1 Hz1].
      destruct (ubifs_search_zbranch_finds z' k m1 Ho' Hr1 ltac:(rewrite Hz1; exact Hkm))
        as (n & Hn & _ & _ & Hu).
      rewrite (Hu Hhk) in Hn. exists m1. split; [reflexivity |]. split; [exact Hn |].
      intros _. exact Hz1.
Qed.

(** ** An index of one znode *)

Lemma ubifs_search_zbranch_time (t : Z) (z : ubifs_znode) (key : ubifs_key) :
  ubifs_search_zbranch (set_zn_time t z) key = ubifs_search_zbranch z key.
Proof. apply ubifs_search_zbranch_keys; reflexivity. Qed.

Section LeafRoot.

Context {ext_t : Type}.
Implicit Types c : ubifs_info ext_t.

Variable ubifs_add_dirt : ext_t -> Z -> Z -> Z * ext_t.
Variable get_seconds : Z.
Variable rb_insert_color : forall A : Type, rb_tree A -> rb_tree A.

Lemma leaf_root_time (root : nat) (z : ubifs_znode) c :
  leaf_root c root z ->
  leaf_root (zn_upd root (set_zn_time get_seconds) c) root (set_zn_time get_seconds z).
Proof.
  intros (Hr & Hz & Hl & Hp & Hc & Hd & Hk & Ho).
  split; [exact Hr |]. split; [rewrite lookup_zn_upd_eq, Hz; reflexivity |].
  repeat (split; [assumption |]). exact Ho.
Qed.

(** What the lookups answer on an index of one znode: what the search
    in that znode says. *)
Lemma lookup_level0_leaf_root (fuel : nat) (key : ubifs_key) (root : nat) (z : ubifs_znode) c :
  leaf_root c root z ->
  lookup_level0 get_seconds (S fuel) key c
  = (Val ((ubifs_search_zbranch z key).1, root, (ubifs_search_zbranch z key).2),
     zn_upd root (set_zn_time get_seconds) c).
Proof.
  intros (Hr & Hz & Hl & Hp & Hc & Hd & Hk & Ho).
  unfold lookup_level0, lookup_level0_search. rewrite bind_assoc, bind_get, Hr.
  rewrite bind_assoc, bind_ret, bind_assoc, bind_modify.
  set (c1 := zn_upd root (set_zn_time get_seconds) c).
  assert (Hd1 : deref c1 root = set_zn_time get_seconds z).
  { apply deref_lookup. unfold c1. rewrite lookup_zn_upd_eq, Hz. reflexivity. }
  cbn [lookup_level0_descend]. rewrite bind_assoc, bind_get, Hd1, ubifs_search_zbranch_time.
  destruct (ubifs_search_zbranch z key) as [exact n] eqn:Es. cbn [fst snd zn_level set_zn_time].
  rewrite Hl. cbn [Z.eqb]. rewrite bind_ret.
  destruct (negb (exact =? 0) || negb (is_hash_key key) || negb (n =? -1)) eqn:Ec;
    [reflexivity |].
  apply orb_false_iff in Ec as [Ec En]. apply orb_false_iff in Ec as [Ee _].
  apply negb_false_iff, Z.eqb_eq in Ee, En. subst exact n.
  unfold tnc_prev. cbn [Z.ltb Z.compare tnc_prev_up]. unfold bind at 1, try.
  rewrite bind_get, Hd1. cbn [zn_parent set_zn_time]. rewrite Hp. reflexivity.
Qed.

Lemma lookup_level0_dirty_leaf_root (fuel : nat) (key : ubifs_key) (root : nat) (z : ubifs_znode) c :
  leaf_root c root z ->
  lookup_level0_dirty ubifs_add_dirt get_seconds rb_insert_color (S fuel) key c
  = (Val ((ubifs_search_zbranch z key).1, root, (ubifs_search_zbranch z key).2),
     zn_upd root (set_zn_time get_seconds) c).
Proof.
  intros (Hr & Hz & Hl & Hp & Hc & Hd & Hk & Ho).
  pose proof (deref_lookup _ _ _ Hz) as Hdz.
  unfold lookup_level0_dirty. rewrite bind_get, Hr, bind_ret.
  unfold dirty_cow_znode at 1. rewrite bind_assoc, bind_get. cbn [zbr_get]. rewrite Hr, Hdz, Hc, Hd.
  cbn [negb]. rewrite bind_ret, bind_modify.
  set (c1 := zn_upd root (set_zn_time get_seconds) c).
  assert (Hd1 : deref c1 root = set_zn_time get_seconds z).
  { apply deref_lookup. unfold c1. rewrite lookup_zn_upd_eq, Hz. reflexivity. }
  cbn [lookup_level0_dirty_descend]. rewrite bind_assoc, bind_get, Hd1, ubifs_search_zbranch_time.
  destruct (ubifs_search_zbranch z key) as [exact n] eqn:Es. cbn [fst snd zn_level set_zn_time].
  rewrite Hl. cbn [Z.eqb]. rewrite bind_ret.
  destruct (negb (exact =? 0) || negb (is_hash_key key) || negb (n =? -1)) eqn:Ec;
    [reflexivity |].
  apply orb_false_iff in Ec as [Ec En]. apply orb_false_iff in Ec as [Ee _].
  apply negb_false_iff, Z.eqb_eq in Ee, En. subst exact n.
  unfold tnc_prev. cbn [Z.ltb Z.compare tnc_prev_up]. unfold bind at 1, try.
  rewrite bind_get, Hd1. cbn [zn_parent set_zn_time]. rewrite Hp. reflexivity.
Qed.

Lemma foldl_store_meta (f1 f2 : Z -> Z) (l : list Z) (z : ubifs_znode) :
  let z' := foldl (fun z i => zbranch_store (f1 i) (zbranch_at z (f2 i)) z) z l in
  zn_flags z' = zn_flags z /\ zn_parent z' = zn_parent z /\ zn_level z' = zn_level z
  /\ zn_child_cnt z' = zn_child_cnt z.
Proof.
  revert z. induction l as [| i l IH]; intros z; cbn [foldl]; [auto |].
  cbv zeta in IH |- *. destruct (IH (zbranch_store (f1 i) (zbranch_at z (f2 i)) z))
    as (H1 & H2 & H3 & H4).
  rewrite H1, H2, H3, H4. unfold zbranch_store. destruct (f1 i <? 0); auto.
Qed.

(** [insert_zbranch] into a zero-level znode writes that znode only,
    and neither its flags nor its parent. *)
Lemma insert_zbranch_leaf (zi : nat) (z : ubifs_znode) (zbr : ubifs_zbranch) (n : Z) c :
  znodes c !! zi = Some z -> zn_level z = 0 ->
  exists z',
    insert_zbranch zi zbr n c = (Val tt, set_znodes (<[zi := z']> (znodes c)) c)
    /\ zn_flags z' = zn_flags z /\ zn_parent z' = zn_parent z.
Proof.
  intros Hz Hl. pose proof (deref_lookup _ _ _ Hz) as Hd.
  unfold insert_zbranch. rewrite bind_get, Hd, Hl. cbn [Z.eqb negb].
  rewrite bind_modify.
  change (insert_zbranch_shift false zi)
    with (fun (c : ubifs_info ext_t) i =>
            zn_upd zi (fun z => zbranch_store i (zbranch_at z (i - 1)) z) c).
  rewrite (foldl_zn_upd zi (fun z i => zbranch_store i (zbranch_at z (i - 1)) z)).
  rewrite bind_ret, !bind_modify, !zn_upd_zn_upd.
  set (l := reverse (seqZ (n + 1) (zn_child_cnt z - n))).
  destruct (foldl_store_meta (fun i => i) (fun i => i - 1) l z) as (H1 & H2 & _ & _).
  set (z1 := foldl (fun z i => zbranch_store i (zbranch_at z (i - 1)) z) z l) in *.
  assert (Hupd : forall G : ubifs_znode -> ubifs_znode,
             zn_upd zi G c = set_znodes (<[zi := G z]> (znodes c)) c).
  { intros G. unfold zn_upd. f_equal. apply map_eq. intros q.
    destruct (decide (zi = q)) as [<- | Hq].
    - rewrite lookup_alter_eq, lookup_insert_eq, Hz. reflexivity.
    - rewrite lookup_alter_ne, lookup_insert_ne by exact Hq. reflexivity. }
  destruct (n =? 0).
  - unfold modify. rewrite zn_upd_zn_upd, Hupd. eexists. split; [reflexivity |].
    fold z1. unfold zbranch_store. destruct (n <? 0); cbn; auto.
  - unfold ret. rewrite Hupd. eexists. split; [reflexivity |].
    fold z1. unfold zbranch_store. destruct (n <? 0); cbn; auto.
Qed.

(** [tnc_insert] into the root with a free slot is [insert_zbranch]. *)
Lemma tnc_insert_leaf_root (fuel : nat) (root : nat) (z : ubifs_znode) (zbr : ubifs_zbranch) (p : Z) c c' :
  leaf_root c root z ->
  zn_child_cnt z < fanout (c_cfg c) ->
  insert_zbranch root zbr p c = (Val tt, c') ->
  tnc_insert rb_insert_color (S fuel) root zbr p c = (Val tt, c').
Proof.
  intros (Hr & Hz & Hl & Hp & Hc & Hd & Hk & Ho) Hfan Hins.
  pose proof (deref_lookup _ _ _ Hz) as Hdz.
  unfold tnc_insert. cbn [tnc_insert_loop]. unfold tnc_insert_body.
  rewrite bind_assoc.
  match goal with |- bind get ?k ?s = ?rhs => change (k s s = rhs) end.
  cbv beta zeta. rewrite Hdz, Hp.
  destruct (Z.ltb_spec (zn_child_cnt z) (fanout (c_cfg c))) as [_ |]; [| lia].
  rewrite !bind_assoc, (bind_val _ _ _ _ _ Hins), !bind_assoc, bind_get.
  replace ((p =? 0) && bool_decide (is_Some (@None nat)) && (zn_iip (deref c' root) =? 0))
    with false by (destruct (p =? 0); reflexivity).
  reflexivity.
Qed.

(** After [ubifs_tnc_add] to an index of one znode with a free slot the
    lookup finds the key, at a branch with the position that was added;
    the index is still one znode in order; and the lookup of any other
    key that is not hashed says what it said before, with the same
    branch when the key is there.  The call succeeds when the key is
    new, and when the key is there and its old node can be charged as
    dirt. *)
Theorem ubifs_tnc_add_then_lookup (fuel : nat) (key : ubifs_key) (lnum offs len : Z) (root : nat) (z : ubifs_znode) c :
  leaf_root c root z ->
  zn_child_cnt z < fanout (c_cfg c) ->
  zn_child_cnt z < Z.of_nat (length (zn_zbranch z)) ->
  (forall n, ubifs_search_zbranch z key = (1, n) ->
     (ubifs_add_dirt (ext c) (zbr_lnum (zbranch_at z n)) (zbr_len (zbranch_at z n))).1 = 0) ->
  exists c1 z1 n,
    ubifs_tnc_add ubifs_add_dirt get_seconds rb_insert_color (S fuel) key lnum offs len c
    = (Val tt, c1)
    /\ leaf_root c1 root z1
    /\ lookup_level0 get_seconds (S fuel) key c1
       = (Val (1, root, n), zn_upd root (set_zn_time get_seconds) c1)
    /\ zbr_key (zbranch_at z1 n) = key
    /\ zbr_lnum (zbranch_at z1 n) = lnum
    /\ zbr_offs (zbranch_at z1 n) = offs
    /\ zbr_len (zbranch_at z1 n) = len
    /\ (forall k, k <> key -> is_hash_key k = false ->
          exists e m m',
            lookup_level0 get_seconds (S fuel) k c
            = (Val (e, root, m), zn_upd root (set_zn_time get_seconds) c)
            /\ lookup_level0 get_seconds (S fuel) k c1
               = (Val (e, root, m'), zn_upd root (set_zn_time get_seconds) c1)
            /\ (e = 1 -> zbranch_at z1 m' = zbranch_at z m)).
Proof.
  intros Hlr Hfan Hfree Hdirt.
  pose proof (leaf_root_time root z c Hlr) as Hlt.
  pose proof (lookup_level0_dirty_leaf_root fuel key root z c Hlr) as Hlook.
  set (c0 := zn_upd root (set_zn_time get_seconds) c) in *.
  set (zt := set_zn_time get_seconds z) in *.
  assert (Hfinish : forall c1 z1 n,
             ubifs_tnc_add ubifs_add_dirt get_seconds rb_insert_color (S fuel) key lnum offs
               len c = (Val tt, c1) ->
             leaf_root c1 root z1 ->
             ubifs_search_zbranch z1 key = (1, n) ->
             zbr_key (zbranch_at z1 n) = key ->
             zbr_lnum (zbranch_at z1 n) = lnum ->
             zbr_offs (zbranch_at z1 n) = offs ->
             zbr_len (zbranch_at z1 n) = len ->
             (forall k, k <> key -> is_hash_key k = false ->
                exists e m m',
                  ubifs_search_zbranch z k = (e, m) /\ ubifs_search_zbranch z1 k = (e, m')
                  /\ (e = 1 -> zbranch_at z1 m' = zbranch_at z m)) ->
             exists c1 z1 n,
               ubifs_tnc_add ubifs_add_dirt get_seconds rb_insert_color (S fuel) key lnum offs
                 len c = (Val tt, c1)
               /\ leaf_root c1 root z1
               /\ lookup_level0 get_seconds (S fuel) key c1
                  = (Val (1, root, n), zn_upd root (set_zn_time get_seconds) c1)
               /\ zbr_key (zbranch_at z1 n) = key
               /\ zbr_lnum (zbranch_at z1 n) = lnum
               /\ zbr_offs (zbranch_at z1 n) = offs
               /\ zbr_len (zbranch_at z1 n) = len
               /\ (forall k, k <> key -> is_hash_key k = false ->
                     exists e m m',
                       lookup_level0 get_seconds (S fuel) k c
                       = (Val (e, root, m), zn_upd root (set_zn_time get_seconds) c)
                       /\ lookup_level0 get_seconds (S fuel) k c1
                          = (Val (e, root, m'), zn_upd root (set_zn_time get_seconds) c1)
                       /\ (e = 1 -> zbranch_at z1 m' = zbranch_at z m))).
  { intros c1 z1 n Hrun Hlr1 Hs1 H1 H2 H3 H4 Hfr. exists c1, z1, n.
    split; [exact Hrun |]. split; [exact Hlr1 |]. split.
    { rewrite (lookup_level0_leaf_root fuel key root z1 c1 Hlr1), Hs1. reflexivity. }
    do 4 (split; [assumption |]).
    intros k Hk Hh. destruct (Hfr k Hk Hh) as (e & m & m' & Ha & Hb & Hc).
    exists e, m, m'. split; [| split; [| exact Hc]].
    - rewrite (lookup_level0_leaf_root fuel k root z c Hlr), Ha. reflexivity.
    - rewrite (lookup_level0_leaf_root fuel k root z1 c1 Hlr1), Hb. reflexivity. }
  destruct Hlr as (Hr & Hz & Hl & Hp & Hc & Hd & Hk & Ho).
  pose proof (ubifs_search_zbranch_exact z key) as [He _].
  destruct (ubifs_search_zbranch z key) as [e n] eqn:Es. cbn [fst snd] in He, Hlook.
  unfold ubifs_tnc_add in Hfinish |- *.
  rewrite (bind_val _ _ _ _ _ Hlook) in Hfinish |- *. cbv iota beta in Hfinish |- *.
  destruct He as [-> | ->]; cbn [Z.eqb Pos.eqb] in Hfinish |- *.
  - (* the key is new *)
    pose proof (ubifs_search_zbranch_fits z key n Ho Hk Es) as Hfit.
    pose proof (ubifs_search_zbranch_miss z key n (proj2 Ho) Es) as Hmiss.
    set (zbr := new_zbranch key lnum offs len) in *.
    destruct Hlt as (Hr0 & Hz0 & Hl0 & Hp0 & Hc0 & Hd0 & Hk0 & Ho0).
    destruct (insert_zbranch_leaf root zt zbr (n + 1) c0 Hz0 Hl0) as (z1 & Hins & Hf1 & Hp1).
    pose proof (zshape_lookup _ _ _ Hz0) as Hs0. unfold shape_of in Hs0.
    destruct (insert_zbranch_shape root zbr (n + 1) _ _ _ c0 Hs0 (proj1 Hfit))
      as (c1 & l1 & Hrun & _ & Hs1 & Hlen & _ & Hl1).
    rewrite Hrun in Hins. injection Hins as Hc1.
    assert (Hz1 : znodes c1 !! root = Some z1) by (rewrite Hc1; apply lookup_insert_eq).
    assert (Hr1 : zbr_znode (zroot c1) = Some root) by (rewrite Hc1; exact Hr0).
    pose proof (zshape_deref _ _ _ _ _ Hs1) as (Hb1 & Hk1 & Hlv1).
    rewrite (deref_lookup _ _ _ Hz1) in Hb1, Hk1, Hlv1.
    assert (Hbr : forall i, 0 <= i <= zn_child_cnt z ->
                    zbranch_at z1 i = branches_with z zbr (n + 1) i).
    { intros i Hi. rewrite zbranch_at_lbr, Hb1, Hl1. unfold branches_with.
      change (zn_child_cnt zt) with (zn_child_cnt z).
      change (length (zn_zbranch zt)) with (length (zn_zbranch z)).
      change (lbr (zn_zbranch zt)) with (zbranch_at z).
      destruct (Z.ltb_spec i (n + 1)), (Z.eqb_spec i (n + 1)); repeat case_decide;
        try lia; reflexivity. }
    destruct (search_after_insert z z1 zbr (n + 1) Ho Hfit Hk1 Hbr Hmiss) as [Hfound Hfr].
    assert (Hnew : zbranch_at z1 (n + 1) = zbr).
    { rewrite Hbr by (destruct Hfit; lia). unfold branches_with.
      rewrite Z.ltb_irrefl, Z.eqb_refl. reflexivity. }
    apply (Hfinish c1 z1 (n + 1)).
    + apply (tnc_insert_leaf_root fuel root zt zbr (n + 1) c0 c1).
      * repeat (split; [assumption |]). exact Ho0.
      * exact Hfan.
      * exact Hrun.
    + split; [exact Hr1 |]. split; [exact Hz1 |]. split; [rewrite Hlv1; exact Hl0 |].
      split; [rewrite Hp1; exact Hp0 |]. rewrite Hf1.
      split; [exact Hc0 |]. split; [exact Hd0 |].
      split; [rewrite Hk1; change (zn_child_cnt zt) with (zn_child_cnt z); lia |].
      split.
      * rewrite Hk1, Hb1, Hlen. change (length (zn_zbranch zt)) with (length (zn_zbranch z)).
        change (zn_child_cnt zt) with (zn_child_cnt z). lia.
      * apply (keys_ordered_insert z z1 zbr (n + 1) Ho Hfit Hk1 Hbr).
    + exact Hfound.
    + rewrite Hnew. reflexivity.
    + rewrite Hnew. reflexivity.
    + rewrite Hnew. reflexivity.
    + rewrite Hnew. reflexivity.
    + exact Hfr.
  - (* the key is there: its branch gets the new position *)
    destruct (ubifs_search_zbranch_sound z key n Es) as [Hn Hkn].
    specialize (Hdirt n eq_refl).
    destruct Hlt as (Hr0 & Hz0 & Hl0 & Hp0 & Hc0 & Hd0 & Hk0 & Ho0).
    set (b := zbranch_at z n) in *.
    set (z1 := zbranch_store n (set_zbr_pos lnum offs len (lnc_free b)) zt).
    set (d := ubifs_add_dirt (ext c) (zbr_lnum b) (zbr_len b)) in *.
    assert (Hn' : 0 <= n < Z.of_nat (length (zn_zbranch z))) by (destruct Ho; lia).
    set (c2 := zbr_upd (ZSlot root n) lnc_free c0).
    assert (Hz2 : znodes c2 !! root = Some (zbranch_store n (lnc_free b) zt)).
    { unfold c2. cbn [zbr_upd]. rewrite lookup_zn_upd_eq, Hz0. reflexivity. }
    set (c1 := zbr_upd (ZSlot root n) (set_zbr_pos lnum offs len) (set_ext d.2 c2)).
    assert (Hz1 : znodes c1 !! root = Some z1).
    { unfold c1. unfold zbr_upd at 1. rewrite lookup_zn_upd_eq.
      change (znodes (set_ext d.2 c2)) with (znodes c2). rewrite Hz2.
      cbn [fmap option_fmap option_map].
      rewrite zbranch_at_store_eq by exact Hn'. rewrite zbranch_store_store. reflexivity. }
    assert (Hrun : (let* err := replace_zbranch ubifs_add_dirt (ZSlot root n) lnum offs len in
                    check err) c0 = (Val tt, c1)).
    { unfold replace_zbranch. rewrite !bind_assoc, bind_modify, bind_assoc, bind_get.
      rewrite bind_assoc. unfold bind at 1, add_dirt at 1. fold c2.
      cbn [zbr_get]. rewrite (deref_lookup _ _ _ Hz2).
      rewrite zbranch_at_store_eq by exact Hn'.
      change (ext c2) with (ext c).
      change (zbr_lnum (lnc_free b)) with (zbr_lnum b).
      change (zbr_len (lnc_free b)) with (zbr_len b). fold d. unfold c1.
      destruct d as [err e] eqn:Ed. cbn [fst snd] in *. subst err.
      rewrite bind_assoc, bind_modify, bind_ret. reflexivity. }
    assert (Hat : forall i, i <> n -> zbranch_at z1 i = zbranch_at z i).
    { intros i Hi. unfold z1. rewrite zbranch_at_store_ne by congruence. reflexivity. }
    assert (Hatn : zbranch_at z1 n = set_zbr_pos lnum offs len (lnc_free b)).
    { unfold z1. apply zbranch_at_store_eq. exact Hn'. }
    assert (Hkeys : forall i, zbr_key (zbranch_at z1 i) = zbr_key (zbranch_at z i)).
    { intros i. destruct (Z.eq_dec i n) as [-> | Hi]; [rewrite Hatn; reflexivity |].
      rewrite Hat by exact Hi. reflexivity. }
    assert (Hcnt : zn_child_cnt z1 = zn_child_cnt z)
      by (unfold z1; rewrite zbranch_store_child_cnt; reflexivity).
    assert (Hsame : forall k, ubifs_search_zbranch z1 k = ubifs_search_zbranch z k).
    { intros k. apply ubifs_search_zbranch_keys; [exact Hcnt | intros i _; apply Hkeys]. }
    apply (Hfinish c1 z1 n).
    + exact Hrun.
    + split; [exact Hr0 |]. split; [exact Hz1 |].
      split; [unfold z1; rewrite zbranch_store_level; exact Hl0 |].
      assert (Hmeta : zn_parent z1 = zn_parent z /\ zn_flags z1 = zn_flags z).
      { unfold z1, zbranch_store. destruct (n <? 0); split; reflexivity. }
      destruct Hmeta as [-> ->].
      split; [exact Hp |]. split; [exact Hc |]. split; [exact Hd |].
      split; [rewrite Hcnt; exact Hk |]. split.
      * rewrite Hcnt. unfold z1. rewrite zbranch_store_length. exact (proj1 Ho).
      * intros i Hi1 Hi2. rewrite !Hkeys. apply (proj2 Ho); [exact Hi1 | lia].
    + rewrite Hsame. exact Es.
    + rewrite Hkeys. exact Hkn.
    + rewrite Hatn. reflexivity.
    + rewrite Hatn. reflexivity.
    + rewrite Hatn. reflexivity.
    + intros k Hk' Hh. rewrite Hsame.
      destruct (ubifs_search_zbranch z k) as [e m] eqn:Esk. exists e, m, m.
      split; [reflexivity |]. split; [reflexivity |]. intros ->.
      apply Hat. intros ->. apply ubifs_search_zbranch_sound in Esk as [_ Hkk].
      apply Hk'. rewrite <- Hkk. exact Hkn.
Qed.

(** After [ubifs_tnc_remove] of a key that is not hashed from an index
    of one znode the lookup does not find the key; the index is still
    one znode in order; and the lookup of any other key that is not
    hashed says what it said before, with the same branch when the key
    is there.  The call succeeds when the key is not there, and when it
    is there, the znode keeps a child and the node of the key can be
    charged as dirt. *)
Theorem ubifs_tnc_remove_then_lookup (fuel : nat) (key : ubifs_key) (root : nat) (z : ubifs_znode) c :
  leaf_root c root z ->
  is_hash_key key = false ->
  (forall n, ubifs_search_zbranch z key = (1, n) ->
     1 < zn_child_cnt z
     /\ (ubifs_add_dirt (ext c) (zbr_lnum (zbranch_at z n)) (zbr_len (zbranch_at z n))).1 = 0) ->
  exists c1 z1 n,
    ubifs_tnc_remove ubifs_add_dirt get_seconds rb_insert_color (S fuel) key c = (Val tt, c1)
    /\ leaf_root c1 root z1
    /\ lookup_level0 get_seconds (S fuel) key c1
       = (Val (0, root, n), zn_upd root (set_zn_time get_seconds) c1)
    /\ (forall k, k <> key -> is_hash_key k = false ->
          exists e m m',
            lookup_level0 get_seconds (S fuel) k c
            = (Val (e, root, m), zn_upd root (set_zn_time get_seconds) c)
            /\ lookup_level0 get_seconds (S fuel) k c1
               = (Val (e, root, m'), zn_upd root (set_zn_time get_seconds) c1)
            /\ (e = 1 -> zbranch_at z1 m' = zbranch_at z m)).
Proof.
  intros Hlr Hh Hpre.
  pose proof (leaf_root_time root z c Hlr) as Hlt.
  pose proof (lookup_level0_dirty_leaf_root fuel key root z c Hlr) as Hlook.
  set (c0 := zn_upd root (set_zn_time get_seconds) c) in *.
  set (zt := set_zn_time get_seconds z) in *.
  assert (Hfinish : forall c1 z1 n,
             leaf_root c1 root z1 ->
             ubifs_search_zbranch z1 key = (0, n) ->
             (forall k, k <> key -> is_hash_key k = false ->
                exists e m m',
                  ubifs_search_zbranch z k = (e, m) /\ ubifs_search_zbranch z1 k = (e, m')
                  /\ (e = 1 -> zbranch_at z1 m' = zbranch_at z m)) ->
             leaf_root c1 root z1
             /\ lookup_level0 get_seconds (S fuel) key c1
                = (Val (0, root, n), zn_upd root (set_zn_time get_seconds) c1)
             /\ (forall k, k <> key -> is_hash_key k = false ->
                   exists e m m',
                     lookup_level0 get_seconds (S fuel) k c
                     = (Val (e, root, m), zn_upd root (set_zn_time get_seconds) c)
                     /\ lookup_level0 get_seconds (S fuel) k c1
                        = (Val (e, root, m'), zn_upd root (set_zn_time get_seconds) c1)
                     /\ (e = 1 -> zbranch_at z1 m' = zbranch_at z m))).
  { intros c1 z1 n Hlr1 Hs1 Hfr. split; [exact Hlr1 |]. split.
    { rewrite (lookup_level0_leaf_root fuel key root z1 c1 Hlr1), Hs1. reflexivity. }
    intros k Hk Hhk. destruct (Hfr k Hk Hhk) as (e & m & m' & Ha & Hb & Hc).
    exists e, m, m'. split; [| split; [| exact Hc]].
    - rewrite (lookup_level0_leaf_root fuel k root z c Hlr), Ha. reflexivity.
    - rewrite (lookup_level0_leaf_root fuel k root z1 c1 Hlr1), Hb. reflexivity. }
  destruct Hlr as (Hr & Hz & Hl & Hp & Hc & Hd & Hk & Ho).
  pose proof (ubifs_search_zbranch_exact z key) as [He _].
  destruct (ubifs_search_zbranch z key) as [e n] eqn:Es. cbn [fst snd] in He, Hlook.
  unfold ubifs_tnc_remove. rewrite (bind_val _ _ _ _ _ Hlook). cbv iota beta.
  destruct He as [-> | ->]; cbn [Z.eqb Pos.eqb].
  - (* the key is not there *)
    exists c0, zt, n. split; [reflexivity |]. apply Hfinish.
    + exact Hlt.
    + unfold zt. rewrite ubifs_search_zbranch_time. exact Es.
    + intros k _ _. unfold zt. rewrite ubifs_search_zbranch_time.
      destruct (ubifs_search_zbranch z k) as [e m]. exists e, m, m. auto.
  - (* the key is there *)
    destruct (ubifs_search_zbranch_sound z key n Es) as [Hn Hkn].
    destruct (Hpre n eq_refl) as [Htwo Hdirt].
    destruct Hlt as (Hr0 & Hz0 & Hl0 & Hp0 & Hc0 & Hd0 & Hk0 & Ho0).
    pose proof (tnc_delete_leaf_state ubifs_add_dirt get_seconds rb_insert_color (S fuel) root
                  zt n c0 Hz0 Hn Htwo (proj1 Ho0)) as Hst.
    pose proof (tnc_delete_leaf_run ubifs_add_dirt get_seconds rb_insert_color (S fuel) root
                  zt n c0 Hz0 Hn Htwo (proj1 Ho0)) as Hru.
    cbv zeta in Hst, Hru.
    change (ext c0) with (ext c) in Hst, Hru.
    change (zbranch_at zt n) with (zbranch_at z n) in Hst, Hru.
    change (zn_child_cnt zt) with (zn_child_cnt z) in Hst, Hru.
    change (zn_level zt) with (zn_level z) in Hru.
    rewrite Hdirt in Hst. cbn [Z.eqb] in Hst.
    destruct Hst as (c1 & Hrun & _ & Hr1 & Hz1).
    destruct Hru as (_ & _ & _ & Hru). specialize (Hru Hdirt).
    rewrite Hrun in Hru. cbn [fst snd] in Hru. destruct Hru as (_ & Hcnt & Hlv & Hbr).
    set (b := zbranch_at z n) in *.
    set (z0 := zbranch_store n (lnc_free b) zt) in *.
    destruct (foldl_store_meta (fun i => i) (fun i => i + 1)
                (seqZ n (Z.of_nat (Z.to_nat (zn_child_cnt z - 1 - n)))) z0)
      as (Hf & Hpa & _ & _).
    destruct (delete_shift_spec n (Z.to_nat (zn_child_cnt z - 1 - n)) z0)
      as (_ & Hlen & _ & _).
    set (z' := foldl (fun z i => zbranch_store i (zbranch_at z (i + 1)) z) z0
                 (seqZ n (Z.of_nat (Z.to_nat (zn_child_cnt z - 1 - n))))) in *.
    set (z1 := set_zn_child_cnt (zn_child_cnt z - 1) z') in *.
    assert (Hl1 : znodes c1 !! root = Some z1) by (rewrite Hz1; apply lookup_insert_eq).
    rewrite (deref_lookup _ _ _ Hl1) in Hcnt, Hlv, Hbr.
    assert (Hbr' : forall i, 0 <= i < zn_child_cnt z - 1 ->
                     zbranch_at z1 i = if i <? n then zbranch_at z i else zbranch_at z (i + 1)).
    { intros i Hi. rewrite Hbr by exact Hi. destruct (i <? n); reflexivity. }
    assert (Hhn : is_hash_key (zbr_key (zbranch_at z n)) = false) by (fold b; rewrite Hkn; exact Hh).
    destruct (search_after_delete z z1 n (proj2 Ho) Hn Hcnt Hbr' Hhn) as [[m Hm] Hfr].
    fold b in Hm, Hfr. rewrite Hkn in Hm, Hfr.
    exists c1, z1, m. split; [exact Hrun |]. apply Hfinish.
    + split; [rewrite Hr1; exact Hr0 |]. split; [exact Hl1 |].
      split; [rewrite Hlv; exact Hl |].
      assert (Hmeta : zn_parent z1 = zn_parent z /\ zn_flags z1 = zn_flags z).
      { unfold z1. cbn [zn_parent zn_flags set_zn_child_cnt]. rewrite Hpa, Hf.
        unfold z0, zbranch_store. destruct (n <? 0); split; reflexivity. }
      destruct Hmeta as [-> ->].
      split; [exact Hp |]. split; [exact Hc |]. split; [exact Hd |].
      split; [lia |]. split.
      * rewrite Hcnt. unfold z1. cbn [zn_zbranch set_zn_child_cnt]. rewrite Hlen.
        unfold z0. rewrite zbranch_store_length.
        change (length (zn_zbranch zt)) with (length (zn_zbranch z)).
        pose proof (proj1 Ho). lia.
      * apply (keys_ordered_delete z z1 n (proj2 Ho) ltac:(lia) Hcnt Hbr').
    + exact Hm.
    + exact Hfr.
Qed.

End LeafRoot.

Lemma leaf_root_leaf_c0 : leaf_root leaf_c0 0%nat (deref leaf_c0 0%nat).
Proof.
  split; [reflexivity |]. split; [vm_compute; reflexivity |].
  split; [reflexivity |]. split; [reflexivity |].
  split; [reflexivity |]. split; [reflexivity |].
  split; [vm_compute; discriminate |].
  apply znode_ok_b_spec. vm_compute. reflexivity.
Defined.

(** The inode 3 is added to [leaf_c0] at offset 320 of LEB 11. *)
Lemma ubifs_tnc_add_then_lookup_witness :
  exists c1 z1 n,
    ubifs_tnc_add add_dirt0 0 no_rebalance 5 (ino_key_init 3) 11 320 160 leaf_c0 = (Val tt, c1)
    /\ leaf_root c1 0%nat z1
    /\ lookup_level0 0 5 (ino_key_init 3) c1 = (Val (1, 0%nat, n), zn_upd 0%nat (set_zn_time 0) c1)
    /\ zbr_key (zbranch_at z1 n) = ino_key_init 3
    /\ zbr_lnum (zbranch_at z1 n) = 11
    /\ zbr_offs (zbranch_at z1 n) = 320
    /\ zbr_len (zbranch_at z1 n) = 160
    /\ (forall k, k <> ino_key_init 3 -> is_hash_key k = false ->
          exists e m m',
            lookup_level0 0 5 k leaf_c0 = (Val (e, 0%nat, m), zn_upd 0%nat (set_zn_time 0) leaf_c0)
            /\ lookup_level0 0 5 k c1 = (Val (e, 0%nat, m'), zn_upd 0%nat (set_zn_time 0) c1)
            /\ (e = 1 -> zbranch_at z1 m' = zbranch_at (deref leaf_c0 0%nat) m)).
Proof.
  refine (ubifs_tnc_add_then_lookup add_dirt0 0 no_rebalance 4 (ino_key_init 3) 11 320 160
            0%nat (deref leaf_c0 0%nat) leaf_c0 leaf_root_leaf_c0 _ _ _).
  - vm_compute. reflexivity.
  - vm_compute. reflexivity.
  - intros n H. vm_compute in H. discriminate H.
Defined.

(** The inode 2 is removed from [leaf_c0]. *)
Lemma ubifs_tnc_remove_then_lookup_witness :
  exists c1 z1 n,
    ubifs_tnc_remove add_dirt0 0 no_rebalance 5 (ino_key_init 2) leaf_c0 = (Val tt, c1)
    /\ leaf_root c1 0%nat z1
    /\ lookup_level0 0 5 (ino_key_init 2) c1 = (Val (0, 0%nat, n), zn_upd 0%nat (set_zn_time 0) c1)
    /\ (forall k, k <> ino_key_init 2 -> is_hash_key k = false ->
          exists e m m',
            lookup_level0 0 5 k leaf_c0 = (Val (e, 0%nat, m), zn_upd 0%nat (set_zn_time 0) leaf_c0)
            /\ lookup_level0 0 5 k c1 = (Val (e, 0%nat, m'), zn_upd 0%nat (set_zn_time 0) c1)
            /\ (e = 1 -> zbranch_at z1 m' = zbranch_at (deref leaf_c0 0%nat) m)).
Proof.
  refine (ubifs_tnc_remove_then_lookup add_dirt0 0 no_rebalance 4 (ino_key_init 2)
            0%nat (deref leaf_c0 0%nat) leaf_c0 leaf_root_leaf_c0 _ _).
  - reflexivity.
  - intros n _. split; vm_compute; reflexivity.
Defined.

(** ** Looking up a name *)

Lemma memcmp_from_zero (a b : list ascii) (n : nat) :
  forall i, memcmp_from a b i n = 0 <-> forall j, (i <= j < i + n)%nat -> byte_at a j = byte_at b j.
Proof.
  induction n as [| n IH]; intros i; cbn [memcmp_from].
  - split; [intros _ j Hj; lia | reflexivity].
  - destruct (Z.ltb_spec (byte_at a i) (byte_at b i)) as [Hlt | Hge].
    { split; [discriminate |]. intros H. specialize (H i ltac:(lia)). lia. }
    destruct (Z.ltb_spec (byte_at b i) (byte_at a i)) as [Hgt | Hle].
    { split; [discriminate |]. intros H. specialize (H i ltac:(lia)). lia. }
    rewrite IH. split.
    + intros H j Hj. destruct (Nat.eq_dec j i) as [-> | Hne]; [lia | apply H; lia].
    + intros H j Hj. apply H. lia.
Qed.

(** The comparison says "matches" exactly for an entry with the name. *)
Lemma dent_name_cmp_matches (dent : ubifs_dent_node) (nm : qstr) :
  dent_name_cmp dent nm = NAME_MATCHES <-> name_is dent nm.
Proof.
  unfold dent_name_cmp, name_is, memcmp. cbv zeta.
  destruct (Z.eqb_spec (memcmp_from (list_ascii_of_string (d_name dent))
                          (list_ascii_of_string (q_name nm)) 0
                          (Z.to_nat (Z.min (d_nlen dent) (q_len nm)))) 0) as [He | Hne].
  - destruct (Z.eqb_spec (d_nlen dent) (q_len nm)) as [Hl | Hl].
    + split; [intros _ | reflexivity]. split; [exact Hl |].
      rewrite Hl, Z.min_id in He. intros i Hi.
      apply (proj1 (memcmp_from_zero _ _ _ 0) He). lia.
    + split; [| tauto]. destruct (d_nlen dent <? q_len nm); discriminate.
  - split.
    + destruct (_ <? 0); discriminate.
    + intros [Hl Hb]. exfalso. apply Hne. apply memcmp_from_zero. intros j Hj.
      apply Hb. rewrite Hl, Z.min_id in Hj. lia.
Qed.

Section Names.

Context {ext_t : Type}.
Implicit Types c : ubifs_info ext_t.

Variable get_seconds : Z.

(** [matches_name] compares the name with the entry it leaves in the
    leaf-node cache of the branch. *)
Lemma matches_name_leaf (zbr : zbr_ref) (nm : qstr) (r : Z) c c' :
  matches_name zbr nm c = (Val r, c') ->
  exists dent, zbr_leaf (zbr_get c' zbr) = Some dent /\ r = dent_name_cmp dent nm.
Proof.
  unfold matches_name. rewrite bind_get. intros H.
  apply bind_inv in H as ([] & c1 & _ & H). rewrite bind_get in H.
  destruct (zbr_leaf (zbr_get c1 zbr)) as [dent |] eqn:El; [| discriminate H].
  injection H as <- <-. eauto.
Qed.

Lemma resolve_collision_left_sound (k fuel : nat) (key : ubifs_key) (nm : qstr) :
  forall zn n c found zn' n' c',
    resolve_collision_left get_seconds k fuel key zn n nm c = (Val (found, zn', n'), c') ->
    found = 0
    \/ (found = 1
        /\ exists dent, zbr_leaf (zbranch_at (deref c' zn') n') = Some dent /\ name_is dent nm).
Proof.
  induction k as [| k IH]; intros zn n c found zn' n' c'; cbn [resolve_collision_left];
    [discriminate |].
  intros H. apply bind_inv in H as (r & c1 & _ & H).
  destruct r as [err | [zp np]].
  { destruct (err =? - ENOENT); [| discriminate H]. injection H as <- _ _ _. auto. }
  rewrite bind_get in H.
  destruct (negb _); [injection H as <- _ _ _; auto |].
  apply bind_inv in H as (e & c2 & Hm & H).
  destruct (e =? NAME_LESS); [injection H as <- _ _ _; auto |].
  destruct (Z.eqb_spec e NAME_MATCHES) as [-> | _]; [| eapply IH; exact H].
  injection H as <- <- <- <-. right. split; [reflexivity |].
  apply matches_name_leaf in Hm as (dent & Hl & Hc). exists dent. split; [exact Hl |].
  apply dent_name_cmp_matches. symmetry. exact Hc.
Qed.

Lemma resolve_collision_right_sound (k fuel : nat) (key : ubifs_key) (nm : qstr) :
  forall zn n znode nn c found zn' n' c',
    resolve_collision_right get_seconds k fuel key zn n znode nn nm c
    = (Val (found, zn', n'), c') ->
    found = 0
    \/ (found = 1
        /\ exists dent, zbr_leaf (zbranch_at (deref c' zn') n') = Some dent /\ name_is dent nm).
Proof.
  induction k as [| k IH]; intros zn n znode nn c found zn' n' c';
    cbn [resolve_collision_right]; [discriminate |].
  intros H. apply bind_inv in H as (r & c1 & _ & H).
  destruct r as [err | [zp np]].
  { destruct (err =? - ENOENT); [| discriminate H]. injection H as <- _ _ _. auto. }
  rewrite bind_get in H.
  destruct (negb _); [injection H as <- _ _ _; auto |].
  apply bind_inv in H as (e & c2 & Hm & H).
  destruct (e =? NAME_GREATER); [injection H as <- _ _ _; auto |].
  destruct (Z.eqb_spec e NAME_MATCHES) as [-> | _]; [| eapply IH; exact H].
  injection H as <- <- <- <-. right. split; [reflexivity |].
  apply matches_name_leaf in Hm as (dent & Hl & Hc). exists dent. split; [exact Hl |].
  apply dent_name_cmp_matches. symmetry. exact Hc.
Qed.

Lemma resolve_collision_sound (fuel : nat) (key : ubifs_key) (nm : qstr) (zn : nat) (n : Z) (found : Z) (zn' : nat) (n' : Z) c c' :
  resolve_collision get_seconds fuel key zn n nm c = (Val (found, zn', n'), c') ->
  found = 0
  \/ (found = 1
      /\ exists dent, zbr_leaf (zbranch_at (deref c' zn') n') = Some dent /\ name_is dent nm).
Proof.
  unfold resolve_collision. intros H. apply bind_inv in H as (e & c1 & Hm & H).
  destruct (Z.eqb_spec e NAME_MATCHES) as [-> | _].
  - injection H as <- <- <- <-. right. split; [reflexivity |].
    apply matches_name_leaf in Hm as (dent & Hl & Hc). exists dent. split; [exact Hl |].
    apply dent_name_cmp_matches. symmetry. exact Hc.
  - destruct (e =? NAME_GREATER).
    + eapply resolve_collision_left_sound; exact H.
    + eapply resolve_collision_right_sound; exact H.
Qed.

(** The lookups by name return only entries with the name:
    [resolve_collision] says "found" only at a branch whose cached entry
    has the name, and the entry [do_lookup_nm] or [ubifs_tnc_lookup_nm]
    returns has the length and the bytes of the name looked for. *)
Theorem lookup_nm_returns_the_name (fuel : nat) (key : ubifs_key) (nm : qstr) c :
  (forall zn n found zn' n' c',
      resolve_collision get_seconds fuel key zn n nm c = (Val (found, zn', n'), c') ->
      found = 0
      \/ (found = 1
          /\ exists dent, zbr_leaf (zbranch_at (deref c' zn') n') = Some dent
                          /\ name_is dent nm))
  /\ (forall node c', do_lookup_nm get_seconds fuel key nm c = (Val node, c') ->
                      name_is node nm)
  /\ (forall node c', ubifs_tnc_lookup_nm get_seconds fuel key nm c = (Val node, c') ->
                      name_is node nm).
Proof.
  assert (Hdo : forall node c0 c', do_lookup_nm get_seconds fuel key nm c0 = (Val node, c') ->
                                   name_is node nm).
  { intros node c0 c'. unfold do_lookup_nm. intros H.
    apply bind_inv in H as ([[found znode] n] & c1 & _ & H).
    destruct (found =? 0); [discriminate H |].
    apply bind_inv in H as ([[err zn'] n'] & c2 & Hrc & H).
    destruct (Z.eqb_spec err 0) as [| Hne]; [discriminate H |].
    apply resolve_collision_sound in Hrc as [-> | (_ & dent & Hl & Hname)]; [contradiction |].
    rewrite bind_get in H. unfold tnc_read_node, lnc_lookup in H. rewrite Hl in H.
    injection H as <- _. exact Hname. }
  split; [intros zn n found zn' n' c'; apply resolve_collision_sound |].
  split; [intros node c'; apply Hdo |].
  intros node c'. unfold ubifs_tnc_lookup_nm. intros H.
  apply bind_inv in H as (dent & c1 & _ & H). cbv zeta in H.
  destruct ((q_len nm =? d_nlen dent) && (memcmp (d_name dent) (q_name nm) (d_nlen dent) =? 0))
    eqn:Ec; [| eapply Hdo; exact H].
  injection H as <- _. apply andb_true_iff in Ec as [E1 E2].
  apply Z.eqb_eq in E1, E2. split; [congruence |]. intros i Hi.
  unfold memcmp in E2. rewrite <- E1 in E2.
  apply (proj1 (memcmp_from_zero _ _ _ 0) E2). lia.
Qed.

End Names.

(** ** The scan of the log stays in the log *)

Section LogArea.

Context {ext_t : Type}.
Implicit Types c : ubifs_info ext_t.

Lemma replay_log_node_cfg (snod : ubifs_scan_node) c :
  c_cfg (replay_log_node snod c).2 = c_cfg c.
Proof.
  unfold replay_log_node. rewrite bind_get.
  destruct (SQNUM_WATERMARK <=? sn_sqnum snod); [reflexivity |].
  destruct (sn_sqnum snod <? cs_sqnum c); [reflexivity |].
  destruct (note_max_sqnum_run (sn_sqnum snod) c) as (c1 & Hn & _ & _ & _ & Hc).
  unfold bind at 1. rewrite Hn. rewrite <- Hc.
  destruct (sn_type snod =? UBIFS_REF_NODE).
  - rewrite bind_get. destruct (_ =? 1); [reflexivity |].
    destruct (negb _); reflexivity.
  - destruct (sn_type snod =? UBIFS_CS_NODE); [| reflexivity].
    destruct (negb _); reflexivity.
Qed.

Lemma replay_log_nodes_cfg (snods : list ubifs_scan_node) c :
  c_cfg (replay_log_nodes snods c).2 = c_cfg c.
Proof.
  revert c. induction snods as [| s rest IH]; intros c; [reflexivity |].
  cbn [replay_log_nodes]. unfold bind.
  pose proof (replay_log_node_cfg s c) as H.
  destruct (replay_log_node s c) as [[[] | e | |] c1]; cbn [snd] in H |- *;
    [rewrite IH; exact H | exact H ..].
Qed.

Variable ubifs_scan ubifs_scan' : Z -> Z -> Z + ubifs_scan_leb.
Variable ubifs_recover_log_leb ubifs_recover_log_leb' : Z -> Z -> Z + ubifs_scan_leb.

Lemma replay_log_leb_cfg (lnum offs : Z) c :
  c_cfg (replay_log_leb ubifs_scan ubifs_recover_log_leb lnum offs c).2 = c_cfg c.
Proof.
  unfold replay_log_leb. rewrite bind_get.
  destruct (match ubifs_scan lnum offs with
            | inl err => if need_recovery (c_cfg c) then ubifs_recover_log_leb lnum offs
                         else inl err
            | inr sleb => inr sleb
            end) as [err | sleb]; [reflexivity |].
  destruct (sl_nodes sleb) as [| snod rest] eqn:En; [reflexivity |].
  unfold bind at 1.
  assert (H1 : exists r c1,
             (if cs_sqnum c =? 0
              then if negb (sn_type snod =? UBIFS_CS_NODE) then fail (- EINVAL)
                   else if negb (as_cs_cmt_no (sn_node snod) =? cmt_no (c_cfg c))
                        then fail (- EINVAL)
                        else modify (set_cs_sqnum (sn_sqnum snod))
              else ret tt) c = (r, c1) /\ c_cfg c1 = c_cfg c).
  { destruct (cs_sqnum c =? 0); [| eauto].
    destruct (negb (sn_type snod =? UBIFS_CS_NODE)); [eauto |].
    destruct (negb _); eauto. }
  destruct H1 as (r & c1 & -> & Hc1). destruct r as [[] | e | |]; try exact Hc1.
  rewrite bind_get. destruct (sn_sqnum snod <? cs_sqnum c1); [exact Hc1 |].
  destruct (negb (sn_offs snod =? 0)); [exact Hc1 |].
  unfold bind at 1. pose proof (replay_log_nodes_cfg (snod :: rest) c1) as Hn.
  destruct (replay_log_nodes (snod :: rest) c1) as [[[] | e | |] c2]; cbn [snd] in Hn |- *;
    try (rewrite Hn; exact Hc1).
  rewrite bind_get.
  destruct (negb (sl_endpt sleb =? 0) || (leb_size (c_cfg c2) <=? lhead_offs c2));
    cbn; rewrite Hn; exact Hc1.
Qed.

(** The loop of [ubifs_replay_journal] over the log, started in or
    behind the log area, reads only eraseblocks of the log area, from
    [UBIFS_LOG_LNUM] up to [UBIFS_LOG_LNUM + log_lebs - 1]: on two media
    that scan and recover alike there it does the same. *)
Theorem replay_log_lebs_in_log (k : nat) (lnum offs : Z) c :
  0 < log_lebs (c_cfg c) ->
  UBIFS_LOG_LNUM <= lnum ->
  (forall l o, UBIFS_LOG_LNUM <= l < UBIFS_LOG_LNUM + log_lebs (c_cfg c) ->
               ubifs_scan l o = ubifs_scan' l o
               /\ ubifs_recover_log_leb l o = ubifs_recover_log_leb' l o) ->
  replay_log_lebs ubifs_scan ubifs_recover_log_leb k lnum offs c
  = replay_log_lebs ubifs_scan' ubifs_recover_log_leb' k lnum offs c.
Proof.
  revert lnum offs c. induction k as [| k IH]; intros lnum offs c Hpos Hl Hag; [reflexivity |].
  cbn [replay_log_lebs]. rewrite !bind_get. cbv zeta.
  set (lnum1 := if UBIFS_LOG_LNUM + log_lebs (c_cfg c) <=? lnum then UBIFS_LOG_LNUM else lnum).
  set (offs1 := if UBIFS_LOG_LNUM + log_lebs (c_cfg c) <=? lnum then 0 else offs).
  assert (Hin : UBIFS_LOG_LNUM <= lnum1 < UBIFS_LOG_LNUM + log_lebs (c_cfg c)).
  { unfold lnum1. destruct (Z.leb_spec (UBIFS_LOG_LNUM + log_lebs (c_cfg c)) lnum); lia. }
  assert (Heq : replay_log_leb ubifs_scan' ubifs_recover_log_leb' lnum1 offs1 c
                = replay_log_leb ubifs_scan ubifs_recover_log_leb lnum1 offs1 c).
  { unfold replay_log_leb. destruct (Hag lnum1 offs1 Hin) as [-> ->]. reflexivity. }
  unfold bind. rewrite Heq.
  pose proof (replay_log_leb_cfg lnum1 offs1 c) as Hc.
  destruct (replay_log_leb ubifs_scan ubifs_recover_log_leb lnum1 offs1 c)
    as [[err | e | |] c1]; try reflexivity.
  cbn [snd] in Hc. destruct (err =? 1); [reflexivity |].
  apply IH; rewrite ?Hc; [exact Hpos | lia | exact Hag].
Qed.

End LogArea.

(** The log of [log_c0], four eraseblocks from the third on, read from
    a medium that is readable there only. *)
Lemma replay_log_lebs_in_log_witness :
  replay_log_lebs scan0 recover_log0 4 UBIFS_LOG_LNUM 0 log_c0
  = replay_log_lebs scan_log_only recover_log0 4 UBIFS_LOG_LNUM 0 log_c0.
Proof.
  refine (replay_log_lebs_in_log scan0 scan_log_only recover_log0 recover_log0 4
            UBIFS_LOG_LNUM 0 log_c0 _ _ _).
  - reflexivity.
  - discriminate.
  - intros l o Hl. split; [| reflexivity]. unfold scan_log_only.
    change (log_lebs (c_cfg log_c0)) with 4 in Hl.
    destruct (Z.leb_spec UBIFS_LOG_LNUM l), (Z.ltb_spec l (UBIFS_LOG_LNUM + 4)); try lia.
    reflexivity.
Defined.

(** ** A node with another key *)

Section WrongKey.

Context {ext_t : Type}.
Implicit Types c : ubifs_info ext_t.

Variable get_seconds : Z.

(** [tnc_read_node] compares the key of the node it has read with the
    key of the branch and, when they differ, returns [err], which is
    zero there.  So [ubifs_tnc_lookup] of a key that is not hashed, on an
    index of one znode whose branch for the key has no cached leaf and
    points to a good node of the type of the key with another key,
    succeeds and gives that node. *)
Theorem ubifs_tnc_lookup_wrong_key (fuel : nat) (key : ubifs_key) (root : nat) (z : ubifs_znode) (n : Z) (node : ubifs_dent_node) c :
  leaf_root c root z ->
  is_hash_key key = false ->
  ubifs_search_zbranch z key = (1, n) ->
  zbr_leaf (zbranch_at z n) = None ->
  media c !! (zbr_lnum (zbranch_at z n), zbr_offs (zbranch_at z n))
  = Some (Stored (OnFlashLeaf node)) ->
  ch_magic (d_ch node) = UBIFS_NODE_MAGIC ->
  ch_node_type (d_ch node) = key_type key ->
  ch_len (d_ch node) = zbr_len (zbranch_at z n) ->
  ch_crc_ok (d_ch node) = true ->
  d_key node <> key ->
  tnc_read_node c (zbranch_at z n) = inr (node, zbranch_at z n)
  /\ ubifs_tnc_lookup get_seconds (S fuel) key c
     = (Val node, zn_upd root (set_zn_time get_seconds) c).
Proof.
  intros Hlr Hh Hs Hleaf Hmedia Hmagic Htype Hlen Hcrc Hkey.
  destruct (ubifs_search_zbranch_sound z key n Hs) as [Hn Hkn].
  assert (Hread : forall c2 : ubifs_info ext_t, media c2 = media c ->
             tnc_read_node c2 (zbranch_at z n) = inr (node, zbranch_at z n)).
  { intros c2 Hm. unfold tnc_read_node, lnc_lookup. rewrite Hleaf.
    unfold ubifs_read_node. rewrite Hm, Hmedia, Hkn. cbn [node_ch].
    rewrite Hmagic, Htype, Hlen, Hcrc, !Z.eqb_refl. cbn [andb].
    destruct (bool_decide_reflect (d_key node = key)) as [He | _]; [contradiction |].
    reflexivity. }
  split; [apply Hread; reflexivity |].
  unfold ubifs_tnc_lookup.
  rewrite (bind_val _ _ _ _ _ (lookup_level0_leaf_root get_seconds fuel key root z c Hlr)).
  rewrite Hs. cbn [fst snd Z.eqb Pos.eqb]. rewrite Hh, bind_get.
  destruct Hlr as (_ & Hz & _).
  assert (Hd : deref (zn_upd root (set_zn_time get_seconds) c) root = set_zn_time get_seconds z).
  { apply deref_lookup. rewrite lookup_zn_upd_eq, Hz. reflexivity. }
  rewrite Hd. change (zbranch_at (set_zn_time get_seconds z) n) with (zbranch_at z n).
  rewrite (Hread (zn_upd root (set_zn_time get_seconds) c) eq_refl). reflexivity.
Qed.

End WrongKey.

(** The lookup of the inode 7 in [badkey_c0] gives the node of the
    inode 8. *)
Lemma ubifs_tnc_lookup_wrong_key_witness :
  d_key badkey_node0 <> ino_key_init 7
  /\ ubifs_tnc_lookup 0 5 (ino_key_init 7) badkey_c0
     = (Val badkey_node0, zn_upd 0%nat (set_zn_time 0) badkey_c0).
Proof.
  assert (Hk : d_key badkey_node0 <> ino_key_init 7) by discriminate.
  split; [exact Hk |].
  refine (proj2 (ubifs_tnc_lookup_wrong_key 0 4 (ino_key_init 7) 0%nat (deref badkey_c0 0%nat)
                   0 badkey_node0 badkey_c0 _ eq_refl _ eq_refl _ eq_refl eq_refl eq_refl
                   eq_refl Hk)).
  - split; [reflexivity |]. split; [vm_compute; reflexivity |].
    split; [reflexivity |]. split; [reflexivity |].
    split; [reflexivity |]. split; [reflexivity |].
    split; [vm_compute; discriminate |].
    apply znode_ok_b_spec. vm_compute. reflexivity.
  - vm_compute. reflexivity.
  - vm_compute. reflexivity.
Defined.

(** ** Walking the entries of a directory *)

Section NextEnt.

Context {ext_t : Type}.
Implicit Types c : ubifs_info ext_t.

Variable get_seconds : Z.

(** Reading the leaf of a branch leaves the key of the branch alone. *)
Lemma tnc_read_node_at_key (zn : nat) (n : Z) (dent : ubifs_dent_node) c c' :
  tnc_read_node_at (ZSlot zn n) c = (Val dent, c') ->
  zbr_key (zbranch_at (deref c' zn) n) = zbr_key (zbranch_at (deref c zn) n).
Proof.
  unfold tnc_read_node_at. rewrite bind_get. cbn [zbr_get].
  destruct (tnc_read_node c (zbranch_at (deref c zn) n)) as [err | [node zbr']] eqn:Er;
    [discriminate |].
  apply tnc_read_node_key in Er. rewrite bind_modify. intros [= _ <-].
  cbn [zbr_upd]. unfold deref in Er |- *. rewrite lookup_zn_upd_eq. revert Er.
  destruct (znodes c !! zn) as [z |]; [| reflexivity].
  cbn [fmap option_fmap option_map default]. unfold id. intros Er.
  destruct (decide (0 <= n < Z.of_nat (length (zn_zbranch z)))) as [Hin | Hout].
  - rewrite zbranch_at_store_eq by exact Hin. exact Er.
  - unfold zbranch_store, zbranch_at. destruct (Z.ltb_spec n 0); [reflexivity |].
    cbn [zn_zbranch set_zn_zbranch]. rewrite list_insert_ge by lia. reflexivity.
Qed.

(** Where [tnc_read_node] has the node from: the leaf-node cache of the
    zbranch, or the flash at the position of the zbranch. *)
Lemma tnc_read_node_source c (zbr zbr' : ubifs_zbranch) (node : ubifs_dent_node) :
  tnc_read_node c zbr = inr (node, zbr') ->
  (zbr_leaf zbr = Some node /\ zbr' = zbr)
  \/ (media c !! (zbr_lnum zbr, zbr_offs zbr) = Some (Stored (OnFlashLeaf node))
      /\ zbr_lnum zbr' = zbr_lnum zbr /\ zbr_offs zbr' = zbr_offs zbr).
Proof.
  unfold tnc_read_node, lnc_lookup. destruct (zbr_leaf zbr) as [nd |] eqn:El.
  { intros [= <- <-]. left. auto. }
  unfold ubifs_read_node.
  destruct (media c !! (zbr_lnum zbr, zbr_offs zbr)) as [[err | nd] |] eqn:Em;
    [discriminate | | discriminate].
  destruct (_ && _); [| discriminate].
  destruct nd as [idx | leaf]; [discriminate |].
  destruct (negb (bool_decide _)); [intros [= <- <-]; right; auto |].
  unfold lnc_add. cbv zeta. destruct (negb (key_type (zbr_key zbr) =? UBIFS_DENT_KEY)).
  { cbn. intros [= <- <-]. right. auto. }
  destruct (negb (ubifs_validate_entry leaf =? 0)) eqn:Ev.
  { rewrite Ev. discriminate. }
  cbn. intros [= <- <-]. right. auto.
Qed.

(** The branch a leaf was read through holds it in its cache or points
    to the place of the flash where it is stored. *)
Lemma tnc_read_node_at_source (zn : nat) (n : Z) (dent : ubifs_dent_node) c c' :
  tnc_read_node_at (ZSlot zn n) c = (Val dent, c') ->
  let b := zbranch_at (deref c' zn) n in
  zbr_leaf b = Some dent
  \/ media c' !! (zbr_lnum b, zbr_offs b) = Some (Stored (OnFlashLeaf dent)).
Proof.
  unfold tnc_read_node_at. rewrite bind_get. cbn [zbr_get].
  destruct (tnc_read_node c (zbranch_at (deref c zn) n)) as [err | [node zbr']] eqn:Er;
    [discriminate |].
  apply tnc_read_node_source in Er. rewrite bind_modify. intros [= <- <-]. cbv zeta.
  set (zbr := zbranch_at (deref c zn) n) in *.
  set (c1 := zn_upd zn (fun z => zbranch_store n zbr' z) c).
  change (media c1) with (media c).
  assert (Hb : zbranch_at (deref c1 zn) n = zbr' \/ zbranch_at (deref c1 zn) n = zbr).
  { unfold c1, zbr. unfold deref. rewrite lookup_zn_upd_eq.
    destruct (znodes c !! zn) as [z |]; [| right; reflexivity].
    cbn [fmap option_fmap option_map default]. unfold id.
    destruct (decide (0 <= n < Z.of_nat (length (zn_zbranch z)))) as [Hin | Hout].
    - left. apply zbranch_at_store_eq. exact Hin.
    - right. unfold zbranch_store, zbranch_at. destruct (Z.ltb_spec n 0); [reflexivity |].
      cbn [zn_zbranch set_zn_zbranch]. rewrite list_insert_ge by lia. reflexivity. }
  destruct Er as [[Hl ->] | (Hm & Hln & Hof)].
  - left. destruct Hb as [-> | ->]; exact Hl.
  - right. destruct Hb as [-> | ->]; [rewrite Hln, Hof |]; exact Hm.
Qed.

Lemma next_ent_loop_sound (k fuel : nat) (key : ubifs_key) :
  forall zn n c dent c',
    next_ent_loop get_seconds k fuel key zn n c = (Val dent, c') ->
    d_inum dent <> 0
    /\ exists zn' n',
         let b := zbranch_at (deref c' zn') n' in
         key_ino (zbr_key b) = key_ino key
         /\ key_type (zbr_key b) = key_type key
         /\ (zbr_leaf b = Some dent
             \/ media c' !! (zbr_lnum b, zbr_offs b) = Some (Stored (OnFlashLeaf dent))).
Proof.
  induction k as [| k IH]; intros zn n c dent c'; cbn [next_ent_loop]; [discriminate |].
  intros H. apply bind_inv in H as ([zn1 n1] & c1 & _ & H). rewrite bind_get in H.
  cbv zeta in H.
  destruct (Z.eqb_spec (key_ino (zbr_key (zbranch_at (deref c1 zn1) n1))) (key_ino key))
    as [Hi | Hi]; cbn [negb orb] in H; [| discriminate H].
  destruct (Z.eqb_spec (key_type (zbr_key (zbranch_at (deref c1 zn1) n1))) (key_type key))
    as [Ht | Ht]; cbn [negb] in H; [| discriminate H].
  apply bind_inv in H as (d & c2 & Hr & H).
  destruct (Z.eqb_spec (d_inum d) 0) as [Hz | Hnz]; [eapply IH; exact H |].
  injection H as <- <-. split; [exact Hnz |]. exists zn1, n1. cbv zeta.
  rewrite (tnc_read_node_at_key _ _ _ _ _ Hr).
  split; [exact Hi |]. split; [exact Ht |].
  exact (tnc_read_node_at_source _ _ _ _ _ Hr).
Qed.

(** [ubifs_tnc_next_ent] never returns a deletion entry (an entry
    without inode number), and the entry it returns is the one of a
    branch whose key has the inode number and the type of the key it
    was called with: the branch holds the entry in its leaf-node cache,
    or the entry is the node stored on the flash at the position of the
    branch. *)
Theorem ubifs_tnc_next_ent_sound (fuel : nat) (key : ubifs_key) (nm : qstr) (dent : ubifs_dent_node) c c' :
  ubifs_tnc_next_ent get_seconds fuel key nm c = (Val dent, c') ->
  d_inum dent <> 0
  /\ exists zn n,
       let b := zbranch_at (deref c' zn) n in
       key_ino (zbr_key b) = key_ino key
       /\ key_type (zbr_key b) = key_type key
       /\ (zbr_leaf b = Some dent
           \/ media c' !! (zbr_lnum b, zbr_offs b) = Some (Stored (OnFlashLeaf dent))).
Proof.
  unfold ubifs_tnc_next_ent. intros H.
  apply bind_inv in H as ([[err zn] n] & c1 & _ & H).
  apply bind_inv in H as ([zn1 n1] & c2 & _ & H).
  eapply next_ent_loop_sound. exact H.
Qed.

End NextEnt.

(** The first extended attribute entry of inode 7 in [xent_c0]: it is
    the node stored at offset 0 of LEB 12, where the branch of the key
    points to. *)
Lemma ubifs_tnc_next_ent_sound_witness :
  (ubifs_tnc_next_ent 0 5 (lowest_xent_key 7) (qstr_of "") xent_c0).1 = Val xent_node0
  /\ d_inum xent_node0 <> 0
  /\ exists zn n,
       let b := zbranch_at
                  (deref (ubifs_tnc_next_ent 0 5 (lowest_xent_key 7) (qstr_of "") xent_c0).2 zn)
                  n in
       key_ino (zbr_key b) = key_ino (lowest_xent_key 7)
       /\ key_type (zbr_key b) = key_type (lowest_xent_key 7)
       /\ (zbr_leaf b = Some xent_node0
           \/ media (ubifs_tnc_next_ent 0 5 (lowest_xent_key 7) (qstr_of "") xent_c0).2
                !! (zbr_lnum b, zbr_offs b)
              = Some (Stored (OnFlashLeaf xent_node0))).
Proof.
  split; [vm_compute; reflexivity |].
  refine (ubifs_tnc_next_ent_sound 0 5 (lowest_xent_key 7) (qstr_of "") xent_node0 xent_c0
            (ubifs_tnc_next_ent 0 5 (lowest_xent_key 7) (qstr_of "") xent_c0).2 _).
  vm_compute. reflexivity.
Defined.
